(* ===== verification/_CoqProject ===== *)
-Q . S2P
Prelude.v
JsRuntime.v
Recents.v
Navigation.v
Power.v
System.v
Calculator.v
Notes.v
SettingsContext.v
SettingsValues.v
SettingsTimers.v
WebAudio.v
Sound.v
SoundFacts.v
Files.v
PinSettings.v
Stopwatch.v
Timer.v
Alarm.v
