(* ===== verification/Prelude.v ===== *)
(** * WebDroid OS: a verification development of its core, settings and apps

    WebDroid OS (sources under src/) is a React single-page "phone": an
    [AppContent] controller (src/WebDroid-OS/src/App.tsx) holds the
    foreground app, the back history, the recents list and the recents
    overview; a [DeviceFrame] (src/src/components/DeviceFrame.tsx) holds
    the boot/lock/screen lifecycle and renders the BootScreen, LockScreen,
    home screen, StatusBar, RecentsView, NavigationBar, PowerMenu and the
    hardware buttons; [SettingsProvider]
    (src/WebDroid-OS/src/contexts/SettingsContext.tsx) holds the settings
    (PIN, volume, brightness, sound, modes) with their [localStorage]
    entries and timers; [utils/soundSynth.ts] and [hooks/useSound.ts]
    synthesize the sounds with the Web Audio API; the apps (calculator,
    notes, files, clock, settings pages, ...) keep their own state.  The
    parts talk through props (handlers passed down), React context, one
    custom DOM event ([webdroid:openApp], sent by the StatusBar),
    [setTimeout] and [requestAnimationFrame] callbacks.

    Every component is modelled as in the source: a Record for its
    [useState] hooks and refs, one Definition per handler, effects run at
    the commit after a render whose dependencies changed, and a [step]
    function or relation with [reachable] states.  Properties are proved
    of every reachable state by rule induction and of concrete runs by
    evaluation (the [Example]s, which record the findings on fixed runs);
    each theorem with hypotheses has a witness that runs it.

    ** Files

    - Prelude.v (this file): app ids, JavaScript truthiness [truthy], the
      list operations the handlers use ([without] = [filter(id => id !== x)],
      [pop_last] = [slice(0, -1)]), [first_some], the hint databases
      [webdroid] and [webdroid_rw] and the list lemmas shared by all files.
    - JsRuntime.v: the JavaScript number built-ins the settings code calls
      ([parseInt], [Math.round/max/min], [toString]) on Rocq's primitive
      binary64 floats.
    - Recents.v: the recents registry.  Class [MruRegistry] is the
      interface the controller relies on; Module [Recents] implements it
      with the two state updates of App.tsx and proves it bounded,
      duplicate-free and most-recent-first.
    - Navigation.v: Module [Nav] is [AppContent] (its four hooks and five
      handlers, the Back guard of NavigationBar.tsx) with its invariant
      [nav_inv]; Module [NavSpec] is the navigation contract of the
      specification and [nav_refines_spec] a functional refinement of it.
    - Power.v: Modules [Device] (the lifecycle part of DeviceFrame, its
      handlers returning the effects they request), [LockScreen] (the PIN
      pad), [DeviceButtons] (the power button's wiring) and [Settings]
      (the stored PIN, its format check).
    - System.v: Module [System] composes them with a clock and a timer
      queue; [handle] is one user event offered only when the rendered UI
      shows its control, [Fire] runs the earliest timer, [settle] runs the
      passive effects.  Invariants by rule induction: screen off implies
      locked, the power menu is unreachable, without a PIN a locked device
      stays locked, booting ends on the lock screen.
    - Calculator.v: [CalculatorApp], generic in the class [JsNumber] of
      number operations; left-to-right evaluation and the operator and
      equals quirks.
    - Notes.v: [NotesApp] with its link parser ([Links]), stable sort
      ([Sorting]), effects and storage entry; reload round trip, distinct
      ids while saves fall in distinct milliseconds, and the collision
      when two fall in one.
    - SettingsContext.v, SettingsValues.v, SettingsTimers.v: the settings
      provider with its callers (volume buttons, status bar, sound page),
      the storage, the timer refs and the master gain; the reachable
      levels, the reload, the timer bookkeeping, the held volume button,
      the 3-second hide of the volume UI.
    - WebAudio.v: the Web Audio API as a free monad of calls [Prog] over
      the interface [AudioBackend], with a real [AudioContext] backend
      [web] and the fallback object [dummy] of soundSynth.ts:31-42.
    - Sound.v, SoundFacts.v: the ten generators of soundSynth.ts as
      programs of [Prog], [setMasterVolume], and the [useSound] lookup with
      a backtracking matcher for its regular expression; every generator
      runs and releases its nodes, the fallback throws, the path regex
      yields the file name.
    - Files.v: [FileExplorerApp]: the mock tree, the path effect with its
      breadcrumb [while] loop (fuel), the handlers, the view; the tree is
      well formed, the loop terminates, every reachable state lists the
      children of a folder with the breadcrumbs of its ancestors.
    - PinSettings.v: [ChangePinModal] ([PinModal]: the form, the input
      filter, the reset effect, [handleSubmit] with every early return)
      and [LockSettingsPage] ([LockSettings]); every PIN change is one
      the system's [SetPin] admits, a change needs the current PIN, the
      toggle clears the PIN without it.
    - Stopwatch.v: [StopwatchTab] with the browser's animation-frame queue:
      one callback pending exactly while running, the shown time drops
      the span between the last frame and Stop, the display width.
    - Timer.v: [TimerTab] with the browser's intervals and the re-render
      its effect causes ([settle]): one interval registered exactly while
      running, the alarm asked for when less than half a second is left,
      Pause and Resume restarting from the last shown second.
    - Alarm.v: [AlarmTab] and its [AddAlarmModal] ([AlarmModal]: the
      form, the reset effect, [handleSubmit] with the regular expression
      as a matcher, the splits, [Number] and the two-hour check at a local
      time of day; [AlarmPage]: the list, its storage entry and the three
      handlers, [window.confirm]'s answer an input); a well-formed time is
      accepted exactly when it is two hours away, "7:30PM" throws out of
      the handler, the storage always holds the list and no alarm rings.

    ** Time, bounds and fuel

    Time in System.v is a natural number of milliseconds and [Elapse]
    stops at the earliest deadline, so no timer is skipped; the settings
    files advance a millisecond clock one tick at a time.  Stopwatch and
    timer times are the integral [Date.now()] values as [Z] (positive);
    an event reads the clock once.  The alarm check takes the local time
    of day in milliseconds and a day of 24 hours (no daylight-saving
    change between now and the alarm).  Sizes and
    elapsed times are integers below 2^53, where JavaScript's arithmetic
    on them is exact.  Fuel is used only where the source loops: the
    breadcrumb loop gets [length mockFileSystem] iterations, enough since
    each step climbs to a distinct ancestor; the noise loops of the sound
    generators get 131073 iterations of [js_for] fuel, more than the
    largest buffer has samples; both are proved sufficient (the sound
    runs fill every buffer completely).  The sound runs are checked at
    the sample rates 44.1 and 48 kHz, the clock at 0 and 86400 s, and for
    any implementation of [Math.random], [Math.pow] and [Math.exp].

    ** Not modelled

    - Weather, browser, camera and themes apps, the world clock tab,
      and the settings pages other than the sound and lock pages: they keep their own state, mostly render or fetch data, and do
      not call the navigation or power handlers.
    - Rendering beyond what decides which controls exist: icons, styles,
      animations, wallpaper.
    - Effects React re-runs because their dependencies are fresh closures
      (BootScreen's timer, LockScreen's validation): each runs when its
      component mounts or its state dependency changes.
    - [renderPersistentApps] and [visibleApps]: which app components stay
      mounted behind the foreground one.
    - Audio samples: the values written into noise buffers and the
      single-precision rounding of automation values. *)

From stdpp Require Import base decidable relations strings list.

(** ** Application identifiers

    An app identifier is a JavaScript string ([App.tsx] keeps them in
    [useState<string | null>] and [string[]]). *)
Abbreviation AppId := string.

(** JavaScript truthiness of a [string | null] value: [null] and the
    empty string are falsy ([if (currentApp)], [!lockscreenPin]). *)
Definition truthy (o : option string) : bool :=
  match o with Some a => bool_decide (a ≠ ""%string) | None => false end.

Lemma string_length_append (a b : string) :
  String.length (String.append a b) = String.length a + String.length b.
Proof. induction a as [|c a IH]; simpl; [done|]. by rewrite IH. Qed.

Declare Scope webdroid_scope.
Delimit Scope webdroid_scope with wd.

Section lists.
Context {A : Type} `{EqDecision A}.

(** [l.filter(y => y !== x)] *)
Definition without (x : A) (l : list A) : list A :=
  filter (λ y, y ≠ x) l.

(** [l.slice(0, -1)]: every element but the last; [[]] stays [[]]. *)
Definition pop_last (l : list A) : list A :=
  take (length l - 1) l.

(** No two neighbours of the list are equal. *)
Fixpoint adj_distinct (l : list A) : Prop :=
  match l with
  | x :: ((y :: _) as t) => x ≠ y ∧ adj_distinct t
  | _ => True
  end.

#[global] Instance adj_distinct_dec l : Decision (adj_distinct l).
Proof. induction l as [|x [|y t] IH]; simpl; apply _. Defined.
End lists.

Notation "l ⊖ x" := (without x l) (at level 50, left associativity) : webdroid_scope.

(** Close a decidable goal about closed terms by evaluation. *)
Ltac compute_decide := apply (bool_decide_unpack _); vm_compute; reflexivity.

Create HintDb webdroid discriminated.
Create Rewrite HintDb webdroid_rw.

(** ** Generic list lemmas shared by the components *)
Section list_lemmas.
Context {A : Type} `{EqDecision A}.
Implicit Types (l k : list A) (x y : A).

Lemma elem_of_without x y l : y ∈ without x l ↔ y ≠ x ∧ y ∈ l.
Proof. unfold without. by rewrite list_elem_of_filter. Qed.

Lemma not_elem_of_without x l : x ∉ without x l.
Proof. rewrite elem_of_without. by intros [? _]. Qed.

Lemma NoDup_without x l : NoDup l → NoDup (without x l).
Proof. apply NoDup_filter. Qed.

Lemma length_without x l : length (without x l) ≤ length l.
Proof. apply length_filter. Qed.

Lemma without_not_elem x l : x ∉ l → without x l = l.
Proof.
  induction l as [|y l IH]; intros Hx; [done|].
  rewrite elem_of_cons in Hx. unfold without in *; rewrite filter_cons.
  case_decide; [|naive_solver]. f_equal. apply IH. naive_solver.
Qed.

Lemma without_cons_eq x l : without x (x :: l) = without x l.
Proof. unfold without. rewrite filter_cons. by case_decide. Qed.

Lemma without_cons_ne x y l : y ≠ x → without x (y :: l) = y :: without x l.
Proof. intros. unfold without. rewrite filter_cons. by case_decide. Qed.

Lemma without_app x l k : without x (l ++ k) = without x l ++ without x k.
Proof. apply filter_app. Qed.

Lemma without_idemp x l : without x (without x l) = without x l.
Proof. apply without_not_elem, not_elem_of_without. Qed.

Lemma Forall_filter_sub (P : A → Prop) `{∀ x, Decision (P x)} (Q : A → Prop) l :
  Forall Q l → Forall Q (filter P l).
Proof. rewrite !Forall_forall. intros HQ x Hx%list_elem_of_filter. naive_solver. Qed.

Lemma NoDup_take n l : NoDup l → NoDup (take n l).
Proof.
  intros Hl. rewrite <-(take_drop n l) in Hl.
  by apply NoDup_app in Hl as [? _].
Qed.

Lemma elem_of_take_elem n x l : x ∈ take n l → x ∈ l.
Proof. intros Hx. rewrite <-(take_drop n l). apply elem_of_app. by left. Qed.

Lemma pop_last_snoc l x : pop_last (l ++ [x]) = l.
Proof.
  unfold pop_last. rewrite length_app; simpl.
  replace (length l + 1 - 1) with (length l) by lia. apply take_app_length.
Qed.

Lemma length_pop_last l : length (pop_last l) = length l - 1.
Proof. unfold pop_last. rewrite length_take. lia. Qed.

Lemma elem_of_pop_last x l : x ∈ pop_last l → x ∈ l.
Proof. apply elem_of_take_elem. Qed.

Lemma last_pop_last_is_Some l : 1 < length l → is_Some (last (pop_last l)).
Proof.
  intros Hl. rewrite last_lookup. apply lookup_lt_is_Some.
  rewrite length_pop_last. lia.
Qed.

(** Every non-empty list is its [pop_last] followed by its [last]. *)
Lemma pop_last_last l x : last l = Some x → l = pop_last l ++ [x].
Proof.
  intros Hl. destruct l as [|y l] using rev_ind; [done|].
  rewrite last_snoc in Hl. simplify_eq. by rewrite pop_last_snoc.
Qed.

Lemma adj_distinct_snoc l x :
  adj_distinct l → last l ≠ Some x → adj_distinct (l ++ [x]).
Proof.
  induction l as [|y [|z t] IH]; simpl; intros Hl Hlast; [done| |].
  - split; [congruence|done].
  - destruct Hl as [Hyz Ht]. split; [done|]. apply IH; [done|].
    by destruct t.
Qed.

Lemma adj_distinct_app_l l k : adj_distinct (l ++ k) → adj_distinct l.
Proof.
  induction l as [|y [|z t] IH]; simpl; intros H; [done|done|].
  destruct H as [? H]. split; [done|]. by apply IH.
Qed.

Lemma adj_distinct_pop_last l : adj_distinct l → adj_distinct (pop_last l).
Proof.
  destruct l as [|y l] using rev_ind; [done|].
  rewrite pop_last_snoc. apply adj_distinct_app_l.
Qed.
End list_lemmas.

(** ** Backtracking over a count

    [first_some f k] tries [f k], [f (k-1)], ..., [f 1] and returns the
    first result: the order in which a greedy quantifier of a regular
    expression gives characters back. *)
Section first_some.
Context {A : Type}.
Implicit Types (f : nat → option A).

Fixpoint first_some f (k : nat) : option A :=
  match k with
  | 0 => None
  | S k' => match f (S k') with Some r => Some r | None => first_some f k' end
  end.

Lemma first_some_None f k : (∀ j, 1 ≤ j ≤ k → f j = None) → first_some f k = None.
Proof.
  induction k as [|k IH]; intros Hf; [done|]. simpl.
  rewrite Hf by lia. apply IH. intros j Hj. apply Hf. lia.
Qed.

Lemma first_some_at f k j r :
  1 ≤ j ≤ k → f j = Some r → (∀ j', j < j' ≤ k → f j' = None) → first_some f k = Some r.
Proof.
  induction k as [|k IH]; intros Hj Hr Hf; [lia|]. simpl.
  destruct (decide (j = S k)) as [->|Hne]; [by rewrite Hr|].
  rewrite Hf by lia. apply IH; [lia|done|]. intros j' ?. apply Hf. lia.
Qed.
End first_some.

#[export] Hint Resolve NoDup_without NoDup_take not_elem_of_without : webdroid.
#[export] Hint Resolve adj_distinct_pop_last adj_distinct_snoc : webdroid.
#[export] Hint Rewrite @without_cons_eq @pop_last_snoc @without_idemp @last_snoc : webdroid_rw.
