(* ===== verification/JsRuntime.v ===== *)
(** * JsRuntime: the JavaScript number built-ins the settings code calls

    JavaScript numbers are IEEE-754 binary64 values; they are modelled by
    Rocq's primitive [float], whose arithmetic is the processor's (and is
    specified by [FloatOps.Prim2SF] against [SpecFloat]).  This file
    defines, from the ECMAScript specification, the built-ins that
    [contexts/SettingsContext.tsx], [components/StatusBar.tsx] and
    [apps/SettingsApp/SoundSettingsPage.tsx] apply to numbers:
    [parseInt], [Math.round], [Math.max], [Math.min], the conversion of
    an integer to a Number, [Number.prototype.toString] on integral values
    and [Boolean.prototype.toString].  Strings are stdpp's [string] of
    8-bit characters. *)

From S2P Require Import Prelude.
From Stdlib Require Import Ascii ZArith.
From Corelib Require PrimFloat SpecFloat FloatOps FloatAxioms.
From stdpp Require Import base list strings pretty.
Import PrimFloat.PrimFloatNotations.
Local Open Scope Z_scope.

Abbreviation float := PrimFloat.float.

(** ** Numbers from integers *)

(** 𝔽(z): the Number nearest to the integer [z] (round to nearest, ties
    to even), as [binary_normalize] computes it. *)
Definition of_Z (z : Z) : float :=
  FloatOps.SF2Prim (SpecFloat.binary_normalize FloatOps.prec FloatOps.emax z 0 false).

Definition js_NaN : float := PrimFloat.nan.

(** ** [parseInt(string, radix)] (ECMAScript 19.2.5)

    [radix] is [0] when the call omits it ([parseInt(savedLevel)]).
    Leading white space is skipped (the white-space code units below 256:
    TAB, LF, VT, FF, CR, SP and NBSP), one sign is read, a [0x]/[0X]
    prefix switches to radix 16 when the radix is omitted or 16, and the
    longest prefix of digits of the radix is read; no digit gives NaN. *)
Definition is_js_space (a : ascii) : bool :=
  let n := nat_of_ascii a in
  (Nat.leb 9 n && Nat.leb n 13) || Nat.eqb n 32 || Nat.eqb n 160.

Fixpoint trim_start (s : string) : string :=
  match s with
  | String a s' => if is_js_space a then trim_start s' else s
  | EmptyString => s
  end.

(** The value of a character as a digit of radix up to 36. *)
Definition digit_of (a : ascii) : Z :=
  let n := Z.of_nat (nat_of_ascii a) in
  if (48 <=? n) && (n <=? 57) then n - 48
  else if (97 <=? n) && (n <=? 122) then n - 87
  else if (65 <=? n) && (n <=? 90) then n - 55
  else 36.

(** The longest prefix of radix-[r] digits, folded into [acc]; [None]
    when there is no digit at all. *)
Fixpoint scan_digits (r : Z) (s : string) (acc : option Z) : option Z :=
  match s with
  | String a s' =>
      let d := digit_of a in
      if d <? r then scan_digits r s' (Some (r * default 0 acc + d)) else acc
  | EmptyString => acc
  end.

Definition strip_sign (s : string) : Z * string :=
  match s with
  | String "-" s' => (-1, s')
  | String "+" s' => (1, s')
  | _ => (1, s)
  end.

Definition strip_hex (s : string) : option string :=
  match s with
  | String "0" (String "x" s') | String "0" (String "X" s') => Some s'
  | _ => None
  end.

Definition parseInt (input : string) (radix : Z) : float :=
  let '(sign, s) := strip_sign (trim_start input) in
  let '(r, s) :=
    if radix =? 0 then
      match strip_hex s with Some s' => (16, s') | None => (10, s) end
    else if radix =? 16 then
      match strip_hex s with Some s' => (16, s') | None => (16, s) end
    else (radix, s) in
  if (r <? 2) || (36 <? r) then js_NaN
  else match scan_digits r s None with
       | None => js_NaN
       | Some 0 => if sign =? -1 then PrimFloat.neg_zero else PrimFloat.zero
       | Some v => of_Z (sign * v)
       end.

(** ** [Math.round(x)] (ECMAScript 21.3.2.28)

    NaN, zeros and infinities are returned unchanged; otherwise the result
    is floor(x + 1/2) computed exactly on the value m·2^e of [x], and
    [-0] when [x] is in [-0.5, 0). *)
Definition js_round (x : float) : float :=
  match FloatOps.Prim2SF x with
  | SpecFloat.S754_finite s m e =>
      let v := if s then Zneg m else Zpos m in
      let r := if 0 <=? e then v * 2 ^ e else (2 * v + 2 ^ (- e)) / 2 ^ (1 - e) in
      if (r =? 0) && s then PrimFloat.neg_zero else of_Z r
  | _ => x
  end.

(** ** [Math.max(x, y)] and [Math.min(x, y)] (ECMAScript 21.3.2.24-25)

    NaN if either argument is NaN; [+0] is larger than [-0]. *)
Definition js_max (x y : float) : float :=
  if PrimFloat.is_nan x || PrimFloat.is_nan y then js_NaN
  else if (x <? y)%float then y
  else if (y <? x)%float then x
  else if PrimFloat.get_sign x then y else x.

Definition js_min (x y : float) : float :=
  if PrimFloat.is_nan x || PrimFloat.is_nan y then js_NaN
  else if (x <? y)%float then x
  else if (y <? x)%float then y
  else if PrimFloat.get_sign x then x else y.

(** ** [Number.prototype.toString()] on integral values

    The code prints only values of [Math.round] and of [parseInt]
    (integral doubles, NaN and the infinities); an integral value below
    10^21 prints as its decimal digits, which is what [pretty] on [Z]
    gives.  (Non-integral values and values from 10^21 on, printed with a
    fraction or an exponent by JavaScript, never reach this function in
    the model.) *)
Definition int_toString (x : float) : string :=
  match FloatOps.Prim2SF x with
  | SpecFloat.S754_nan => "NaN"
  | SpecFloat.S754_infinity false => "Infinity"
  | SpecFloat.S754_infinity true => "-Infinity"
  | SpecFloat.S754_zero _ => "0"
  | SpecFloat.S754_finite s m e =>
      pretty (Z.quot ((if s then Zneg m else Zpos m) * 2 ^ Z.max 0 e) (2 ^ Z.max 0 (- e)))
  end.

(** [Boolean.prototype.toString()]. *)
Definition bool_toString (b : bool) : string := if b then "true" else "false".

(** Object.is on Numbers, the comparison React uses for effect
    dependencies: bitwise equality of doubles (NaN is NaN, +0 is not -0). *)
Definition object_is (x y : float) : bool := PrimFloat.Leibniz.eqb x y.

(** A decimal literal [m]·10^-[e] of the source, for [m] and 10^[e] below
    2^53: both are exact doubles, so their correctly rounded quotient is
    the double nearest to the literal, which is the literal's value. *)
Definition dec (m : Z) (e : nat) : float := (of_Z m / of_Z (10 ^ Z.of_nat e))%float.

(** The literal [0.1], the step of the volume buttons: the double nearest
    to 1/10, which is the correctly rounded quotient 1 / 10. *)
Definition tenth : float := (of_Z 1 / of_Z 10)%float.
Definition hundred : float := of_Z 100.

(** ** Lemmas *)

Lemma object_is_spec x y : object_is x y = true ↔ x = y.
Proof.
  unfold object_is. split; [apply FloatAxioms.Leibniz.eqb_spec|].
  intros ->. apply FloatAxioms.Leibniz.eqb_spec. reflexivity.
Qed.

#[export] Instance float_eq_dec : EqDecision float.
Proof.
  intros x y. destruct (object_is x y) eqn:E.
  - left. by apply object_is_spec.
  - right. intros ->. by rewrite (proj2 (object_is_spec y y) eq_refl) in E.
Defined.

Lemma bool_toString_inj b1 b2 : bool_toString b1 = bool_toString b2 → b1 = b2.
Proof. by destruct b1, b2. Qed.

(** Integers [lo], ..., [lo + n - 1]: the finite ranges the properties
    below are checked on by evaluation. *)
Definition zrange (lo : Z) (n : nat) : list Z := (λ i, lo + Z.of_nat i)%Z <$> seq 0 n.

Lemma zrange_forall (P : Z → Prop) lo n :
  Forall P (zrange lo n) → ∀ k, (lo ≤ k < lo + Z.of_nat n)%Z → P k.
Proof.
  rewrite Forall_forall. intros HP k Hk. apply HP, list_elem_of_fmap.
  exists (Z.to_nat (k - lo)). split; [lia|]. apply elem_of_seq. lia.
Qed.

(** The strings [parseInt] reads back as the integer they print: every
    integer from 0 to 100, the range of the volume and brightness sliders
    and of stored percentages (checked by evaluation). *)
Lemma parseInt_pretty_percent k :
  (0 ≤ k ≤ 100)%Z → parseInt (pretty k) 0 = of_Z k ∧ parseInt (pretty k) 10 = of_Z k.
Proof.
  intros Hk.
  apply (zrange_forall (λ k, parseInt (pretty k) 0 = of_Z k ∧ parseInt (pretty k) 10 = of_Z k) 0 101); [|lia].
  apply (bool_decide_unpack _). vm_compute. reflexivity.
Qed.

(** Math.round of an integer k in [0, 100] is k, and printing it gives
    [pretty k]. *)
Lemma int_toString_of_Z_percent k :
  (0 ≤ k ≤ 100)%Z → int_toString (of_Z k) = pretty k ∧ js_round (of_Z k) = of_Z k.
Proof.
  intros Hk.
  apply (zrange_forall (λ k, int_toString (of_Z k) = pretty k ∧ js_round (of_Z k) = of_Z k) 0 101); [|lia].
  apply (bool_decide_unpack _). vm_compute. reflexivity.
Qed.
