(* ===== verification/Recents.v ===== *)
(** * Recents registry

    The most-recently-used list [recentAppsList] of [AppContent]
    (src/WebDroid-OS/src/App.tsx): [touch] is the state update of
    [handleOpenApp] (line 26), [remove] the one of [handleRemoveRecentApp]
    (line 15).  The class [MruRegistry] states what the navigation
    controller relies on; [Recents] discharges it. *)

From S2P Require Import Prelude.
From stdpp Require Import base decidable relations strings list.

(** ** Interface: what the controller needs from a recents registry *)
Class MruRegistry (touch remove : AppId → list AppId → list AppId) (cap : nat) := {
  mru_touch_nodup a l : NoDup l → NoDup (touch a l);
  mru_touch_bound a l : length (touch a l) ≤ cap;
  mru_touch_head a l : head (touch a l) = Some a;
  mru_remove_nodup a l : NoDup l → NoDup (remove a l);
  mru_remove_length a l : length (remove a l) ≤ length l;
  mru_remove_gone a l : a ∉ remove a l;
}.

Module Recents.

(** The literal [10] of [.slice(0, 10)]. *)
Definition MAX_RECENTS : nat := 10.

(** [prev => [appId, ...prev.filter(id => id !== appId)].slice(0, 10)] *)
Definition touch (appId : AppId) (prev : list AppId) : list AppId :=
  take MAX_RECENTS (appId :: without appId prev).

(** [prev => prev.filter(id => id !== appIdToRemove)] *)
Definition remove (appIdToRemove : AppId) (prev : list AppId) : list AppId :=
  without appIdToRemove prev.

(** The registry's invariant: no duplicates, at most [MAX_RECENTS]. *)
Definition wf (l : list AppId) : Prop := NoDup l ∧ length l ≤ MAX_RECENTS.

#[export] Instance wf_dec l : Decision (wf l).
Proof. unfold wf. apply _. Defined.

(** The operations the registry receives, in arrival order. *)
Inductive op := Touch (a : AppId) | Remove (a : AppId).

Definition apply_op (l : list AppId) (o : op) : list AppId :=
  match o with Touch a => touch a l | Remove a => remove a l end.

Definition run (ops : list op) (l : list AppId) : list AppId :=
  foldl apply_op l ops.

(** ** Functional behaviour *)

Lemma touch_cons a l : touch a l = a :: take 9 (without a l).
Proof. reflexivity. Qed.

Lemma elem_of_touch a x l :
  x ∈ touch a l ↔ x = a ∨ x ∈ take 9 (without a l).
Proof. rewrite touch_cons, elem_of_cons. done. Qed.

Lemma length_touch a l : length (touch a l) ≤ MAX_RECENTS.
Proof. unfold touch. rewrite length_take. lia. Qed.

Lemma NoDup_touch a l : NoDup l → NoDup (touch a l).
Proof.
  intros Hl. rewrite touch_cons. constructor.
  - intros Hin%elem_of_take_elem. by apply (not_elem_of_without a l).
  - auto with webdroid.
Qed.

Lemma touch_wf a l : wf l → wf (touch a l).
Proof. intros [? ?]. split; [by apply NoDup_touch | apply length_touch]. Qed.

Lemma remove_wf a l : wf l → wf (remove a l).
Proof.
  intros [? ?]. split; [by apply NoDup_without|].
  pose proof (length_without a l). unfold remove. lia.
Qed.

Lemma run_app ops1 ops2 l : run (ops1 ++ ops2) l = run ops2 (run ops1 l).
Proof. apply foldl_app. Qed.

Lemma run_wf ops l : wf l → wf (run ops l).
Proof.
  revert l. induction ops as [|[a|a] ops IH]; intros l Hl; simpl; [done| |];
    apply IH; auto using touch_wf, remove_wf.
Qed.

(** A list already in the registry's shape is not cut by [take 9]. *)
Lemma without_short a l :
  wf l → a ∈ l → length (without a l) ≤ 9.
Proof.
  intros [_ Hlen] Hin. unfold without.
  assert (length (filter (λ y, y ≠ a) l) < length l).
  { apply (length_filter_lt _ _ a); naive_solver. }
  unfold MAX_RECENTS in Hlen. lia.
Qed.

(** ** Properties of the registry *)

(** C7: After any sequence of opens and removals starting from the empty
    registry, the recents list has no duplicate and at most ten entries
    (spec P4). *)
Theorem recents_bounded_dedup ops :
  NoDup (run ops []) ∧ length (run ops []) ≤ MAX_RECENTS.
Proof. apply run_wf. split; [constructor | simpl; lia]. Qed.

(** Opening [a], then [b], then [a] again puts [a] first and [b]
    second (spec P5). *)
Theorem touch_mru_order a b l :
  a ≠ b → take 2 (touch a (touch b (touch a l))) = [a; b].
Proof.
  intros Hab. rewrite (touch_cons a (touch b _)), (touch_cons b).
  by rewrite without_cons_ne by congruence.
Qed.

(** Opening an eleventh distinct app into a full registry puts it in
    front and evicts exactly the oldest (last) entry (spec scenario B). *)
Theorem touch_evicts_oldest a l :
  wf l → length l = MAX_RECENTS → a ∉ l →
  touch a l = a :: pop_last l ∧ length (touch a l) = MAX_RECENTS.
Proof.
  intros _ Hlen Ha. rewrite touch_cons, without_not_elem by done.
  unfold pop_last. rewrite Hlen. split; [done|].
  simpl. rewrite length_take. unfold MAX_RECENTS in *. lia.
Qed.

(** C39: Re-opening an app already in the registry moves it to the front
    and keeps every other entry, in order: nothing is evicted. *)
Theorem touch_moves_to_front a l :
  wf l → a ∈ l → touch a l = a :: without a l.
Proof.
  intros Hwf Ha. rewrite touch_cons, take_ge; [done|].
  by apply without_short.
Qed.

(** Opening the app that is already most recent changes nothing. *)
Lemma touch_idem a l : touch a (touch a l) = touch a l.
Proof.
  rewrite (touch_cons a (touch a l)), touch_cons, without_cons_eq.
  rewrite (without_not_elem a (take 9 _)), take_idemp; [done|].
  intros Hin%elem_of_take_elem. by apply (not_elem_of_without a l).
Qed.

(** Removing an app deletes every occurrence of it and keeps the
    other entries in their order. *)
Theorem remove_spec a l :
  (∀ x, x ∈ remove a l ↔ x ∈ l ∧ x ≠ a) ∧ remove a l `sublist_of` l.
Proof.
  split.
  - intros x. unfold remove. rewrite elem_of_without. tauto.
  - apply sublist_filter.
Qed.
(** The registry implements the interface the controller relies on. *)
#[export] Instance recents_mru : MruRegistry touch remove MAX_RECENTS.
Proof.
  split; intros.
  - by apply NoDup_touch.
  - apply length_touch.
  - done.
  - by apply NoDup_without.
  - apply length_without.
  - apply not_elem_of_without.
Qed.

End Recents.

#[export] Hint Resolve Recents.touch_wf Recents.remove_wf : webdroid.

(** ** Witnesses: the theorems applied at concrete registries *)
Module RecentsWitness.
Import Recents.

Definition full : list AppId :=
  ["a"; "b"; "c"; "d"; "e"; "f"; "g"; "h"; "i"; "j"]%string.

Lemma touch_mru_order_witness :
  "a"%string ≠ "b"%string ∧ take 2 (touch "a" (touch "b" (touch "a" full))) = ["a"; "b"]%string.
Proof. split; [discriminate|]. apply touch_mru_order. discriminate. Defined.

Lemma touch_evicts_oldest_witness :
  wf full ∧ length full = MAX_RECENTS ∧ ("k"%string ∉ full) ∧
  touch "k" full = ("k"%string :: pop_last full) ∧ length (touch "k" full) = MAX_RECENTS.
Proof.
  assert (wf full) as Hwf by (apply (bool_decide_unpack _); vm_compute; exact I).
  assert (("k"%string) ∉ full) as Hk by (apply (bool_decide_unpack _); vm_compute; exact I).
  split; [done|split; [reflexivity|split; [done|]]].
  apply touch_evicts_oldest; [done|reflexivity|done].
Defined.

Lemma touch_moves_to_front_witness :
  wf full ∧ "c"%string ∈ full ∧ touch "c" full = ("c"%string :: without "c"%string full).
Proof.
  assert (wf full) as Hwf by (apply (bool_decide_unpack _); vm_compute; exact I).
  assert ("c"%string ∈ full) as Hc by (apply (bool_decide_unpack _); vm_compute; exact I).
  split; [done|split; [done|]]. by apply touch_moves_to_front.
Defined.
End RecentsWitness.
