(* ===== verification/Navigation.v ===== *)
(** * Navigation controller

    The state and handlers of [AppContent] (src/WebDroid-OS/src/App.tsx):
    the foreground app [currentApp], the back history [appHistory], the
    recents list (see Recents.v) and the recents-overview flag, with the
    handlers [handleOpenApp], [handleCloseApp] (Home), [handleBackNav],
    [handleRecentsClick] and [handleRemoveRecentApp], plus the guard of the
    Back button in NavigationBar.tsx.  [NavSpec] is the abstract
    navigation stack of the specification; [abs] maps a controller state
    to it, and the controller is proved to refine it. *)

From S2P Require Import Prelude Recents.
From stdpp Require Import base decidable relations strings list.

Module Nav.

(** The four [useState] hooks of [AppContent] (App.tsx:7-10). *)
Record AppState := mkAppState {
  currentApp : option AppId;
  appHistory : list AppId;
  recentAppsList : list AppId;
  showRecentsView : bool;
}.

Definition initial : AppState := mkAppState None [] [] false.

(** [handleRemoveRecentApp] (App.tsx:13-16). *)
Definition handleRemoveRecentApp (appIdToRemove : AppId) (s : AppState) : AppState :=
  mkAppState (currentApp s) (appHistory s)
    (Recents.remove appIdToRemove (recentAppsList s)) (showRecentsView s).

(** [handleOpenApp] (App.tsx:19-40): close the overview, touch the
    recents list, then push onto the history unless the app is already
    in front, or start a fresh history when no app is open. *)
Definition handleOpenApp (appId : AppId) (s : AppState) : AppState :=
  let history :=
    if truthy (currentApp s) then
      if bool_decide (currentApp s ≠ Some appId)
      then appHistory s ++ [appId] else appHistory s
    else [appId] in
  mkAppState (Some appId) history (Recents.touch appId (recentAppsList s)) false.

(** [handleCloseApp], the Home button (App.tsx:43-60): both branches
    close the overview; only the first leaves the app.  The history is
    not cleared. *)
Definition handleCloseApp (s : AppState) : AppState :=
  if truthy (currentApp s)
  then mkAppState None (appHistory s) (recentAppsList s) false
  else mkAppState (currentApp s) (appHistory s) (recentAppsList s) false.

(** [handleBackNav] (App.tsx:63-87). *)
Definition handleBackNav (s : AppState) : AppState :=
  if showRecentsView s then
    mkAppState (currentApp s) (appHistory s) (recentAppsList s) false
  else match currentApp s with
    | None => s
    | Some _ =>
        if bool_decide (1 < length (appHistory s)) then
          let newHistory := pop_last (appHistory s) in
          mkAppState (last newHistory) newHistory (recentAppsList s) false
        else if bool_decide (length (appHistory s) = 1) then
          mkAppState None [] (recentAppsList s) false
        else s
    end.

(** [handleRecentsClick] (App.tsx:90-93). *)
Definition handleRecentsClick (s : AppState) : AppState :=
  mkAppState (currentApp s) (appHistory s) (recentAppsList s) (negb (showRecentsView s)).

(** The [hasHistory] prop computed at App.tsx:106. *)
Definition hasHistory (s : AppState) : bool :=
  bool_decide (currentApp s ≠ None) || showRecentsView s.

(** [handleBackClick] of NavigationBar.tsx:16-20. *)
Definition navBackClick (s : AppState) : AppState :=
  if hasHistory s then handleBackNav s else s.

(** The intents the controller receives. *)
Inductive intent :=
  | OpenApp (a : AppId)
  | CloseApp
  | BackNav
  | RecentsClick
  | RemoveRecent (a : AppId).

Definition dispatch (i : intent) (s : AppState) : AppState :=
  match i with
  | OpenApp a => handleOpenApp a s
  | CloseApp => handleCloseApp s
  | BackNav => handleBackNav s
  | RecentsClick => handleRecentsClick s
  | RemoveRecent a => handleRemoveRecentApp a s
  end.

Definition run (intents : list intent) (s : AppState) : AppState :=
  foldl (λ s i, dispatch i s) s intents.

(** Every identifier the UI sends is non-empty: the home screen and the
    recents cards use the fixed ids of HomeScreen.tsx, and the
    [webdroid:openApp] listener of DeviceFrame.tsx:110 drops [""]. *)
Definition valid_intent (i : intent) : Prop :=
  match i with OpenApp a => a ≠ ""%string | _ => True end.

Definition ids_nonempty (l : list AppId) : Prop := ∀ a, a ∈ l → a ≠ ""%string.

(** ** The controller's invariant *)
Record nav_inv (s : AppState) : Prop := {
  inv_top : ∀ c, currentApp s = Some c → last (appHistory s) = Some c;
  inv_ids : ∀ a, a ∈ appHistory s → a ≠ ""%string;
  inv_adj : adj_distinct (appHistory s);
  inv_recents : Recents.wf (recentAppsList s);
  inv_recent_ids : ids_nonempty (recentAppsList s);
}.


Lemma inv_current_nonempty s c : nav_inv s → currentApp s = Some c → c ≠ ""%string.
Proof.
  intros Hinv Hc. apply (inv_ids s Hinv), last_Some_elem_of, (inv_top s Hinv), Hc.
Qed.

(** With the invariant, [truthy] is exactly "an app is open". *)
Lemma truthy_current s : nav_inv s → truthy (currentApp s) = bool_decide (currentApp s ≠ None).
Proof.
  intros Hinv. destruct (currentApp s) as [c|] eqn:Hc; simpl; [|done].
  apply bool_decide_eq_true_2. by apply (inv_current_nonempty s c Hinv Hc).
Qed.

Lemma touch_ids a l :
  a ≠ ""%string → ids_nonempty l → ids_nonempty (Recents.touch a l).
Proof.
  intros Ha Hl x [->|Hx]%Recents.elem_of_touch; [done|].
  apply elem_of_take_elem, elem_of_without in Hx as [_ Hx]. by apply Hl.
Qed.

Lemma remove_ids a l : ids_nonempty l → ids_nonempty (Recents.remove a l).
Proof. intros Hl x [_ Hx]%elem_of_without. by apply Hl. Qed.

#[local] Hint Resolve touch_ids remove_ids : webdroid.

Lemma open_inv a s : a ≠ ""%string → nav_inv s → nav_inv (handleOpenApp a s).
Proof.
  intros Ha Hinv. pose proof Hinv as [Htop Hids Hadj Hrec Hrids].
  unfold handleOpenApp. rewrite (truthy_current _ Hinv).
  destruct (currentApp s) as [c|] eqn:Hc; simpl.
  - case_bool_decide as Hne; split; simpl; auto with webdroid.
    + intros ? [=<-]. by rewrite last_snoc.
    + intros x [Hx | ->%list_elem_of_singleton]%elem_of_app; auto.
    + apply adj_distinct_snoc; [done|]. rewrite (Htop c eq_refl). congruence.
    + intros ? [=<-].
      assert (c = a) as -> by (destruct (decide (c = a)); naive_solver). by apply Htop.
  - split; simpl; auto with webdroid.
    by intros x ->%list_elem_of_singleton.
Qed.

Lemma close_inv s : nav_inv s → nav_inv (handleCloseApp s).
Proof.
  intros Hinv. unfold handleCloseApp.
  pose proof Hinv as [Htop Hids Hadj Hrec Hrids].
  destruct (truthy (currentApp s)); split; simpl; auto. done.
Qed.

Lemma back_inv s : nav_inv s → nav_inv (handleBackNav s).
Proof.
  intros Hinv. unfold handleBackNav.
  pose proof Hinv as [Htop Hids Hadj Hrec Hrids].
  destruct (showRecentsView s); [split; simpl; auto|].
  destruct (currentApp s) as [c|]; [|done].
  repeat case_bool_decide; [| |done]; split; simpl; auto with webdroid.
  - intros x Hx%elem_of_pop_last. auto.
  - by intros ? ?%elem_of_nil.
Qed.

Lemma navBackClick_inv s : nav_inv s → nav_inv (navBackClick s).
Proof. intros. unfold navBackClick. destruct (hasHistory s); [by apply back_inv | done]. Qed.

Lemma dispatch_inv i s : valid_intent i → nav_inv s → nav_inv (dispatch i s).
Proof.
  intros Hi Hinv. destruct i; simpl in *.
  - by apply open_inv.
  - by apply close_inv.
  - by apply back_inv.
  - destruct Hinv; split; simpl; auto.
  - destruct Hinv; split; simpl; auto with webdroid.
Qed.

Lemma initial_inv : nav_inv initial.
Proof.
  constructor; simpl; try done.
  - by intros ? ?%elem_of_nil.
  - split; [constructor | cbn; lia].
  - by intros ? ?%elem_of_nil.
Qed.

End Nav.

#[export] Hint Resolve Nav.initial_inv : webdroid.

(** ** The specification's navigation contract (spec §4.1 and §4.4)

    A stack whose top is the foreground app, the recents list and the
    overview flag.  Home clears the stack and, as the source does, closes
    the overview (the specification does not say what Home does to it). *)
Module NavSpec.

Record state := mkState {
  stack : list AppId;
  recents : list AppId;
  recentsVisible : bool;
}.

(** [NavigationStack.open]: no-op on the current top, otherwise push. *)
Definition open (x : AppId) (st : list AppId) : list AppId :=
  if bool_decide (last st = Some x) then st else st ++ [x].

(** [NavigationStack.goBack]: pop when more than one element, clear a
    single element, nothing on the empty stack. *)
Definition goBack (st : list AppId) : list AppId :=
  if bool_decide (1 < length st) then pop_last st else [].

Definition openApp (x : AppId) (σ : state) : state :=
  mkState (open x (stack σ)) (Recents.touch x (recents σ)) false.

Definition goHome (σ : state) : state := mkState [] (recents σ) false.

Definition back (σ : state) : state :=
  if recentsVisible σ then mkState (stack σ) (recents σ) false
  else mkState (goBack (stack σ)) (recents σ) false.

Definition toggleRecentsOverview (σ : state) : state :=
  mkState (stack σ) (recents σ) (negb (recentsVisible σ)).

Definition removeFromRecents (x : AppId) (σ : state) : state :=
  mkState (stack σ) (Recents.remove x (recents σ)) (recentsVisible σ).

Definition step (i : Nav.intent) (σ : state) : state :=
  match i with
  | Nav.OpenApp a => openApp a σ
  | Nav.CloseApp => goHome σ
  | Nav.BackNav => back σ
  | Nav.RecentsClick => toggleRecentsOverview σ
  | Nav.RemoveRecent a => removeFromRecents a σ
  end.

Definition run (intents : list Nav.intent) (σ : state) : state :=
  foldl (λ σ i, step i σ) σ intents.

(** The derived view of spec §3. *)
Definition activeApp (σ : state) : option AppId := last (stack σ).
Definition canGoBack (σ : state) : bool :=
  bool_decide (stack σ ≠ []) || recentsVisible σ.
End NavSpec.

(** ** Refinement: the controller implements the contract *)
Section refinement.
Import Nav.

(** At home the source keeps a stale [appHistory]; the abstract stack is
    the history only while an app is open. *)
Definition abs (s : AppState) : NavSpec.state :=
  NavSpec.mkState
    (match currentApp s with Some _ => appHistory s | None => [] end)
    (recentAppsList s) (showRecentsView s).

Lemma abs_open a s :
  nav_inv s → abs (handleOpenApp a s) = NavSpec.openApp a (abs s).
Proof.
  intros Hinv. unfold handleOpenApp, abs, NavSpec.openApp, NavSpec.open; simpl.
  rewrite (truthy_current _ Hinv).
  destruct (currentApp s) as [c|] eqn:Hc; simpl; [|done].
  rewrite (inv_top s Hinv c Hc).
  repeat case_bool_decide; naive_solver.
Qed.

Lemma abs_close s : nav_inv s → abs (handleCloseApp s) = NavSpec.goHome (abs s).
Proof.
  intros Hinv. unfold handleCloseApp, abs. rewrite (truthy_current _ Hinv).
  by destruct (currentApp s).
Qed.

Lemma abs_back s : nav_inv s → abs (handleBackNav s) = NavSpec.back (abs s).
Proof.
  intros Hinv. pose proof (inv_top s Hinv) as Htop.
  destruct s as [cur hist rec []]; [done|].
  unfold handleBackNav, abs, NavSpec.back, NavSpec.goBack; simpl in *.
  destruct cur as [c|].
  - specialize (Htop c eq_refl). case_bool_decide as Hlen.
    + by destruct (last_pop_last_is_Some _ Hlen) as [? ->].
    + case_bool_decide; [done|]. destruct hist; [done|]. simpl in *. lia.
  - case_bool_decide; [simpl in *; lia | done].
Qed.

(** One intent the UI can send moves the controller's abstract state as
    the contract's [step] does. *)
Lemma abs_dispatch i s :
  nav_inv s → valid_intent i → abs (dispatch i s) = NavSpec.step i (abs s).
Proof.
  intros Hinv Hi. destruct i; simpl.
  - by apply abs_open.
  - by apply abs_close.
  - by apply abs_back.
  - done.
  - done.
Qed.

Lemma run_inv intents s :
  nav_inv s → Forall valid_intent intents → nav_inv (run intents s).
Proof.
  revert s. induction intents as [|i intents IH]; intros s Hs Hall; [done|].
  apply Forall_cons in Hall as [? ?]. apply IH; [|done]. by apply dispatch_inv.
Qed.

(** C1: From any state satisfying the controller's invariant, every
    sequence of intents the UI can send moves the abstract state exactly
    as the specification's navigation contract does: the controller
    refines the stack of spec §4.1 and the recents rules of §4.4. *)
Theorem nav_refines_spec intents s :
  nav_inv s → Forall valid_intent intents →
  abs (run intents s) = NavSpec.run intents (abs s).
Proof.
  revert s. induction intents as [|i intents IH]; intros s Hs Hall; [done|].
  apply Forall_cons in Hall as [? ?]. simpl.
  rewrite IH by (done || by apply dispatch_inv). by rewrite abs_dispatch.
Qed.

(** The derived view the presentation layer reads agrees with the
    contract's [activeApp] and [canGoBack]. *)
Lemma view_refines s :
  nav_inv s →
  currentApp s = NavSpec.activeApp (abs s) ∧ hasHistory s = NavSpec.canGoBack (abs s).
Proof.
  intros Hinv. unfold NavSpec.activeApp, NavSpec.canGoBack, hasHistory, abs; simpl.
  destruct (currentApp s) as [c|] eqn:Hc; simpl; [|done].
  pose proof (inv_top s Hinv c Hc) as Htop. split; [done|].
  assert (appHistory s ≠ []) by (intros Hnil; by rewrite Hnil in Htop).
  repeat case_bool_decide; done.
Qed.
End refinement.

(** ** Properties of the controller *)
Section properties.
Import Nav.

(** Every sequence of UI intents from the initial state keeps the
    controller's invariant: the foreground app is the last history
    entry, the history has no two equal neighbours, and the recents list
    is duplicate-free with at most ten entries. *)
Theorem nav_reachable_inv intents :
  Forall valid_intent intents → nav_inv (run intents initial).
Proof. intros. apply run_inv; auto with webdroid. Qed.

(** Opening the app that is already in front keeps the foreground
    app and the history unchanged; only the recents list is touched
    (spec P1). *)
Theorem open_idempotent x s :
  currentApp s = Some x → x ≠ ""%string →
  currentApp (handleOpenApp x s) = Some x ∧
  appHistory (handleOpenApp x s) = appHistory s ∧
  recentAppsList (handleOpenApp x s) = Recents.touch x (recentAppsList s).
Proof.
  intros Hc Hx. unfold handleOpenApp. rewrite Hc. simpl.
  rewrite bool_decide_eq_true_2 by done. by case_bool_decide.
Qed.

(** With the overview closed and an app open, Back on a history of
    [n >= 2] entries leaves [n - 1] entries and brings the previous app
    (the second from the top) to the front (spec P2). *)
Theorem back_unwinds_one s :
  showRecentsView s = false → currentApp s ≠ None → 2 ≤ length (appHistory s) →
  appHistory (handleBackNav s) = pop_last (appHistory s) ∧
  length (appHistory (handleBackNav s)) = length (appHistory s) - 1 ∧
  currentApp (handleBackNav s) = appHistory s !! (length (appHistory s) - 2).
Proof.
  intros Hv Hc Hlen. unfold handleBackNav. rewrite Hv.
  destruct (currentApp s) as [c|]; [|done].
  rewrite bool_decide_eq_true_2 by lia. simpl.
  rewrite length_pop_last, last_lookup, length_pop_last.
  split; [done|split; [done|]]. unfold pop_last.
  rewrite lookup_take_lt by lia. f_equal. lia.
Qed.

(** With the overview closed, Back from a single-entry history goes
    home and empties the history (spec P3). *)
Theorem last_back_goes_home s :
  showRecentsView s = false → currentApp s ≠ None → length (appHistory s) = 1 →
  currentApp (handleBackNav s) = None ∧ appHistory (handleBackNav s) = [].
Proof.
  intros Hv Hc Hlen. unfold handleBackNav. rewrite Hv.
  destruct (currentApp s) as [c|]; [|done].
  rewrite bool_decide_eq_false_2 by lia. by rewrite bool_decide_eq_true_2.
Qed.

(** While the recents overview is showing, Back only closes it: the
    foreground app, the history and the recents list are unchanged
    (spec P7). *)
Theorem recents_close_beats_back s :
  showRecentsView s = true →
  handleBackNav s = mkAppState (currentApp s) (appHistory s) (recentAppsList s) false.
Proof. intros Hv. unfold handleBackNav. by rewrite Hv. Qed.

(** The Back button's [hasHistory] guard in NavigationBar.tsx never
    changes the outcome: clicking it is exactly [handleBackNav]. *)
Theorem back_guard_redundant s : navBackClick s = handleBackNav s.
Proof.
  unfold navBackClick, hasHistory, handleBackNav.
  destruct (showRecentsView s); [by rewrite orb_true_r|].
  destruct (currentApp s); [done|]. by rewrite orb_false_r.
Qed.

(** Removing an app from recents never changes the foreground app or
    the history, even when it removes the foreground app itself
    (spec §4.4). *)
Theorem remove_keeps_foreground a s :
  currentApp (handleRemoveRecentApp a s) = currentApp s ∧
  appHistory (handleRemoveRecentApp a s) = appHistory s ∧
  a ∉ recentAppsList (handleRemoveRecentApp a s).
Proof. split; [done|split; [done|]]. apply not_elem_of_without. Qed.

(** Scenario A of the specification: open weather, open notes, Back,
    Back returns home with an empty history, and the recents list keeps
    both apps, most recent first. *)
Theorem scenario_A :
  let s1 := run [OpenApp "weather"] initial in
  let s2 := run [OpenApp "notes"] s1 in
  let s3 := run [BackNav] s2 in
  let s4 := run [BackNav] s3 in
  (currentApp s1, appHistory s1, recentAppsList s1) = (Some "weather", ["weather"], ["weather"])
  ∧ (currentApp s2, appHistory s2) = (Some "notes", ["weather"; "notes"])
  ∧ (currentApp s3, appHistory s3) = (Some "weather", ["weather"])
  ∧ (currentApp s4, appHistory s4, recentAppsList s4) = (None, [], ["notes"; "weather"]).
Proof. vm_compute. repeat split. Qed.

(** Home does not clear the history, contrary to spec §4.1: after
    opening weather and notes and pressing Home, [appHistory] still
    holds both entries while no app is in front. *)
Theorem home_keeps_history :
  let s := run [OpenApp "weather"; OpenApp "notes"; CloseApp] initial in
  currentApp s = None ∧ appHistory s = ["weather"; "notes"] ∧ abs s = NavSpec.mkState [] ["notes"; "weather"] false.
Proof. vm_compute. repeat split. Qed.
End properties.

(** ** Witnesses: the theorems applied at concrete controller states *)
Module NavWitness.
Import Nav.

(** weather then notes opened from home *)
Definition two_open : AppState := run [OpenApp "weather"; OpenApp "notes"]%string initial.

Lemma two_open_valid : Forall valid_intent [OpenApp "weather"; OpenApp "notes"]%string.
Proof. repeat constructor; discriminate. Defined.

Lemma two_open_inv : nav_inv two_open.
Proof. apply run_inv; [apply initial_inv | apply two_open_valid]. Defined.

Lemma nav_refines_spec_witness :
  nav_inv two_open ∧ Forall valid_intent [BackNav; RecentsClick; OpenApp "clock"]%string ∧
  abs (run [BackNav; RecentsClick; OpenApp "clock"]%string two_open) =
    NavSpec.run [BackNav; RecentsClick; OpenApp "clock"]%string (abs two_open).
Proof.
  assert (Forall valid_intent [BackNav; RecentsClick; OpenApp "clock"]%string) as Hv
    by (repeat constructor; discriminate).
  split; [apply two_open_inv|split; [exact Hv|]].
  apply nav_refines_spec; [apply two_open_inv | exact Hv].
Defined.

Lemma nav_reachable_inv_witness :
  Forall valid_intent [OpenApp "weather"; OpenApp "notes"]%string ∧ nav_inv two_open.
Proof. split; [apply two_open_valid | apply nav_reachable_inv, two_open_valid]. Defined.

Lemma open_idempotent_witness :
  currentApp two_open = Some "notes"%string ∧ "notes"%string ≠ ""%string ∧
  currentApp (handleOpenApp "notes" two_open) = Some "notes"%string ∧
  appHistory (handleOpenApp "notes" two_open) = appHistory two_open ∧
  recentAppsList (handleOpenApp "notes" two_open) = Recents.touch "notes" (recentAppsList two_open).
Proof.
  split; [reflexivity|split; [discriminate|]].
  apply open_idempotent; [reflexivity | discriminate].
Defined.

Lemma back_unwinds_one_witness :
  showRecentsView two_open = false ∧ currentApp two_open ≠ None ∧ 2 ≤ length (appHistory two_open) ∧
  appHistory (handleBackNav two_open) = pop_last (appHistory two_open) ∧
  length (appHistory (handleBackNav two_open)) = length (appHistory two_open) - 1 ∧
  currentApp (handleBackNav two_open) = appHistory two_open !! (length (appHistory two_open) - 2).
Proof.
  split; [reflexivity|split; [discriminate|split; [simpl; lia|]]].
  apply back_unwinds_one; [reflexivity | discriminate | simpl; lia].
Defined.

Definition one_open : AppState := run [OpenApp "weather"]%string initial.

Lemma last_back_goes_home_witness :
  showRecentsView one_open = false ∧ currentApp one_open ≠ None ∧ length (appHistory one_open) = 1 ∧
  currentApp (handleBackNav one_open) = None ∧ appHistory (handleBackNav one_open) = [].
Proof.
  split; [reflexivity|split; [discriminate|split; [reflexivity|]]].
  apply last_back_goes_home; [reflexivity | discriminate | reflexivity].
Defined.

Lemma recents_close_beats_back_witness :
  showRecentsView (handleRecentsClick two_open) = true ∧
  handleBackNav (handleRecentsClick two_open) =
    mkAppState (currentApp (handleRecentsClick two_open)) (appHistory (handleRecentsClick two_open))
      (recentAppsList (handleRecentsClick two_open)) false.
Proof. split; [reflexivity|]. apply recents_close_beats_back. reflexivity. Defined.
End NavWitness.
