(* ===== verification/Power.v ===== *)
(** * Power lifecycle: device frame, lock screen, buttons, PIN setting

    [Device] models the boot/lock/screen state of [DeviceFrame]
    (src/src/components/DeviceFrame.tsx) and its handlers.  A handler
    returns the new state and the effects it asks for: a [setTimeout]
    callback ([Schedule]) or a call of the controller's [handleCloseApp].
    [LockScreen] models the PIN pad of LockScreen.tsx, [DeviceButtons] the
    wiring of the power button (DeviceButtons.tsx, useLongPress.ts), and
    [Settings] the stored PIN of SettingsContext.tsx.  System.v runs the
    effects on a timer queue. *)

From S2P Require Import Prelude.
From stdpp Require Import base decidable relations strings list.

(** [type BootState] (DeviceFrame.tsx:26) and the [screenState] values
    (DeviceFrame.tsx:99). *)
Inductive BootState := Booting | Locked | Unlocked | Off.

#[export] Instance BootState_eq_dec : EqDecision BootState.
Proof. solve_decision. Defined.

Inductive ScreenState := ScreenOn | ScreenOff.

#[export] Instance ScreenState_eq_dec : EqDecision ScreenState.
Proof. solve_decision. Defined.

(** ** Timer callbacks and effects *)

(** The callbacks the components hand to [setTimeout]. *)
Inductive Callback :=
  | CbPowerOffDone                  (** DeviceFrame.tsx:179-182, 1500 ms *)
  | CbTogglePower (captured : BootState)  (** DeviceFrame.tsx:221-223, 100 ms *)
  | CbRestartDone                   (** DeviceFrame.tsx:237-240, 800 ms *)
  | CbBootComplete                  (** BootScreen.tsx:10-12, 4500 ms *)
  | CbUnlock                        (** LockScreen.tsx:64-66, 300 ms *)
  | CbResetPin (gen : nat)          (** LockScreen.tsx:72-74, 500 ms *)
  | CbOpenApp (appId : AppId).      (** StatusBar.tsx:209-219, 300 ms *)

Inductive Effect :=
  | Schedule (delay : nat) (cb : Callback)
  | CallCloseApp.

Module Device.

(** The [useState] hooks of [DeviceFrame] that the lifecycle uses
    (DeviceFrame.tsx:98-101). *)
Record Device := mkDevice {
  bootState : BootState;
  screenState : ScreenState;
  showPowerMenu : bool;
  showPoweringOffMessage : bool;
}.

Definition initial : Device := mkDevice Booting ScreenOn false false.

Definition set_boot (b : BootState) (d : Device) : Device :=
  mkDevice b (screenState d) (showPowerMenu d) (showPoweringOffMessage d).
Definition set_screen (sc : ScreenState) (d : Device) : Device :=
  mkDevice (bootState d) sc (showPowerMenu d) (showPoweringOffMessage d).
Definition set_menu (m : bool) (d : Device) : Device :=
  mkDevice (bootState d) (screenState d) m (showPoweringOffMessage d).
Definition set_message (m : bool) (d : Device) : Device :=
  mkDevice (bootState d) (screenState d) (showPowerMenu d) m.

(** [handleBootComplete] (DeviceFrame.tsx:153-160). *)
Definition handleBootComplete (lockscreenPin : option string) (d : Device) : Device :=
  if truthy lockscreenPin then set_boot Locked d else set_boot Unlocked d.

(** [handleUnlock] (DeviceFrame.tsx:163-165). *)
Definition handleUnlock (d : Device) : Device := set_boot Unlocked d.

(** [togglePower] (DeviceFrame.tsx:168-184).  The timeout of
    [handlePowerOffAction] calls the closure of the render that created
    it, which reads that render's [bootState] ([captured_off]). *)
Definition togglePower_with (captured_off : bool) (d : Device) : Device * list Effect :=
  if captured_off then (set_boot Booting d, [])
  else (set_message true (set_menu false d), [Schedule 1500 CbPowerOffDone]).

Definition togglePower (d : Device) : Device * list Effect :=
  togglePower_with (bool_decide (bootState d = Off)) d.

(** [handlePowerOffAction] (DeviceFrame.tsx:217-224). *)
Definition handlePowerOffAction (d : Device) : Device * list Effect :=
  (set_screen ScreenOff d, [Schedule 100 (CbTogglePower (bootState d))]).

(** [handleRestartAction] (DeviceFrame.tsx:227-242): it also calls the
    controller's [handleCloseApp]. *)
Definition handleRestartAction (d : Device) : Device * list Effect :=
  let d1 := set_menu false d in
  if bool_decide (bootState d = Off) then (set_boot Booting d1, [CallCloseApp])
  else (set_message true d1, [CallCloseApp; Schedule 800 CbRestartDone]).

(** [handleShortPowerPress] (DeviceFrame.tsx:245-261). *)
Definition handleShortPowerPress (d : Device) : Device * list Effect :=
  if bool_decide (bootState d = Off) then togglePower d
  else match screenState d with
       | ScreenOn => (set_screen ScreenOff d, [])
       | ScreenOff => (set_screen ScreenOn d, [])
       end.

(** [handleLongPowerPress] (DeviceFrame.tsx:264-270). *)
Definition handleLongPowerPress (d : Device) : Device :=
  if bool_decide (bootState d ≠ Off) then set_menu true d else d.

(** The power menu's Cancel and backdrop ([setShowPowerMenu(false)],
    DeviceFrame.tsx:383,388). *)
Definition closePowerMenu (d : Device) : Device := set_menu false d.

(** The timeouts the frame itself scheduled. *)
Definition fireDevice (cb : Callback) (d : Device) : Device * list Effect :=
  match cb with
  | CbPowerOffDone => (set_boot Off (set_message false d), [])
  | CbTogglePower b => togglePower_with (bool_decide (b = Off)) d
  | CbRestartDone => (set_boot Booting (set_message false d), [])
  | _ => (d, [])
  end.

(** The effect of DeviceFrame.tsx:286-291: the screen going off while
    unlocked locks the device. *)
Definition relock (d : Device) : Device :=
  if bool_decide (screenState d = ScreenOff ∧ bootState d = Unlocked)
  then set_boot Locked d else d.
End Device.

Module LockScreen.

(** [numberKeys] (LockScreen.tsx:17). *)
Definition numberKeys : list string :=
  ["1"; "2"; "3"; "4"; "5"; "6"; "7"; "8"; "9"; "0"]%string.

(** [handleKeyPress] (LockScreen.tsx:80-88) on [pinDisplay]. *)
Definition handleKeyPress (key : string) (pinDisplay : string) : string :=
  if bool_decide (String.length pinDisplay < 4) then String.append pinDisplay key
  else pinDisplay.

(** The validation effect (LockScreen.tsx:52-77), for the mounted
    instance number [gen]: nothing without a PIN, otherwise a complete
    entry schedules the unlock or the reset of the entry. *)
Definition validate (lockscreenPin : option string) (gen : nat) (pinDisplay : string)
    : list Effect :=
  if negb (truthy lockscreenPin) then []
  else if bool_decide (String.length pinDisplay = 4) then
    if bool_decide (Some pinDisplay = lockscreenPin) then [Schedule 300 CbUnlock]
    else [Schedule 500 (CbResetPin gen)]
  else [].
End LockScreen.

Module DeviceButtons.

(** A value handed to JSX spread syntax [{...v}]: an object contributes
    its properties, a function none. *)
Inductive JsValue := JsObject (props : list string) | JsFunction.

Definition spread (v : JsValue) : list string :=
  match v with JsObject props => props | JsFunction => [] end.

(** [useLongPress] returns [getHandlers], a function (useLongPress.ts:39-47);
    the handler names it would produce are those of its body. *)
Definition useLongPress : JsValue := JsFunction.
Definition getHandlers : JsValue :=
  JsObject ["onMouseDown"; "onMouseUp"; "onMouseLeave"; "onTouchStart"; "onTouchEnd"]%string.

(** The power button's props besides [onClick]
    ([{...powerButtonLongPressHandler}], DeviceButtons.tsx:141,152). *)
Definition powerButtonProps : list string := spread useLongPress.

(** A press-and-hold reaches [onLongPowerPress] only through the
    [onMouseDown]/[onTouchStart] handler that starts the timer. *)
Definition longPressDelivered : bool :=
  bool_decide ("onMouseDown"%string ∈ powerButtonProps ∨ "onTouchStart"%string ∈ powerButtonProps).
End DeviceButtons.

Module Settings.

(** The initial PIN (SettingsContext.tsx:190-193):
    [localStorage.getItem('lockscreenPin') || '1234']. *)
Definition initialPin (saved : option string) : option string :=
  if truthy saved then saved else Some "1234"%string.

(** What the effect of SettingsContext.tsx:304-310 leaves in storage. *)
Definition persistPin (lockscreenPin : option string) : option string :=
  if truthy lockscreenPin then lockscreenPin else None.

(** The PINs [ChangePinModal] accepts (ChangePinModal.tsx:56):
    [/^\d{4}$/]. *)
Definition validNewPin (p : string) : Prop :=
  String.length p = 4 ∧ Forall (λ c, c ∈ LockScreen.numberKeys) (map (λ a, String.String a EmptyString) (String.list_ascii_of_string p)).

#[export] Instance validNewPin_dec p : Decision (validNewPin p).
Proof. unfold validNewPin. apply _. Defined.
End Settings.

(** ** Properties of the components *)

(** The stored PIN survives a reload when one is set, but a disabled
    PIN comes back as '1234': [setLockscreenPin(null)] removes the storage
    entry and the initializer falls back to the default
    (SettingsContext.tsx:192, 304-310). *)
Theorem pin_reload_roundtrip p :
  (truthy p = true → Settings.initialPin (Settings.persistPin p) = p) ∧
  Settings.initialPin (Settings.persistPin None) = Some "1234"%string.
Proof.
  split; [|done]. intros Hp. unfold Settings.persistPin, Settings.initialPin. by rewrite !Hp.
Qed.

(** Spreading the value [useLongPress] returns attaches no handler to
    the power button, while spreading [getHandlers()] would attach the
    press handlers: a press-and-hold never reaches [onLongPowerPress]. *)
Example long_press_never_wired :
  DeviceButtons.powerButtonProps = [] ∧ DeviceButtons.longPressDelivered = false ∧
  "onMouseDown"%string ∈ DeviceButtons.spread DeviceButtons.getHandlers.
Proof. split; [done|split; [done|]]. vm_compute. left. Qed.

(** A key press appends one digit while fewer than four are entered and
    is ignored afterwards. *)
Lemma keypress_length k p :
  k ∈ LockScreen.numberKeys → String.length p ≤ 4 →
  String.length (LockScreen.handleKeyPress k p) ≤ 4 ∧
  (String.length p < 4 → String.length (LockScreen.handleKeyPress k p) = S (String.length p)).
Proof.
  intros Hk Hp. unfold LockScreen.handleKeyPress.
  assert (String.length k = 1) as Hk1.
  { repeat (apply elem_of_cons in Hk as [-> | Hk]; [done|]). by apply elem_of_nil in Hk. }
  case_bool_decide; rewrite ?string_length_append, ?Hk1; split; intros; lia.
Qed.

(** Witness: the stored PIN 4321 survives a reload. *)
Lemma pin_reload_roundtrip_witness :
  truthy (Some "4321"%string) = true ∧
  Settings.initialPin (Settings.persistPin (Some "4321"%string)) = Some "4321"%string.
Proof.
  split; [reflexivity|]. apply (proj1 (pin_reload_roundtrip (Some "4321"%string))). reflexivity.
Defined.
