(* ===== verification/System.v ===== *)
(** * The composed system and its event loop

    One state holds the navigation controller of App.tsx, the device frame
    of DeviceFrame.tsx, the mounted lock screen's [pinDisplay], the stored
    PIN of SettingsContext.tsx, the clock and the pending [setTimeout]
    callbacks.  [exec] handles one event of the browser's single-threaded
    loop: a click the rendered UI offers, or the firing of the earliest
    timer; after each event the passive effects run ([settle]): the
    screen-off relock, the BootScreen timer (set on mount, cleared on
    unmount) and a fresh LockScreen on mount.  [step] and [reachable] are
    the transition relation and its reflexive-transitive closure. *)

From S2P Require Import Prelude Recents Navigation Power.
From stdpp Require Import base decidable relations strings list.

Module System.

Record Timer := mkTimer { deadline : nat; callback : Callback }.

Record Sys := mkSys {
  app : Nav.AppState;
  dev : Device.Device;
  pinDisplay : string;
  lockGen : nat;               (** LockScreen mounts so far *)
  lockscreenPin : option string;
  now : nat;
  timers : list Timer;
}.

(** Page load: the BootScreen is mounted and its timer set. *)
Definition initial (saved : option string) : Sys :=
  mkSys Nav.initial Device.initial "" 0 (Settings.initialPin saved) 0
    [mkTimer 4500 CbBootComplete].

Definition set_app (a : Nav.AppState) (s : Sys) : Sys :=
  mkSys a (dev s) (pinDisplay s) (lockGen s) (lockscreenPin s) (now s) (timers s).
Definition set_dev (d : Device.Device) (s : Sys) : Sys :=
  mkSys (app s) d (pinDisplay s) (lockGen s) (lockscreenPin s) (now s) (timers s).
Definition set_display (p : string) (s : Sys) : Sys :=
  mkSys (app s) (dev s) p (lockGen s) (lockscreenPin s) (now s) (timers s).
Definition set_pin (p : option string) (s : Sys) : Sys :=
  mkSys (app s) (dev s) (pinDisplay s) (lockGen s) p (now s) (timers s).
Definition set_timers (ts : list Timer) (s : Sys) : Sys :=
  mkSys (app s) (dev s) (pinDisplay s) (lockGen s) (lockscreenPin s) (now s) ts.

(** [setTimeout(cb, delay)] *)
Definition schedule (delay : nat) (cb : Callback) (s : Sys) : Sys :=
  set_timers (timers s ++ [mkTimer (now s + delay) cb]) s.

Fixpoint perform (effs : list Effect) (s : Sys) : Sys :=
  match effs with
  | [] => s
  | Schedule d cb :: r => perform r (schedule d cb s)
  | CallCloseApp :: r => perform r (set_app (Nav.handleCloseApp (app s)) s)
  end.

Definition with_device (r : Device.Device * list Effect) (s : Sys) : Sys :=
  perform r.2 (set_dev r.1 s).

Definition is_boot_timer (t : Timer) : bool :=
  match callback t with CbBootComplete => true | _ => false end.

(** The passive effects after a render, [old] being the boot state
    before the event and [b1] the state the handlers rendered: the
    BootScreen's cleanup clears its timer on unmount (BootScreen.tsx:15),
    its effect sets the timer on mount (BootScreen.tsx:8-12), and a
    LockScreen mounted anew starts with an empty [pinDisplay]
    (LockScreen.tsx:12).  A relock that follows an unlock remounts it. *)
Definition unmount_boot (old : BootState) (s : Sys) : Sys :=
  if bool_decide (old = Booting ∧ Device.bootState (dev s) ≠ Booting)
  then set_timers (filter (λ t, is_boot_timer t = false) (timers s)) s else s.

Definition mount_boot (old : BootState) (s : Sys) : Sys :=
  if bool_decide (Device.bootState (dev s) = Booting ∧ old ≠ Booting)
  then schedule 4500 CbBootComplete s else s.

Definition mount_lock (old b1 : BootState) (s : Sys) : Sys :=
  if bool_decide (Device.bootState (dev s) = Locked ∧ (old ≠ Locked ∨ b1 ≠ Locked))
  then mkSys (app s) (dev s) "" (S (lockGen s)) (lockscreenPin s) (now s) (timers s)
  else s.

(** All passive effects after an event: first the relock of
    DeviceFrame.tsx:286-291, then the mounts and unmounts it causes. *)
Definition settle (old : BootState) (s : Sys) : Sys :=
  mount_lock old (Device.bootState (dev s))
    (mount_boot old (unmount_boot old (set_dev (Device.relock (dev s)) s))).

(** ** Timers: the earliest deadline fires first, ties in scheduling order *)
Definition min_deadline (t : Timer) (ts : list Timer) : nat :=
  foldr (λ u m, deadline u `min` m) (deadline t) ts.

Definition next_timer (ts : list Timer) : option (nat * Timer) :=
  match ts with
  | [] => None
  | t :: _ => list_find (λ u, deadline u = min_deadline t ts) ts
  end.

(** What a firing callback does. *)
Definition runCallback (cb : Callback) (s : Sys) : Sys :=
  match cb with
  | CbPowerOffDone | CbTogglePower _ | CbRestartDone =>
      with_device (Device.fireDevice cb (dev s)) s
  | CbBootComplete => set_dev (Device.handleBootComplete (lockscreenPin s) (dev s)) s
  | CbUnlock => set_dev (Device.handleUnlock (dev s)) s
  | CbResetPin g =>
      (** the setter of an unmounted LockScreen has no effect *)
      if bool_decide (Device.bootState (dev s) = Locked ∧ g = lockGen s)
      then set_display "" s else s
  | CbOpenApp a =>
      (** the [webdroid:openApp] listener (DeviceFrame.tsx:108-113) *)
      if truthy (Some a) then set_app (Nav.handleOpenApp a (app s)) s else s
  end.

Definition fire (s : Sys) : option Sys :=
  match next_timer (timers s) with
  | None => None
  | Some (i, t) =>
      Some (runCallback (callback t)
              (mkSys (app s) (dev s) (pinDisplay s) (lockGen s) (lockscreenPin s)
                 (now s `max` deadline t) (delete i (timers s))))
  end.

(** ** User events, offered only where the rendered UI offers them *)

(** The app ids of HomeScreen.tsx:8-48. *)
Definition homeApps : list AppId :=
  ["calculator"; "weather"; "notes"; "camera"; "browser"; "clock"; "files"; "themes"; "settings"]%string.

Inductive event :=
  | HomeOpen (a : AppId)          (** HomeScreen icon *)
  | NavHome | NavBack | NavRecents (** NavigationBar *)
  | RecentsSelect (a : AppId)     (** RecentsView card *)
  | RecentsRemove (a : AppId)     (** RecentsView close button *)
  | ShadeOpenSettings             (** StatusBar settings shortcut *)
  | ShortPower | LongPower        (** DeviceButtons power button *)
  | MenuPowerOff | MenuRestart | MenuCancel (** PowerMenu *)
  | KeyPress (k : string)         (** LockScreen keypad *)
  | SetPin (p : option string)    (** LockSettingsPage / ChangePinModal *)
  | Fire                          (** the earliest timer fires *)
  | Elapse (dt : nat).            (** time passes, no timer due *)

Definition unlocked_on (s : Sys) : Prop :=
  Device.bootState (dev s) = Unlocked ∧ Device.screenState (dev s) = ScreenOn.

Definition menu_shown (s : Sys) : Prop :=
  Device.showPowerMenu (dev s) = true ∧ Device.bootState (dev s) ≠ Off ∧
  Device.screenState (dev s) = ScreenOn.

#[export] Instance unlocked_on_dec s : Decision (unlocked_on s).
Proof. unfold unlocked_on. apply _. Defined.
#[export] Instance menu_shown_dec s : Decision (menu_shown s).
Proof. unfold menu_shown. apply _. Defined.

(** A key press updates [pinDisplay]; when it changed, the validation
    effect runs for the mounted instance. *)
Definition keyPress (k : string) (s : Sys) : Sys :=
  let p := LockScreen.handleKeyPress k (pinDisplay s) in
  if bool_decide (p = pinDisplay s) then s
  else perform (LockScreen.validate (lockscreenPin s) (lockGen s) p) (set_display p s).

Definition valid_pin_update (p : option string) : Prop :=
  match p with None => True | Some q => Settings.validNewPin q end.

#[export] Instance valid_pin_update_dec p : Decision (valid_pin_update p).
Proof. destruct p; simpl; apply _. Defined.

Definition guard (P : Prop) `{Decision P} (s : Sys) : option Sys :=
  if bool_decide P then Some s else None.

Definition handle (e : event) (s : Sys) : option Sys :=
  let a := app s in
  match e with
  | HomeOpen x =>
      guard (unlocked_on s ∧ Nav.currentApp a = None ∧ Nav.showRecentsView a = false
             ∧ x ∈ homeApps) (set_app (Nav.handleOpenApp x a) s)
  | NavHome => guard (unlocked_on s) (set_app (Nav.handleCloseApp a) s)
  | NavBack => guard (unlocked_on s) (set_app (Nav.navBackClick a) s)
  | NavRecents => guard (unlocked_on s) (set_app (Nav.handleRecentsClick a) s)
  | RecentsSelect x =>
      guard (unlocked_on s ∧ Nav.showRecentsView a = true ∧ x ∈ Nav.recentAppsList a)
        (set_app (Nav.handleOpenApp x a) s)
  | RecentsRemove x =>
      guard (unlocked_on s ∧ Nav.showRecentsView a = true ∧ x ∈ Nav.recentAppsList a)
        (set_app (Nav.handleRemoveRecentApp x a) s)
  | ShadeOpenSettings =>
      guard (Device.bootState (dev s) ≠ Off ∧ Device.screenState (dev s) = ScreenOn)
        (schedule 300 (CbOpenApp "settings") s)
  | ShortPower => Some (with_device (Device.handleShortPowerPress (dev s)) s)
  | LongPower =>
      guard (DeviceButtons.longPressDelivered = true)
        (set_dev (Device.handleLongPowerPress (dev s)) s)
  | MenuPowerOff => guard (menu_shown s) (with_device (Device.handlePowerOffAction (dev s)) s)
  | MenuRestart => guard (menu_shown s) (with_device (Device.handleRestartAction (dev s)) s)
  | MenuCancel => guard (menu_shown s) (set_dev (Device.closePowerMenu (dev s)) s)
  | KeyPress k =>
      guard (Device.bootState (dev s) = Locked ∧ k ∈ LockScreen.numberKeys) (keyPress k s)
  | SetPin p =>
      guard (unlocked_on s ∧ Nav.currentApp a = Some "settings"%string
             ∧ Nav.showRecentsView a = false ∧ valid_pin_update p) (set_pin p s)
  | Fire => fire s
  | Elapse dt =>
      guard (Forall (λ t, now s + dt ≤ deadline t) (timers s))
        (mkSys (app s) (dev s) (pinDisplay s) (lockGen s) (lockscreenPin s)
           (now s + dt) (timers s))
  end.

Definition exec (e : event) (s : Sys) : option Sys :=
  settle (Device.bootState (dev s)) <$> handle e s.

Fixpoint run (es : list event) (s : Sys) : option Sys :=
  match es with
  | [] => Some s
  | e :: r => exec e s ≫= run r
  end.

Inductive step (s : Sys) : Sys → Prop :=
  | step_exec e s' : exec e s = Some s' → step s s'.

Definition reachable (saved : option string) (s : Sys) : Prop :=
  rtc step (initial saved) s.


(** ** What each part of an event changes *)

(** The timers a list of effects schedules at time [n]. *)
Definition scheduled (n : nat) (effs : list Effect) : list Timer :=
  omap (λ e, match e with Schedule d cb => Some (mkTimer (n + d) cb) | CallCloseApp => None end) effs.

Lemma perform_fields effs s :
  dev (perform effs s) = dev s ∧ pinDisplay (perform effs s) = pinDisplay s ∧
  lockGen (perform effs s) = lockGen s ∧ lockscreenPin (perform effs s) = lockscreenPin s ∧
  now (perform effs s) = now s ∧
  timers (perform effs s) = timers s ++ scheduled (now s) effs.
Proof.
  revert s. induction effs as [|[d cb|] effs IH]; intros s; simpl.
  - by rewrite app_nil_r.
  - destruct (IH (schedule d cb s)) as (-> & -> & -> & -> & -> & ->). simpl.
    by rewrite <-app_assoc.
  - by destruct (IH (set_app (Nav.handleCloseApp (app s)) s)) as (-> & -> & -> & -> & -> & ->).
Qed.

(** The controller only sees [handleCloseApp] calls from effects. *)
Lemma perform_app (P : Nav.AppState → Prop) effs s :
  (∀ a, P a → P (Nav.handleCloseApp a)) → P (app s) → P (app (perform effs s)).
Proof.
  intros Hclose. revert s. induction effs as [|[d cb|] effs IH]; intros s Hs; simpl; [done| |].
  - by apply IH.
  - apply IH. by apply Hclose.
Qed.

(** The mounts and unmounts touch only timers, [pinDisplay] and [lockGen]. *)
Lemma unmount_boot_fields old s :
  app (unmount_boot old s) = app s ∧ dev (unmount_boot old s) = dev s ∧
  lockscreenPin (unmount_boot old s) = lockscreenPin s ∧ now (unmount_boot old s) = now s ∧
  pinDisplay (unmount_boot old s) = pinDisplay s.
Proof. unfold unmount_boot. by destruct (bool_decide _). Qed.

Lemma mount_boot_fields old s :
  app (mount_boot old s) = app s ∧ dev (mount_boot old s) = dev s ∧
  lockscreenPin (mount_boot old s) = lockscreenPin s ∧ now (mount_boot old s) = now s ∧
  pinDisplay (mount_boot old s) = pinDisplay s.
Proof. unfold mount_boot. by destruct (bool_decide _). Qed.

Lemma mount_lock_fields old b1 s :
  app (mount_lock old b1 s) = app s ∧ dev (mount_lock old b1 s) = dev s ∧
  lockscreenPin (mount_lock old b1 s) = lockscreenPin s ∧ now (mount_lock old b1 s) = now s ∧
  timers (mount_lock old b1 s) = timers s.
Proof. unfold mount_lock. by destruct (bool_decide _). Qed.

Lemma settle_fields old s :
  app (settle old s) = app s ∧ dev (settle old s) = Device.relock (dev s) ∧
  lockscreenPin (settle old s) = lockscreenPin s ∧ now (settle old s) = now s.
Proof.
  unfold settle.
  destruct (mount_lock_fields old (Device.bootState (dev s))
    (mount_boot old (unmount_boot old (set_dev (Device.relock (dev s)) s)))) as (-> & -> & -> & -> & _).
  destruct (mount_boot_fields old (unmount_boot old (set_dev (Device.relock (dev s)) s)))
    as (-> & -> & -> & -> & _).
  by destruct (unmount_boot_fields old (set_dev (Device.relock (dev s)) s)) as (-> & -> & -> & -> & _).
Qed.

Lemma mount_timers (Q : Timer → Prop) old b1 s :
  Forall Q (timers s) →
  (Device.bootState (dev s) = Booting → ∀ n, Q (mkTimer n CbBootComplete)) →
  Forall Q (timers (mount_lock old b1 (mount_boot old (unmount_boot old s)))).
Proof.
  intros Hts Hboot. rewrite (proj2 (proj2 (proj2 (proj2 (mount_lock_fields _ _ _))))).
  assert (Forall Q (timers (unmount_boot old s))) as Hu.
  { unfold unmount_boot. destruct (bool_decide _); [|done]. by apply Forall_filter_sub. }
  assert (Device.bootState (dev (unmount_boot old s)) = Device.bootState (dev s)) as Hd
    by (by rewrite (proj1 (proj2 (unmount_boot_fields _ _)))).
  unfold mount_boot. case_bool_decide as Hb; [|done].
  simpl. rewrite Forall_app, Forall_singleton. split; [done|]. apply Hboot. rewrite <-Hd. by destruct Hb.
Qed.

Lemma settle_timers (Q : Timer → Prop) old s :
  Forall Q (timers s) → (∀ n, Q (mkTimer n CbBootComplete)) →
  Forall Q (timers (settle old s)).
Proof. intros. apply mount_timers; auto. Qed.

Lemma next_timer_lookup ts i t : next_timer ts = Some (i, t) → ts !! i = Some t.
Proof.
  destruct ts as [|t0 ts]; [done|]. intros Hfind%list_find_Some. naive_solver.
Qed.

Lemma next_timer_Forall (Q : Timer → Prop) ts i t :
  next_timer ts = Some (i, t) → Forall Q ts → Q t ∧ Forall Q (delete i ts).
Proof.
  intros Hnext%next_timer_lookup Hts. split; [|by apply Forall_delete].
  rewrite Forall_lookup in Hts. by eapply Hts.
Qed.

Lemma exec_inv e s s' :
  exec e s = Some s' → ∃ s0, handle e s = Some s0 ∧ s' = settle (Device.bootState (dev s)) s0.
Proof. unfold exec. destruct (handle e s); naive_solver. Qed.

Lemma relock_screen_off d :
  Device.screenState (Device.relock d) = ScreenOff → Device.bootState (Device.relock d) ≠ Unlocked.
Proof. unfold Device.relock. case_bool_decide; simpl; naive_solver. Qed.

(** ** Safety of the power lifecycle *)

(** C5: In every reachable state the screen being off implies the device
    is not unlocked: turning the screen off always re-locks
    (DeviceFrame.tsx:286-291, spec §3 and P6). *)
Theorem screen_off_locked saved s :
  reachable saved s → Device.screenState (dev s) = ScreenOff → Device.bootState (dev s) ≠ Unlocked.
Proof.
  intros Hr. apply rtc_inv_r in Hr as [<- | (s1 & _ & [e s' Hstep])]; [done|].
  destruct (exec_inv _ _ _ Hstep) as (s0 & _ & ->).
  destruct (settle_fields (Device.bootState (dev s1)) s0) as (_ & -> & _).
  apply relock_screen_off.
Qed.

(** Rule induction: a property of the initial state that every event
    preserves holds in every reachable state. *)
Lemma rtc_step_inv (I : Sys → Prop) s s' :
  (∀ e x y, I x → exec e x = Some y → I y) → I s → rtc step s s' → I s'.
Proof.
  intros Hstep Hs Hr. induction Hr as [|x y z [e y' Hxy] _ IH]; [done|].
  apply IH. by eapply Hstep.
Qed.

Lemma reachable_ind (I : Sys → Prop) saved s :
  I (initial saved) → (∀ e x y, I x → exec e x = Some y → I y) →
  reachable saved s → I s.
Proof. intros Hinit Hstep. by apply rtc_step_inv. Qed.

Ltac open_guard H := unfold guard in H; case_bool_decide as Hg; [injection H as <-|discriminate].

(** ** The power menu is never shown *)

Definition power_cb (cb : Callback) : bool :=
  match cb with CbPowerOffDone | CbTogglePower _ | CbRestartDone => true | _ => false end.

Definition no_power_timer (t : Timer) : Prop := power_cb (callback t) = false.

Record no_power (s : Sys) : Prop := {
  np_menu : Device.showPowerMenu (dev s) = false;
  np_on : Device.bootState (dev s) ≠ Off;
  np_timers : Forall no_power_timer (timers s);
}.

Lemma longPress_not_delivered : DeviceButtons.longPressDelivered = false.
Proof. vm_compute. reflexivity. Qed.

Lemma validate_no_power pin g p n :
  Forall no_power_timer (scheduled n (LockScreen.validate pin g p)).
Proof. unfold LockScreen.validate. repeat case_bool_decide; destruct (truthy pin); simpl; repeat constructor. Qed.

Lemma perform_no_power effs s :
  no_power s → Forall no_power_timer (scheduled (now s) effs) → no_power (perform effs s).
Proof.
  intros [Hm Ho Ht] Heffs. destruct (perform_fields effs s) as (Hd & _ & _ & _ & _ & Hts).
  split; rewrite ?Hd, ?Hts; [done|done|]. by apply Forall_app.
Qed.

Lemma runCallback_no_power cb s :
  power_cb cb = false → no_power s → no_power (runCallback cb s).
Proof.
  intros Hcb [Hm Ho Ht].
  destruct cb; try done; simpl; unfold Device.handleBootComplete, Device.handleUnlock;
    repeat match goal with |- context [if ?b then _ else _] => destruct b end;
    split; cbn; done.
Qed.

Lemma handle_no_power e s s0 : no_power s → handle e s = Some s0 → no_power s0.
Proof.
  intros Hnp H. pose proof Hnp as [Hm Ho Ht].
  destruct e; simpl in H.
  1-6: open_guard H; split; cbn; done.
  - (* ShadeOpenSettings *)
    open_guard H. split; [done|done|]. apply Forall_app. split; [done|]. by repeat constructor.
  - (* ShortPower *)
    injection H as <-. unfold with_device, Device.handleShortPowerPress.
    rewrite bool_decide_eq_false_2 by done.
    destruct (Device.screenState (dev s)); split; cbn; done.
  - (* LongPower *)
    rewrite longPress_not_delivered in H. by open_guard H.
  - (* MenuPowerOff *) open_guard H; destruct Hg as [Hg _]; congruence.
  - (* MenuRestart *) open_guard H; destruct Hg as [Hg _]; congruence.
  - (* MenuCancel *) open_guard H; destruct Hg as [Hg _]; congruence.
  - (* KeyPress *)
    open_guard H. unfold keyPress. case_bool_decide; [done|].
    apply perform_no_power; [split; cbn; done|]. apply validate_no_power.
  - (* SetPin *)
    open_guard H. split; cbn; done.
  - (* Fire *)
    unfold fire in H. destruct (next_timer (timers s)) as [[i t]|] eqn:Hn; [|done].
    injection H as <-. destruct (next_timer_Forall _ _ _ _ Hn Ht) as [Ht1 Hdel].
    apply runCallback_no_power; [done|]. split; cbn; done.
  - (* Elapse *)
    open_guard H. split; cbn; done.
Qed.

Lemma settle_no_power old s : no_power s → no_power (settle old s).
Proof.
  intros [Hm Ho Ht]. destruct (settle_fields old s) as (_ & Hd & _ & _).
  split; rewrite ?Hd.
  - unfold Device.relock. by case_bool_decide.
  - unfold Device.relock. case_bool_decide; [done|done].
  - apply settle_timers; [done|]. done.
Qed.

Lemma initial_no_power saved : no_power (initial saved).
Proof. split; [done|done|]. by repeat constructor. Qed.

(** C4: No reachable state shows the power menu, is powered off, or has
    a power-off or restart timeout pending: the long-press handlers of
    the power button are never attached (DeviceButtons.tsx:141 spreads
    the function [getHandlers] returned by useLongPress.ts), so Power
    off and Restart (spec §4.3) cannot be reached. *)
Theorem power_menu_unreachable saved s :
  reachable saved s →
  Device.showPowerMenu (dev s) = false ∧ Device.bootState (dev s) ≠ Off ∧
  Forall no_power_timer (timers s).
Proof.
  intros Hr. cut (no_power s); [by intros []|].
  apply (reachable_ind no_power saved); [apply initial_no_power| |done].
  intros e x y Hx (x0 & Hh & ->)%exec_inv.
  apply settle_no_power. by eapply handle_no_power.
Qed.

Lemma run_rtc es s s' : run es s = Some s' → rtc step s s'.
Proof.
  revert s. induction es as [|e es IH]; intros s Hrun; simpl in Hrun.
  - injection Hrun as <-. apply rtc_refl.
  - destruct (exec e s) as [s1|] eqn:He; [|done]. simpl in Hrun.
    eapply rtc_l; [by econstructor|]. by apply IH.
Qed.

Lemma settle_timers_not_booting (Q : Timer → Prop) old s :
  Device.bootState (Device.relock (dev s)) ≠ Booting →
  Forall Q (timers s) → Forall Q (timers (settle old s)).
Proof. intros Hb Hts. apply mount_timers; [done|]. simpl. done. Qed.

(** ** Without a PIN, a locked device never unlocks again *)

(** Callbacks that could move the device out of [Locked]. *)
Definition leaves_lock (cb : Callback) : bool :=
  match cb with CbResetPin _ | CbOpenApp _ => false | _ => true end.

Record locked_out (s : Sys) : Prop := {
  lo_pin : lockscreenPin s = None;
  lo_locked : Device.bootState (dev s) = Locked;
  lo_menu : Device.showPowerMenu (dev s) = false;
  lo_timers : Forall (λ t, leaves_lock (callback t) = false) (timers s);
}.

Lemma handle_locked_out e s s0 :
  locked_out s → handle e s = Some s0 → locked_out s0.
Proof.
  intros Hlo H. pose proof Hlo as [Hp Hl Hm Ht].
  assert (¬ unlocked_on s) as Hnu by (intros [? _]; congruence).
  destruct e; simpl in H.
  1-6: open_guard H; naive_solver.
  - (* ShadeOpenSettings *)
    open_guard H. split; [done|done|done|]. apply Forall_app. split; [done|]. by repeat constructor.
  - (* ShortPower *)
    injection H as <-. unfold with_device, Device.handleShortPowerPress.
    rewrite bool_decide_eq_false_2 by congruence.
    destruct (Device.screenState (dev s)); split; cbn; done.
  - (* LongPower *)
    rewrite longPress_not_delivered in H. by open_guard H.
  - (* MenuPowerOff *) open_guard H; destruct Hg as [Hg _]; congruence.
  - (* MenuRestart *) open_guard H; destruct Hg as [Hg _]; congruence.
  - (* MenuCancel *) open_guard H; destruct Hg as [Hg _]; congruence.
  - (* KeyPress: without a PIN the validation effect does nothing *)
    open_guard H. unfold keyPress. case_bool_decide; [done|].
    unfold LockScreen.validate. rewrite Hp. split; cbn; done.
  - (* SetPin *) open_guard H. naive_solver.
  - (* Fire *)
    unfold fire in H. destruct (next_timer (timers s)) as [[i t]|] eqn:Hn; [|done].
    injection H as <-. destruct (next_timer_Forall _ _ _ _ Hn Ht) as [Ht1 Hdel].
    destruct (callback t); try done; simpl;
      repeat match goal with |- context [if ?b then _ else _] => destruct b end;
      split; cbn; done.
  - (* Elapse *) open_guard H. split; cbn; done.
Qed.

Lemma settle_locked_out old s : locked_out s → locked_out (settle old s).
Proof.
  intros [Hp Hl Hm Ht]. destruct (settle_fields old s) as (_ & Hd & Hp' & _).
  assert (Device.relock (dev s) = dev s) as Hr.
  { unfold Device.relock. case_bool_decide as Hc; [|done]. destruct Hc; congruence. }
  split; rewrite ?Hd, ?Hr, ?Hp'; try done.
  apply settle_timers_not_booting; [|done]. rewrite Hr, Hl. done.
Qed.

(** C2: Once the device is locked with no PIN configured (and no timer
    pending that could change the boot state), every later state is
    still locked: LockScreen.tsx:54 skips validation without a PIN and
    nothing else unlocks, so the device can never be unlocked again in
    this session. *)
Theorem nopin_lockout s s' :
  locked_out s → rtc step s s' → Device.bootState (dev s') = Locked.
Proof.
  intros Hlo Hr. cut (locked_out s'); [by intros []|].
  apply (rtc_step_inv locked_out s s'); [|done|done].
  intros e x y Hx (x0 & Hh & ->)%exec_inv.
  apply settle_locked_out. by eapply handle_locked_out.
Qed.

(** ** The controller inside the system *)

Lemma homeApps_nonempty x : x ∈ homeApps → x ≠ ""%string.
Proof.
  intros Hx ->. assert (bool_decide (""%string ∈ homeApps) = false) as Hf by reflexivity.
  by apply bool_decide_eq_false in Hf.
Qed.

Lemma perform_nav_inv effs s : Nav.nav_inv (app s) → Nav.nav_inv (app (perform effs s)).
Proof. apply perform_app, Nav.close_inv. Qed.

Lemma handle_nav_inv e s s0 :
  Nav.nav_inv (app s) → handle e s = Some s0 → Nav.nav_inv (app s0).
Proof.
  intros Hinv H. destruct e; simpl in H.
  - open_guard H. apply Nav.open_inv; [|done]. apply homeApps_nonempty. naive_solver.
  - open_guard H. by apply Nav.close_inv.
  - open_guard H. by apply Nav.navBackClick_inv.
  - open_guard H. by apply (Nav.dispatch_inv Nav.RecentsClick).
  - open_guard H. apply Nav.open_inv; [|done].
    destruct Hg as (_ & _ & Hx). by apply (Nav.inv_recent_ids _ Hinv).
  - open_guard H. by apply (Nav.dispatch_inv (Nav.RemoveRecent a)).
  - open_guard H. done.
  - injection H as <-. by apply perform_nav_inv.
  - open_guard H. done.
  - open_guard H. by apply perform_nav_inv.
  - open_guard H. by apply perform_nav_inv.
  - open_guard H. done.
  - open_guard H. unfold keyPress. case_bool_decide; [done|]. by apply perform_nav_inv.
  - open_guard H. done.
  - unfold fire in H. destruct (next_timer (timers s)) as [[i t]|]; [|done].
    injection H as <-. destruct (callback t); simpl;
      first [ done | by apply perform_nav_inv | by destruct (bool_decide _)
            | case_bool_decide; [by apply Nav.open_inv | done] ].
  - open_guard H. done.
Qed.

(** C6: The composition keeps the controller's invariant: in every
    reachable state of the whole device the foreground app is the last
    history entry, the history has no equal neighbours and the recents
    list is duplicate-free with at most ten non-empty entries. *)
Theorem system_nav_inv saved s : reachable saved s → Nav.nav_inv (app s).
Proof.
  apply (reachable_ind (λ s, Nav.nav_inv (app s))); [apply Nav.initial_inv|].
  intros e x y Hx (x0 & Hh & ->)%exec_inv.
  rewrite (proj1 (settle_fields _ _)). by eapply handle_nav_inv.
Qed.

(** ** Concrete traces *)

(** The state a trace of events reaches from page load. *)
Definition after (saved : option string) (es : list event) : Sys :=
  default (initial saved) (run es (initial saved)).

Lemma after_reachable saved es :
  is_Some (run es (initial saved)) → reachable saved (after saved es).
Proof.
  intros [s Hs]. unfold after. rewrite Hs. by apply (run_rtc es).
Qed.

(** Boot to the lock screen, type the default PIN, wait for the unlock. *)
Definition unlock_trace : list event :=
  [Fire; KeyPress "1"; KeyPress "2"; KeyPress "3"; KeyPress "4"; Fire]%string.

(** Then open Settings, disable the PIN, press power twice. *)
Definition lockout_trace : list event :=
  unlock_trace ++ [HomeOpen "settings"; SetPin None; ShortPower; ShortPower]%string.
(** ** The status bar opens apps behind the lock screen *)

(** The trace: boot completes (default PIN, so the lock screen shows),
    the Settings shortcut of the notification shade is tapped, its
    300 ms timeout fires. *)
Definition shade_trace : list event := [Fire; ShadeOpenSettings; Fire].

(** C3: A reachable state has the device locked while the controller has
    opened Settings and recorded it in recents: the status bar is shown
    on the lock screen (DeviceFrame.tsx:331) and its shortcut dispatches
    [webdroid:openApp], which [handleOpenApp] serves whatever the boot
    state, contrary to spec §4.4 and §7 (intents are dropped unless
    unlocked). *)
Theorem locked_device_opens_settings :
  ∃ s, reachable None s ∧ Device.bootState (dev s) = Locked ∧
       Nav.currentApp (app s) = Some "settings"%string ∧
       Nav.recentAppsList (app s) = ["settings"]%string.
Proof.
  exists (after None shade_trace).
  split; [apply after_reachable; vm_compute; by eexists|].
  vm_compute. auto.
Qed.

(** ** The power button on an unlocked device *)

Lemma exec_short_power_dev s s1 :
  exec ShortPower s = Some s1 → dev s1 = Device.relock (Device.handleShortPowerPress (dev s)).1.
Proof.
  intros (s0 & Hh & ->)%exec_inv. simpl in Hh. injection Hh as <-.
  rewrite (proj1 (proj2 (settle_fields _ _))). unfold with_device.
  by rewrite (proj1 (perform_fields _ _)).
Qed.

(** On an unlocked device with the screen on, a short press turns
    the screen off and locks; a second short press turns the screen on
    and leaves the device locked (spec P6 and scenario C). *)
Theorem short_press_relocks s s1 :
  Device.bootState (dev s) = Unlocked → Device.screenState (dev s) = ScreenOn →
  exec ShortPower s = Some s1 →
  Device.screenState (dev s1) = ScreenOff ∧ Device.bootState (dev s1) = Locked ∧
  ∀ s2, exec ShortPower s1 = Some s2 →
    Device.screenState (dev s2) = ScreenOn ∧ Device.bootState (dev s2) = Locked.
Proof.
  intros Hb Hs H1%exec_short_power_dev.
  unfold Device.handleShortPowerPress in H1. rewrite Hb, Hs in H1. simpl in H1.
  unfold Device.relock in H1. rewrite bool_decide_eq_true_2 in H1 by (simpl; auto).
  rewrite H1. simpl. split; [done|split; [done|]].
  intros s2 H2%exec_short_power_dev. rewrite H2, H1. done.
Qed.

(** ** Boot always ends on the lock screen *)

Lemma initialPin_truthy saved : truthy (Settings.initialPin saved) = true.
Proof.
  unfold Settings.initialPin. destruct (truthy saved) eqn:H; [done|]. reflexivity.
Qed.

Lemma relock_booting d : Device.bootState (Device.relock d) = Booting → Device.bootState d = Booting.
Proof. unfold Device.relock. by case_bool_decide. Qed.

(** An event never enters [Booting] once the power paths are closed,
    and the PIN only changes while unlocked. *)
Lemma handle_booting e s s0 :
  no_power s → handle e s = Some s0 → Device.bootState (dev s0) = Booting →
  Device.bootState (dev s) = Booting ∧ lockscreenPin s0 = lockscreenPin s.
Proof.
  intros [Hm Ho Ht] H Hb0. destruct e; simpl in H.
  1-7: open_guard H; done.
  - injection H as <-. unfold with_device in *.
    destruct (perform_fields (Device.handleShortPowerPress (dev s)).2
                (set_dev (Device.handleShortPowerPress (dev s)).1 s)) as (Hd & _ & _ & Hp & _).
    rewrite Hd in Hb0. rewrite Hp. unfold Device.handleShortPowerPress in *.
    rewrite bool_decide_eq_false_2 in * by done.
    by destruct (Device.screenState (dev s)).
  - open_guard H. done.
  - open_guard H; destruct Hg as [Hg _]; congruence.
  - open_guard H; destruct Hg as [Hg _]; congruence.
  - open_guard H; destruct Hg as [Hg _]; congruence.
  - open_guard H. unfold keyPress in *. case_bool_decide; [done|].
    destruct (perform_fields (LockScreen.validate (lockscreenPin s) (lockGen s)
                (LockScreen.handleKeyPress k (pinDisplay s)))
                (set_display (LockScreen.handleKeyPress k (pinDisplay s)) s)) as (Hd & _ & _ & Hp & _).
    by rewrite Hd in Hb0.
  - open_guard H. destruct Hg as [[Hg _] _]. simpl in Hb0. congruence.
  - unfold fire in H. destruct (next_timer (timers s)) as [[i t]|] eqn:Hn; [|done].
    injection H as <-. destruct (next_timer_Forall _ _ _ _ Hn Ht) as [Ht1 _].
    unfold no_power_timer in Ht1.
    destruct (callback t); simpl in *; try done;
      unfold Device.handleBootComplete, Device.handleUnlock in *;
      repeat match goal with H : context [if ?b then _ else _] |- _ => destruct b end;
      done.
  - open_guard H. done.
Qed.

Record boot_locks (s : Sys) : Prop := {
  bl_no_power : no_power s;
  bl_pin : Device.bootState (dev s) = Booting → truthy (lockscreenPin s) = true;
}.

(** C33: Whenever a reachable state is booting, a PIN is configured, so
    boot completion always shows the lock screen: the specification's
    scenario D (no credential, boot goes straight to [unlocked]) never
    happens.  At load the PIN defaults to '1234' (SettingsContext.tsx:192)
    and a later boot is unreachable. *)
Theorem booting_has_pin saved s :
  reachable saved s → Device.bootState (dev s) = Booting → truthy (lockscreenPin s) = true.
Proof.
  intros Hr. cut (boot_locks s); [by intros []|].
  apply (reachable_ind boot_locks saved); [|clear s Hr|done].
  - split; [apply initial_no_power | intros _; apply initialPin_truthy].
  - intros e x y [Hnp Hpin] (x0 & Hh & ->)%exec_inv.
    split; [apply settle_no_power; by eapply handle_no_power|].
    destruct (settle_fields (Device.bootState (dev x)) x0) as (_ & -> & -> & _).
    intros Hb%relock_booting. destruct (handle_booting e x x0 Hnp Hh Hb) as [Hbx ->].
    by apply Hpin.
Qed.

(** ** The timer queue *)

Lemma min_deadline_le t0 ts u : u ∈ ts → min_deadline t0 ts ≤ deadline u.
Proof.
  induction ts as [|v ts IH]; [by intros ?%elem_of_nil|].
  intros [->|Hu]%elem_of_cons; simpl; [lia|]. specialize (IH Hu). lia.
Qed.

(** The timer that fires is a pending one with the smallest deadline,
    and every timer scheduled before it has a strictly later deadline:
    earliest deadline first, ties in scheduling order, as the browser
    runs [setTimeout] callbacks. *)
Theorem next_timer_earliest ts i t :
  next_timer ts = Some (i, t) →
  ts !! i = Some t ∧ (∀ u, u ∈ ts → deadline t ≤ deadline u) ∧
  (∀ j u, j < i → ts !! j = Some u → deadline t < deadline u).
Proof.
  destruct ts as [|t0 ts']; [done|]. intros (Hi & Ht & Hbefore)%list_find_Some.
  split; [done|split].
  - intros u Hu. rewrite Ht. by apply min_deadline_le.
  - intros j u Hj Hju. specialize (Hbefore j u Hju Hj).
    pose proof (min_deadline_le t0 (t0 :: ts') u (list_elem_of_lookup_2 _ _ _ Hju)). lia.
Qed.

(** ** The PIN entry *)

Lemma handle_display e s s0 :
  String.length (pinDisplay s) ≤ 4 → handle e s = Some s0 → String.length (pinDisplay s0) ≤ 4.
Proof.
  intros Hd H. destruct e; simpl in H.
  1-7: open_guard H; done.
  - injection H as <-. unfold with_device. by rewrite (proj1 (proj2 (perform_fields _ _))).
  - by open_guard H.
  - open_guard H. unfold with_device. by rewrite (proj1 (proj2 (perform_fields _ _))).
  - open_guard H. unfold with_device. by rewrite (proj1 (proj2 (perform_fields _ _))).
  - by open_guard H.
  - open_guard H. unfold keyPress. case_bool_decide; [done|].
    rewrite (proj1 (proj2 (perform_fields _ _))). simpl.
    by apply keypress_length; [destruct Hg|].
  - by open_guard H.
  - unfold fire in H. destruct (next_timer (timers s)) as [[i t]|]; [|done].
    injection H as <-. destruct (callback t); simpl;
      first [ rewrite (proj1 (proj2 (perform_fields _ _))); done | done
            | destruct (bool_decide _); simpl; [lia|done] ].
  - by open_guard H.
Qed.

(** In every reachable state the lock screen's entry holds at most
    four characters (LockScreen.tsx:85 only appends below four). *)
Theorem pin_display_bounded saved s :
  reachable saved s → String.length (pinDisplay s) ≤ 4.
Proof.
  apply (reachable_ind (λ s, String.length (pinDisplay s) ≤ 4)); [simpl; lia|].
  intros e x y Hx (x0 & Hh & ->)%exec_inv.
  pose proof (handle_display e x x0 Hx Hh) as H0.
  unfold settle, mount_lock.
  set (old := Device.bootState (dev x)).
  destruct (bool_decide _); simpl; [lia|].
  destruct (mount_boot_fields old (unmount_boot old (set_dev (Device.relock (dev x0)) x0)))
    as (_ & _ & _ & _ & ->).
  by destruct (unmount_boot_fields old (set_dev (Device.relock (dev x0)) x0)) as (_ & _ & _ & _ & ->).
Qed.

(** With the default PIN, entering 1-2-3-4 on the lock screen and
    waiting for the 300 ms timeout unlocks; entering 1-1-1-1 and waiting
    for the 500 ms timeout clears the entry and stays locked. *)
Theorem pin_entry_scenarios :
  (Device.bootState ∘ dev) <$> run ([Fire] ++ map KeyPress ["1"; "2"; "3"; "4"]%string ++ [Fire]) (initial None)
    = Some Unlocked ∧
  (λ s, (Device.bootState (dev s), pinDisplay s)) <$>
    run ([Fire] ++ map KeyPress ["1"; "1"; "1"; "1"]%string ++ [Fire]) (initial None)
    = Some (Locked, ""%string).
Proof. split; vm_compute; reflexivity. Qed.

End System.

(** ** Witnesses: the theorems applied at states reached by concrete traces *)
Module SystemWitness.
Import System.

Lemma nopin_lockout_witness :
  reachable None (after None lockout_trace) ∧ locked_out (after None lockout_trace) ∧
  Device.bootState (dev (after None [ShortPower; Fire])) = Locked ∧
  (∀ s', rtc step (after None lockout_trace) s' → Device.bootState (dev s') = Locked).
Proof.
  assert (locked_out (after None lockout_trace)) as Hlo.
  { split; vm_compute; first [reflexivity | constructor]. }
  split; [apply after_reachable; vm_compute; by eexists|].
  split; [done|split; [vm_compute; reflexivity|]].
  intros s' Hr. exact (nopin_lockout _ s' Hlo Hr).
Defined.

Lemma power_menu_unreachable_witness :
  reachable None (after None unlock_trace) ∧
  Device.showPowerMenu (dev (after None unlock_trace)) = false ∧
  Device.bootState (dev (after None unlock_trace)) ≠ Off ∧
  Forall no_power_timer (timers (after None unlock_trace)).
Proof.
  assert (reachable None (after None unlock_trace)) as Hr
    by (apply after_reachable; vm_compute; by eexists).
  split; [done|]. exact (power_menu_unreachable None _ Hr).
Defined.

Lemma screen_off_locked_witness :
  reachable None (after None [Fire; ShortPower]) ∧
  Device.screenState (dev (after None [Fire; ShortPower])) = ScreenOff ∧
  Device.bootState (dev (after None [Fire; ShortPower])) ≠ Unlocked.
Proof.
  assert (reachable None (after None [Fire; ShortPower])) as Hr
    by (apply after_reachable; vm_compute; by eexists).
  assert (Device.screenState (dev (after None [Fire; ShortPower])) = ScreenOff) as Hs
    by (vm_compute; reflexivity).
  split; [done|split; [done|]]. exact (screen_off_locked None _ Hr Hs).
Defined.

Lemma system_nav_inv_witness :
  reachable None (after None (unlock_trace ++ [HomeOpen "weather"]%string)) ∧
  Nav.nav_inv (app (after None (unlock_trace ++ [HomeOpen "weather"]%string))).
Proof.
  assert (reachable None (after None (unlock_trace ++ [HomeOpen "weather"]%string))) as Hr
    by (apply after_reachable; vm_compute; by eexists).
  split; [done|]. exact (system_nav_inv None _ Hr).
Defined.

Lemma short_press_relocks_witness :
  Device.bootState (dev (after None unlock_trace)) = Unlocked ∧
  Device.screenState (dev (after None unlock_trace)) = ScreenOn ∧
  ∃ s1, exec ShortPower (after None unlock_trace) = Some s1 ∧
    Device.screenState (dev s1) = ScreenOff ∧ Device.bootState (dev s1) = Locked.
Proof.
  assert (Device.bootState (dev (after None unlock_trace)) = Unlocked) as Hb
    by (vm_compute; reflexivity).
  assert (Device.screenState (dev (after None unlock_trace)) = ScreenOn) as Hs
    by (vm_compute; reflexivity).
  split; [done|split; [done|]].
  destruct (exec ShortPower (after None unlock_trace)) as [s1|] eqn:He;
    [|vm_compute in He; discriminate].
  exists s1. split; [done|].
  destruct (short_press_relocks _ s1 Hb Hs He) as (H1 & H2 & _). exact (conj H1 H2).
Defined.

Lemma booting_has_pin_witness :
  reachable (Some ""%string) (initial (Some ""%string)) ∧
  Device.bootState (dev (initial (Some ""%string))) = Booting ∧
  truthy (lockscreenPin (initial (Some ""%string))) = true.
Proof.
  assert (reachable (Some ""%string) (initial (Some ""%string))) as Hr by apply rtc_refl.
  split; [done|split; [reflexivity|]]. by apply (booting_has_pin (Some ""%string)).
Defined.

Lemma next_timer_earliest_witness :
  let ts := [mkTimer 800 CbUnlock; mkTimer 300 (CbResetPin 1); mkTimer 300 CbUnlock] in
  next_timer ts = Some (1, mkTimer 300 (CbResetPin 1)) ∧
  ts !! 1 = Some (mkTimer 300 (CbResetPin 1)) ∧
  (∀ u, u ∈ ts → 300 ≤ deadline u).
Proof.
  intros ts. assert (next_timer ts = Some (1, mkTimer 300 (CbResetPin 1))) as Hn
    by (vm_compute; reflexivity).
  destruct (next_timer_earliest ts _ _ Hn) as (H1 & H2 & _).
  split; [done|split; [done|exact H2]].
Defined.

Lemma pin_display_bounded_witness :
  reachable None (after None [Fire; KeyPress "1"; KeyPress "2"]%string) ∧
  String.length (pinDisplay (after None [Fire; KeyPress "1"; KeyPress "2"]%string)) ≤ 4.
Proof.
  assert (reachable None (after None [Fire; KeyPress "1"; KeyPress "2"]%string)) as Hr
    by (apply after_reachable; vm_compute; by eexists).
  split; [done|]. exact (pin_display_bounded None _ Hr).
Defined.
End SystemWitness.
