(* ===== verification/Calculator.v ===== *)
(** * Calculator app

    The state and handlers of [CalculatorApp]
    (src/WebDroid-OS/src/apps/CalculatorApp.tsx).  The calculator parses
    the display with [parseFloat], prints numbers with [String(x)] and
    template literals, and combines them with the four operators.  These
    operations of JavaScript numbers are the class [JsNumber]; the model
    is generic in it, so its theorems hold for IEEE doubles as for any
    other instance.  [JsNumber Z] is an integer instance that runs the
    examples (its [parseFloat] stops at the decimal point). *)

From S2P Require Import Prelude.
From Stdlib Require Import Ascii.
From stdpp Require Import base decidable strings list sets pretty.

(** The number of ['.'] characters of a string. *)
Fixpoint dots (s : string) : nat :=
  match s with
  | EmptyString => 0
  | String c s => (if bool_decide (c = "."%char) then 1 else 0) + dots s
  end.

(** [s.includes(c)] for a one-character [c]. *)
Fixpoint includes (s : string) (c : Ascii.ascii) : bool :=
  match s with
  | EmptyString => false
  | String d s => bool_decide (d = c) || includes s c
  end.

(** ** Interface: the JavaScript number operations the calculator uses *)
Class JsNumber (num : Type) := {
  parseFloat : string → num;
  toString : num → string;               (** [String(x)] and [`${x}`] *)
  js_add : num → num → num;
  js_sub : num → num → num;
  js_mul : num → num → num;
  js_div : num → num → num;
  js_neg : num → num;                    (** unary [-] *)
  js_is_zero : num → bool;               (** [x === 0] *)
  js_zero : num;
  js_hundred : num;
  (** [String(x)] has at most one decimal point (it may be "NaN",
      "Infinity" or use an exponent, but never two points). *)
  toString_dots x : dots (toString x) ≤ 1;
}.

Module Calculator.
Section calculator.
Context `{JsNumber num}.

(** The five [useState] hooks of [CalculatorApp] (lines 11-16). *)
Record Calc := mkCalc {
  displayValue : string;
  operand1 : option num;
  operator : option string;
  isWaitingForOperand2 : bool;
  operationDisplay : string;
}.

Definition initial : Calc := mkCalc "0" None None false "".

Definition set_display (d : string) (c : Calc) : Calc :=
  mkCalc d (operand1 c) (operator c) (isWaitingForOperand2 c) (operationDisplay c).

(** [calculate] (lines 20-34). *)
Definition calculate (val1 val2 : num) (op : string) : num :=
  if bool_decide (op = "+") then js_add val1 val2
  else if bool_decide (op = "-") then js_sub val1 val2
  else if bool_decide (op = "*") then js_mul val1 val2
  else if bool_decide (op = "/") then (if js_is_zero val2 then js_zero else js_div val1 val2)
  else val2.

(** [handleClearClick] (lines 37-44). *)
Definition handleClearClick (c : Calc) : Calc := mkCalc "0" None None false "".

(** [handleToggleSignClick] (lines 47-51). *)
Definition handleToggleSignClick (c : Calc) : Calc :=
  set_display (toString (js_neg (parseFloat (displayValue c)))) c.

(** [handlePercentClick] (lines 54-58). *)
Definition handlePercentClick (c : Calc) : Calc :=
  set_display (toString (js_div (parseFloat (displayValue c)) js_hundred)) c.

(** [handleEqualsClick] (lines 61-84). *)
Definition handleEqualsClick (c : Calc) : Calc :=
  match operand1 c, operator c with
  | Some o1, Some op =>
      if truthy (Some op) then
        let inputValue := parseFloat (displayValue c) in
        let result := calculate o1 inputValue op in
        mkCalc (toString result) None None false
          (toString o1 +:+ " " +:+ op +:+ " " +:+ toString inputValue +:+ " =")
      else c
  | _, _ => c
  end.

(** [buttonValues] (line 87). *)
Definition buttonValues : list string :=
  ["C"; "+/-"; "%"; "/"; "7"; "8"; "9"; "*"; "4"; "5"; "6"; "-"; "1"; "2"; "3"; "+"; "0"; "."; "="].

(** [handleNumberClick] (lines 90-110). *)
Definition handleNumberClick (digit : string) (c : Calc) : Calc :=
  if isWaitingForOperand2 c then
    mkCalc digit (operand1 c) (operator c) false (operationDisplay c)
  else if bool_decide (displayValue c = "0") then
    set_display (if bool_decide (digit = ".") then "0." else digit) c
  else if bool_decide (digit = ".") && includes (displayValue c) "." then c
  else set_display (displayValue c +:+ digit) c.

(** [handleOperatorClick] (lines 113-144). *)
Definition handleOperatorClick (nextOperator : string) (c : Calc) : Calc :=
  let inputValue := parseFloat (displayValue c) in
  match operand1 c with
  | None =>
      mkCalc (displayValue c) (Some inputValue) (Some nextOperator) true
        (toString inputValue +:+ " " +:+ nextOperator)
  | Some o1 =>
      let c1 :=
        match operator c with
        | Some op =>
            if truthy (Some op) then
              let result := calculate o1 inputValue op in
              mkCalc (toString result) (Some result) (operator c) (isWaitingForOperand2 c)
                (toString result +:+ " " +:+ nextOperator)
            else c
        | None => c
        end in
      mkCalc (displayValue c1) (operand1 c1) (Some nextOperator) true (operationDisplay c1)
  end.

(** [/[0-9.]/.test(value)] *)
Definition numberChar (a : Ascii.ascii) : bool :=
  bool_decide (a ∈ String.list_ascii_of_string "0123456789.").

Definition isNumberButton (v : string) : bool :=
  existsb numberChar (String.list_ascii_of_string v).

Definition operators : list string := ["+"; "-"; "*"; "/"].

(** The [onClick] of a button (lines 238-252). *)
Definition press (value : string) (c : Calc) : Calc :=
  if isNumberButton value then handleNumberClick value c
  else if bool_decide (value ∈ operators) then handleOperatorClick value c
  else if bool_decide (value = "=") then handleEqualsClick c
  else if bool_decide (value = "C") then handleClearClick c
  else if bool_decide (value = "+/-") then handleToggleSignClick c
  else if bool_decide (value = "%") then handlePercentClick c
  else c.

Definition run (values : list string) (c : Calc) : Calc :=
  foldl (λ c v, press v c) c values.

(** ** The calculator's invariant *)

(** Operand and operator are set together, the calculator waits for a
    second operand only after an operator, the operator is one of the four
    operator buttons, and the display has at most one decimal point. *)
Record calc_inv (c : Calc) : Prop := {
  ci_pair : operand1 c = None ↔ operator c = None;
  ci_wait : isWaitingForOperand2 c = true → operand1 c ≠ None;
  ci_ops : ∀ op, operator c = Some op → op ∈ operators;
  ci_dots : dots (displayValue c) ≤ 1;
}.

Definition digits : list string := ["0"; "1"; "2"; "3"; "4"; "5"; "6"; "7"; "8"; "9"].

(** What a number button adds to the count of decimal points. *)
Definition dots_of_button (v : string) : Prop :=
  dots v = if bool_decide (v = ".") then 1 else 0.

Lemma dots_append a b : dots (a +:+ b) = dots a + dots b.
Proof. induction a as [|x a IH]; simpl; [done|]. rewrite IH. lia. Qed.

Lemma includes_dots s : includes s "." = false → dots s = 0.
Proof.
  induction s as [|x s IH]; simpl; [done|].
  intros [Hx Hs]%orb_false_iff. apply bool_decide_eq_false in Hx.
  rewrite bool_decide_eq_false_2 by done. by apply IH.
Qed.

Definition button_class (v : string) : Prop :=
  (isNumberButton v = true ∧ dots_of_button v ∧ (v ∉ operators)) ∨
  (isNumberButton v = false ∧ v ∈ operators) ∨
  (isNumberButton v = false ∧ (v ∉ operators) ∧ v ∈ ["="; "C"; "+/-"; "%"]).

#[local] Instance button_class_dec v : Decision (button_class v).
Proof. unfold button_class, dots_of_button. apply _. Defined.

Lemma button_cases v : v ∈ buttonValues → button_class v.
Proof.
  revert v. apply Forall_forall.
  apply (bool_decide_unpack _). vm_compute. reflexivity.
Qed.

Lemma operator_truthy op : op ∈ operators → truthy (Some op) = true.
Proof. intros Hop. apply bool_decide_eq_true_2. intros ->. vm_compute in Hop. set_solver. Qed.

Lemma set_display_inv d c : dots d ≤ 1 → calc_inv c → calc_inv (set_display d c).
Proof. intros Hd [Hp Hw Ho Hdots]. by split. Qed.

Lemma number_inv d c :
  dots_of_button d → calc_inv c → calc_inv (handleNumberClick d c).
Proof.
  intros Hd Hinv. pose proof Hinv as [Hp Hw Ho Hdots].
  assert (dots d ≤ 1) by (rewrite Hd; case_bool_decide; lia).
  unfold dots_of_button in Hd. unfold handleNumberClick.
  destruct (isWaitingForOperand2 c) eqn:Hwait; [split; simpl; naive_solver|].
  destruct (bool_decide (displayValue c = "0")).
  { apply set_display_inv; [|done]. by case_bool_decide; [vm_compute; lia|]. }
  destruct (decide (d = ".")) as [->|Hn].
  - rewrite bool_decide_eq_true_2 by done. simpl.
    destruct (includes (displayValue c) ".") eqn:Hinc; [done|].
    apply set_display_inv; [|done]. rewrite dots_append, includes_dots by done.
    change (dots ".") with 1. lia.
  - rewrite bool_decide_eq_false_2 by done. simpl. apply set_display_inv; [|done].
    rewrite dots_append, Hd, bool_decide_eq_false_2 by done. lia.
Qed.

Lemma operator_inv o c : o ∈ operators → calc_inv c → calc_inv (handleOperatorClick o c).
Proof.
  intros Hop [Hp Hw Ho Hdots]. unfold handleOperatorClick.
  destruct (operand1 c) as [a|] eqn:Ha.
  - destruct (operator c) as [op|] eqn:Hopc; [|naive_solver].
    destruct (truthy (Some op)); split; simpl; first [apply toString_dots | naive_solver].
  - split; simpl; naive_solver.
Qed.

Lemma equals_inv c : calc_inv c → calc_inv (handleEqualsClick c).
Proof.
  intros Hinv. unfold handleEqualsClick.
  destruct (operand1 c), (operator c); try done.
  destruct (truthy _); [|done]. split; simpl; try done. apply toString_dots.
Qed.

Lemma calc_initial_inv : calc_inv initial.
Proof. split; simpl; [done|done|done|]. vm_compute. lia. Qed.

Lemma press_inv v c : v ∈ buttonValues → calc_inv c → calc_inv (press v c).
Proof.
  intros Hv Hinv.
  destruct (button_cases v Hv) as [(Hn & Hd & _) | [(Hn & Hop) | (Hn & Hop & Hrest)]].
  - unfold press. rewrite Hn. by apply number_inv.
  - unfold press. rewrite Hn, bool_decide_eq_true_2 by done. by apply operator_inv.
  - repeat (apply elem_of_cons in Hrest as [-> | Hrest]); [| | | | by apply elem_of_nil in Hrest].
    + change (press "=" c) with (handleEqualsClick c). by apply equals_inv.
    + change (press "C" c) with (handleClearClick c). apply calc_initial_inv.
    + change (press "+/-" c) with (handleToggleSignClick c).
      apply set_display_inv; [apply toString_dots | done].
    + change (press "%" c) with (handlePercentClick c).
      apply set_display_inv; [apply toString_dots | done].
Qed.

Lemma run_cons v vs c : run (v :: vs) c = run vs (press v c).
Proof. done. Qed.

(** ** What a sequence of button presses computes *)

Lemma press_digit d c : d ∈ digits → press d c = handleNumberClick d c.
Proof.
  intros Hd. unfold press. replace (isNumberButton d) with true; [done|].
  repeat (apply elem_of_cons in Hd as [-> | Hd]; [done|]). by apply elem_of_nil in Hd.
Qed.

Lemma press_operator o c : o ∈ operators → press o c = handleOperatorClick o c.
Proof.
  intros Ho. unfold press. rewrite bool_decide_eq_true_2 by done.
  replace (isNumberButton o) with false; [done|].
  repeat (apply elem_of_cons in Ho as [-> | Ho]; [done|]). by apply elem_of_nil in Ho.
Qed.

Lemma press_equals c : press "=" c = handleEqualsClick c.
Proof. reflexivity. Qed.

Lemma digit_not_dot d : d ∈ digits → d ≠ ".".
Proof. intros Hd ->. vm_compute in Hd. set_solver. Qed.

Lemma number_on_zero d c :
  d ∈ digits → isWaitingForOperand2 c = false → displayValue c = "0" →
  handleNumberClick d c = set_display d c.
Proof.
  intros Hd Hw H0. unfold handleNumberClick. rewrite Hw, H0.
  rewrite bool_decide_eq_true_2 by done. by rewrite bool_decide_eq_false_2 by (by apply digit_not_dot).
Qed.

Lemma number_waiting d c :
  isWaitingForOperand2 c = true →
  handleNumberClick d c = mkCalc d (operand1 c) (operator c) false (operationDisplay c).
Proof. intros Hw. unfold handleNumberClick. by rewrite Hw. Qed.

Lemma operator_first o c :
  operand1 c = None →
  handleOperatorClick o c =
    mkCalc (displayValue c) (Some (parseFloat (displayValue c))) (Some o) true
      (toString (parseFloat (displayValue c)) +:+ " " +:+ o).
Proof. intros Ha. unfold handleOperatorClick. by rewrite Ha. Qed.

Lemma operator_chain o c a op :
  operand1 c = Some a → operator c = Some op → op ∈ operators →
  handleOperatorClick o c =
    let r := calculate a (parseFloat (displayValue c)) op in
    mkCalc (toString r) (Some r) (Some o) true (toString r +:+ " " +:+ o).
Proof.
  intros Ha Hop Hops. unfold handleOperatorClick. rewrite Ha, Hop.
  by rewrite operator_truthy.
Qed.

Lemma equals_result c a op :
  operand1 c = Some a → operator c = Some op → op ∈ operators →
  displayValue (handleEqualsClick c) = toString (calculate a (parseFloat (displayValue c)) op) ∧
  isWaitingForOperand2 (handleEqualsClick c) = false.
Proof.
  intros Ha Hop Hops. unfold handleEqualsClick. rewrite Ha, Hop.
  by rewrite operator_truthy.
Qed.

Lemma number_append d c :
  isWaitingForOperand2 c = false → displayValue c ≠ "0" → d ≠ "." →
  handleNumberClick d c = set_display (displayValue c +:+ d) c.
Proof.
  intros Hw H0 Hd. unfold handleNumberClick. rewrite Hw.
  by rewrite !bool_decide_eq_false_2 by done.
Qed.

(** The state after typing one digit on a fresh calculator. *)
Lemma run_first_digit x vs :
  x ∈ digits → run (x :: vs) initial = run vs (set_display x initial).
Proof. intros Hx. rewrite run_cons, press_digit, number_on_zero by done. done. Qed.

(** Typing a digit, an operator, a digit and [=] shows the operator
    applied to the two digits; a division by zero shows 0 (line 30). *)
Theorem single_operation x op y :
  x ∈ digits → op ∈ operators → y ∈ digits →
  displayValue (run [x; op; y; "="] initial) = toString (calculate (parseFloat x) (parseFloat y) op) ∧
  (op = "/" → js_is_zero (parseFloat y) = true →
   displayValue (run [x; op; y; "="] initial) = toString js_zero).
Proof.
  intros Hx Hop Hy.
  assert (displayValue (run [x; op; y; "="] initial) =
          toString (calculate (parseFloat x) (parseFloat y) op)) as Hres.
  { rewrite run_first_digit, !run_cons by done.
    rewrite (press_operator op), operator_first by done.
    rewrite (press_digit y), number_waiting by done.
    simpl run. refine (proj1 (equals_result _ (parseFloat x) op _ _ Hop)); reflexivity. }
  split; [done|]. intros -> Hz. rewrite Hres. unfold calculate. by rewrite Hz.
Qed.

(** C38: The calculator evaluates a chain strictly from left to right,
    without operator precedence: [x op1 y op2 z =] shows
    [(x op1 y) op2 z]. *)
Theorem left_to_right x op1 y op2 z :
  x ∈ digits → op1 ∈ operators → y ∈ digits → op2 ∈ operators → z ∈ digits →
  displayValue (run [x; op1; y; op2; z; "="] initial) =
  toString (calculate (calculate (parseFloat x) (parseFloat y) op1) (parseFloat z) op2).
Proof.
  intros Hx Hop1 Hy Hop2 Hz.
  rewrite run_first_digit, !run_cons by done.
  rewrite (press_operator op1), operator_first by done.
  rewrite (press_digit y), number_waiting by done.
  rewrite (press_operator op2), (operator_chain _ _ (parseFloat x) op1) by done.
  rewrite (press_digit z), number_waiting by done.
  simpl run. refine (proj1 (equals_result _ (calculate (parseFloat x) (parseFloat y) op1) op2 _ _ Hop2)); reflexivity.
Qed.

(** C34: Pressing a second operator right after the first (to correct
    it) applies the first operator to the displayed operand twice:
    [x op1 op2] shows [x op1 x] and keeps [op2] pending. *)
Theorem operator_change_applies x op1 op2 :
  x ∈ digits → op1 ∈ operators → op2 ∈ operators →
  displayValue (run [x; op1; op2] initial) = toString (calculate (parseFloat x) (parseFloat x) op1) ∧
  operator (run [x; op1; op2] initial) = Some op2.
Proof.
  intros Hx Hop1 Hop2.
  rewrite run_first_digit, !run_cons by done.
  rewrite (press_operator op1), operator_first by done.
  by rewrite (press_operator op2), (operator_chain _ _ (parseFloat x) op1) by done.
Qed.

(** C35: After [=] the calculator does not wait for a new number: a digit
    typed next is appended to the result (unless the result prints as
    "0"). *)
Theorem digit_after_equals_appends x op y d :
  x ∈ digits → op ∈ operators → y ∈ digits → d ∈ digits →
  toString (calculate (parseFloat x) (parseFloat y) op) ≠ "0" →
  displayValue (run [x; op; y; "="; d] initial) =
  toString (calculate (parseFloat x) (parseFloat y) op) +:+ d.
Proof.
  intros Hx Hop Hy Hd H0.
  rewrite run_first_digit, !run_cons by done.
  rewrite (press_operator op), operator_first by done.
  rewrite (press_digit y), number_waiting by done.
  rewrite press_equals, (press_digit d) by done. simpl run.
  destruct (equals_result (mkCalc y (Some (parseFloat x)) (Some op) false
                             (toString (parseFloat x) +:+ " " +:+ op)) (parseFloat x) op)
    as [Hdisp Hw]; [done|done|done|].
  rewrite number_append by (rewrite ?Hdisp; auto using digit_not_dot).
  simpl. by rewrite Hdisp.
Qed.

(** Every sequence of button presses keeps the calculator's
    invariant; in particular the display never shows two decimal points
    (line 103). *)
Theorem calc_reachable_inv vs :
  Forall (λ v, v ∈ buttonValues) vs → calc_inv (run vs initial).
Proof.
  intros Hvs. cut (∀ c, calc_inv c → calc_inv (run vs c)); [intros Hc; apply Hc, calc_initial_inv|].
  induction Hvs as [|v vs Hv _ IH]; intros c Hc; [done|]. rewrite run_cons. by apply IH, press_inv.
Qed.
End calculator.
End Calculator.

(** ** An integer instance, to run the calculator on examples

    Integers with truncating division, printed by stdpp's [pretty]; its
    [parseFloat] reads an optional sign and the leading digits. *)
Module CalcZ.

Definition digit_value (a : Ascii.ascii) : option Z :=
  let n := Ascii.nat_of_ascii a in
  if (48 <=? n)%nat && (n <=? 57)%nat then Some (Z.of_nat n - 48)%Z else None.

Fixpoint digits_value (s : string) (acc : Z) : Z :=
  match s with
  | EmptyString => acc
  | String a s =>
      match digit_value a with Some d => digits_value s (10 * acc + d)%Z | None => acc end
  end.

Definition parseZ (s : string) : Z :=
  match s with
  | String a s' => if bool_decide (a = "-"%char) then (- digits_value s' 0)%Z else digits_value s 0
  | EmptyString => 0%Z
  end.

Lemma pretty_N_char_not_dot n : pretty_N_char n ≠ "."%char.
Proof. unfold pretty_N_char. by repeat case_match. Qed.

Lemma dots_pretty_N_go x s : dots (pretty_N_go x s) = dots s.
Proof.
  revert s. induction (N.lt_wf_0 x) as [x _ IH]; intros s.
  destruct (decide (x = 0%N)) as [->|Hx]; [by rewrite pretty_N_go_0|].
  rewrite pretty_N_go_step by lia. rewrite IH by (apply N.div_lt; lia).
  simpl. by rewrite bool_decide_eq_false_2 by apply pretty_N_char_not_dot.
Qed.

Lemma dots_pretty_N (x : N) : dots (pretty x) = 0.
Proof. unfold pretty, pretty_N. case_decide; [reflexivity|]. by rewrite dots_pretty_N_go. Qed.

Lemma dots_pretty_Z (z : Z) : dots (pretty z) = 0.
Proof.
  destruct z as [|p|p]; [reflexivity|apply dots_pretty_N|].
  unfold pretty at 1, pretty_Z. rewrite Calculator.dots_append. apply dots_pretty_N.
Qed.

#[export] Instance JsNumber_Z : JsNumber Z.
Proof.
  refine {| parseFloat := parseZ; toString := pretty; js_add := Z.add; js_sub := Z.sub;
            js_mul := Z.mul; js_div := Z.quot; js_neg := Z.opp; js_is_zero := Z.eqb 0;
            js_zero := 0%Z; js_hundred := 100%Z |}.
  intros x. rewrite dots_pretty_Z. lia.
Defined.
End CalcZ.

(** ** Witnesses on the integer instance *)
Module CalculatorWitness.
Import Calculator CalcZ.

Lemma calc_reachable_inv_witness :
  Forall (λ v, v ∈ buttonValues) ["1"; "."; "5"; "+"; "."; "."; "2"; "="] ∧
  calc_inv (@run Z _ ["1"; "."; "5"; "+"; "."; "."; "2"; "="] initial).
Proof.
  assert (Forall (λ v, v ∈ buttonValues) ["1"; "."; "5"; "+"; "."; "."; "2"; "="]) as H
    by compute_decide.
  split; [exact H | exact (calc_reachable_inv _ H)].
Defined.

Lemma single_operation_witness :
  "8" ∈ digits ∧ "/" ∈ operators ∧ "0" ∈ digits ∧
  @displayValue Z (run ["8"; "/"; "0"; "="] initial) = "0".
Proof.
  assert ("8" ∈ digits) as Hx by compute_decide.
  assert ("/" ∈ operators) as Hop by compute_decide.
  assert ("0" ∈ digits) as Hy by compute_decide.
  split; [done|split; [done|split; [done|]]].
  destruct (single_operation "8" "/" "0" Hx Hop Hy) as [_ Hz].
  rewrite Hz; [reflexivity|reflexivity|reflexivity].
Defined.

Lemma left_to_right_witness :
  "2" ∈ digits ∧ "+" ∈ operators ∧ "3" ∈ digits ∧ "*" ∈ operators ∧ "4" ∈ digits ∧
  @displayValue Z (run ["2"; "+"; "3"; "*"; "4"; "="] initial) = "20".
Proof.
  split; [compute_decide|split; [compute_decide|split; [compute_decide|split; [compute_decide|split; [compute_decide|]]]]].
  rewrite left_to_right by compute_decide. reflexivity.
Defined.

Lemma operator_change_applies_witness :
  "2" ∈ digits ∧ "+" ∈ operators ∧ "-" ∈ operators ∧
  @displayValue Z (run ["2"; "+"; "-"] initial) = "4".
Proof.
  split; [compute_decide|split; [compute_decide|split; [compute_decide|]]].
  rewrite (proj1 (operator_change_applies "2" "+" "-" ltac:(compute_decide) ltac:(compute_decide) ltac:(compute_decide))).
  reflexivity.
Defined.

Lemma digit_after_equals_appends_witness :
  "2" ∈ digits ∧ "+" ∈ operators ∧ "3" ∈ digits ∧ "1" ∈ digits ∧
  @displayValue Z (run ["2"; "+"; "3"; "="; "1"] initial) = "51".
Proof.
  split; [compute_decide|split; [compute_decide|split; [compute_decide|split; [compute_decide|]]]].
  rewrite digit_after_equals_appends by (compute_decide || (vm_compute; discriminate)).
  reflexivity.
Defined.
End CalculatorWitness.
