(* ===== verification/Notes.v ===== *)
(** * Notes app

    [NotesApp] (src/src/apps/NotesApp.tsx): a list of notes kept in
    [localStorage] under ['webdroid-notes'], a list view sorted by the
    [notesSortOrder] setting, a detail view that shows a note (its
    [[[link]]] syntax split by [parseAndRenderLinks]) or edits it in a
    textarea.  [Links] models the link parser, [Sorting] the stable sort
    of the list view and [Notes] the component: its [useState] hooks, its
    handlers, the two effects (load on mount, [editText] kept in sync
    with [currentNoteId] and [notes]) and the storage entry.  The
    storage holds the note list itself: [JSON.stringify] and
    [JSON.parse] are inverse on notes (strings and integer timestamps). *)

From S2P Require Import Prelude.
From Stdlib Require Import Ascii.
From stdpp Require Import base decidable strings list sorting pretty.

(** A character string as the parser reads it. *)
Abbreviation chars := (list ascii).

Module Links.

(** The pieces [parseAndRenderLinks] returns: plain text, and a link
    button labelled [[[target]]]. *)
Inductive Part := Text (t : chars) | Link (target : chars).

(** What a piece shows on screen. *)
Definition render (p : Part) : chars :=
  match p with
  | Text t => t
  | Link x => ["["; "["] ++ x ++ ["]"; "]"]
  end%char.

(** [[^\]]+] run greedily: the longest prefix without [']']. *)
Fixpoint take_run (t : chars) : chars * chars :=
  match t with
  | [] => ([], [])
  | c :: t' => if bool_decide (c = "]"%char) then ([], t) else let '(x, r) := take_run t' in (c :: x, r)
  end.

(** A match of [/\[\[([^\]]+)\]\]/] at the head of [s]: its group and
    what follows it.  [[^\]]+] cannot end before a character other than
    [']'], so the greedy run is the only candidate. *)
Definition link_at (s : chars) : option (chars * chars) :=
  match s with
  | "[" :: "[" :: t =>
      match take_run t with
      | ((_ :: _) as x, "]" :: "]" :: r) => Some (x, r)
      | _ => None
      end
  | _ => None
  end%char.
#[local] Arguments link_at : simpl never.

(** The [while ((match = linkPattern.exec(text)) !== null)] loop
    (NotesApp.tsx:34-54) and the remaining text (57-59): [text] is the
    text since [lastIndex], [s] the input from the current position; the
    global regex finds the leftmost match.  [fuel] bounds the positions. *)
Fixpoint parse_go (fuel : nat) (text : chars) (s : chars) : list Part :=
  match fuel with
  | 0 => []
  | S fuel =>
      match s with
      | [] => match text with [] => [] | _ => [Text text] end
      | c :: s' =>
          match link_at s with
          | Some (x, r) => match text with [] => [] | _ => [Text text] end ++ Link x :: parse_go fuel [] r
          | None => parse_go fuel (text ++ [c]) s'
          end
      end
  end.

(** [parseAndRenderLinks] (NotesApp.tsx:24-62). *)
Definition parseAndRenderLinks (text : string) : list Part :=
  let s := String.list_ascii_of_string text in
  if bool_decide (text = "") then [] else parse_go (S (length s)) [] s.

(** A part is what the parser can produce: non-empty text, or a
    non-empty link target without [']']. *)
Definition part_ok (p : Part) : Prop :=
  match p with
  | Text t => t ≠ []
  | Link x => x ≠ [] ∧ "]"%char ∉ x
  end.

Lemma take_run_spec t x r :
  take_run t = (x, r) → t = x ++ r ∧ "]"%char ∉ x.
Proof.
  revert x r. induction t as [|c t IH]; intros x r; simpl.
  - intros [= <- <-]. split; [done|]. apply not_elem_of_nil.
  - case_bool_decide as Hc.
    + intros [= <- <-]. split; [done|]. apply not_elem_of_nil.
    + destruct (take_run t) as [x' r'] eqn:Ht. intros [= <- <-].
      destruct (IH x' r' eq_refl) as [-> Hx]. split; [done|].
      rewrite elem_of_cons. naive_solver.
Qed.

Lemma link_at_spec s x r :
  link_at s = Some (x, r) →
  s = ["["; "["]%char ++ x ++ ["]"; "]"]%char ++ r ∧ x ≠ [] ∧ "]"%char ∉ x.
Proof.
  unfold link_at. intros H.
  repeat (case_match; try discriminate); simplify_eq.
  match goal with Ht : take_run _ = _ |- _ => apply take_run_spec in Ht as [-> Hx] end.
  split; [reflexivity|done].
Qed.

Lemma parse_go_roundtrip fuel text s :
  length s < fuel → concat (map render (parse_go fuel text s)) = text ++ s.
Proof.
  revert text s. induction fuel as [|fuel IH]; intros text s Hlen; [lia|].
  destruct s as [|c s']; simpl.
  - destruct text; simpl; by rewrite ?app_nil_r.
  - destruct (link_at (c :: s')) as [[x r]|] eqn:Hlink.
    + apply link_at_spec in Hlink as (Hs & _ & _).
      assert (length r < fuel) as Hr.
      { assert (length (c :: s') = 4 + length x + length r) as Hl
          by (rewrite Hs; simpl; rewrite length_app; simpl; lia). lia. }
      rewrite Hs. destruct text as [|t0 text]; simpl; rewrite IH by done; by rewrite <-!app_assoc.
    + rewrite IH by (simpl in Hlen; lia). by rewrite <-app_assoc.
Qed.

Lemma parse_go_ok fuel text s :
  Forall part_ok (parse_go fuel text s).
Proof.
  revert text s. induction fuel as [|fuel IH]; intros text s; [constructor|].
  destruct s as [|c s']; simpl.
  - destruct text; repeat constructor; done.
  - destruct (link_at (c :: s')) as [[x r]|] eqn:Hlink; [|apply IH].
    apply link_at_spec in Hlink as (_ & Hx & Hnx).
    apply Forall_app. split; [destruct text; repeat constructor; done|].
    constructor; [done|apply IH].
Qed.
End Links.

Module Sorting.

(** [type NotesSortOrder] of SettingsContext.tsx. *)
Inductive NotesSortOrder := Newest | Oldest.

(** A note as stored (NotesApp.tsx:16-21); [timestamp] is [Date.now()],
    an integer number of milliseconds. *)
Record Note := mkNote { id : string; title : string; content : string; timestamp : Z }.

(** The comparator of [getSortedNotes] (NotesApp.tsx:223-229) is at most
    zero: [a] may stay in front of [b]. *)
Definition cmp_le (order : NotesSortOrder) (a b : Note) : bool :=
  match order with
  | Newest => bool_decide (timestamp b - timestamp a ≤ 0)%Z
  | Oldest => bool_decide (timestamp a - timestamp b ≤ 0)%Z
  end.

(** [Array.prototype.sort] is stable: an element is placed before the
    first later one it may precede. *)
Fixpoint insert_by (order : NotesSortOrder) (x : Note) (l : list Note) : list Note :=
  match l with
  | [] => [x]
  | y :: l' => if cmp_le order x y then x :: y :: l' else y :: insert_by order x l'
  end.

(** [getSortedNotes] (NotesApp.tsx:222-230). *)
Definition getSortedNotes (order : NotesSortOrder) (notes : list Note) : list Note :=
  foldr (insert_by order) [] notes.

Lemma cmp_le_total order a b : cmp_le order a b = false → cmp_le order b a = true.
Proof. destruct order; simpl; intros H%bool_decide_eq_false; apply bool_decide_eq_true; lia. Qed.

Lemma insert_by_perm order x l : insert_by order x l ≡ₚ x :: l.
Proof.
  induction l as [|y l IH]; simpl; [done|].
  destruct (cmp_le order x y); [done|]. rewrite IH. apply perm_swap.
Qed.

Lemma insert_by_sorted order x l :
  Sorted (λ a b, cmp_le order a b = true) l →
  Sorted (λ a b, cmp_le order a b = true) (insert_by order x l).
Proof.
  induction 1 as [|y l Hl IH Hhd]; simpl; [repeat constructor|].
  destruct (cmp_le order x y) eqn:Hxy; [by repeat constructor|].
  constructor; [done|]. apply cmp_le_total in Hxy.
  destruct l as [|z l]; simpl; [by repeat constructor|].
  inversion Hhd; subst. destruct (cmp_le order x z); by constructor.
Qed.
End Sorting.

Module Notes.
Import Sorting.

Inductive ViewMode := ListView | DetailView.
Inductive DetailMode := ViewNote | EditNote.

#[export] Instance ViewMode_eq_dec : EqDecision ViewMode.
Proof. solve_decision. Defined.
#[export] Instance DetailMode_eq_dec : EqDecision DetailMode.
Proof. solve_decision. Defined.

(** The ['webdroid-notes'] entry of [localStorage]: absent, a JSON array
    of notes, or text [JSON.parse] rejects. *)
Inductive Stored := NoEntry | Saved (l : list Note) | Corrupt.

(** The [useState] hooks of [NotesApp] (NotesApp.tsx:66-70), the identity
    of the [notes] array (a counter bumped by every [setNotes], which is
    what the effect's dependency list compares) and the storage entry. *)
Record NotesState := mkNotes {
  viewMode : ViewMode;
  detailMode : DetailMode;
  currentNoteId : option string;
  notes : list Note;
  editText : string;
  notesGen : nat;
  stored : Stored;
}.

Definition set_view (v : ViewMode) (s : NotesState) : NotesState :=
  mkNotes v (detailMode s) (currentNoteId s) (notes s) (editText s) (notesGen s) (stored s).
Definition set_detail (d : DetailMode) (s : NotesState) : NotesState :=
  mkNotes (viewMode s) d (currentNoteId s) (notes s) (editText s) (notesGen s) (stored s).
Definition set_edit_text (t : string) (s : NotesState) : NotesState :=
  mkNotes (viewMode s) (detailMode s) (currentNoteId s) (notes s) t (notesGen s) (stored s).

(** [setNotes(l)]: a new array. *)
Definition setNotes (l : list Note) (s : NotesState) : NotesState :=
  mkNotes (viewMode s) (detailMode s) (currentNoteId s) l (editText s) (S (notesGen s)) (stored s).

(** [saveNotes] (NotesApp.tsx:110-117). *)
Definition saveNotes (l : list Note) (s : NotesState) : NotesState :=
  let s := setNotes l s in
  mkNotes (viewMode s) (detailMode s) (currentNoteId s) (notes s) (editText s) (notesGen s) (Saved l).

(** [notes.find(note => note.id === id)] *)
Definition find_note (i : string) (l : list Note) : option Note :=
  snd <$> list_find (λ n, id n = i) l.

(** The whitespace [String.prototype.trim] removes, on ASCII text. *)
Definition is_ws (c : ascii) : bool :=
  bool_decide (c ∈ [" "; "009"; "010"; "011"; "012"; "013"]%char).

Definition trim (t : string) : chars :=
  let drop := fix drop (l : chars) := match l with c :: l' => if is_ws c then drop l' else l | [] => [] end in
  rev (drop (rev (drop (String.list_ascii_of_string t)))).

(** [handleNoteSelect] (NotesApp.tsx:120-125). *)
Definition handleNoteSelect (i : string) (s : NotesState) : NotesState :=
  mkNotes DetailView ViewNote (Some i) (notes s) (editText s) (notesGen s) (stored s).

(** [handleNewNote] (NotesApp.tsx:128-134). *)
Definition handleNewNote (s : NotesState) : NotesState :=
  mkNotes DetailView EditNote None (notes s) "" (notesGen s) (stored s).

(** [note-${timestamp}] *)
Definition new_note_id (now : Z) : string := "note-" +:+ pretty now.

(** [handleSaveNote] (NotesApp.tsx:137-168), [now] being [Date.now()]. *)
Definition handleSaveNote (now : Z) (s : NotesState) : NotesState :=
  if bool_decide (trim (editText s) = []) then set_view ListView s
  else
    let s1 :=
      if truthy (currentNoteId s) then
        saveNotes ((λ n, if bool_decide (Some (id n) = currentNoteId s)
                         then mkNote (id n) (title n) (editText s) now else n) <$> notes s) s
      else saveNotes (notes s ++ [mkNote (new_note_id now) "" (editText s) now]) s in
    set_view ListView s1.

(** [handleDeleteNote] (NotesApp.tsx:171-178). *)
Definition handleDeleteNote (s : NotesState) : NotesState :=
  if truthy (currentNoteId s)
  then set_view ListView (saveNotes (filter (λ n, Some (id n) ≠ currentNoteId s) (notes s)) s)
  else s.

(** [handleBack] (NotesApp.tsx:181-195), [confirm] being the answer to
    [window.confirm('Discard unsaved changes?')]. *)
Definition handleBack (confirm : bool) (s : NotesState) : NotesState :=
  match detailMode s with
  | EditNote =>
      if confirm then
        if truthy (currentNoteId s) then set_detail ViewNote s else set_view ListView s
      else s
  | ViewNote => set_view ListView s
  end.

(** [handleToggleEditMode] (NotesApp.tsx:206-209). *)
Definition handleToggleEditMode (s : NotesState) : NotesState :=
  set_detail (match detailMode s with ViewNote => EditNote | EditNote => ViewNote end) s.

(** The effect of NotesApp.tsx:98-107: when [currentNoteId] or the
    [notes] array changed since [prev], [editText] follows the current
    note. *)
Definition syncEditText (prev : option string * nat) (s : NotesState) : NotesState :=
  if bool_decide ((currentNoteId s, notesGen s) = prev) then s
  else if truthy (currentNoteId s) then
    match currentNoteId s ≫= λ i, find_note i (notes s) with
    | Some n => set_edit_text (content n) s
    | None => s
    end
  else set_edit_text "" s.

(** The mount: the load effect (NotesApp.tsx:85-95) reads the storage
    ([JSON.parse] failing on [Corrupt]), and the sync effect clears
    [editText] since no note is selected. *)
Definition load (st : Stored) : list Note :=
  match st with NoEntry => [] | Saved l => l | Corrupt => [] end.

Definition mount (st : Stored) : NotesState :=
  let s0 := mkNotes ListView ViewNote None [] "" 0 st in
  let s1 := match st with NoEntry => s0 | _ => setNotes (load st) s0 end in
  set_edit_text "" s1.

(** The user's actions, offered where the rendered view shows them. *)
Inductive event :=
  | Select (i : string)       (** a card of the list (line 336) *)
  | NewNote                   (** the floating button (line 351) *)
  | TypeText (t : string)     (** the textarea's [onChange] (line 380) *)
  | Save (now : Z)            (** Save (lines 285, 395) *)
  | Delete                    (** Delete (lines 299, 426) *)
  | Back (confirm : bool)     (** Back and Cancel (lines 252, 389) *)
  | ToggleEdit.               (** Edit (lines 272, 432) *)

Definition enabled (e : event) (s : NotesState) : Prop :=
  match e with
  | Select i => viewMode s = ListView ∧ i ∈ id <$> notes s
  | NewNote => viewMode s = ListView
  | TypeText _ | Save _ => viewMode s = DetailView ∧ detailMode s = EditNote
  | Delete => viewMode s = DetailView ∧ truthy (currentNoteId s) = true
  | Back _ => viewMode s = DetailView
  | ToggleEdit => viewMode s = DetailView ∧ detailMode s = ViewNote ∧ truthy (currentNoteId s) = true
  end.

#[export] Instance enabled_dec e s : Decision (enabled e s).
Proof. destruct e; simpl; apply _. Defined.

Definition handle (e : event) (s : NotesState) : NotesState :=
  match e with
  | Select i => handleNoteSelect i s
  | NewNote => handleNewNote s
  | TypeText t => set_edit_text t s
  | Save now => handleSaveNote now s
  | Delete => handleDeleteNote s
  | Back c => handleBack c s
  | ToggleEdit => handleToggleEditMode s
  end.

Definition exec (e : event) (s : NotesState) : option NotesState :=
  if bool_decide (enabled e s) then Some (syncEditText (currentNoteId s, notesGen s) (handle e s))
  else None.

Fixpoint run (es : list event) (s : NotesState) : option NotesState :=
  match es with [] => Some s | e :: es => exec e s ≫= run es end.
End Notes.

(** ** Properties of the Notes app *)
Section notes_properties.
Import Links Sorting Notes.

Lemma filter_insert_by order t x l :
  filter (λ n, timestamp n = t) (insert_by order x l) = filter (λ n, timestamp n = t) (x :: l).
Proof.
  induction l as [|y l IH]; simpl; [done|].
  destruct (cmp_le order x y) eqn:Hxy; [done|]. rewrite !filter_cons, IH, !filter_cons.
  destruct (decide (timestamp x = t)) as [Hx|Hx], (decide (timestamp y = t)) as [Hy|Hy]; try done.
  exfalso. destruct order; simpl in Hxy; apply bool_decide_eq_false in Hxy; lia.
Qed.

(** The list view shows every note once, ordered by timestamp as
    the setting asks, and notes with the same timestamp keep their stored
    order ([Array.prototype.sort] is stable). *)
Theorem sorted_notes order l :
  getSortedNotes order l ≡ₚ l ∧
  Sorted (λ a b, cmp_le order a b = true) (getSortedNotes order l) ∧
  ∀ t, filter (λ n, timestamp n = t) (getSortedNotes order l) = filter (λ n, timestamp n = t) l.
Proof.
  induction l as [|x l (Hp & Hs & Hst)]; simpl; [split; [done|split; [constructor|done]]|].
  split; [by rewrite insert_by_perm, Hp|split; [by apply insert_by_sorted|]].
  intros t. rewrite filter_insert_by, !filter_cons, Hst. done.
Qed.

(** Rendering the pieces [parseAndRenderLinks] returns gives back the
    note's text exactly, and every piece is non-empty text or a link
    whose target is non-empty and has no [']']. *)
Theorem links_roundtrip text :
  concat (map render (parseAndRenderLinks text)) = String.list_ascii_of_string text ∧
  Forall part_ok (parseAndRenderLinks text).
Proof.
  unfold parseAndRenderLinks. case_bool_decide as H; [by subst|].
  split; [apply parse_go_roundtrip; lia | apply parse_go_ok].
Qed.

(** The storage entry always holds the notes on screen. *)
Definition synced (s : NotesState) : Prop := load (stored s) = notes s.

Lemma mount_notes st : notes (mount st) = load st.
Proof. by destruct st. Qed.

Lemma saveNotes_synced l s : synced (saveNotes l s).
Proof. done. Qed.

Lemma sync_fields prev s :
  notes (syncEditText prev s) = notes s ∧ stored (syncEditText prev s) = stored s ∧
  currentNoteId (syncEditText prev s) = currentNoteId s ∧
  viewMode (syncEditText prev s) = viewMode s ∧ detailMode (syncEditText prev s) = detailMode s.
Proof.
  unfold syncEditText. case_bool_decide; [done|].
  destruct (truthy _); [|done]. by destruct (_ ≫= _).
Qed.

Lemma handle_synced e s : synced s → synced (handle e s).
Proof.
  intros Hs. destruct e; simpl; try done.
  - unfold handleSaveNote. case_bool_decide; [done|]. by destruct (truthy _).
  - unfold handleDeleteNote. by destruct (truthy _).
  - unfold handleBack. destruct (detailMode s); [done|]. by destruct confirm, (truthy (currentNoteId s)).
Qed.

Lemma notes_exec_inv (P : NotesState → Prop) e s s' :
  (∀ prev x, P x → P (syncEditText prev x)) → (P s → P (handle e s)) →
  P s → exec e s = Some s' → P s'.
Proof.
  intros Hsync Hhandle Hs. unfold exec. case_bool_decide; [|done].
  intros [= <-]. by apply Hsync, Hhandle.
Qed.

Lemma notes_run_inv (P : NotesState → Prop) es s s' :
  (∀ prev x, P x → P (syncEditText prev x)) → (∀ e x, P x → P (handle e x)) →
  P s → run es s = Some s' → P s'.
Proof.
  intros Hsync Hhandle. revert s. induction es as [|e es IH]; intros s Hs; simpl.
  - by intros [= <-].
  - destruct (exec e s) as [s1|] eqn:He; [|done]. simpl. apply IH.
    by apply (notes_exec_inv P e s s1 Hsync (Hhandle e s)).
Qed.

(** C9: Whatever the user does after the app mounts, reloading the page
    shows exactly the notes on screen: every change goes through
    [saveNotes], which writes the storage entry it loads from. *)
Theorem reload_roundtrip st es s :
  run es (mount st) = Some s → notes (mount (stored s)) = notes s.
Proof.
  intros Hrun. rewrite mount_notes. apply (notes_run_inv synced es (mount st)); try done.
  - intros prev x Hx. unfold synced. by rewrite (proj1 (sync_fields _ _)), (proj1 (proj2 (sync_fields _ _))).
  - apply handle_synced.
  - unfold synced. by rewrite mount_notes; destruct st.
Qed.

(** ** Note identifiers *)

(** The Save events of a trace happen at strictly increasing times, all
    at least [b]. *)
Fixpoint times_from (b : Z) (es : list event) : Prop :=
  match es with
  | [] => True
  | Save t :: es => (b ≤ t)%Z ∧ times_from (t + 1) es
  | _ :: es => times_from b es
  end.

Record ids_inv (b : Z) (s : NotesState) : Prop := {
  ii_nodup : NoDup (id <$> notes s);
  ii_fresh : ∀ t, (b ≤ t)%Z → new_note_id t ∉ id <$> notes s;
}.

Lemma new_note_id_inj t1 t2 : new_note_id t1 = new_note_id t2 → t1 = t2.
Proof. unfold new_note_id. simpl. intros H. simplify_eq. by apply (inj pretty). Qed.

Lemma ids_inv_sync b prev s : ids_inv b s → ids_inv b (syncEditText prev s).
Proof. intros [Hn Hf]. split; by rewrite (proj1 (sync_fields _ _)). Qed.

Lemma ids_map_update (f : Note → Note) (l : list Note) : (∀ n, id (f n) = id n) → id <$> (f <$> l) = id <$> l.
Proof. intros Hf. rewrite <-list_fmap_compose. apply list_fmap_ext. intros ???. apply Hf. Qed.

(** A Save at time [t ≥ b] keeps the identifiers distinct and fresh
    from [t + 1] on; every other event keeps [b]. *)
Lemma handle_ids b e s :
  ids_inv b s → (∀ t, e = Save t → (b ≤ t)%Z) →
  ids_inv (match e with Save t => t + 1 | _ => b end)%Z (handle e s).
Proof.
  intros [Hn Hf] Ht. destruct e; simpl; try (by split).
  - specialize (Ht now eq_refl). unfold handleSaveNote. case_bool_decide.
    { split; [done|]. intros t ?. apply Hf. lia. }
    destruct (truthy (currentNoteId s)); simpl.
    + split; simpl; rewrite ids_map_update by (intros n; by case_bool_decide); [done|].
      intros t ?. apply Hf. lia.
    + split; simpl; rewrite fmap_app; simpl.
      * apply NoDup_app. split; [done|split; [|apply NoDup_singleton]].
        intros x Hx ->%list_elem_of_singleton. by apply (Hf now).
      * intros t Ht'. rewrite elem_of_app, list_elem_of_singleton.
        intros [Hin | ->%new_note_id_inj]; [|lia]. apply (Hf t); [lia|done].
  - unfold handleDeleteNote. destruct (truthy (currentNoteId s)); [|by split].
    assert (id <$> filter (λ n, Some (id n) ≠ currentNoteId s) (notes s) `sublist_of` id <$> notes s)
      as Hsub by (apply fmap_sublist, sublist_filter).
    split; simpl.
    + by eapply sublist_NoDup.
    + intros t Ht' Hin. apply (Hf t Ht'). by eapply elem_of_sublist.
  - unfold handleBack. destruct (detailMode s); [split; first [exact Hn | exact Hf]|].
    destruct confirm, (truthy (currentNoteId s)); split; first [exact Hn | exact Hf].
Qed.

Lemma run_ids es : ∀ b s0 s,
  times_from b es → ids_inv b s0 → run es s0 = Some s → NoDup (id <$> notes s).
Proof.
  induction es as [|e es IH]; intros b s0 s Htimes Hinv Hrun; simpl in Hrun.
  - injection Hrun as <-. by destruct Hinv.
  - destruct (exec e s0) as [s1|] eqn:He; [|done]. simpl in Hrun.
    refine (IH (match e with Save t => t + 1 | _ => b end)%Z s1 s _ _ Hrun).
    + destruct e; try done. by destruct Htimes.
    + unfold exec in He. case_bool_decide; [|done]. injection He as <-.
      apply ids_inv_sync, handle_ids; [done|]. intros t ->. by destruct Htimes.
Qed.

(** C40: On a fresh install, as long as no two notes are saved in the same
    millisecond, the notes have pairwise distinct identifiers
    [note-<timestamp>]. *)
Theorem ids_unique es b s :
  times_from b es → run es (mount NoEntry) = Some s → NoDup (id <$> notes s).
Proof.
  intros Htimes. apply (run_ids es b); [done|].
  split; [constructor | by intros ?? ?%not_elem_of_nil].
Qed.

(** Two new notes saved in the same millisecond get the same
    identifier, and deleting either deletes both. *)
Theorem same_millisecond_collision :
  let es := [NewNote; TypeText "a"; Save 7; NewNote; TypeText "b"; Save 7]%Z in
  (λ s : NotesState, id <$> notes s) <$> run es (mount NoEntry) = Some ["note-7"; "note-7"] ∧
  (notes <$> run (es ++ [Select "note-7"; Delete]) (mount NoEntry)) = Some [].
Proof. split; vm_compute; reflexivity. Qed.

(** ** Discarding an edit does not discard the text *)

Lemma exec_enabled e s :
  enabled e s → exec e s = Some (syncEditText (currentNoteId s, notesGen s) (handle e s)).
Proof. intros He. unfold exec. by rewrite bool_decide_eq_true_2. Qed.

Lemma sync_same prev s : prev = (currentNoteId s, notesGen s) → syncEditText prev s = s.
Proof. intros ->. unfold syncEditText. by rewrite bool_decide_eq_true_2. Qed.

Lemma find_note_update i t now l :
  i ∈ id <$> l →
  content <$> find_note i ((λ n, if bool_decide (Some (id n) = Some i)
                                 then mkNote (id n) (title n) t now else n) <$> l) = Some t.
Proof.
  induction l as [|n l IH]; simpl; [by intros ?%not_elem_of_nil|].
  intros [Hn|Hin]%elem_of_cons; unfold find_note; simpl.
  - rewrite bool_decide_eq_true_2 by (by subst). simpl. by rewrite decide_True by done.
  - case_bool_decide as Hni; simpl.
    + by rewrite decide_True by (by injection Hni).
    + rewrite decide_False by (intros ?; apply Hni; by f_equal).
      unfold find_note in IH. rewrite <-IH by done. by destruct (list_find _ _).
Qed.

(** C8: In the editor of an existing note, answering "Discard unsaved
    changes?" with OK returns to the note but keeps the typed text in
    [editText] (the sync effect only runs when [currentNoteId] or
    [notes] change): pressing Edit again shows the discarded text, and
    Save stores it. *)
Theorem discard_keeps_edit s i now :
  viewMode s = DetailView → detailMode s = EditNote →
  currentNoteId s = Some i → i ≠ "" → i ∈ id <$> notes s → trim (editText s) ≠ [] →
  ∃ s1 s2 s3,
    exec (Back true) s = Some s1 ∧ exec ToggleEdit s1 = Some s2 ∧ exec (Save now) s2 = Some s3 ∧
    detailMode s1 = ViewNote ∧ editText s2 = editText s ∧
    content <$> find_note i (notes s3) = Some (editText s).
Proof.
  intros Hv Hd Hc Hi Hin Ht.
  assert (truthy (currentNoteId s) = true) as Htr by (rewrite Hc; by apply bool_decide_eq_true_2).
  set (s1 := set_detail ViewNote s). set (s2 := set_detail EditNote s1).
  assert (exec (Back true) s = Some s1) as H1.
  { rewrite exec_enabled by done. simpl. unfold handleBack. rewrite Hd, Htr. by apply f_equal, sync_same. }
  assert (exec ToggleEdit s1 = Some s2) as H2.
  { rewrite exec_enabled by (repeat split; done). by apply f_equal, sync_same. }
  eexists s1, s2, _. split; [exact H1|split; [exact H2|]].
  rewrite exec_enabled by (split; [exact Hv|done]). simpl. unfold handleSaveNote.
  rewrite bool_decide_eq_false_2 by done. simpl. rewrite Htr.
  split; [done|split; [done|split; [done|]]].
  unfold syncEditText. simpl. rewrite bool_decide_eq_false_2 by (intros [=]; lia).
  rewrite Htr, Hc. simpl.
  pose proof (find_note_update i (editText s) now (notes s) Hin) as Hu.
  unfold s2, s1 in *. simpl in *.
  destruct (find_note i _) as [n|] eqn:Hf; simpl; rewrite ?Hf; exact Hu.
Qed.

End notes_properties.

(** ** Witnesses on concrete sessions *)
Module NotesWitness.
Import Sorting Notes.

(** Write a note, open it, edit it and type new text. *)
Definition edit_trace : list event :=
  [NewNote; TypeText "hello"; Save 5; Select "note-5"; ToggleEdit; TypeText "bye"]%Z.

Definition after (es : list event) : NotesState := default (mount NoEntry) (run es (mount NoEntry)).

Lemma reload_roundtrip_witness :
  run edit_trace (mount NoEntry) = Some (after edit_trace) ∧
  notes (mount (stored (after edit_trace))) = notes (after edit_trace).
Proof.
  assert (run edit_trace (mount NoEntry) = Some (after edit_trace)) as H by (vm_compute; reflexivity).
  split; [exact H | exact (reload_roundtrip NoEntry edit_trace _ H)].
Defined.

Lemma ids_unique_witness :
  let es := [NewNote; TypeText "a"; Save 7; NewNote; TypeText "b"; Save 8]%Z in
  times_from 0 es ∧ run es (mount NoEntry) = Some (after es) ∧ NoDup (id <$> notes (after es)).
Proof.
  intros es. assert (times_from 0 es) as Ht by (simpl; lia).
  assert (run es (mount NoEntry) = Some (after es)) as H by (vm_compute; reflexivity).
  split; [exact Ht|split; [exact H|exact (ids_unique es 0 _ Ht H)]].
Defined.

Lemma discard_keeps_edit_witness :
  let s := after edit_trace in
  viewMode s = DetailView ∧ detailMode s = EditNote ∧ currentNoteId s = Some "note-5" ∧
  "note-5" ≠ "" ∧ "note-5" ∈ id <$> notes s ∧ trim (editText s) ≠ [] ∧
  ∃ s1 s2 s3,
    exec (Back true) s = Some s1 ∧ exec ToggleEdit s1 = Some s2 ∧ exec (Save 9%Z) s2 = Some s3 ∧
    detailMode s1 = ViewNote ∧ editText s2 = "bye" ∧
    content <$> find_note "note-5" (notes s3) = Some "bye".
Proof.
  intros s.
  assert (viewMode s = DetailView) as H1 by (vm_compute; reflexivity).
  assert (detailMode s = EditNote) as H2 by (vm_compute; reflexivity).
  assert (currentNoteId s = Some "note-5") as H3 by (vm_compute; reflexivity).
  assert ("note-5" ∈ id <$> notes s) as H5 by compute_decide.
  assert (trim (editText s) ≠ []) as H6 by (vm_compute; discriminate).
  do 5 (split; [done|]). split; [exact H6|].
  exact (discard_keeps_edit s "note-5" 9 H1 H2 H3 ltac:(discriminate) H5 H6).
Defined.
End NotesWitness.
