(* ===== verification/SettingsContext.v ===== *)
(** * SettingsContext: the settings provider, its storage, timers and audio gain

    Models [SettingsProvider] of [src/WebDroid-OS/src/contexts/SettingsContext.tsx]
    with the callers that drive it: the volume buttons
    ([components/DeviceButtons.tsx] and [handleVolumeUp]/[handleVolumeDown]
    of [src/src/components/DeviceFrame.tsx]), the brightness slider, sound
    icon and mode toggles of [components/StatusBar.tsx], and the volume
    slider of [apps/SettingsApp/SoundSettingsPage.tsx].  The master gain
    of [utils/soundSynth.ts] ([setMasterVolume]) is part of the state.

    - [Provider] is the provider's [useState] values; [Sys] adds what the
      handlers change outside React: [localStorage] (a [gmap]), the master
      gain, the class list of the document element, the refs holding timer
      ids, the sound page's [displayVolume], and the browser's timer queue
      and clock.
    - A handler is a function of the render it was created in (the
      closure's [Provider], [r]) and of the current system [s]: values it
      reads come from [r], updater functions ([setX(prev => ...)]) read the
      current state, refs are current.  A timer keeps the closure it was
      created with, which is how a stale [volumeLevel] reaches the
      long-press repeat.
    - After each event React re-renders and runs the effects whose
      dependencies changed ([Object.is]); [commit] runs them in the
      source's order.  [Advance ms] moves the clock one millisecond at a
      time and runs the callbacks due at each instant in queue order. *)

From S2P Require Import Prelude JsRuntime.
From Stdlib Require Import Ascii ZArith.
From Corelib Require PrimFloat.
From stdpp Require Import base list strings gmap pretty.
Import PrimFloat.PrimFloatNotations.

Module Settings.

(** ** Themes ([availableThemes], SettingsContext.tsx:12-37) *)
Record Theme := mkTheme {
  theme_id : string; theme_name : string; forcedMode : option string; colors : list string }.

Definition availableThemes : list Theme := [
  mkTheme "default" "Default" None ["#3b82f6"; "#6b7280"; "#f59e0b"; "#f8fafc"; "#ffffff"];
  mkTheme "material" "Material You" None ["#a78bfa"; "#8b5cf6"; "#c4b5fd"; "#f5f3ff"; "#ffffff"];
  mkTheme "pixel" "Pixel" None ["#2563eb"; "#ef4444"; "#eab308"; "#22c55e"; "#f8fafc"];
  mkTheme "synthwave" "Synthwave" (Some "dark") ["#ec4899"; "#8b5cf6"; "#10b981"; "#0f172a"; "#1e293b"]
]%string.

(** ** The provider's state (SettingsContext.tsx:111-193) *)
Record Provider := mkProvider {
  deviceType : string;
  isSoundEnabled : bool;
  volumeLevel : float;
  brightnessLevel : float;
  isMuted : bool;
  showVolumeUI : bool;
  activePageBgId : string;
  tempUnit : string;
  defaultWeatherLocation : option string;
  notesFontSize : string;
  notesSortOrder : string;
  activeThemeId : string;
  colorMode : string;
  systemPrefersDark : bool;
  lockscreenPin : option string
}.

Definition set_deviceType (x : string) (p : Provider) : Provider :=
  mkProvider x (isSoundEnabled p) (volumeLevel p) (brightnessLevel p) (isMuted p) (showVolumeUI p) (activePageBgId p) (tempUnit p) (defaultWeatherLocation p) (notesFontSize p) (notesSortOrder p) (activeThemeId p) (colorMode p) (systemPrefersDark p) (lockscreenPin p).
Definition set_isSoundEnabled (x : bool) (p : Provider) : Provider :=
  mkProvider (deviceType p) x (volumeLevel p) (brightnessLevel p) (isMuted p) (showVolumeUI p) (activePageBgId p) (tempUnit p) (defaultWeatherLocation p) (notesFontSize p) (notesSortOrder p) (activeThemeId p) (colorMode p) (systemPrefersDark p) (lockscreenPin p).
Definition set_volumeLevel (x : float) (p : Provider) : Provider :=
  mkProvider (deviceType p) (isSoundEnabled p) x (brightnessLevel p) (isMuted p) (showVolumeUI p) (activePageBgId p) (tempUnit p) (defaultWeatherLocation p) (notesFontSize p) (notesSortOrder p) (activeThemeId p) (colorMode p) (systemPrefersDark p) (lockscreenPin p).
Definition set_brightnessLevel (x : float) (p : Provider) : Provider :=
  mkProvider (deviceType p) (isSoundEnabled p) (volumeLevel p) x (isMuted p) (showVolumeUI p) (activePageBgId p) (tempUnit p) (defaultWeatherLocation p) (notesFontSize p) (notesSortOrder p) (activeThemeId p) (colorMode p) (systemPrefersDark p) (lockscreenPin p).
Definition set_isMuted (x : bool) (p : Provider) : Provider :=
  mkProvider (deviceType p) (isSoundEnabled p) (volumeLevel p) (brightnessLevel p) x (showVolumeUI p) (activePageBgId p) (tempUnit p) (defaultWeatherLocation p) (notesFontSize p) (notesSortOrder p) (activeThemeId p) (colorMode p) (systemPrefersDark p) (lockscreenPin p).
Definition set_showVolumeUI (x : bool) (p : Provider) : Provider :=
  mkProvider (deviceType p) (isSoundEnabled p) (volumeLevel p) (brightnessLevel p) (isMuted p) x (activePageBgId p) (tempUnit p) (defaultWeatherLocation p) (notesFontSize p) (notesSortOrder p) (activeThemeId p) (colorMode p) (systemPrefersDark p) (lockscreenPin p).
Definition set_activePageBgId (x : string) (p : Provider) : Provider :=
  mkProvider (deviceType p) (isSoundEnabled p) (volumeLevel p) (brightnessLevel p) (isMuted p) (showVolumeUI p) x (tempUnit p) (defaultWeatherLocation p) (notesFontSize p) (notesSortOrder p) (activeThemeId p) (colorMode p) (systemPrefersDark p) (lockscreenPin p).
Definition set_tempUnit (x : string) (p : Provider) : Provider :=
  mkProvider (deviceType p) (isSoundEnabled p) (volumeLevel p) (brightnessLevel p) (isMuted p) (showVolumeUI p) (activePageBgId p) x (defaultWeatherLocation p) (notesFontSize p) (notesSortOrder p) (activeThemeId p) (colorMode p) (systemPrefersDark p) (lockscreenPin p).
Definition set_defaultWeatherLocation (x : option string) (p : Provider) : Provider :=
  mkProvider (deviceType p) (isSoundEnabled p) (volumeLevel p) (brightnessLevel p) (isMuted p) (showVolumeUI p) (activePageBgId p) (tempUnit p) x (notesFontSize p) (notesSortOrder p) (activeThemeId p) (colorMode p) (systemPrefersDark p) (lockscreenPin p).
Definition set_notesFontSize (x : string) (p : Provider) : Provider :=
  mkProvider (deviceType p) (isSoundEnabled p) (volumeLevel p) (brightnessLevel p) (isMuted p) (showVolumeUI p) (activePageBgId p) (tempUnit p) (defaultWeatherLocation p) x (notesSortOrder p) (activeThemeId p) (colorMode p) (systemPrefersDark p) (lockscreenPin p).
Definition set_notesSortOrder (x : string) (p : Provider) : Provider :=
  mkProvider (deviceType p) (isSoundEnabled p) (volumeLevel p) (brightnessLevel p) (isMuted p) (showVolumeUI p) (activePageBgId p) (tempUnit p) (defaultWeatherLocation p) (notesFontSize p) x (activeThemeId p) (colorMode p) (systemPrefersDark p) (lockscreenPin p).
Definition set_activeThemeId (x : string) (p : Provider) : Provider :=
  mkProvider (deviceType p) (isSoundEnabled p) (volumeLevel p) (brightnessLevel p) (isMuted p) (showVolumeUI p) (activePageBgId p) (tempUnit p) (defaultWeatherLocation p) (notesFontSize p) (notesSortOrder p) x (colorMode p) (systemPrefersDark p) (lockscreenPin p).
Definition set_colorMode (x : string) (p : Provider) : Provider :=
  mkProvider (deviceType p) (isSoundEnabled p) (volumeLevel p) (brightnessLevel p) (isMuted p) (showVolumeUI p) (activePageBgId p) (tempUnit p) (defaultWeatherLocation p) (notesFontSize p) (notesSortOrder p) (activeThemeId p) x (systemPrefersDark p) (lockscreenPin p).
Definition set_systemPrefersDark (x : bool) (p : Provider) : Provider :=
  mkProvider (deviceType p) (isSoundEnabled p) (volumeLevel p) (brightnessLevel p) (isMuted p) (showVolumeUI p) (activePageBgId p) (tempUnit p) (defaultWeatherLocation p) (notesFontSize p) (notesSortOrder p) (activeThemeId p) (colorMode p) x (lockscreenPin p).
Definition set_lockscreenPin (x : option string) (p : Provider) : Provider :=
  mkProvider (deviceType p) (isSoundEnabled p) (volumeLevel p) (brightnessLevel p) (isMuted p) (showVolumeUI p) (activePageBgId p) (tempUnit p) (defaultWeatherLocation p) (notesFontSize p) (notesSortOrder p) (activeThemeId p) (colorMode p) (systemPrefersDark p) x.

Inductive Direction := Up | Down.

(** Pending [setTimeout]/[setInterval] callbacks.  The volume-button
    callbacks carry the render ([Provider]) and the [bootState === 'off']
    test of the closure that created them. *)
Inductive TimerAction :=
  | ApplyDeviceType (t : string)
  | EndDeviceTransition
  | HideVolumeUI
  | StartVolumeRepeat (dir : Direction) (r : Provider) (off : bool)
  | VolumeRepeat (dir : Direction) (r : Provider) (off : bool).

Record Timer := mkTimer { timer_id : nat; due : nat; action : TimerAction }.

Record Sys := mkSys {
  ctx : Provider;
  storage : gmap string string;
  masterGain : float;
  docClasses : list string;
  volumeUITimerRef : option nat;
  volumeInitialDelayRef : option nat;
  volumeTimerRef : option nat;
  displayVolume : option float;
  timers : list Timer;
  nextTimerId : nat;
  now : nat
}.

Definition set_ctx (x : Provider) (s : Sys) : Sys :=
  mkSys x (storage s) (masterGain s) (docClasses s) (volumeUITimerRef s) (volumeInitialDelayRef s) (volumeTimerRef s) (displayVolume s) (timers s) (nextTimerId s) (now s).
Definition set_storage (x : gmap string string) (s : Sys) : Sys :=
  mkSys (ctx s) x (masterGain s) (docClasses s) (volumeUITimerRef s) (volumeInitialDelayRef s) (volumeTimerRef s) (displayVolume s) (timers s) (nextTimerId s) (now s).
Definition set_masterGain (x : float) (s : Sys) : Sys :=
  mkSys (ctx s) (storage s) x (docClasses s) (volumeUITimerRef s) (volumeInitialDelayRef s) (volumeTimerRef s) (displayVolume s) (timers s) (nextTimerId s) (now s).
Definition set_docClasses (x : list string) (s : Sys) : Sys :=
  mkSys (ctx s) (storage s) (masterGain s) x (volumeUITimerRef s) (volumeInitialDelayRef s) (volumeTimerRef s) (displayVolume s) (timers s) (nextTimerId s) (now s).
Definition set_volumeUITimerRef (x : option nat) (s : Sys) : Sys :=
  mkSys (ctx s) (storage s) (masterGain s) (docClasses s) x (volumeInitialDelayRef s) (volumeTimerRef s) (displayVolume s) (timers s) (nextTimerId s) (now s).
Definition set_volumeInitialDelayRef (x : option nat) (s : Sys) : Sys :=
  mkSys (ctx s) (storage s) (masterGain s) (docClasses s) (volumeUITimerRef s) x (volumeTimerRef s) (displayVolume s) (timers s) (nextTimerId s) (now s).
Definition set_volumeTimerRef (x : option nat) (s : Sys) : Sys :=
  mkSys (ctx s) (storage s) (masterGain s) (docClasses s) (volumeUITimerRef s) (volumeInitialDelayRef s) x (displayVolume s) (timers s) (nextTimerId s) (now s).
Definition set_displayVolume (x : option float) (s : Sys) : Sys :=
  mkSys (ctx s) (storage s) (masterGain s) (docClasses s) (volumeUITimerRef s) (volumeInitialDelayRef s) (volumeTimerRef s) x (timers s) (nextTimerId s) (now s).
Definition set_timers (x : list Timer) (s : Sys) : Sys :=
  mkSys (ctx s) (storage s) (masterGain s) (docClasses s) (volumeUITimerRef s) (volumeInitialDelayRef s) (volumeTimerRef s) (displayVolume s) x (nextTimerId s) (now s).
Definition set_nextTimerId (x : nat) (s : Sys) : Sys :=
  mkSys (ctx s) (storage s) (masterGain s) (docClasses s) (volumeUITimerRef s) (volumeInitialDelayRef s) (volumeTimerRef s) (displayVolume s) (timers s) x (now s).
Definition set_now (x : nat) (s : Sys) : Sys :=
  mkSys (ctx s) (storage s) (masterGain s) (docClasses s) (volumeUITimerRef s) (volumeInitialDelayRef s) (volumeTimerRef s) (displayVolume s) (timers s) (nextTimerId s) x.


Definition upd (f : Provider → Provider) (s : Sys) : Sys := set_ctx (f (ctx s)) s.

(** ** Browser primitives *)

(** [classList.add] and [classList.remove]. *)
Definition class_add (c : string) (l : list string) : list string :=
  if bool_decide (c ∈ l) then l else l ++ [c].
Definition class_remove (c : string) (l : list string) : list string :=
  filter (λ d, d ≠ c) l.

(** [setTimeout(cb, delay)]: queue the callback and return its id. *)
Definition schedule (delay : nat) (a : TimerAction) (s : Sys) : Sys * nat :=
  (set_nextTimerId (S (nextTimerId s))
     (set_timers (timers s ++ [mkTimer (nextTimerId s) (now s + delay) a]) s),
   nextTimerId s).

(** [clearTimeout(id)] and [clearInterval(id)]. *)
Definition clear (id : nat) (s : Sys) : Sys :=
  set_timers (filter (λ t, timer_id t ≠ id) (timers s)) s.

(** [setMasterVolume(level, isMuted)] (soundSynth.ts:57-71): the target of
    the master gain ramp. *)
Definition setMasterVolume (level : float) (muted : bool) (s : Sys) : Sys :=
  if muted then set_masterGain (of_Z 0) s else set_masterGain (level / hundred)%float s.

(** [Math.round(volumeLevel * 100)], the volume percentage. *)
Definition volumePercent (v : float) : float := js_round (v * hundred)%float.

Definition half : float := (of_Z 1 / of_Z 2)%float.

(** ** Derived mode ([currentMode], SettingsContext.tsx:196-205) *)
Definition currentMode (p : Provider) : string :=
  match find (λ th, bool_decide (theme_id th = activeThemeId p)) availableThemes with
  | Some th => if truthy (forcedMode th) then default (colorMode p) (forcedMode th) else colorMode p
  | None => colorMode p
  end.

(** ** Handlers (SettingsContext.tsx:320-481) *)

(** [triggerVolumeUIShow] (454-468): cancel the pending hide, show the
    volume UI and hide it 3000 ms later. *)
Definition triggerVolumeUIShow (s : Sys) : Sys :=
  let s := match volumeUITimerRef s with
           | Some id => if bool_decide (id ≠ 0) then clear id s else s
           | None => s
           end in
  let s := upd (set_showVolumeUI true) s in
  let '(s, id) := schedule 3000 HideVolumeUI s in
  set_volumeUITimerRef (Some id) s.

(** [setDeviceType] (320-333): mark the transition and apply the type
    10 ms later. *)
Definition setDeviceType (t : string) (s : Sys) : Sys :=
  let s := set_docClasses (class_add "device-type-transitioning" (docClasses s)) s in
  fst (schedule 10 (ApplyDeviceType t) s).

(** [toggleSound] (336-349): the updater reads the current value; the
    volume it restores is the closure's. *)
Definition toggleSound (r : Provider) (s : Sys) : Sys :=
  let newValue := negb (isSoundEnabled (ctx s)) in
  let s := if newValue then setMasterVolume (volumePercent (volumeLevel r)) (isMuted r) s
           else setMasterVolume (of_Z 0) true s in
  upd (set_isSoundEnabled newValue) s.

(** [setVolumeLevel] (352-366): clamp to [0, 1], mute at 0, unmute above,
    and set the gain. *)
Definition clampVolume (level : float) : float := js_max (of_Z 0) (js_min (of_Z 1) level).

Definition setVolumeLevel (r : Provider) (level : float) (s : Sys) : Sys :=
  let newLevel := clampVolume level in
  let s := upd (set_volumeLevel newLevel) s in
  let s := if (newLevel =? of_Z 0)%float then upd (set_isMuted true) s
           else if isMuted r && (of_Z 0 <? newLevel)%float then upd (set_isMuted false) s
           else s in
  setMasterVolume (volumePercent newLevel) ((newLevel =? of_Z 0)%float || isMuted r) s.

(** [increaseVolume] and [decreaseVolume] (369-378): one step of 0.1 from
    the closure's level. *)
Definition increaseVolume (r : Provider) (s : Sys) : Sys :=
  triggerVolumeUIShow (setVolumeLevel r (volumeLevel r + tenth)%float s).

Definition decreaseVolume (r : Provider) (s : Sys) : Sys :=
  triggerVolumeUIShow (setVolumeLevel r (volumeLevel r - tenth)%float s).

(** [toggleMute] (381-390). *)
Definition toggleMute (r : Provider) (s : Sys) : Sys :=
  let newMuted := negb (isMuted (ctx s)) in
  let s := setMasterVolume (volumePercent (volumeLevel r)) newMuted s in
  triggerVolumeUIShow (upd (set_isMuted newMuted) s).

(** [setActivePageBgId] (393-396) also writes the storage itself. *)
Definition setActivePageBgId (id : string) (s : Sys) : Sys :=
  set_storage (<["activePageBg" := id]> (storage s)) (upd (set_activePageBgId id) s).

(** The plain setters (399-426, 479-481). *)
Definition setTempUnit (u : string) : Sys → Sys := upd (set_tempUnit u).
Definition setDefaultWeatherLocation (l : option string) : Sys → Sys :=
  upd (set_defaultWeatherLocation l).
Definition setNotesFontSize (z : string) : Sys → Sys := upd (set_notesFontSize z).
Definition setNotesSortOrder (o : string) : Sys → Sys := upd (set_notesSortOrder o).
Definition setActiveThemeId (t : string) : Sys → Sys := upd (set_activeThemeId t).
Definition setColorMode (m : string) : Sys → Sys := upd (set_colorMode m).
Definition setLockscreenPin (pin : option string) : Sys → Sys := upd (set_lockscreenPin pin).

(** [toggleColorMode] (429-431) reads the closure's mode. *)
Definition toggleColorMode (r : Provider) : Sys → Sys :=
  setColorMode (if bool_decide (colorMode r = "dark") then "light" else "dark").

(** [setBrightnessLevel] (434-438): clamp to [10, 100]. *)
Definition clampBrightness (level : float) : float := js_max (of_Z 10) (js_min (of_Z 100) level).

Definition setBrightnessLevel (level : float) : Sys → Sys :=
  upd (set_brightnessLevel (clampBrightness level)).

(** ** The volume buttons *)

(** [handleVolumeUp] / [handleVolumeDown] of DeviceFrame.tsx:273-283 (the
    click sound is not modelled). *)
Definition handleVolume (dir : Direction) (off : bool) (r : Provider) (s : Sys) : Sys :=
  if off then s
  else match dir with Up => increaseVolume r s | Down => decreaseVolume r s end.

(** [stopVolumeChange] (DeviceButtons.tsx:63-75). *)
Definition stopVolumeChange (s : Sys) : Sys :=
  let s := match volumeInitialDelayRef s with
           | Some id => set_volumeInitialDelayRef None (clear id s)
           | None => s
           end in
  match volumeTimerRef s with
  | Some id => set_volumeTimerRef None (clear id s)
  | None => s
  end.

(** [startVolumeChange] (DeviceButtons.tsx:30-61), on mouse down: one step
    now, and after 400 ms a 150 ms interval repeating the step with the
    handlers of this render. *)
Definition startVolumeChange (dir : Direction) (off : bool) (r : Provider) (s : Sys) : Sys :=
  if off then s
  else
    let s := handleVolume dir off r (stopVolumeChange s) in
    let '(s, id) := schedule 400 (StartVolumeRepeat dir r off) s in
    set_volumeInitialDelayRef (Some id) s.

(** ** Effects (SettingsContext.tsx:225-317, SoundSettingsPage.tsx:28-30)

    An effect runs after a render when one of its dependencies changed
    ([Object.is]), and at mount. *)
Record Effect := mkEffect {
  deps_same : Provider → Provider → bool;
  run_effect : Provider → Sys → Sys
}.

Definition same_str (f : Provider → string) (o p : Provider) : bool := bool_decide (f o = f p).
Definition same_opt (f : Provider → option string) (o p : Provider) : bool :=
  bool_decide (f o = f p).
Definition same_bool (f : Provider → bool) (o p : Provider) : bool := Bool.eqb (f o) (f p).
Definition same_num (f : Provider → float) (o p : Provider) : bool := object_is (f o) (f p).

(** [localStorage.setItem(k, v)] for [Some v], [removeItem(k)] for [None]. *)
Definition write_item (k : string) (v : option string) (st : gmap string string) :
    gmap string string :=
  match v with Some x => <[k := x]> st | None => delete k st end.

(** A persistence effect: the key it writes, its dependency and the value
    it writes. *)
Record Persist := mkPersist {
  key : string;
  dep : Provider → Provider → bool;
  val : Provider → option string
}.

Definition persist_effect (ps : Persist) : Effect :=
  mkEffect (dep ps) (λ p s, set_storage (write_item (key ps) (val ps p) (storage s)) s).

(** [if (x) setItem(k, x) else removeItem(k)]. *)
Definition if_truthy (o : option string) : option string := if truthy o then o else None.

(** The theme effect (225-240): the [dark] class follows [currentMode] and
    the one [theme-*] class names the active theme. *)
Definition apply_theme (p : Provider) (l : list string) : list string :=
  let l := if bool_decide (currentMode p = "dark") then class_add "dark" l
           else class_remove "dark" l in
  class_add ("theme-" +:+ activeThemeId p) (filter (λ c, String.prefix "theme-" c = false) l).

Definition themeEffect : Effect :=
  mkEffect (λ o p, same_str currentMode o p && same_str activeThemeId o p)
           (λ p s, set_docClasses (apply_theme p (docClasses s)) s).

(** The persistence effects (243-310). *)
Definition effect_deviceType : Persist :=
  mkPersist "deviceType" (same_str deviceType) (λ p, Some (deviceType p)).
Definition effect_sound : Persist :=
  mkPersist "sound" (same_bool isSoundEnabled) (λ p, Some (bool_toString (isSoundEnabled p))).
Definition effect_volumeLevel : Persist :=
  mkPersist "volumeLevel" (same_num volumeLevel)
    (λ p, Some (int_toString (volumePercent (volumeLevel p)))).
Definition effect_brightnessLevel : Persist :=
  mkPersist "brightnessLevel" (same_num brightnessLevel)
    (λ p, Some (int_toString (brightnessLevel p))).
Definition effect_isMuted : Persist :=
  mkPersist "isMuted" (same_bool isMuted) (λ p, Some (bool_toString (isMuted p))).
Definition effect_activePageBg : Persist :=
  mkPersist "activePageBg" (same_str activePageBgId) (λ p, Some (activePageBgId p)).
Definition effect_tempUnit : Persist :=
  mkPersist "tempUnit" (same_str tempUnit) (λ p, Some (tempUnit p)).
Definition effect_defaultWeatherLocation : Persist :=
  mkPersist "defaultWeatherLocation" (same_opt defaultWeatherLocation)
    (λ p, if_truthy (defaultWeatherLocation p)).
Definition effect_notesFontSize : Persist :=
  mkPersist "notesFontSize" (same_str notesFontSize) (λ p, Some (notesFontSize p)).
Definition effect_notesSortOrder : Persist :=
  mkPersist "notesSortOrder" (same_str notesSortOrder) (λ p, Some (notesSortOrder p)).
Definition effect_activeTheme : Persist :=
  mkPersist "activeTheme" (same_str activeThemeId) (λ p, Some (activeThemeId p)).
Definition effect_colorMode : Persist :=
  mkPersist "colorMode" (same_str colorMode) (λ p, Some (colorMode p)).
Definition effect_lockscreenPin : Persist :=
  mkPersist "lockscreenPin" (same_opt lockscreenPin) (λ p, if_truthy (lockscreenPin p)).

Definition persistence : list Persist :=
  [effect_deviceType; effect_sound; effect_volumeLevel; effect_brightnessLevel;
   effect_isMuted; effect_activePageBg; effect_tempUnit; effect_defaultWeatherLocation;
   effect_notesFontSize; effect_notesSortOrder; effect_activeTheme; effect_colorMode;
   effect_lockscreenPin].

(** The audio effect (313-317). *)
Definition masterVolumeEffect : Effect :=
  mkEffect (λ o p, same_num volumeLevel o p && same_bool isMuted o p)
           (λ p s, setMasterVolume (volumePercent (volumeLevel p)) (isMuted p) s).

Definition effects : list Effect :=
  themeEffect :: (persist_effect <$> persistence) ++ [masterVolumeEffect].

(** The sound page's effect (SoundSettingsPage.tsx:28-30), a child effect,
    runs first. *)
Definition soundPageEffect (old : Provider) (s : Sys) : Sys :=
  match displayVolume s with
  | Some _ =>
      if same_num volumeLevel old (ctx s) then s
      else set_displayVolume (Some (volumePercent (volumeLevel (ctx s)))) s
  | None => s
  end.

(** The commit after a render: [None] is the mount, when every effect runs. *)
Definition commit (old : option Provider) (s : Sys) : Sys :=
  let s := match old with Some o => soundPageEffect o s | None => s end in
  foldl (λ s e,
           match old with
           | Some o => if deps_same e o (ctx s) then s else run_effect e (ctx s) s
           | None => run_effect e (ctx s) s
           end) s effects.

(** ** Timer callbacks and the clock *)

#[export] Instance Direction_eq_dec : EqDecision Direction.
Proof. solve_decision. Defined.
#[export] Instance Provider_eq_dec : EqDecision Provider.
Proof. solve_decision. Defined.
#[export] Instance TimerAction_eq_dec : EqDecision TimerAction.
Proof. solve_decision. Defined.
#[export] Instance Timer_eq_dec : EqDecision Timer.
Proof. solve_decision. Defined.

(** What each callback does: SettingsContext.tsx:326-332 (the device type
    and the end of its transition), 463-466 (hide the volume UI) and
    DeviceButtons.tsx:47-59 (start the interval; one repeated step, which
    also keeps the volume UI shown). *)
Definition run_timer (a : TimerAction) (s : Sys) : Sys :=
  match a with
  | ApplyDeviceType t => fst (schedule 500 EndDeviceTransition (upd (set_deviceType t) s))
  | EndDeviceTransition =>
      set_docClasses (class_remove "device-type-transitioning" (docClasses s)) s
  | HideVolumeUI => set_volumeUITimerRef None (upd (set_showVolumeUI false) s)
  | StartVolumeRepeat dir r off =>
      let '(s, id) := schedule 150 (VolumeRepeat dir r off) s in
      set_volumeTimerRef (Some id) s
  | VolumeRepeat dir r off => triggerVolumeUIShow (handleVolume dir off r s)
  end.

(** An interval is queued again, under the same id, once its callback has
    run. *)
Definition requeue (t : Timer) : list Timer :=
  match action t with
  | VolumeRepeat _ _ _ => [mkTimer (timer_id t) (due t + 150) (action t)]
  | _ => []
  end.

(** One callback as a task of its own: dequeue it, run it, re-render. *)
Definition fire (s : Sys) (t : Timer) : Sys :=
  let old := ctx s in
  let s := run_timer (action t) (set_timers (filter (λ u, timer_id u ≠ timer_id t) (timers s)) s) in
  commit (Some old) (set_timers (timers s ++ requeue t) s).

(** One millisecond: the callbacks due by then run in queue order, each
    only if no earlier one has cancelled it. *)
Definition fire_if (s : Sys) (t : Timer) : Sys :=
  if bool_decide (t ∈ timers s) then fire s t else s.

Definition tick (s : Sys) : Sys :=
  let s := set_now (S (now s)) s in
  foldl fire_if s (filter (λ t, due t ≤ now s) (timers s)).

Fixpoint advance (ms : nat) (s : Sys) : Sys :=
  match ms with 0 => s | S m => advance m (tick s) end.

(** ** Mount (SettingsContext.tsx:111-193)

    [savedX || default]: a missing or empty entry gives the default. *)
Definition str_or (o : option string) (d : string) : string :=
  if truthy o then default d o else d.

Definition initialProvider (st : gmap string string) (prefersDark : bool) : Provider :=
  mkProvider
    (str_or (st !! "deviceType") "phone")
    (bool_decide (st !! "sound" ≠ Some "false"))
    (if truthy (st !! "volumeLevel")
     then (parseInt (default "" (st !! "volumeLevel")) 0 / hundred)%float else half)
    (if truthy (st !! "brightnessLevel")
     then parseInt (default "" (st !! "brightnessLevel")) 0 else of_Z 80)
    (bool_decide (st !! "isMuted" = Some "true"))
    false
    (str_or (st !! "activePageBg") "default")
    (str_or (st !! "tempUnit") "celsius")
    (st !! "defaultWeatherLocation")
    (str_or (st !! "notesFontSize") "base")
    (str_or (st !! "notesSortOrder") "newest")
    (str_or (st !! "activeTheme") "default")
    (str_or (st !! "colorMode") "dark")
    prefersDark
    (Some (str_or (st !! "lockscreenPin") "1234")).

(** The provider mounts on the stored settings, the system's colour
    scheme and the document's classes; the master gain starts at 1.0
    (soundSynth.ts:25) and browser timer ids at 1. *)
Definition mount (st : gmap string string) (prefersDark : bool) (classes : list string) : Sys :=
  commit None (mkSys (initialProvider st prefersDark) st (of_Z 1) classes
                     None None None None [] 1 0).

(** ** The callers' handlers *)

(** The sound page's slider (SoundSettingsPage.tsx:15, 17-20, 22-25): the
    position shown starts at the volume percentage, follows the input, and
    is applied on release with the provider's closure. *)
Definition mountSoundPage (r : Provider) (s : Sys) : Sys :=
  set_displayVolume (Some (volumePercent (volumeLevel r))) s.

Definition handleVolumeChange (value : string) (s : Sys) : Sys :=
  set_displayVolume (Some (parseInt value 0)) s.

Definition handleVolumeChangeEnd (r : Provider) (s : Sys) : Sys :=
  match displayVolume s with
  | Some dv => setVolumeLevel r (dv / hundred)%float s
  | None => s
  end.

(** The brightness slider of the status bar (StatusBar.tsx:172-180). *)
Definition handleBrightnessChange (value : string) (s : Sys) : Sys :=
  setBrightnessLevel (parseInt value 10) s.

(** The media query listener's [handleChange] (SettingsContext.tsx:211-213). *)
Definition handleChange (matches : bool) : Sys → Sys :=
  upd (set_systemPrefersDark matches).

(** ** Events *)
Inductive Event :=
  | SetDeviceType (t : string)           (* DeviceTypeToggleButton, StatusBar, DisplaySettingsPage *)
  | ToggleSound                           (* SoundSettingsPage *)
  | ToggleMute                            (* StatusBar sound icon, SoundSettingsPage *)
  | VolumeButtonDown (dir : Direction) (off : bool)   (* onMouseDown of a volume button *)
  | VolumeButtonRelease                   (* onMouseUp / onMouseLeave *)
  | VolumeButtonClick (dir : Direction) (off : bool)  (* onClick *)
  | BrightnessInput (value : string)      (* StatusBar brightness slider *)
  | SetActivePageBgIdEv (id : string)
  | SetTempUnitEv (u : string)
  | SetDefaultWeatherLocationEv (l : option string)
  | SetNotesFontSizeEv (z : string)
  | SetNotesSortOrderEv (o : string)
  | SetActiveThemeIdEv (t : string)
  | SetColorModeEv (m : string)
  | ToggleColorMode                       (* StatusBar dark mode toggle *)
  | SetLockscreenPinEv (pin : option string)
  | SystemColorScheme (dark : bool)       (* the media query listener, 208-222 *)
  | OpenSoundPage | CloseSoundPage
  | VolumeSliderInput (value : string)    (* SoundSettingsPage.tsx:17-20 *)
  | VolumeSliderRelease                   (* SoundSettingsPage.tsx:22-25 *)
  | Advance (ms : nat).

(** The handler of an event, with the closure of the current render. *)
Definition handle (e : Event) (s : Sys) : Sys :=
  let r := ctx s in
  match e with
  | SetDeviceType t => setDeviceType t s
  | ToggleSound => toggleSound r s
  | ToggleMute => toggleMute r s
  | VolumeButtonDown dir off => startVolumeChange dir off r s
  | VolumeButtonRelease => stopVolumeChange s
  | VolumeButtonClick dir off => handleVolume dir off r s
  | BrightnessInput v => handleBrightnessChange v s
  | SetActivePageBgIdEv id => setActivePageBgId id s
  | SetTempUnitEv u => setTempUnit u s
  | SetDefaultWeatherLocationEv l => setDefaultWeatherLocation l s
  | SetNotesFontSizeEv z => setNotesFontSize z s
  | SetNotesSortOrderEv o => setNotesSortOrder o s
  | SetActiveThemeIdEv t => setActiveThemeId t s
  | SetColorModeEv m => setColorMode m s
  | ToggleColorMode => toggleColorMode r s
  | SetLockscreenPinEv pin => setLockscreenPin pin s
  | SystemColorScheme d => handleChange d s
  | OpenSoundPage => mountSoundPage r s
  | CloseSoundPage => set_displayVolume None s
  | VolumeSliderInput v => handleVolumeChange v s
  | VolumeSliderRelease => handleVolumeChangeEnd r s
  | Advance _ => s
  end.

Definition step (e : Event) (s : Sys) : Sys :=
  match e with
  | Advance ms => advance ms s
  | _ => commit (Some (ctx s)) (handle e s)
  end.

(** What the page can deliver: a range input's value is the decimal
    integer of a position between its [min] and [max]; the sound page's
    events need the page mounted. *)
Definition range_value (lo hi : Z) (v : string) : bool :=
  bool_decide (v ∈ pretty <$> zrange lo (Z.to_nat (hi - lo + 1))).

Definition enabled (e : Event) (s : Sys) : bool :=
  match e with
  | BrightnessInput v => range_value 10 100 v
  | OpenSoundPage => bool_decide (displayVolume s = None)
  | CloseSoundPage | VolumeSliderRelease => bool_decide (displayVolume s ≠ None)
  | VolumeSliderInput v => bool_decide (displayVolume s ≠ None) && range_value 0 100 v
  | _ => true
  end.

Fixpoint run (es : list Event) (s : Sys) : Sys :=
  match es with [] => s | e :: es => run es (step e s) end.

(** ** Reachable states *)

(** What the app writes under the two numeric keys: a percentage the
    app printed, or nothing the code could read as a number. *)
Definition storage_ok (st : gmap string string) : Prop :=
  (∀ x, st !! "volumeLevel" = Some x → x = "" ∨ x ∈ pretty <$> zrange 0 101) ∧
  (∀ x, st !! "brightnessLevel" = Some x → x = "" ∨ x ∈ pretty <$> zrange 10 91).

(** Sessions start from a storage the app wrote (or an empty one), in any
    colour scheme and with any document classes, and go on by the events
    the page can deliver. *)
Inductive reachable : Sys → Prop :=
  | reach_mount st d cl : storage_ok st → reachable (mount st d cl)
  | reach_step e s : reachable s → enabled e s = true → reachable (step e s).

(** ** What a commit changes *)

(** The body of the commit's loop. *)
Definition commit_step (old : option Provider) (s : Sys) (e : Effect) : Sys :=
  match old with
  | Some o => if deps_same e o (ctx s) then s else run_effect e (ctx s) s
  | None => run_effect e (ctx s) s
  end.

(** The parts of the system an effect never touches. *)
Definition frame (s s' : Sys) : Prop :=
  ctx s' = ctx s ∧ timers s' = timers s ∧ volumeUITimerRef s' = volumeUITimerRef s ∧
  volumeInitialDelayRef s' = volumeInitialDelayRef s ∧ volumeTimerRef s' = volumeTimerRef s ∧
  nextTimerId s' = nextTimerId s ∧ now s' = now s ∧ displayVolume s' = displayVolume s.

Lemma frame_refl s : frame s s.
Proof. repeat split. Qed.

Lemma frame_trans s1 s2 s3 : frame s1 s2 → frame s2 s3 → frame s1 s3.
Proof. intros (?&?&?&?&?&?&?&?) (?&?&?&?&?&?&?&?). repeat split; congruence. Qed.

Lemma effect_frame e p s : e ∈ effects → frame s (run_effect e p s).
Proof.
  unfold effects. rewrite elem_of_cons, elem_of_app, list_elem_of_fmap, list_elem_of_singleton.
  intros [->|[[ps [-> _]]| ->]]; [repeat split..|].
  simpl. unfold setMasterVolume. case_match; repeat split.
Qed.

Lemma commit_step_frame old s e : e ∈ effects → frame s (commit_step old s e).
Proof.
  intros He. unfold commit_step. repeat case_match; auto using frame_refl, effect_frame.
Qed.

Lemma foldl_commit_frame old es s :
  (∀ e, e ∈ es → e ∈ effects) → frame s (foldl (commit_step old) s es).
Proof.
  revert s. induction es as [|e es IH]; intros s Hes; simpl; [apply frame_refl|].
  eapply frame_trans; [apply commit_step_frame, Hes; left|]. apply IH. intros. apply Hes. by right.
Qed.

Lemma commit_unfold old s :
  commit old s = foldl (commit_step old)
                   (match old with Some o => soundPageEffect o s | None => s end) effects.
Proof. reflexivity. Qed.

(** The sound page's effect only refreshes the slider. *)
Lemma soundPageEffect_spec o s :
  soundPageEffect o s = s ∨
  soundPageEffect o s = set_displayVolume (Some (volumePercent (volumeLevel (ctx s)))) s.
Proof. unfold soundPageEffect. repeat case_match; auto. Qed.

Lemma commit_frame old s :
  frame (match old with Some o => soundPageEffect o s | None => s end) (commit old s).
Proof. rewrite commit_unfold. by apply foldl_commit_frame. Qed.

Lemma same_str_refl f p : same_str f p p = true.
Proof. by apply bool_decide_eq_true_2. Qed.
Lemma same_opt_refl f p : same_opt f p p = true.
Proof. by apply bool_decide_eq_true_2. Qed.
Lemma same_bool_refl f p : same_bool f p p = true.
Proof. apply Bool.eqb_reflx. Qed.
Lemma same_num_refl f p : same_num f p p = true.
Proof. by apply object_is_spec. Qed.

#[export] Hint Rewrite same_str_refl same_opt_refl same_bool_refl same_num_refl : webdroid_rw.

Lemma persist_mem ps :
  ps ∈ persistence ↔
  ps = effect_deviceType ∨ ps = effect_sound ∨ ps = effect_volumeLevel ∨
  ps = effect_brightnessLevel ∨ ps = effect_isMuted ∨ ps = effect_activePageBg ∨
  ps = effect_tempUnit ∨ ps = effect_defaultWeatherLocation ∨ ps = effect_notesFontSize ∨
  ps = effect_notesSortOrder ∨ ps = effect_activeTheme ∨ ps = effect_colorMode ∨
  ps = effect_lockscreenPin.
Proof. unfold persistence. rewrite !elem_of_cons, elem_of_nil. tauto. Qed.

(** A dependency that did not change leaves the written value unchanged. *)
Lemma dep_val ps o p : ps ∈ persistence → dep ps o p = true → val ps o = val ps p.
Proof.
  rewrite persist_mem.
  intros Hps; repeat destruct Hps as [->|Hps]; subst; simpl;
    unfold same_str, same_opt, same_bool, same_num;
    rewrite ?bool_decide_eq_true, ?Bool.eqb_true_iff, ?object_is_spec; intros ->; done.
Qed.

Lemma deps_same_refl e p : e ∈ effects → deps_same e p p = true.
Proof.
  unfold effects. rewrite elem_of_cons, elem_of_app, list_elem_of_fmap, list_elem_of_singleton.
  intros [->|[[ps [-> Hps]]| ->]]; simpl; autorewrite with webdroid_rw; [done| |done].
  apply persist_mem in Hps; repeat destruct Hps as [->|Hps]; subst; simpl;
    by autorewrite with webdroid_rw.
Qed.

Lemma foldl_commit_same o es s :
  ctx s = o → (∀ e, e ∈ es → e ∈ effects) → foldl (commit_step (Some o)) s es = s.
Proof.
  revert s. induction es as [|e es IH]; intros s Hc Hes; [done|]. cbn [foldl].
  unfold commit_step at 2. rewrite Hc, deps_same_refl by (apply Hes; left).
  apply IH; [done|]. intros. apply Hes. by right.
Qed.

(** A render that changed nothing runs no effect. *)
Lemma commit_same s : commit (Some (ctx s)) s = s.
Proof.
  rewrite commit_unfold. unfold soundPageEffect at 1. rewrite same_num_refl.
  destruct (displayVolume s); by apply foldl_commit_same.
Qed.

(** [localStorage] after the persistence effects. *)
Definition write_changed (o p : Provider) (st : gmap string string) (ps : Persist) :=
  if dep ps o p then st else write_item (key ps) (val ps p) st.

Lemma lookup_write_item_eq k v st : write_item k v st !! k = v.
Proof. destruct v; simpl; [apply lookup_insert_eq|apply lookup_delete_eq]. Qed.

Lemma lookup_write_item_ne k k' v st : k ≠ k' → write_item k v st !! k' = st !! k'.
Proof. intros. destruct v; simpl; [by apply lookup_insert_ne|by apply lookup_delete_ne]. Qed.

Lemma storage_persist_effects o l s :
  storage (foldl (commit_step (Some o)) s (persist_effect <$> l)) =
  foldl (write_changed o (ctx s)) (storage s) l ∧
  ctx (foldl (commit_step (Some o)) s (persist_effect <$> l)) = ctx s.
Proof.
  revert s. induction l as [|ps l IH]; intros s; [done|]. rewrite fmap_cons. cbn [foldl].
  assert (Hc : commit_step (Some o) s (persist_effect ps) =
               if dep ps o (ctx s) then s
               else set_storage (write_item (key ps) (val ps (ctx s)) (storage s)) s)
    by reflexivity.
  rewrite Hc. unfold write_changed at 2. destruct (dep ps o (ctx s)); exact (IH _).
Qed.

(** The theme and audio effects leave the storage alone. *)
Lemma commit_step_other_storage old s e :
  e = themeEffect ∨ e = masterVolumeEffect →
  storage (commit_step old s e) = storage s ∧ ctx (commit_step old s e) = ctx s.
Proof.
  intros [-> | ->]; unfold commit_step; destruct old; repeat case_match; try done;
    unfold run_effect, masterVolumeEffect, setMasterVolume in *; repeat case_match; done.
Qed.

Lemma effects_split : effects = [themeEffect] ++ (persist_effect <$> persistence) ++ [masterVolumeEffect].
Proof. reflexivity. Qed.
Lemma commit_storage o s :
  storage (commit (Some o) s) = foldl (write_changed o (ctx s)) (storage s) persistence.
Proof.
  rewrite commit_unfold, effects_split, !foldl_app.
  change (foldl (commit_step (Some o)) ?x [?e]) with (commit_step (Some o) x e).
  rewrite (proj1 (commit_step_other_storage _ _ masterVolumeEffect (or_intror eq_refl))).
  rewrite (proj1 (storage_persist_effects _ _ _)).
  change (foldl (commit_step (Some o)) ?x [?e]) with (commit_step (Some o) x e).
  destruct (commit_step_other_storage (Some o) (soundPageEffect o s) themeEffect (or_introl eq_refl)) as [-> ->].
  unfold soundPageEffect. destruct (displayVolume s); [case_match|]; reflexivity.
Qed.
(** Properties kept by every callback are kept by the clock. *)
Lemma tick_pres (Q : Sys → Prop) s :
  Q (set_now (S (now s)) s) → (∀ s' t, Q s' → t ∈ timers s' → Q (fire s' t)) → Q (tick s).
Proof.
  intros H0 Hf. unfold tick.
  generalize (filter (λ t, due t ≤ now (set_now (S (now s)) s)) (timers (set_now (S (now s)) s))).
  intros l. revert H0. generalize (set_now (S (now s)) s). induction l as [|t l IH]; [done|].
  intros s' Hs'. simpl. apply IH. unfold fire_if. case_bool_decide; auto.
Qed.

Lemma advance_succ m s : advance (S m) s = tick (advance m s).
Proof. revert s. induction m as [|m IH]; intros s; [done|]. simpl. by rewrite <- IH. Qed.

Lemma advance_pres (Q : Sys → Prop) ms s :
  (∀ s, Q s → Q (tick s)) → Q s → Q (advance ms s).
Proof. revert s. induction ms as [|m IH]; intros s Ht Hs; simpl; auto. Qed.

(** Runs of events the page can deliver stay reachable. *)
Fixpoint enabled_run (es : list Event) (s : Sys) : bool :=
  match es with [] => true | e :: es => enabled e s && enabled_run es (step e s) end.

Lemma reachable_run es s : reachable s → enabled_run es s = true → reachable (run es s).
Proof.
  revert s. induction es as [|e es IH]; intros s Hs He; [done|].
  apply andb_true_iff in He as [He1 He2]. apply IH; [by apply reach_step|done].
Qed.

Lemma storage_ok_empty : storage_ok ∅.
Proof. split; intros x; by rewrite lookup_empty. Qed.

End Settings.
