(* ===== verification/SettingsValues.v ===== *)
(** * SettingsValues: the levels, the storage and the reload of the settings

    Invariants of every reachable state of [Settings] (SettingsContext.v):
    the volume is one of the finitely many levels the controls reach, the
    brightness an integer from 10 to 100, the sound page's slider a
    percentage, and each [localStorage] key holds what its persistence
    effect last wrote; and what a reload gives back. *)

From S2P Require Import Prelude JsRuntime SettingsContext.
From Stdlib Require Import Ascii ZArith.
From Corelib Require PrimFloat.
From stdpp Require Import base list strings gmap pretty.
Import PrimFloat.PrimFloatNotations.

Module SettingsValues.
Import Settings.

(** ** The volume levels the controls can reach

    The levels the provider can hold are those of the mount ([0.5] and
    the stored percentages k/100), closed under one button step
    ([clampVolume (v ± 0.1)]).  The closure is computed by iteration from
    the start levels and checked closed, as a least fixed point. *)
Fixpoint close_levels (fuel : nat) (work acc : list float) : list float :=
  match fuel, work with
  | S f, v :: w =>
      let n := filter (λ x, x ∉ acc)
                 (remove_dups [clampVolume (v + tenth)%float; clampVolume (v - tenth)%float]) in
      close_levels f (n ++ w) (acc ++ n)
  | _, _ => acc
  end.

Definition percents : list float := of_Z <$> zrange 0 101.
Definition brightness_levels : list float := of_Z <$> zrange 10 91.
Definition start_levels : list float := half :: ((λ v, v / hundred)%float <$> percents).
Definition volume_levels : list float :=
  Eval vm_compute in close_levels 1000 start_levels start_levels.

Lemma volume_levels_closed :
  Forall (λ v, clampVolume (v + tenth)%float ∈ volume_levels ∧
               clampVolume (v - tenth)%float ∈ volume_levels) volume_levels.
Proof. compute_decide. Qed.

Lemma start_levels_in : Forall (λ v, v ∈ volume_levels ∧ clampVolume v ∈ volume_levels) start_levels.
Proof. compute_decide. Qed.

(** Every level is stored as a percentage in [0, 100] that reads back to
    itself. *)
Lemma volume_levels_percent :
  Forall (λ v, volumePercent v ∈ percents ∧
               volumePercent (volumePercent v / hundred)%float = volumePercent v) volume_levels.
Proof. compute_decide. Qed.

Lemma percents_read :
  Forall (λ x, ∃ k, x = of_Z k ∧ (0 ≤ k ≤ 100)%Z) percents.
Proof.
  apply Forall_forall. intros x Hx. apply list_elem_of_fmap in Hx as [k [-> Hk]].
  exists k. split; [done|]. apply list_elem_of_fmap in Hk as [i [-> Hi]].
  apply elem_of_seq in Hi. lia.
Qed.

Lemma brightness_clamp_read :
  Forall (λ k, clampBrightness (parseInt (pretty k) 10) = of_Z k ∧
               int_toString (of_Z k) = pretty k ∧ parseInt (pretty k) 0 = of_Z k) (zrange 10 91).
Proof. compute_decide. Qed.

Lemma percent_levels :
  Forall (λ k, parseInt (pretty k) 0 = of_Z k ∧ int_toString (of_Z k) = pretty k) (zrange 0 101).
Proof. compute_decide. Qed.

(** ** The values invariant: levels, the sound page's slider and the
    closures of pending button callbacks *)
Definition snapshot_ok (a : TimerAction) : Prop :=
  match a with
  | StartVolumeRepeat _ r _ | VolumeRepeat _ r _ => volumeLevel r ∈ volume_levels
  | _ => True
  end.

Record vals (s : Sys) : Prop := {
  vals_volume : volumeLevel (ctx s) ∈ volume_levels;
  vals_bright : brightnessLevel (ctx s) ∈ brightness_levels;
  vals_display : ∀ dv, displayVolume s = Some dv → dv ∈ percents;
  vals_snap : ∀ t, t ∈ timers s → snapshot_ok (action t)
}.

Lemma vals_frame s s' :
  ctx s' = ctx s → displayVolume s' = displayVolume s → timers s' = timers s →
  vals s → vals s'.
Proof. intros H1 H2 H3 []. split; rewrite ?H1, ?H2, ?H3; done. Qed.

Lemma vals_upd f s :
  vals s → volumeLevel (f (ctx s)) ∈ volume_levels →
  brightnessLevel (f (ctx s)) ∈ brightness_levels → vals (upd f s).
Proof. intros [] ??. by split. Qed.

Lemma vals_clear id s : vals s → vals (clear id s).
Proof.
  intros []. split; try done. intros t Ht. simpl in Ht.
  apply list_elem_of_filter in Ht as [_ Ht]. auto.
Qed.

Lemma vals_schedule d a s s' id :
  schedule d a s = (s', id) → vals s → snapshot_ok a → vals s'.
Proof.
  intros [= <- _] [] Ha. split; try done. intros t Ht. simpl in Ht.
  apply elem_of_app in Ht as [Ht| ->%list_elem_of_singleton]; auto.
Qed.

Lemma vals_masterVolume l m s : vals s → vals (setMasterVolume l m s).
Proof. unfold setMasterVolume. case_match; by apply vals_frame. Qed.

Lemma vals_trigger s : vals s → vals (triggerVolumeUIShow s).
Proof.
  intros Hs. unfold triggerVolumeUIShow.
  assert (H1 : vals (match volumeUITimerRef s with
                     | Some id => if bool_decide (id ≠ 0) then clear id s else s
                     | None => s end))
    by (repeat case_match; auto using vals_clear).
  destruct (schedule _ _ _) as [s' id] eqn:E.
  apply (vals_frame s'); try done. apply (vals_schedule _ _ _ _ _ E); [|exact I].
  apply vals_upd; [exact H1|exact (vals_volume _ H1)|exact (vals_bright _ H1)].
Qed.

Lemma vals_setVolumeLevel r l s :
  vals s → clampVolume l ∈ volume_levels → vals (setVolumeLevel r l s).
Proof.
  intros Hs Hl. unfold setVolumeLevel. apply vals_masterVolume.
  assert (Hv : vals (upd (set_volumeLevel (clampVolume l)) s))
    by (apply vals_upd; [done|done|apply Hs]).
  repeat case_match; try done;
    (apply vals_upd; [exact Hv|exact (vals_volume _ Hv)|exact (vals_bright _ Hv)]).
Qed.

Lemma vals_handleVolume dir off r s :
  vals s → volumeLevel r ∈ volume_levels → vals (handleVolume dir off r s).
Proof.
  intros Hs Hr. pose proof (proj1 (Forall_forall _ _) volume_levels_closed _ Hr) as [Hu Hd].
  unfold handleVolume, increaseVolume, decreaseVolume.
  destruct off; [done|]. destruct dir; apply vals_trigger, vals_setVolumeLevel; done.
Qed.

Lemma vals_stop s : vals s → vals (stopVolumeChange s).
Proof.
  intros Hs. unfold stopVolumeChange.
  set (s1 := match volumeInitialDelayRef s with
             | Some id => set_volumeInitialDelayRef None (clear id s) | None => s end).
  assert (H1 : vals s1)
    by (subst s1; destruct (volumeInitialDelayRef s) as [n|];
        [apply (vals_frame (clear n s)); auto using vals_clear|done]).
  destruct (volumeTimerRef s1) as [m|]; [|exact H1].
  apply (vals_frame (clear m s1)); auto using vals_clear.
Qed.

Lemma vals_start dir off r s :
  vals s → volumeLevel r ∈ volume_levels → vals (startVolumeChange dir off r s).
Proof.
  intros Hs Hr. unfold startVolumeChange. destruct off; [done|].
  destruct (schedule _ _ _) as [s' id] eqn:E. apply (vals_frame s'); try done.
  apply (vals_schedule _ _ _ _ _ E); [|exact Hr].
  apply vals_handleVolume; [by apply vals_stop|exact Hr].
Qed.

Lemma vals_commit old s : vals s → vals (commit old s).
Proof.
  intros Hs. destruct (commit_frame old s) as (Hc&Ht&_&_&_&_&_&Hd).
  apply (vals_frame (match old with Some o => soundPageEffect o s | None => s end));
    try done.
  destruct old as [o|]; [|done].
  destruct (soundPageEffect_spec o s) as [->| ->]; [done|].
  destruct Hs as [Hv Hb Hdv Hsn]. split; try done.
  intros dv [= <-]. by apply (proj1 (Forall_forall _ _) volume_levels_percent).
Qed.

Lemma vals_toggleSound r s : vals s → vals (toggleSound r s).
Proof.
  intros Hs. unfold toggleSound.
  apply vals_upd; [case_match; by apply vals_masterVolume|..];
    unfold setMasterVolume; repeat case_match; apply Hs.
Qed.

Lemma vals_toggleMute r s : vals s → vals (toggleMute r s).
Proof.
  intros Hs. unfold toggleMute. apply vals_trigger.
  pose proof (vals_masterVolume (volumePercent (volumeLevel r)) (negb (isMuted (ctx s))) s Hs) as H.
  apply vals_upd; [exact H|exact (vals_volume _ H)|exact (vals_bright _ H)].
Qed.

Lemma vals_setDeviceType t s : vals s → vals (setDeviceType t s).
Proof.
  intros Hs. unfold setDeviceType. destruct (schedule _ _ _) as [s' id] eqn:E. unfold fst.
  apply (vals_schedule _ _ _ _ _ E); [by apply (vals_frame s)|exact I].
Qed.

Lemma vals_run_timer a s : snapshot_ok a → vals s → vals (run_timer a s).
Proof.
  intros Ha Hs. destruct a as [t| | |dir r off|dir r off]; unfold run_timer.
  - destruct (schedule _ _ _) as [s' id] eqn:E. unfold fst.
    apply (vals_schedule _ _ _ _ _ E); [apply vals_upd; apply Hs|exact I].
  - by apply (vals_frame s).
  - apply (vals_frame (upd (set_showVolumeUI false) s)); try done. apply vals_upd; apply Hs.
  - destruct (schedule _ _ _) as [s' id] eqn:E. apply (vals_frame s'); try done.
    by apply (vals_schedule _ _ _ _ _ E).
  - by apply vals_trigger, vals_handleVolume.
Qed.

Lemma vals_fire s t : t ∈ timers s → vals s → vals (fire s t).
Proof.
  intros Ht Hs. pose proof (vals_snap _ Hs t Ht) as Ha. unfold fire. apply vals_commit.
  set (s1 := run_timer (action t) (set_timers (filter (λ u, timer_id u ≠ timer_id t) (timers s)) s)).
  assert (H1 : vals s1).
  { apply vals_run_timer; [done|]. destruct Hs. split; try done. intros u Hu.
    apply list_elem_of_filter in Hu as [_ Hu]. auto. }
  destruct H1. split; try done. intros u Hu. simpl in Hu.
  apply elem_of_app in Hu as [Hu|Hu]; [auto|].
  unfold requeue in Hu. destruct (action t) eqn:Ea; try (by apply elem_of_nil in Hu).
  apply list_elem_of_singleton in Hu as ->. exact Ha.
Qed.

Lemma vals_advance ms s : vals s → vals (advance ms s).
Proof.
  apply advance_pres. intros s' Hs. apply tick_pres; [by apply (vals_frame s')|].
  intros. by apply vals_fire.
Qed.

Lemma vals_setActivePageBgId id s : vals s → vals (setActivePageBgId id s).
Proof.
  intros Hs. apply (vals_frame (upd (set_activePageBgId id) s)); try done.
  apply vals_upd; apply Hs.
Qed.

Lemma range_value_spec lo hi v :
  range_value lo hi v = true → ∃ k, v = pretty k ∧ k ∈ zrange lo (Z.to_nat (hi - lo + 1)).
Proof.
  unfold range_value. rewrite bool_decide_eq_true, list_elem_of_fmap.
  intros [k [-> Hk]]. by exists k.
Qed.

Lemma slider_levels x : x ∈ percents → clampVolume (x / hundred)%float ∈ volume_levels.
Proof.
  intros Hx. refine (proj2 (proj1 (Forall_forall _ _) start_levels_in _ _)).
  right. apply list_elem_of_fmap. by exists x.
Qed.

Lemma vals_handle e s : enabled e s = true → vals s → vals (handle e s).
Proof.
  intros He Hs. pose proof (vals_volume _ Hs) as Hv.
  destruct e; cbn [handle enabled]; unfold mountSoundPage, handleChange, handleVolumeChange, handleVolumeChangeEnd, handleBrightnessChange in He |- *;
    try (apply vals_upd; [exact Hs|exact (vals_volume _ Hs)|exact (vals_bright _ Hs)]).
  - by apply vals_setDeviceType.
  - by apply vals_toggleSound.
  - by apply vals_toggleMute.
  - by apply vals_start.
  - by apply vals_stop.
  - by apply vals_handleVolume.
  - apply range_value_spec in He as [k [-> Hk]].
    pose proof (proj1 (Forall_forall _ _) brightness_clamp_read k Hk) as [Hc _].
    try unfold handleBrightnessChange; unfold setBrightnessLevel. rewrite Hc.
    apply vals_upd; [done|apply Hs|]. by apply list_elem_of_fmap; exists k.
  - by apply vals_setActivePageBgId.
  - destruct Hs. split; try done. intros dv [= <-].
    by apply (proj1 (Forall_forall _ _) volume_levels_percent).
  - destruct Hs. by split.
  - apply andb_true_iff in He as [_ He]. apply range_value_spec in He as [k [-> Hk]].
    destruct Hs. split; try done. intros dv [= <-].
    pose proof (proj1 (Forall_forall _ _) percent_levels k Hk) as [-> _].
    by apply list_elem_of_fmap; exists k.
  - destruct (displayVolume s) eqn:Ed; [|done].
    apply vals_setVolumeLevel; [done|]. apply slider_levels. by apply (vals_display _ Hs).
  - done.
Qed.

Lemma vals_step e s : enabled e s = true → vals s → vals (step e s).
Proof.
  intros He Hs. destruct e; try (by apply vals_advance);
    (apply vals_commit, vals_handle; [exact He|exact Hs]).
Qed.

(** ** The storage invariant: every key holds what its effect last wrote *)
Definition synced (p : Provider) (st : gmap string string) : Prop :=
  ∀ ps, ps ∈ persistence → st !! key ps = val ps p.

Lemma persistence_keys_NoDup : NoDup (key <$> persistence).
Proof. compute_decide. Qed.

Section writes.
Context (W : gmap string string → Persist → gmap string string).

Lemma foldl_writes_other l st k :
  (∀ st ps' k, ps' ∈ l → k ≠ key ps' → W st ps' !! k = st !! k) →
  k ∉ key <$> l → foldl W st l !! k = st !! k.
Proof.
  revert st. induction l as [|ps l IH]; intros st HW Hk; [done|]. simpl.
  rewrite fmap_cons, elem_of_cons in Hk.
  rewrite IH; [apply HW; [left|]; naive_solver| |naive_solver].
  intros. apply HW; [by right|done].
Qed.

Lemma foldl_writes_lookup (P : option string → Prop) p l st ps :
  NoDup (key <$> l) → ps ∈ l →
  (∀ st ps' k, ps' ∈ l → k ≠ key ps' → W st ps' !! k = st !! k) →
  (∀ st, P (st !! key ps) → W st ps !! key ps = val ps p) →
  P (st !! key ps) → foldl W st l !! key ps = val ps p.
Proof.
  revert st. induction l as [|ps1 l IH]; intros st Hnd Hin HW Hps HP;
    [by apply elem_of_nil in Hin|].
  rewrite fmap_cons in Hnd. apply NoDup_cons in Hnd as [Hn1 Hnd]. simpl.
  destruct (decide (key ps ∈ key <$> l)) as [Hl|Hl].
  - assert (Hne : key ps ≠ key ps1) by (intros E; apply Hn1; by rewrite <- E).
    assert (ps ∈ l) by (apply elem_of_cons in Hin as [->|]; [done|done]).
    apply IH; try done; [intros; apply HW; [by right|done]|]. rewrite HW; [done|left|done].
  - assert (ps = ps1) as ->.
    { apply elem_of_cons in Hin as [->|Hin]; [done|].
      exfalso. apply Hl. by apply list_elem_of_fmap_2. }
    rewrite foldl_writes_other; [by apply Hps| |done].
    intros. apply HW; [by right|done].
Qed.
End writes.

Lemma write_changed_other o p st ps k : k ≠ key ps → write_changed o p st ps !! k = st !! k.
Proof. intros. unfold write_changed. case_match; [done|]. by apply lookup_write_item_ne. Qed.

(** After a render, each key holds the value of the new state, provided it
    held the value of the previous render or already the new one. *)
Lemma commit_synced o s :
  (∀ ps, ps ∈ persistence → storage s !! key ps = val ps o ∨ storage s !! key ps = val ps (ctx s)) →
  synced (ctx (commit (Some o) s)) (storage (commit (Some o) s)).
Proof.
  intros Hst ps Hps.
  destruct (commit_frame (Some o) s) as [Hc _].
  assert (Hc' : ctx (soundPageEffect o s) = ctx s)
    by (by destruct (soundPageEffect_spec o s) as [-> | ->]).
  rewrite Hc, Hc', commit_storage.
  apply (foldl_writes_lookup _ (λ x, x = val ps o ∨ x = val ps (ctx s)));
    auto using persistence_keys_NoDup.
  - intros. by apply write_changed_other.
  - intros st [E|E]; unfold write_changed; (case_match eqn:Hd; [|apply lookup_write_item_eq]);
      rewrite E; [by apply dep_val|done].
Qed.

Lemma mount_storage s :
  storage (commit None s) =
  foldl (λ st ps, write_item (key ps) (val ps (ctx s)) st) (storage s) persistence.
Proof.
  rewrite commit_unfold, effects_split, !foldl_app.
  change (foldl (commit_step None) ?x [?e]) with (commit_step None x e).
  change (foldl (commit_step None) ?x [?e]) with (commit_step None x e).
  rewrite (proj1 (commit_step_other_storage _ _ masterVolumeEffect (or_intror eq_refl))).
  assert (Hp : ∀ l s', storage (foldl (commit_step None) s' (persist_effect <$> l)) =
                       foldl (λ st ps, write_item (key ps) (val ps (ctx s')) st) (storage s') l ∧
                       ctx (foldl (commit_step None) s' (persist_effect <$> l)) = ctx s').
  { intros l. induction l as [|ps l IH]; intros s'; [done|]. rewrite fmap_cons. cbn [foldl].
    exact (IH _). }
  rewrite (proj1 (Hp _ _)).
  by destruct (commit_step_other_storage None s themeEffect (or_introl eq_refl)) as [-> ->].
Qed.

Lemma mount_synced s : synced (ctx (commit None s)) (storage (commit None s)).
Proof.
  intros ps Hps. destruct (commit_frame None s) as [Hc _]. rewrite Hc, mount_storage.
  apply (foldl_writes_lookup _ (λ _, True)); auto using persistence_keys_NoDup.
  - intros. by apply lookup_write_item_ne.
  - intros. apply lookup_write_item_eq.
Qed.

Lemma storage_trigger s : storage (triggerVolumeUIShow s) = storage s.
Proof. unfold triggerVolumeUIShow. destruct (volumeUITimerRef s); [destruct (bool_decide _)|]; reflexivity. Qed.

Lemma storage_masterVolume l m s : storage (setMasterVolume l m s) = storage s.
Proof. unfold setMasterVolume. by case_match. Qed.

Lemma storage_setVolumeLevel r l s : storage (setVolumeLevel r l s) = storage s.
Proof. unfold setVolumeLevel. rewrite storage_masterVolume. by repeat case_match. Qed.

Lemma storage_handleVolume dir off r s : storage (handleVolume dir off r s) = storage s.
Proof.
  unfold handleVolume, increaseVolume, decreaseVolume.
  destruct off, dir; by rewrite ?storage_trigger, ?storage_setVolumeLevel.
Qed.

Lemma storage_stop s : storage (stopVolumeChange s) = storage s.
Proof. unfold stopVolumeChange. by repeat case_match. Qed.

(** Only [setActivePageBgId] writes the storage itself. *)
Lemma storage_handle e s :
  storage (handle e s) =
  match e with SetActivePageBgIdEv id => <["activePageBg" := id]> (storage s) | _ => storage s end.
Proof.
  destruct e; cbn [handle]; unfold mountSoundPage, handleChange, handleVolumeChange, handleVolumeChangeEnd, handleBrightnessChange; try reflexivity.
  - unfold toggleSound. change (storage (upd ?f ?x)) with (storage x).
    case_match; apply storage_masterVolume.
  - unfold toggleMute. rewrite storage_trigger. simpl. apply storage_masterVolume.
  - unfold startVolumeChange. case_match; [done|].
    destruct (schedule _ _ _) as [s' id] eqn:E.
    change (storage (set_volumeInitialDelayRef ?x s')) with (storage s').
    unfold schedule in E. injection E as <- _.
    change (storage (set_nextTimerId ?n (set_timers ?l ?x))) with (storage x).
    transitivity (storage (handleVolume dir false (ctx s) (stopVolumeChange s))); [reflexivity|].
    by rewrite storage_handleVolume, storage_stop.
  - apply storage_stop.
  - apply storage_handleVolume.
  - case_match; [apply storage_setVolumeLevel|done].
Qed.

Lemma storage_run_timer a s : storage (run_timer a s) = storage s.
Proof.
  destruct a; unfold run_timer; try reflexivity.
  - by rewrite storage_trigger, storage_handleVolume.
Qed.

Lemma synced_fire s t : synced (ctx s) (storage s) → synced (ctx (fire s t)) (storage (fire s t)).
Proof.
  intros Hs. unfold fire. apply commit_synced. intros ps Hps. left.
  change (storage (set_timers ?l ?x)) with (storage x). rewrite storage_run_timer. by apply Hs.
Qed.

Lemma synced_advance ms s :
  synced (ctx s) (storage s) → synced (ctx (advance ms s)) (storage (advance ms s)).
Proof.
  apply (advance_pres (λ s, synced (ctx s) (storage s))). intros s' Hs.
  apply tick_pres; [done|]. intros. by apply synced_fire.
Qed.

Lemma synced_step e s :
  synced (ctx s) (storage s) → synced (ctx (step e s)) (storage (step e s)).
Proof.
  intros Hs. destruct e; try (by apply synced_advance);
    (apply commit_synced; intros ps Hps; rewrite storage_handle; try (left; by apply Hs)).
  destruct (decide (key ps = "activePageBg")) as [Hk|Hk].
  - right. rewrite Hk, lookup_insert_eq.
    apply persist_mem in Hps; repeat destruct Hps as [->|Hps]; subst; simpl in Hk |- *;
      try discriminate; done.
  - left. rewrite lookup_insert_ne by congruence. by apply Hs.
Qed.

Lemma truthy_pretty_range k : k ∈ zrange 0 101 → truthy (Some (pretty k)) = true.
Proof. revert k. apply Forall_forall. compute_decide. Qed.

Lemma in_start_levels v : v ∈ start_levels → v ∈ volume_levels.
Proof. intros Hv. exact (proj1 (proj1 (Forall_forall _ _) start_levels_in v Hv)). Qed.

Lemma vals_mount st d cl : storage_ok st → vals (mount st d cl).
Proof.
  intros [Hv Hb]. unfold mount. apply vals_commit.
  split; cbn [ctx displayVolume timers volumeLevel brightnessLevel initialProvider].
  - destruct (st !! "volumeLevel") as [x|] eqn:E; [|apply in_start_levels; left].
    destruct (Hv x eq_refl) as [->|Hx]; [apply in_start_levels; left|].
    apply list_elem_of_fmap in Hx as [k [-> Hk]].
    assert (Hk' : (0 ≤ k ≤ 100)%Z)
      by (apply list_elem_of_fmap in Hk as [i [-> Hi]]; apply elem_of_seq in Hi; lia).
    rewrite truthy_pretty_range by done. cbn [default from_option id].
    rewrite (proj1 (parseInt_pretty_percent k Hk')).
    apply in_start_levels. right. apply list_elem_of_fmap. exists (of_Z k).
    split; [done|]. by apply list_elem_of_fmap; exists k.
  - destruct (st !! "brightnessLevel") as [x|] eqn:E; [|compute_decide].
    destruct (Hb x eq_refl) as [->|Hx]; [compute_decide|].
    apply list_elem_of_fmap in Hx as [k [-> Hk]].
    pose proof (proj1 (Forall_forall _ _) brightness_clamp_read k Hk) as (_&_&Hr).
    assert (Ht : truthy (Some (pretty k)) = true).
    { apply truthy_pretty_range. apply list_elem_of_fmap in Hk as [i [-> Hi]].
      apply list_elem_of_fmap. exists (i + 10)%nat. split; [lia|]. apply elem_of_seq in Hi.
      apply elem_of_seq. lia. }
    rewrite Ht. cbn [default from_option id]. rewrite Hr. by apply list_elem_of_fmap; exists k.
  - by intros ? ?.
  - by intros ? ?%elem_of_nil.
Qed.

(** The invariant of every reachable state. *)
Lemma reachable_inv s : reachable s → vals s ∧ synced (ctx s) (storage s).
Proof.
  induction 1 as [st d cl Hst|e s _ [Hv Hs] He].
  - split; [by apply vals_mount|apply mount_synced].
  - split; [by apply vals_step|by apply synced_step].
Qed.

(** ** Reload *)

Lemma synced_lookup p st :
  synced p st →
  st !! "deviceType" = Some (deviceType p) ∧
  st !! "sound" = Some (bool_toString (isSoundEnabled p)) ∧
  st !! "volumeLevel" = Some (int_toString (volumePercent (volumeLevel p))) ∧
  st !! "brightnessLevel" = Some (int_toString (brightnessLevel p)) ∧
  st !! "isMuted" = Some (bool_toString (isMuted p)) ∧
  st !! "activePageBg" = Some (activePageBgId p) ∧
  st !! "tempUnit" = Some (tempUnit p) ∧
  st !! "defaultWeatherLocation" = if_truthy (defaultWeatherLocation p) ∧
  st !! "notesFontSize" = Some (notesFontSize p) ∧
  st !! "notesSortOrder" = Some (notesSortOrder p) ∧
  st !! "activeTheme" = Some (activeThemeId p) ∧
  st !! "colorMode" = Some (colorMode p) ∧
  st !! "lockscreenPin" = if_truthy (lockscreenPin p).
Proof.
  intros H. unfold synced in H. setoid_rewrite persist_mem in H.
  split_and!;
    [apply (H effect_deviceType)|apply (H effect_sound)|apply (H effect_volumeLevel)
    |apply (H effect_brightnessLevel)|apply (H effect_isMuted)|apply (H effect_activePageBg)
    |apply (H effect_tempUnit)|apply (H effect_defaultWeatherLocation)
    |apply (H effect_notesFontSize)|apply (H effect_notesSortOrder)
    |apply (H effect_activeTheme)|apply (H effect_colorMode)|apply (H effect_lockscreenPin)];
    tauto.
Qed.

Lemma mount_ctx st d cl : ctx (mount st d cl) = initialProvider st d.
Proof. apply (commit_frame None). Qed.

Lemma str_or_if_truthy o d : str_or (if_truthy o) d = str_or o d.
Proof. unfold str_or, if_truthy. by destruct (truthy o) eqn:E; rewrite ?E. Qed.

Lemma read_bool_sound b : bool_decide (Some (bool_toString b) ≠ Some "false") = b.
Proof. by destruct b. Qed.

Lemma read_bool_muted b : bool_decide (Some (bool_toString b) = Some "true") = b.
Proof. by destruct b. Qed.

(** What a reload makes of a state: the stored strings read back, with the
    defaults for the empty ones, the volume rounded to a whole percentage,
    the volume UI hidden and the colour scheme of the new session. *)
Definition reload_view (p : Provider) (d : bool) : Provider :=
  mkProvider (str_or (Some (deviceType p)) "phone") (isSoundEnabled p)
    (volumePercent (volumeLevel p) / hundred)%float (brightnessLevel p) (isMuted p) false
    (str_or (Some (activePageBgId p)) "default") (str_or (Some (tempUnit p)) "celsius")
    (if_truthy (defaultWeatherLocation p)) (str_or (Some (notesFontSize p)) "base")
    (str_or (Some (notesSortOrder p)) "newest") (str_or (Some (activeThemeId p)) "default")
    (str_or (Some (colorMode p)) "dark") d (Some (str_or (lockscreenPin p) "1234")).

Lemma percent_of_level v : v ∈ volume_levels → ∃ k, volumePercent v = of_Z k ∧ (0 ≤ k ≤ 100)%Z.
Proof.
  intros Hv. destruct (proj1 (Forall_forall _ _) volume_levels_percent v Hv) as [Hp _].
  by apply (proj1 (Forall_forall _ _) percents_read).
Qed.

Lemma brightness_of_level b : b ∈ brightness_levels → ∃ k, b = of_Z k ∧ (10 ≤ k ≤ 100)%Z.
Proof.
  intros Hb. apply list_elem_of_fmap in Hb as [k [-> Hk]]. exists k. split; [done|].
  apply list_elem_of_fmap in Hk as [i [-> Hi]]. apply elem_of_seq in Hi. lia.
Qed.

Lemma truthy_pretty k : (0 ≤ k ≤ 100)%Z → truthy (Some (pretty k)) = true.
Proof.
  intros Hk. apply truthy_pretty_range. apply list_elem_of_fmap.
  exists (Z.to_nat k). split; [lia|]. apply elem_of_seq. lia.
Qed.

(** What the storage of a reachable state reads back as. *)
Lemma reload_view_of s d cl : reachable s → ctx (mount (storage s) d cl) = reload_view (ctx s) d.
Proof.
  intros Hr. destruct (reachable_inv s Hr) as [Hv Hs].
  destruct (synced_lookup _ _ Hs) as (E1&E2&E3&E4&E5&E6&E7&E8&E9&E10&E11&E12&E13).
  rewrite mount_ctx. unfold initialProvider, reload_view.
  rewrite E1, E2, E3, E4, E5, E6, E7, E8, E9, E10, E11, E12, E13.
  rewrite read_bool_sound, read_bool_muted, str_or_if_truthy.
  destruct (percent_of_level _ (vals_volume _ Hv)) as [k [Hk Hk']].
  destruct (brightness_of_level _ (vals_bright _ Hv)) as [b [Hb Hb']].
  rewrite Hk, Hb. destruct (int_toString_of_Z_percent k Hk') as [-> _].
  destruct (proj1 (Forall_forall _ _) brightness_clamp_read b
              ltac:(apply list_elem_of_fmap; exists (Z.to_nat (b - 10));
                    split; [lia|apply elem_of_seq; lia])) as (_&->&Hrb).
  rewrite !truthy_pretty by lia. cbn [default from_option id].
  rewrite (proj1 (parseInt_pretty_percent k Hk')), Hrb. reflexivity.
Qed.

Lemma storage_ok_reachable s : reachable s → storage_ok (storage s).
Proof.
  intros Hr. destruct (reachable_inv s Hr) as [Hv Hs].
  destruct (synced_lookup _ _ Hs) as (_&_&E3&E4&_).
  destruct (percent_of_level _ (vals_volume _ Hv)) as [k [Hk Hk']].
  destruct (brightness_of_level _ (vals_bright _ Hv)) as [b [Hb Hb']].
  split; intros x Hx; right.
  - rewrite E3, Hk in Hx. destruct (int_toString_of_Z_percent k Hk') as [Hs' _].
    injection Hx as <-. rewrite Hs'. apply list_elem_of_fmap. exists k. split; [done|].
    apply list_elem_of_fmap. exists (Z.to_nat k). split; [lia|]. apply elem_of_seq. lia.
  - rewrite E4, Hb in Hx. destruct (int_toString_of_Z_percent b ltac:(lia)) as [Hs' _].
    injection Hx as <-. rewrite Hs'. apply list_elem_of_fmap. exists b. split; [done|].
    apply list_elem_of_fmap. exists (Z.to_nat (b - 10)). split; [lia|]. apply elem_of_seq. lia.
Qed.

Lemma str_or_idem o d : d ≠ "" → str_or (Some (str_or o d)) d = str_or o d.
Proof.
  intros Hd. unfold str_or, truthy. destruct o as [x|]; simpl; case_bool_decide; simpl;
    try case_bool_decide; simpl; try rewrite bool_decide_eq_true_2 by done; done.
Qed.

Lemma if_truthy_idem o : if_truthy (if_truthy o) = if_truthy o.
Proof. unfold if_truthy. destruct (truthy o) eqn:E; [by rewrite E|done]. Qed.

(** ** Properties *)

(** In every state reachable from a storage the app wrote, the volume
    is one of the levels the controls reach and is stored as a whole
    percentage from 0 to 100, the brightness is an integer from 10 to 100,
    and the storage is again one the app writes. *)
Theorem settings_reachable_bounds s :
  reachable s →
  volumeLevel (ctx s) ∈ volume_levels ∧
  (∃ k, volumePercent (volumeLevel (ctx s)) = of_Z k ∧ (0 ≤ k ≤ 100)%Z) ∧
  (∃ k, brightnessLevel (ctx s) = of_Z k ∧ (10 ≤ k ≤ 100)%Z) ∧
  storage_ok (storage s).
Proof.
  intros Hr. destruct (reachable_inv s Hr) as [Hv _]. split_and!.
  - apply Hv.
  - apply percent_of_level, Hv.
  - apply brightness_of_level, Hv.
  - by apply storage_ok_reachable.
Qed.

(** C11: Reloading the page from the storage of any reachable state gives
    back every setting, except that empty strings fall back to their
    defaults, a cleared PIN becomes "1234", the volume is rounded to a
    whole percentage, the volume UI is hidden and the colour scheme is the
    new session's. *)
Theorem settings_reload_restores s d cl :
  reachable s → ctx (mount (storage s) d cl) = reload_view (ctx s) d.
Proof. apply reload_view_of. Qed.

(** The stored settings are stable after one reload: reloading a
    second time restores exactly the state of the first reload. *)
Theorem settings_reload_stable s d cl d' cl' :
  reachable s →
  ctx (mount (storage (mount (storage s) d cl)) d' cl') =
  set_systemPrefersDark d' (ctx (mount (storage s) d cl)).
Proof.
  intros Hr. assert (Hr1 : reachable (mount (storage s) d cl))
    by (apply reach_mount, storage_ok_reachable, Hr).
  rewrite (reload_view_of _ _ _ Hr1), (reload_view_of _ _ _ Hr).
  destruct (reachable_inv s Hr) as [Hv _].
  pose proof (proj1 (Forall_forall _ _) volume_levels_percent _ (vals_volume _ Hv)) as [_ Hp].
  unfold reload_view, set_systemPrefersDark. cbn. rewrite Hp.
  f_equal; rewrite ?str_or_idem, ?if_truthy_idem by done; done.
Qed.

End SettingsValues.

(** ** Witnesses *)
Module SettingsValuesWitness.
Import Settings SettingsValues.

(** A session from a fresh install: mute toggle, a volume key, the sound
    page's slider set to 37%, the brightness slider to 55, the weather
    location and the PIN cleared, and 3.5 s of clock. *)
Definition sample_events : list Event :=
  [ToggleMute; VolumeButtonClick Up false; OpenSoundPage; VolumeSliderInput "37";
   VolumeSliderRelease; BrightnessInput "55"; SetDefaultWeatherLocationEv (Some "");
   SetLockscreenPinEv None; Advance 3500].

Definition sample : Sys := run sample_events (mount ∅ false []).

Lemma sample_reachable : reachable sample.
Proof.
  unfold sample. apply reachable_run; [apply reach_mount, storage_ok_empty|].
  vm_compute. reflexivity.
Defined.

Lemma settings_reachable_bounds_witness :
  reachable sample ∧ storage_ok (storage sample).
Proof.
  split; [exact sample_reachable|].
  exact (proj2 (proj2 (proj2 (settings_reachable_bounds sample sample_reachable)))).
Defined.

Lemma settings_reload_restores_witness :
  reachable sample ∧ ctx (mount (storage sample) true []) = reload_view (ctx sample) true.
Proof.
  split; [exact sample_reachable|]. exact (settings_reload_restores sample true [] sample_reachable).
Defined.

Lemma settings_reload_stable_witness :
  reachable sample ∧
  ctx (mount (storage (mount (storage sample) true [])) false ["dark"]) =
  set_systemPrefersDark false (ctx (mount (storage sample) true [])).
Proof.
  split; [exact sample_reachable|].
  exact (settings_reload_stable sample true [] false ["dark"] sample_reachable).
Defined.

End SettingsValuesWitness.
