(* ===== verification/SettingsTimers.v ===== *)
(** * SettingsTimers: the timers of the settings provider and volume buttons

    The refs of [SettingsContext.tsx] and [DeviceButtons.tsx] name the
    pending callbacks of their kind (the bookkeeping invariant); a held
    volume button and the 3-second hide of the volume UI; no callback runs
    late. *)

From S2P Require Import Prelude JsRuntime SettingsContext.
From Stdlib Require Import Ascii ZArith.
From Corelib Require PrimFloat.
From stdpp Require Import base list strings gmap pretty.
Import PrimFloat.PrimFloatNotations.

Module SettingsTimers.
Import Settings.

(** ** Timer bookkeeping

    The refs of SettingsContext.tsx (the volume UI timer) and of
    DeviceButtons.tsx (the initial delay and the interval) name the
    pending callbacks of their kind, ids are fresh, and an initial delay
    and an interval are never pending together. *)
Definition is_start (a : TimerAction) : Prop :=
  match a with StartVolumeRepeat _ _ _ => True | _ => False end.
Definition is_repeat (a : TimerAction) : Prop :=
  match a with VolumeRepeat _ _ _ => True | _ => False end.
Definition is_button (a : TimerAction) : Prop := is_start a ∨ is_repeat a.

Record tracked (s : Sys) : Prop := {
  tr_next : 1 ≤ nextTimerId s;
  tr_lt : ∀ t, t ∈ timers s → timer_id t < nextTimerId s;
  tr_ref : ∀ id, volumeUITimerRef s = Some id → 1 ≤ id;
  tr_hide : ∀ t, t ∈ timers s → action t = HideVolumeUI → volumeUITimerRef s = Some (timer_id t);
  tr_start : ∀ t, t ∈ timers s → is_start (action t) → volumeInitialDelayRef s = Some (timer_id t);
  tr_repeat : ∀ t, t ∈ timers s → is_repeat (action t) → volumeTimerRef s = Some (timer_id t);
  tr_excl : ∀ t u, t ∈ timers s → u ∈ timers s → is_start (action t) → ¬ is_repeat (action u)
}.

(** The timer part of the state. *)
Definition tframe (s s' : Sys) : Prop :=
  timers s' = timers s ∧ volumeUITimerRef s' = volumeUITimerRef s ∧
  volumeInitialDelayRef s' = volumeInitialDelayRef s ∧ volumeTimerRef s' = volumeTimerRef s ∧
  nextTimerId s' = nextTimerId s ∧ now s' = now s.

Lemma tframe_of_frame s s' : frame s s' → tframe s s'.
Proof. intros (?&?&?&?&?&?&?&?). by repeat split. Qed.

Lemma tracked_tframe s s' : tframe s s' → tracked s → tracked s'.
Proof.
  intros (Ht&Hu&Hi&Hr&Hn&_) []. split; rewrite ?Ht, ?Hu, ?Hi, ?Hr, ?Hn; done.
Qed.

Lemma tframe_upd f s : tframe s (upd f s).
Proof. by repeat split. Qed.

Lemma tframe_masterVolume l m s : tframe s (setMasterVolume l m s).
Proof. unfold setMasterVolume. case_match; by repeat split. Qed.

Lemma tframe_trans s1 s2 s3 : tframe s1 s2 → tframe s2 s3 → tframe s1 s3.
Proof. intros (?&?&?&?&?&?) (?&?&?&?&?&?). repeat split; congruence. Qed.

Lemma tframe_setVolumeLevel r l s : tframe s (setVolumeLevel r l s).
Proof.
  unfold setVolumeLevel. eapply tframe_trans; [|apply tframe_masterVolume].
  repeat case_match; by repeat split.
Qed.

Lemma clear_mem id s t : t ∈ timers (clear id s) ↔ timer_id t ≠ id ∧ t ∈ timers s.
Proof. unfold clear. simpl. by rewrite list_elem_of_filter. Qed.

Lemma schedule_mem d a s t :
  t ∈ timers (schedule d a s).1 ↔ t ∈ timers s ∨ t = mkTimer (nextTimerId s) (now s + d) a.
Proof. simpl. by rewrite elem_of_app, list_elem_of_singleton. Qed.

Lemma tracked_clear id s : tracked s → tracked (clear id s).
Proof.
  intros [Hn Hlt Hr Hh Hs Hrp He].
  split; simpl; try done; setoid_rewrite clear_mem; naive_solver.
Qed.

(** A callback of a kind no ref names. *)
Definition plain (a : TimerAction) : Prop :=
  match a with ApplyDeviceType _ | EndDeviceTransition => True | _ => False end.

Lemma tracked_schedule_plain d a s : plain a → tracked s → tracked (schedule d a s).1.
Proof.
  intros Ha [Hn Hlt Hr Hh Hs Hrp He].
  split; try (simpl; done); try setoid_rewrite schedule_mem.
  - simpl. lia.
  - intros t [Ht| ->]; [specialize (Hlt t Ht)|]; simpl; lia.
  - intros t [Ht| ->] Hat; [by apply Hh|destruct a; simpl in *; by try tauto].
  - intros t [Ht| ->] Hat; [by apply Hs|destruct a; simpl in *; tauto].
  - intros t [Ht| ->] Hat; [by apply Hrp|destruct a; simpl in *; tauto].
  - intros t u [Ht| ->] [Hu| ->] Hst; simpl in *; [eauto|..]; destruct a; simpl in *; tauto.
Qed.

(** A state whose timers are among those of a tracked state, with refs
    that still name the pending callbacks of their kind, is tracked. *)
Lemma tracked_sub s s' :
  tracked s → nextTimerId s ≤ nextTimerId s' → 1 ≤ nextTimerId s' →
  (∀ t, t ∈ timers s' → t ∈ timers s ∨ nextTimerId s ≤ timer_id t < nextTimerId s') →
  (∀ id, volumeUITimerRef s' = Some id → 1 ≤ id) →
  (∀ t, t ∈ timers s' → action t = HideVolumeUI → volumeUITimerRef s' = Some (timer_id t)) →
  (∀ t, t ∈ timers s' → is_start (action t) → volumeInitialDelayRef s' = Some (timer_id t)) →
  (∀ t, t ∈ timers s' → is_repeat (action t) → volumeTimerRef s' = Some (timer_id t)) →
  (∀ t u, t ∈ timers s' → u ∈ timers s' → is_start (action t) → ¬ is_repeat (action u)) →
  tracked s'.
Proof.
  intros Hs Hle H1 Hsub Hr Hh Hst Hrp He. split; try done.
  intros t Ht. destruct (Hsub t Ht) as [Ht'|]; [|lia].
  pose proof (tr_lt _ Hs t Ht'). lia.
Qed.

Lemma trigger_shape s :
  (∀ t, t ∈ timers (triggerVolumeUIShow s) →
        t ∈ timers s ∨ t = mkTimer (nextTimerId s) (now s + 3000) HideVolumeUI) ∧
  volumeUITimerRef (triggerVolumeUIShow s) = Some (nextTimerId s) ∧
  volumeInitialDelayRef (triggerVolumeUIShow s) = volumeInitialDelayRef s ∧
  volumeTimerRef (triggerVolumeUIShow s) = volumeTimerRef s ∧
  nextTimerId (triggerVolumeUIShow s) = S (nextTimerId s) ∧ now (triggerVolumeUIShow s) = now s.
Proof.
  unfold triggerVolumeUIShow.
  destruct (volumeUITimerRef s) as [id|]; [destruct (bool_decide (id ≠ 0))|];
    (split; [|split_and!; reflexivity]); intros t Ht; simpl in Ht;
    rewrite elem_of_app, list_elem_of_singleton in Ht; destruct Ht as [Ht| ->]; auto;
    left; by apply list_elem_of_filter in Ht as [_ Ht].
Qed.

(** [triggerVolumeUIShow] first cancels the hide it had scheduled. *)
Lemma tracked_trigger s : tracked s → tracked (triggerVolumeUIShow s).
Proof.
  intros Hs. destruct (trigger_shape s) as (Hm&Hr&Hi&Ht&Hn&_).
  assert (Hnh : ∀ t, t ∈ timers (triggerVolumeUIShow s) → action t = HideVolumeUI →
                     t = mkTimer (nextTimerId s) (now s + 3000) HideVolumeUI).
  { unfold triggerVolumeUIShow. intros t Ht' Ha.
    destruct (volumeUITimerRef s) as [id|] eqn:Er.
    - rewrite bool_decide_eq_true_2 in Ht' by (pose proof (tr_ref _ Hs id Er); lia).
      simpl in Ht'. rewrite elem_of_app, list_elem_of_singleton in Ht'.
      destruct Ht' as [Ht'| ->]; [|done]. exfalso.
      apply list_elem_of_filter in Ht' as [Hid Ht']. apply Hid.
      pose proof (tr_hide _ Hs t Ht' Ha) as E. congruence.
    - simpl in Ht'. rewrite elem_of_app, list_elem_of_singleton in Ht'.
      destruct Ht' as [Ht'| ->]; [|done]. pose proof (tr_hide _ Hs t Ht' Ha). congruence. }
  apply (tracked_sub s); rewrite ?Hn, ?Hr, ?Hi, ?Ht; try lia; [exact Hs|..].
  - intros t [?| ->]%Hm; [by left|right; simpl; lia].
  - intros id [= <-]. pose proof (tr_next _ Hs). lia.
  - intros t Ht' Ha. by rewrite (Hnh t Ht' Ha).
  - intros t [Ht'| ->]%Hm Ha; [by apply (tr_start _ Hs)|done].
  - intros t [Ht'| ->]%Hm Ha; [by apply (tr_repeat _ Hs)|done].
  - intros t u [Ht'| ->]%Hm [Hu| ->]%Hm Ha; simpl in *;
      [by apply (tr_excl _ Hs t u)|tauto|tauto|tauto].
Qed.

(** What the volume handlers do to the timers: at most add hides. *)
Definition grows (s s' : Sys) : Prop :=
  nextTimerId s ≤ nextTimerId s' ∧ now s' = now s ∧
  volumeInitialDelayRef s' = volumeInitialDelayRef s ∧ volumeTimerRef s' = volumeTimerRef s ∧
  ∀ t, t ∈ timers s' → t ∈ timers s ∨ (action t = HideVolumeUI ∧ now s < due t).

Lemma grows_tframe s s' : tframe s s' → grows s s'.
Proof. intros (Ht&_&Hi&Hr&Hn&Hnow). repeat split; try lia; try congruence. rewrite Ht. auto. Qed.

Lemma grows_trans s1 s2 s3 : grows s1 s2 → grows s2 s3 → grows s1 s3.
Proof.
  intros (Hn1&Hw1&Hi1&Hr1&Hm1) (Hn2&Hw2&Hi2&Hr2&Hm2). repeat split; try lia; try congruence.
  intros t [Ht|Ht]%Hm2; [destruct (Hm1 t Ht); auto|]. right. split; [apply Ht|].
  rewrite <- Hw1. apply Ht.
Qed.

Lemma grows_trigger s : grows s (triggerVolumeUIShow s).
Proof.
  destruct (trigger_shape s) as (Hm&_&Hi&Hr&Hn&Hnow). repeat split; try lia; try done.
  intros t [Ht| ->]%Hm; [by left|]. right. simpl. split; [done|lia].
Qed.

Lemma grows_handleVolume dir off r s : grows s (handleVolume dir off r s).
Proof.
  unfold handleVolume, increaseVolume, decreaseVolume.
  destruct off; [apply grows_tframe; by repeat split|].
  destruct dir; (eapply grows_trans; [apply grows_tframe, tframe_setVolumeLevel|apply grows_trigger]).
Qed.

Lemma tracked_setVolumeLevel r l s : tracked s → tracked (setVolumeLevel r l s).
Proof. apply tracked_tframe, tframe_setVolumeLevel. Qed.

Lemma tracked_handleVolume dir off r s : tracked s → tracked (handleVolume dir off r s).
Proof.
  intros Hs. unfold handleVolume, increaseVolume, decreaseVolume.
  destruct off; [done|]. destruct dir; by apply tracked_trigger, tracked_setVolumeLevel.
Qed.

Definition no_button (s : Sys) : Prop := ∀ t, t ∈ timers s → ¬ is_button (action t).

Lemma no_button_grows s s' : grows s s' → no_button s → no_button s'.
Proof.
  intros (_&_&_&_&Hm) Hs t [Ht|[Ha _]]%Hm; [by apply Hs|]. rewrite Ha. by intros [].
Qed.

Lemma stop_shape s :
  (∀ t, t ∈ timers (stopVolumeChange s) →
        t ∈ timers s ∧ volumeInitialDelayRef s ≠ Some (timer_id t) ∧
        volumeTimerRef s ≠ Some (timer_id t)) ∧
  volumeInitialDelayRef (stopVolumeChange s) = None ∧ volumeTimerRef (stopVolumeChange s) = None ∧
  volumeUITimerRef (stopVolumeChange s) = volumeUITimerRef s ∧
  nextTimerId (stopVolumeChange s) = nextTimerId s ∧ now (stopVolumeChange s) = now s.
Proof.
  unfold stopVolumeChange.
  destruct (volumeInitialDelayRef s) as [i|] eqn:Ei;
    cbn [volumeTimerRef set_volumeInitialDelayRef clear set_timers];
    destruct (volumeTimerRef s) as [k|] eqn:Ek; (split; [|split_and!; simpl; congruence]);
    intros t Ht; simpl in Ht; rewrite ?list_elem_of_filter in Ht; naive_solver.
Qed.

Lemma tracked_stop s : tracked s → tracked (stopVolumeChange s) ∧ no_button (stopVolumeChange s).
Proof.
  intros Hs. destruct (stop_shape s) as (Hm&Hi&Hr&Hu&Hn&_).
  assert (Hnb : no_button (stopVolumeChange s)).
  { intros t Ht [Ha|Ha]; destruct (Hm t Ht) as (Ht'&Hi'&Hr').
    - by apply Hi', (tr_start _ Hs).
    - by apply Hr', (tr_repeat _ Hs). }
  split; [|done]. apply (tracked_sub s); rewrite ?Hn, ?Hu, ?Hi, ?Hr; try done; try lia.
  - apply Hs.
  - intros t Ht. left. apply (Hm t Ht).
  - apply Hs.
  - intros t Ht Ha. apply (tr_hide _ Hs); [apply (Hm t Ht)|done].
  - intros t Ht Ha. destruct (Hnb t Ht). by left.
  - intros t Ht Ha. destruct (Hnb t Ht). by right.
  - intros t u Ht _ Ha. destruct (Hnb t Ht). by left.
Qed.

(** [startVolumeChange] leaves exactly one button callback: the initial
    delay, named by its ref. *)
Lemma tracked_start dir r s : tracked s → tracked (startVolumeChange dir false r s).
Proof.
  intros Hs. destruct (tracked_stop s Hs) as [H1 Hnb1].
  set (s2 := handleVolume dir false r (stopVolumeChange s)).
  assert (H2 : tracked s2) by by apply tracked_handleVolume.
  assert (Hnb2 : no_button s2) by (eapply no_button_grows; [apply grows_handleVolume|done]).
  unfold startVolumeChange.
  change (tracked (set_volumeInitialDelayRef (Some (nextTimerId s2))
                     (schedule 400 (StartVolumeRepeat dir r false) s2).1)).
  destruct H2 as [Hn Hlt Hr Hh Hst Hrp He].
  split; simpl; try setoid_rewrite elem_of_app; try setoid_rewrite list_elem_of_singleton;
    try done; try lia.
  - intros t [Ht| ->]; [specialize (Hlt t Ht)|]; simpl; lia.
  - intros t [Ht| ->] Ha; [by apply Hh|done].
  - intros t [Ht| ->] Ha; [destruct (Hnb2 t Ht); by left|done].
  - intros t [Ht| ->] Ha; [destruct (Hnb2 t Ht); by right|done].
  - intros t u [Ht| ->] [Hu| ->] Ha; simpl in *;
      [destruct (Hnb2 t Ht); by left|destruct (Hnb2 t Ht); by left| |tauto].
    intros Hr'. destruct (Hnb2 u Hu). by right.
Qed.

Lemma tframe_commit old s : tframe s (commit old s).
Proof.
  destruct (commit_frame old s) as (_&Ht&Hu&Hi&Hr&Hn&Hw&_).
  assert (tframe s (match old with Some o => soundPageEffect o s | None => s end)) as (?&?&?&?&?&?)
    by (destruct old as [o|]; [destruct (soundPageEffect_spec o s) as [-> | ->]|]; by repeat split).
  repeat split; congruence.
Qed.

Lemma tracked_commit old s : tracked s → tracked (commit old s).
Proof. apply tracked_tframe, tframe_commit. Qed.

(** After its callback was dequeued, no pending callback has the kind of
    the one running, when a ref names it. *)
Lemma clear_own_kind s t :
  tracked s → t ∈ timers s →
  (∀ u, u ∈ timers (clear (timer_id t) s) →
        (action t = HideVolumeUI → action u ≠ HideVolumeUI) ∧
        (is_start (action t) → ¬ is_button (action u)) ∧
        (is_repeat (action t) → ¬ is_button (action u))).
Proof.
  intros Hs Ht u [Hid Hu]%clear_mem. split_and!.
  - intros Ha Hau. apply Hid. pose proof (tr_hide _ Hs t Ht Ha). pose proof (tr_hide _ Hs u Hu Hau).
    congruence.
  - intros Ha [Hau|Hau].
    + apply Hid. pose proof (tr_start _ Hs t Ht Ha). pose proof (tr_start _ Hs u Hu Hau). congruence.
    + by apply (tr_excl _ Hs t u).
  - intros Ha [Hau|Hau].
    + by apply (tr_excl _ Hs u t).
    + apply Hid. pose proof (tr_repeat _ Hs t Ht Ha). pose proof (tr_repeat _ Hs u Hu Hau).
      congruence.
Qed.

Lemma tracked_fire s t : tracked s → t ∈ timers s → tracked (fire s t).
Proof.
  intros Hs Ht. unfold fire. apply tracked_commit.
  change (set_timers (filter (λ u, timer_id u ≠ timer_id t) (timers s)) s)
    with (clear (timer_id t) s).
  pose proof (clear_own_kind s t Hs Ht) as Hown.
  pose proof (tracked_clear (timer_id t) s Hs) as H1.
  remember (clear (timer_id t) s) as s1 eqn:Es1.
  destruct t as [id d a]; simpl in *. unfold requeue; simpl.
  destruct a as [ty| | |dir r off|dir r off]; unfold run_timer.
  - apply (tracked_tframe (fst (schedule 500 EndDeviceTransition (upd (set_deviceType ty) s1)))).
    { repeat split. simpl. by rewrite app_nil_r. }
    apply tracked_schedule_plain; [done|]. apply (tracked_tframe s1); [apply tframe_upd|exact H1].
  - apply (tracked_tframe s1); [repeat split; simpl; by rewrite app_nil_r|done].
  - destruct H1 as [Hn Hlt Hr Hh Hst Hrp He].
    split; simpl; rewrite ?app_nil_r; try done.
    intros u Hu Ha. by destruct (proj1 (Hown u Hu) eq_refl).
  - destruct H1 as [Hn Hlt Hr Hh Hst Hrp He].
    split; simpl; rewrite ?app_nil_r; try setoid_rewrite elem_of_app;
      try setoid_rewrite list_elem_of_singleton; try done; try lia.
    + intros u [Hu| ->]; [specialize (Hlt u Hu)|]; simpl; lia.
    + intros u [Hu| ->] Ha; [by apply Hh|done].
    + intros u [Hu| ->] Ha; [destruct (proj1 (proj2 (Hown u Hu)) I); by left|done].
    + intros u [Hu| ->] Ha; [destruct (proj1 (proj2 (Hown u Hu)) I); by right|done].
    + intros u v [Hu| ->] [Hv| ->] Ha; simpl in *; try tauto;
        destruct (proj1 (proj2 (Hown u Hu)) I); by left.
  - remember (triggerVolumeUIShow (handleVolume dir off r s1)) as s2 eqn:Es2.
    assert (Hg : grows s1 s2)
      by (subst s2; eapply grows_trans; [apply grows_handleVolume|apply grows_trigger]).
    assert (H2 : tracked s2) by (subst s2; by apply tracked_trigger, tracked_handleVolume).
    assert (Hnb : no_button s2).
    { eapply no_button_grows; [exact Hg|]. intros u Hu. exact (proj2 (proj2 (Hown u Hu)) I). }
    destruct Hg as (Hle&_&Hi&Hr'&_).
    pose proof (tr_lt _ Hs _ Ht) as Hid. pose proof (tr_repeat _ Hs _ Ht I) as Hrid.
    simpl in Hid, Hrid.
    destruct H2 as [Hn Hlt Hr Hh Hst Hrp He].
    split; simpl; try setoid_rewrite elem_of_app; try setoid_rewrite list_elem_of_singleton;
      try done.
    + intros u [Hu| ->]; [by apply Hlt|]. simpl. rewrite Es1 in Hle. simpl in Hle. lia.
    + intros u [Hu| ->] Ha; [by apply Hh|done].
    + intros u [Hu| ->] Ha; [destruct (Hnb u Hu); by left|done].
    + intros u [Hu| ->] Ha; [destruct (Hnb u Hu); by right|].
      simpl. rewrite Hr', Es1. exact Hrid.
    + intros u v [Hu| ->] [Hv| ->] Ha; simpl in *; try tauto;
        destruct (Hnb u Hu); by left.
Qed.

Lemma tracked_advance ms s : tracked s → tracked (advance ms s).
Proof.
  apply advance_pres. intros s' Hs. apply tick_pres; [|intros; by apply tracked_fire].
  destruct Hs. by split.
Qed.

Lemma tracked_handle e s : tracked s → tracked (handle e s).
Proof.
  intros Hs. destruct e; cbn [handle]; unfold mountSoundPage, handleChange, handleVolumeChange, handleVolumeChangeEnd, handleBrightnessChange;
    try (apply (tracked_tframe s); [by repeat split|exact Hs]).
  - unfold setDeviceType. apply tracked_schedule_plain; [done|].
    apply (tracked_tframe s); [by repeat split|exact Hs].
  - unfold toggleSound. apply (tracked_tframe s); [|exact Hs].
    eapply tframe_trans; [|apply tframe_upd]. case_match; apply tframe_masterVolume.
  - unfold toggleMute. apply tracked_trigger.
    apply (tracked_tframe s); [|exact Hs].
    eapply tframe_trans; [apply tframe_masterVolume|apply tframe_upd].
  - unfold startVolumeChange. destruct off; [done|]. by apply tracked_start.
  - by apply tracked_stop.
  - by apply tracked_handleVolume.
  - case_match; [by apply tracked_setVolumeLevel|done].
Qed.

Lemma tracked_step e s : tracked s → tracked (step e s).
Proof.
  intros Hs. destruct e; try (by apply tracked_advance);
    (apply tracked_commit, tracked_handle; exact Hs).
Qed.

Lemma tracked_mount st d cl : tracked (mount st d cl).
Proof.
  apply tracked_commit. split; simpl; try lia; intros *; rewrite ?elem_of_nil; naive_solver.
Qed.

Lemma reachable_tracked s : reachable s → tracked s.
Proof. induction 1; [apply tracked_mount|by apply tracked_step]. Qed.

(** ** The volume a button leaves *)

Lemma ctx_trigger s : ctx (triggerVolumeUIShow s) = set_showVolumeUI true (ctx s).
Proof.
  unfold triggerVolumeUIShow. destruct (volumeUITimerRef s); [destruct (bool_decide _)|];
    reflexivity.
Qed.

Lemma volume_masterVolume l m s : ctx (setMasterVolume l m s) = ctx s.
Proof. unfold setMasterVolume. by case_match. Qed.

Lemma volume_setVolumeLevel r l s : volumeLevel (ctx (setVolumeLevel r l s)) = clampVolume l.
Proof. unfold setVolumeLevel. rewrite volume_masterVolume. by repeat case_match. Qed.

Lemma volume_handleVolume dir r s :
  volumeLevel (ctx (handleVolume dir false r s)) =
  clampVolume (match dir with Up => volumeLevel r + tenth | Down => volumeLevel r - tenth end)%float.
Proof.
  unfold handleVolume, increaseVolume, decreaseVolume.
  destruct dir; rewrite ctx_trigger; apply volume_setVolumeLevel.
Qed.

(** The button callbacks pending while a button is held down carry the
    render of the press. *)
Definition held (dir : Direction) (r : Provider) (s : Sys) : Prop :=
  volumeLevel (ctx s) =
    clampVolume (match dir with Up => volumeLevel r + tenth | Down => volumeLevel r - tenth end)%float ∧
  ∀ t, t ∈ timers s → is_button (action t) →
       action t = StartVolumeRepeat dir r false ∨ action t = VolumeRepeat dir r false.

Lemma held_commit dir r old s : held dir r s → held dir r (commit old s).
Proof.
  intros [Hv Hb]. destruct (tframe_commit old s) as (Ht&_).
  destruct (commit_frame old s) as [Hc _].
  split; [|rewrite Ht; done]. rewrite Hc.
  destruct old as [o|]; [|done]. by destruct (soundPageEffect_spec o s) as [-> | ->].
Qed.

Lemma held_fire dir r s t : held dir r s → t ∈ timers s → held dir r (fire s t).
Proof.
  intros [Hv Hb] Ht. unfold fire. apply held_commit.
  change (set_timers (filter (λ u, timer_id u ≠ timer_id t) (timers s)) s)
    with (clear (timer_id t) s).
  assert (Hc : held dir r (clear (timer_id t) s)).
  { split; [done|]. intros u [_ Hu]%clear_mem. by apply Hb. }
  destruct Hc as [Hv1 Hb1].
  assert (Hbt : is_button (action t) →
                action t = StartVolumeRepeat dir r false ∨ action t = VolumeRepeat dir r false)
    by (by apply Hb).
  destruct t as [id d a]; simpl in *. unfold requeue; simpl.
  destruct a as [ty| | |dir' r' off|dir' r' off]; unfold run_timer.
  - split; [done|]. simpl. rewrite app_nil_r. intros u Hu.
    apply elem_of_app in Hu as [Hu| ->%list_elem_of_singleton]; [by apply Hb1|by intros []].
  - split; [done|]. simpl. rewrite app_nil_r. done.
  - split; [done|]. simpl. rewrite app_nil_r. done.
  - destruct (Hbt (or_introl I)) as [[= -> -> ->]|]; [|done].
    split; [done|]. simpl. rewrite app_nil_r.
    intros u Hu. apply elem_of_app in Hu as [Hu| ->%list_elem_of_singleton]; [by apply Hb1|by right].
  - destruct (Hbt (or_intror I)) as [|[= -> -> ->]]; [done|].
    pose proof (grows_trigger (handleVolume dir false r (clear id s))) as Hg2.
    pose proof (grows_handleVolume dir false r (clear id s)) as Hg1.
    destruct (grows_trans _ _ _ Hg1 Hg2) as (_&_&_&_&Hm).
    split.
    + change (ctx (set_timers ?l ?x)) with (ctx x). rewrite ctx_trigger.
      apply volume_handleVolume.
    + simpl. intros u Hu. apply elem_of_app in Hu as [Hu| ->%list_elem_of_singleton]; [|by right].
      destruct (Hm u Hu) as [Hu'|[Ha _]]; [by apply Hb1|]. rewrite Ha. by intros [].
Qed.

Lemma held_advance dir r ms s : held dir r s → held dir r (advance ms s).
Proof.
  apply advance_pres. intros s' Hs. apply tick_pres; [|intros; by apply held_fire]. done.
Qed.

(** Pressing a volume button makes one step and leaves only the callbacks
    of this press pending. *)
Lemma held_press dir s :
  tracked s → held dir (ctx s) (step (VolumeButtonDown dir false) s).
Proof.
  intros Hs. cbn [step handle]. apply held_commit. unfold startVolumeChange. cbn iota.
  destruct (tracked_stop s Hs) as [_ Hnb].
  assert (Hnb2 : no_button (handleVolume dir false (ctx s) (stopVolumeChange s)))
    by (eapply no_button_grows; [apply grows_handleVolume|done]).
  destruct (schedule _ _ _) as [s' id] eqn:E.
  unfold schedule in E. injection E as <- _. split.
  - apply volume_handleVolume.
  - simpl. intros u Hu. apply elem_of_app in Hu as [Hu| ->%list_elem_of_singleton]; [|by left].
    intros Hbu. by destruct (Hnb2 u Hu).
Qed.

Lemma now_fire s t : now (fire s t) = now s.
Proof.
  unfold fire. destruct (tframe_commit (Some (ctx s))
    (set_timers (timers (run_timer (action t) (set_timers (filter (λ u, timer_id u ≠ timer_id t) (timers s)) s)) ++ requeue t)
       (run_timer (action t) (set_timers (filter (λ u, timer_id u ≠ timer_id t) (timers s)) s))))
    as (_&_&_&_&_&->).
  simpl. destruct (action t); unfold run_timer; try reflexivity.
  by destruct (grows_trigger (handleVolume dir off r (set_timers (filter (λ u, timer_id u ≠ timer_id t) (timers s)) s))) as (_&->&_),
    (grows_handleVolume dir off r (set_timers (filter (λ u, timer_id u ≠ timer_id t) (timers s)) s)) as (_&->&_).
Qed.

Lemma foldl_fire_if_pres (Q : Sys → Prop) l s :
  (∀ s' t, Q s' → t ∈ l → t ∈ timers s' → Q (fire s' t)) → Q s → Q (foldl fire_if s l).
Proof.
  revert s. induction l as [|t l IH]; intros s HQ Hs; [done|]. simpl. apply IH.
  - intros. apply HQ; [done|by right|done].
  - unfold fire_if. case_bool_decide; [apply HQ; [done|left|done]|done].
Qed.

Lemma now_foldl_fire_if l s : now (foldl fire_if s l) = now s.
Proof.
  apply (foldl_fire_if_pres (λ x, now x = now s)); [|done].
  intros s' t Hs' _ _. by rewrite now_fire.
Qed.

Lemma now_tick s : now (tick s) = S (now s).
Proof. unfold tick. by rewrite now_foldl_fire_if. Qed.

Lemma now_advance ms s : now (advance ms s) = ms + now s.
Proof. induction ms as [|m IH]; [done|]. rewrite advance_succ, now_tick, IH. lia. Qed.

(** ** The volume UI hides 3 s after the last volume action *)

Lemma ctx_commit old s : ctx (commit old s) = ctx s.
Proof.
  destruct (commit_frame old s) as [-> _].
  destruct old as [o|]; [|done]. by destruct (soundPageEffect_spec o s) as [-> | ->].
Qed.

Lemma fire_plain s t :
  plain (action t) →
  showVolumeUI (ctx (fire s t)) = showVolumeUI (ctx s) ∧ nextTimerId s ≤ nextTimerId (fire s t) ∧
  (∀ u, u ∈ timers s → timer_id u ≠ timer_id t → u ∈ timers (fire s t)) ∧
  (∀ u, u ∈ timers (fire s t) →
        (u ∈ timers s ∧ timer_id u ≠ timer_id t) ∨ (plain (action u) ∧ timer_id u = nextTimerId s)).
Proof.
  intros Ha. unfold fire.
  change (set_timers (filter (λ u, timer_id u ≠ timer_id t) (timers s)) s)
    with (clear (timer_id t) s).
  rewrite ctx_commit.
  destruct (tframe_commit (Some (ctx s))
    (set_timers (timers (run_timer (action t) (clear (timer_id t) s)) ++ requeue t)
       (run_timer (action t) (clear (timer_id t) s)))) as (-> & _ & _ & _ & -> & _).
  destruct t as [id d a]; simpl in *. unfold requeue; simpl.
  destruct a; try done; unfold run_timer; simpl; rewrite ?app_nil_r; split_and!; try done; try lia.
  - intros u Hu Hid. apply elem_of_app. left. by apply list_elem_of_filter.
  - intros u [Hu| ->%list_elem_of_singleton]%elem_of_app; [left|by right].
    by apply list_elem_of_filter in Hu as [? ?].
  - intros u Hu Hid. by apply list_elem_of_filter.
  - intros u Hu. left. by apply list_elem_of_filter in Hu as [? ?].
Qed.

Lemma fire_hide s t :
  action t = HideVolumeUI →
  showVolumeUI (ctx (fire s t)) = false ∧
  ∀ u, u ∈ timers (fire s t) → u ∈ timers s ∧ timer_id u ≠ timer_id t.
Proof.
  intros Ha. unfold fire.
  change (set_timers (filter (λ u, timer_id u ≠ timer_id t) (timers s)) s)
    with (clear (timer_id t) s).
  rewrite ctx_commit.
  destruct (tframe_commit (Some (ctx s))
    (set_timers (timers (run_timer (action t) (clear (timer_id t) s)) ++ requeue t)
       (run_timer (action t) (clear (timer_id t) s)))) as (-> & _).
  unfold requeue. rewrite Ha. simpl. rewrite app_nil_r. split; [done|].
  intros u Hu. apply list_elem_of_filter in Hu as [? ?]. done.
Qed.

Lemma tick_pres_due (Q : Sys → Prop) s :
  Q (set_now (S (now s)) s) →
  (∀ s' t, Q s' → t ∈ timers s' → due t ≤ S (now s) → Q (fire s' t)) → Q (tick s).
Proof.
  intros H0 Hf. unfold tick. apply foldl_fire_if_pres; [|done].
  intros s' t Hs' Ht Ht'. apply list_elem_of_filter in Ht as [Hd _]. by apply Hf.
Qed.

(** While the hide [h] is pending: the UI is shown, and every other pending
    callback is a device-type one with another id. *)
Definition hide_pending (h : Timer) (s : Sys) : Prop :=
  showVolumeUI (ctx s) = true ∧ h ∈ timers s ∧ timer_id h < nextTimerId s ∧
  ∀ t, t ∈ timers s → t ≠ h → plain (action t) ∧ timer_id t ≠ timer_id h.

Lemma hide_pending_fire h s t :
  hide_pending h s → t ∈ timers s → t ≠ h → hide_pending h (fire s t).
Proof.
  intros (Hsh&Hh&Hlt&Hp) Ht Hne. destruct (Hp t Ht Hne) as [Hpl Hid].
  destruct (fire_plain s t Hpl) as (Hsh'&Hn'&Hkeep&Hm). split_and!.
  - by rewrite Hsh'.
  - apply Hkeep; [done|congruence].
  - lia.
  - intros u Hu Hu'. destruct (Hm u Hu) as [[Hu1 _]|[Hpu ->]]; [by apply Hp|]. split; [done|lia].
Qed.

Lemma hide_pending_advance h k s :
  hide_pending h s → now s + k < due h →
  hide_pending h (advance k s) ∧ now (advance k s) = k + now s.
Proof.
  intros H0. induction k as [|k IH]; intros Hk; [done|].
  destruct IH as [Hk1 Hnow]; [lia|]. rewrite advance_succ, now_tick, Hnow. split; [|lia].
  apply tick_pres_due; [done|]. intros s' t Hs' Ht Hdue. apply hide_pending_fire; [done|done|].
  intros ->. lia.
Qed.

(** After the hide has run: the UI is hidden and only device-type
    callbacks are pending. *)
Definition hidden (s : Sys) : Prop :=
  showVolumeUI (ctx s) = false ∧ ∀ t, t ∈ timers s → plain (action t).

Lemma hidden_fire s t : hidden s → t ∈ timers s → hidden (fire s t).
Proof.
  intros [Hsh Hp] Ht. destruct (fire_plain s t (Hp t Ht)) as (Hsh'&_&_&Hm).
  split; [by rewrite Hsh'|]. intros u [[Hu _]|[? _]]%Hm; auto.
Qed.

Lemma hide_runs h s :
  action h = HideVolumeUI → hide_pending h s → due h = S (now s) → hidden (tick s).
Proof.
  intros Ha (Hsh&Hh&Hlt&Hp) Hdue. unfold tick.
  set (L := filter (λ t, due t ≤ now (set_now (S (now s)) s)) (timers (set_now (S (now s)) s))).
  assert (HL : h ∈ L) by (apply list_elem_of_filter; split; [simpl; lia|done]).
  destruct (list_elem_of_split_l L h HL) as (L1&L2&->&Hn1).
  rewrite foldl_app. simpl. apply foldl_fire_if_pres; [intros; by apply hidden_fire|].
  assert (H1 : hide_pending h (foldl fire_if (set_now (S (now s)) s) L1)).
  { apply foldl_fire_if_pres; [|done]. intros s' t Hs' HtL Ht.
    apply hide_pending_fire; [done|done|]. intros ->. by apply Hn1. }
  destruct H1 as (Hsh1&Hh1&Hlt1&Hp1). unfold fire_if. rewrite bool_decide_eq_true_2 by done.
  destruct (fire_hide (foldl fire_if (set_now (S (now s)) s) L1) h Ha) as [Hf Hm].
  split; [done|].
  intros u [Hu Hid]%Hm. apply Hp1; [done|]. by intros ->.
Qed.

Lemma trigger_new s :
  mkTimer (nextTimerId s) (now s + 3000) HideVolumeUI ∈ timers (triggerVolumeUIShow s).
Proof.
  unfold triggerVolumeUIShow. destruct (volumeUITimerRef s); [destruct (bool_decide _)|];
    simpl; apply elem_of_app; right; by apply list_elem_of_singleton.
Qed.

Lemma trigger_old s t :
  tracked s → t ∈ timers (triggerVolumeUIShow s) →
  t ≠ mkTimer (nextTimerId s) (now s + 3000) HideVolumeUI →
  t ∈ timers s ∧ action t ≠ HideVolumeUI.
Proof.
  intros Hs Ht Hne. unfold triggerVolumeUIShow in Ht.
  destruct (volumeUITimerRef s) as [id|] eqn:Er.
  - rewrite bool_decide_eq_true_2 in Ht by (pose proof (tr_ref _ Hs id Er); lia).
    simpl in Ht. apply elem_of_app in Ht as [Ht| ->%list_elem_of_singleton]; [|done].
    apply list_elem_of_filter in Ht as [Hid Ht]. split; [done|]. intros Ha.
    apply Hid. pose proof (tr_hide _ Hs t Ht Ha). congruence.
  - simpl in Ht. apply elem_of_app in Ht as [Ht| ->%list_elem_of_singleton]; [|done].
    split; [done|]. intros Ha. pose proof (tr_hide _ Hs t Ht Ha). congruence.
Qed.

Lemma toggleMute_hide_pending s :
  tracked s → no_button s →
  hide_pending (mkTimer (nextTimerId s) (now s + 3000) HideVolumeUI) (step ToggleMute s) ∧
  now (step ToggleMute s) = now s.
Proof.
  intros Hs Hnb. cbn [step handle]. unfold toggleMute.
  set (x := upd (set_isMuted (negb (isMuted (ctx s))))
              (setMasterVolume (volumePercent (volumeLevel (ctx s))) (negb (isMuted (ctx s))) s)).
  assert (Hx : tframe s x) by (eapply tframe_trans; [apply tframe_masterVolume|apply tframe_upd]).
  destruct Hx as (Ht&Hu&Hi&Hr&Hn&Hw).
  assert (Hxs : tracked x) by (apply (tracked_tframe s); [by repeat split|done]).
  unfold hide_pending.
  destruct (tframe_commit (Some (ctx s)) (triggerVolumeUIShow x)) as (-> & _ & _ & _ & -> & ->).
  destruct (trigger_shape x) as (_&_&_&_&->&->).
  rewrite ctx_commit, ctx_trigger. rewrite <- Hn, <- Hw. split; [|done]. split_and!.
  - done.
  - apply trigger_new.
  - simpl. lia.
  - intros t Ht' Hne. destruct (trigger_old x t Hxs Ht' Hne) as [Hto Hna].
    rewrite Ht in Hto. split.
    + destruct t as [id d [| | |dir r off|dir r off]]; simpl in *; try done;
        destruct (Hnb _ Hto); [by left|by right].
    + pose proof (tr_lt _ Hs t Hto). cbn [timer_id]. lia.
Qed.

(** ** No callback runs late *)

(** A handler only adds callbacks due later. *)
Definition fresh (s s' : Sys) : Prop :=
  now s' = now s ∧ ∀ u, u ∈ timers s' → u ∈ timers s ∨ now s < due u.

Lemma fresh_tframe s s' : tframe s s' → fresh s s'.
Proof. intros (Ht&_&_&_&_&Hw). split; [done|]. rewrite Ht. auto. Qed.

Lemma fresh_grows s s' : grows s s' → fresh s s'.
Proof. intros (_&Hw&_&_&Hm). split; [done|]. intros u [|[_ ?]]%Hm; auto. Qed.

Lemma fresh_trans s1 s2 s3 : fresh s1 s2 → fresh s2 s3 → fresh s1 s3.
Proof.
  intros [Hw1 H1] [Hw2 H2]. split; [congruence|].
  intros u [Hu|Hu]%H2; [destruct (H1 u Hu); auto|]. right. congruence.
Qed.

Lemma fresh_schedule d a s : 0 < d → fresh s (schedule d a s).1.
Proof.
  intros Hd. split; [done|]. intros u [Hu| ->]%schedule_mem; [by left|right; simpl; lia].
Qed.

Lemma fresh_stop s : fresh s (stopVolumeChange s).
Proof.
  destruct (stop_shape s) as (Hm&_&_&_&_&Hw). split; [done|].
  intros u Hu. left. apply (Hm u Hu).
Qed.

Lemma fresh_handle e s : fresh s (handle e s).
Proof.
  destruct e; cbn [handle]; unfold mountSoundPage, handleChange, handleVolumeChange, handleVolumeChangeEnd, handleBrightnessChange; try (apply fresh_tframe; by repeat split).
  - apply (fresh_trans _ (set_docClasses (class_add "device-type-transitioning" (docClasses s)) s));
      [apply fresh_tframe; by repeat split|by apply fresh_schedule; lia].
  - apply fresh_tframe. unfold toggleSound. eapply tframe_trans; [|apply tframe_upd].
    case_match; apply tframe_masterVolume.
  - apply (fresh_trans _ (upd (set_isMuted (negb (isMuted (ctx s))))
                            (setMasterVolume (volumePercent (volumeLevel (ctx s)))
                               (negb (isMuted (ctx s))) s))).
    + apply fresh_tframe. eapply tframe_trans; [apply tframe_masterVolume|apply tframe_upd].
    + apply fresh_grows, grows_trigger.
  - unfold startVolumeChange. destruct off; [apply fresh_tframe; by repeat split|].
    destruct (schedule _ _ _) as [s' id] eqn:E.
    apply (fresh_trans _ s'); [|split; [done|]; intros u Hu; by left].
    replace s' with (schedule 400 (StartVolumeRepeat dir (ctx s) false)
                       (handleVolume dir false (ctx s) (stopVolumeChange s))).1 by by rewrite E.
    eapply fresh_trans; [eapply fresh_trans; [apply fresh_stop|apply fresh_grows, grows_handleVolume]|].
    apply fresh_schedule. lia.
  - apply fresh_stop.
  - apply fresh_grows, grows_handleVolume.
  - case_match; [apply fresh_tframe, tframe_setVolumeLevel|apply fresh_tframe; by repeat split].
Qed.

Definition no_late (s : Sys) : Prop := ∀ t, t ∈ timers s → now s < due t.

Lemma fire_timers s t :
  ∀ u, u ∈ timers (fire s t) →
       (u ∈ timers s ∧ timer_id u ≠ timer_id t) ∨ now s < due u ∨ due u = due t + 150.
Proof.
  intros u. unfold fire.
  change (set_timers (filter (λ u, timer_id u ≠ timer_id t) (timers s)) s)
    with (clear (timer_id t) s).
  destruct (tframe_commit (Some (ctx s))
    (set_timers (timers (run_timer (action t) (clear (timer_id t) s)) ++ requeue t)
       (run_timer (action t) (clear (timer_id t) s)))) as (-> & _).
  simpl. intros [Hu|Hu]%elem_of_app.
  - assert (Hf : fresh (clear (timer_id t) s) (run_timer (action t) (clear (timer_id t) s))).
    { destruct (action t); unfold run_timer.
      - destruct (schedule _ _ _) as [s' id] eqn:E. unfold fst.
        replace s' with (schedule 500 EndDeviceTransition
                           (upd (set_deviceType t0) (clear (timer_id t) s))).1 by by rewrite E.
        eapply fresh_trans; [apply fresh_tframe, tframe_upd|apply fresh_schedule; lia].
      - split; [done|]. intros u' Hu'. by left.
      - split; [done|]. intros u' Hu'. by left.
      - destruct (schedule _ _ _) as [s' id] eqn:E.
        apply (fresh_trans _ s'); [|split; [done|]; intros u' Hu'; by left].
        replace s' with (schedule 150 (VolumeRepeat dir r off) (clear (timer_id t) s)).1
          by by rewrite E.
        apply fresh_schedule. lia.
      - apply fresh_grows. eapply grows_trans; [apply grows_handleVolume|apply grows_trigger]. }
    destruct Hf as [_ Hf]. destruct (Hf u Hu) as [Hc|Hc]; [left; by apply clear_mem in Hc as [? ?]|].
    right. left. exact Hc.
  - right. right. unfold requeue in Hu. destruct (action t); try (by apply elem_of_nil in Hu).
    apply list_elem_of_singleton in Hu as ->. done.
Qed.

Lemma no_late_foldl n R x :
  now x = n → (∀ u, u ∈ timers x → (n < due u ∨ u ∈ R) ∧ n ≤ due u) →
  ∀ u, u ∈ timers (foldl fire_if x R) → n < due u.
Proof.
  revert x. induction R as [|t R IH]; intros x Hnow Hx u Hu; simpl in *.
  - destruct (Hx u Hu) as [[?|?%elem_of_nil] _]; [lia|done].
  - apply (IH (fire_if x t)); [| |done].
    + unfold fire_if. case_bool_decide; [by rewrite now_fire|done].
    + clear u Hu. intros u Hu. unfold fire_if in Hu. case_bool_decide as Ht.
      * destruct (Hx t Ht) as [_ Hdt].
        destruct (fire_timers x t u Hu) as [[Hu' Hid]|[Hd|Hd]].
        -- destruct (Hx u Hu') as [[?|[->|?]%elem_of_cons] ?]; try tauto; done.
        -- rewrite Hnow in Hd. split; [left|]; lia.
        -- split; [left|]; lia.
      * destruct (Hx u Hu) as [[?|[->|?]%elem_of_cons] ?]; try tauto; done.
Qed.

(** Each millisecond runs every callback due at it. *)
Lemma no_late_tick s : no_late s → no_late (tick s).
Proof.
  intros Hs. unfold no_late. rewrite now_tick. unfold tick.
  apply no_late_foldl; [done|]. intros u Hu. specialize (Hs u Hu). split; [|simpl in *; lia].
  destruct (decide (due u ≤ S (now s))); [right; by apply list_elem_of_filter|left; lia].
Qed.

Lemma no_late_advance ms s : no_late s → no_late (advance ms s).
Proof. apply advance_pres. apply no_late_tick. Qed.

Lemma no_late_handle e s : no_late s → no_late (commit (Some (ctx s)) (handle e s)).
Proof.
  intros Hs. destruct (tframe_commit (Some (ctx s)) (handle e s)) as (Ht&_&_&_&_&Hw).
  destruct (fresh_handle e s) as [Hw' Hf].
  intros u Hu. rewrite Hw, Hw'. rewrite Ht in Hu. destruct (Hf u Hu); auto.
Qed.

Lemma no_late_step e s : no_late s → no_late (step e s).
Proof. intros Hs. destruct e; try (by apply no_late_advance); by apply no_late_handle. Qed.

Lemma no_late_commit old s : no_late s → no_late (commit old s).
Proof.
  intros Hs t. destruct (tframe_commit old s) as (Ht&_&_&_&_&Hw). rewrite Hw, Ht. apply Hs.
Qed.

Lemma no_late_mount st d cl : no_late (mount st d cl).
Proof. apply no_late_commit. intros t Ht. by apply elem_of_nil in Ht. Qed.

Lemma no_button_mount st d cl : no_button (mount st d cl).
Proof.
  intros t. destruct (tframe_commit None (mkSys (initialProvider st d) st (of_Z 1) cl
                                            None None None None [] 1 0)) as (Ht&_).
  change (t ∈ timers (commit None (mkSys (initialProvider st d) st (of_Z 1) cl
                                     None None None None [] 1 0)) → ¬ is_button (action t)).
  rewrite Ht. intros H. by apply elem_of_nil in H.
Qed.

Lemma volume_start dir r s :
  volumeLevel (ctx (startVolumeChange dir false r s)) =
  clampVolume (match dir with Up => volumeLevel r + tenth | Down => volumeLevel r - tenth end)%float.
Proof.
  unfold startVolumeChange. cbn iota. destruct (schedule _ _ _) as [s' id] eqn:E.
  unfold schedule in E. injection E as <- _. apply volume_handleVolume.
Qed.

Lemma ctx_stop s : ctx (stopVolumeChange s) = ctx s.
Proof. unfold stopVolumeChange. by repeat case_match. Qed.

Lemma volume_step_down dir s :
  volumeLevel (ctx (step (VolumeButtonDown dir false) s)) =
  clampVolume (match dir with Up => volumeLevel (ctx s) + tenth
                             | Down => volumeLevel (ctx s) - tenth end)%float.
Proof.
  change (step (VolumeButtonDown dir false) s)
    with (commit (Some (ctx s)) (startVolumeChange dir false (ctx s) s)).
  rewrite ctx_commit. apply volume_start.
Qed.

Lemma ctx_step_release s : ctx (step VolumeButtonRelease s) = ctx s.
Proof.
  change (step VolumeButtonRelease s) with (commit (Some (ctx s)) (stopVolumeChange s)).
  rewrite ctx_commit. apply ctx_stop.
Qed.

Lemma volume_step_click dir s :
  volumeLevel (ctx (step (VolumeButtonClick dir false) s)) =
  clampVolume (match dir with Up => volumeLevel (ctx s) + tenth
                             | Down => volumeLevel (ctx s) - tenth end)%float.
Proof.
  change (step (VolumeButtonClick dir false) s)
    with (commit (Some (ctx s)) (handleVolume dir false (ctx s) s)).
  rewrite ctx_commit. apply volume_handleVolume.
Qed.

(** ** Properties *)

(** C10: Holding a hardware volume button steps the volume exactly once,
    however long it is held: the repeat interval steps from the level the
    button was pressed at, so every repetition sets the same level. *)
Theorem volume_hold_single_step s dir d :
  reachable s →
  volumeLevel (ctx (run [VolumeButtonDown dir false; Advance d] s)) =
  clampVolume (match dir with Up => volumeLevel (ctx s) + tenth
                             | Down => volumeLevel (ctx s) - tenth end)%float.
Proof.
  intros Hr.
  change (run [VolumeButtonDown dir false; Advance d] s)
    with (advance d (step (VolumeButtonDown dir false) s)).
  exact (proj1 (held_advance dir (ctx s) d _ (held_press dir s (reachable_tracked s Hr)))).
Qed.

(** C12: A mouse click on a volume button (press, release, click) steps the
    volume twice: the press and the click each call the handler. *)
Theorem volume_click_double_step s :
  volumeLevel (ctx (run [VolumeButtonDown Up false; VolumeButtonRelease; VolumeButtonClick Up false] s)) =
  clampVolume (clampVolume (volumeLevel (ctx s) + tenth) + tenth)%float.
Proof.
  change (run [VolumeButtonDown Up false; VolumeButtonRelease; VolumeButtonClick Up false] s)
    with (step (VolumeButtonClick Up false) (step VolumeButtonRelease
            (step (VolumeButtonDown Up false) s))).
  by rewrite volume_step_click, ctx_step_release, volume_step_down.
Qed.

(** When no volume button is held, the volume UI that a mute toggle
    shows stays visible for 3000 ms and is hidden at exactly 3000 ms: the
    toggle cancels any earlier pending hide. *)
Theorem volume_ui_hides_after_3s s :
  reachable s → no_button s →
  (∀ d, d < 3000 → showVolumeUI (ctx (advance d (step ToggleMute s))) = true) ∧
  showVolumeUI (ctx (advance 3000 (step ToggleMute s))) = false.
Proof.
  intros Hr Hnb. destruct (toggleMute_hide_pending s (reachable_tracked s Hr) Hnb) as [Hh Hw].
  split.
  - intros d Hd. destruct (hide_pending_advance _ d _ Hh) as [[? _] _]; [|done].
    rewrite Hw. cbn [due]. lia.
  - rewrite advance_succ.
    destruct (hide_pending_advance _ 2999 _ Hh) as [H2 Hn]; [rewrite Hw; cbn [due]; lia|].
    refine (proj1 (hide_runs _ _ (eq_refl : action (mkTimer (nextTimerId s) (now s + 3000) HideVolumeUI) = HideVolumeUI) H2 _)).
    rewrite Hn, Hw. cbn [due]. lia.
Qed.

(** Every pending callback is due strictly after the current time in
    every reachable state: each millisecond of the clock runs all the
    callbacks due at it, including the ones they cancel or schedule. *)
Theorem timers_never_late s : reachable s → ∀ t, t ∈ timers s → now s < due t.
Proof. induction 1; [apply no_late_mount|by apply no_late_step]. Qed.

(** Five single steps down (keyboard activations of the volume-down
    button) from the default 50% leave a volume of 2^-55, which is shown
    and stored as 0% but is not 0, so the device is not muted. *)
Example volume_float_residue :
  let s := run (repeat (VolumeButtonClick Down false) 5) (mount ∅ false []) in
  volumePercent (volumeLevel (ctx s)) = of_Z 0 ∧
  PrimFloat.eqb (volumeLevel (ctx s)) (of_Z 0) = false ∧
  isMuted (ctx s) = false ∧ storage s !! "volumeLevel" = Some "0".
Proof. vm_compute. split_and!; reflexivity. Qed.

End SettingsTimers.

(** ** Witnesses *)
Module SettingsTimersWitness.
Import Settings SettingsTimers.

Definition fresh_install : Sys := mount ∅ false [].

Lemma fresh_install_reachable : reachable fresh_install.
Proof. apply reach_mount, storage_ok_empty. Defined.

Lemma fresh_install_no_button : no_button fresh_install.
Proof. apply no_button_mount. Defined.

Lemma volume_hold_single_step_witness :
  reachable fresh_install ∧
  volumeLevel (ctx (run [VolumeButtonDown Up false; Advance 2000] fresh_install)) =
  clampVolume (volumeLevel (ctx fresh_install) + tenth)%float.
Proof.
  split; [apply fresh_install_reachable|].
  apply (volume_hold_single_step fresh_install Up 2000 fresh_install_reachable).
Defined.

Lemma volume_ui_hides_after_3s_witness :
  reachable fresh_install ∧ no_button fresh_install ∧
  showVolumeUI (ctx (advance 3000 (step ToggleMute fresh_install))) = false.
Proof.
  split_and!; [apply fresh_install_reachable|apply fresh_install_no_button|].
  apply (volume_ui_hides_after_3s fresh_install fresh_install_reachable fresh_install_no_button).
Defined.

Lemma timers_never_late_witness :
  reachable (step (VolumeButtonDown Up false) fresh_install) ∧
  ∀ t, t ∈ timers (step (VolumeButtonDown Up false) fresh_install) →
       now (step (VolumeButtonDown Up false) fresh_install) < due t.
Proof.
  assert (H : reachable (step (VolumeButtonDown Up false) fresh_install))
    by (apply reach_step; [apply fresh_install_reachable|reflexivity]).
  split; [exact H|]. exact (timers_never_late _ H).
Defined.

End SettingsTimersWitness.
