(* ===== verification/WebAudio.v ===== *)
(** * WebAudio: the Web Audio API the sound module programs against

    [utils/soundSynth.ts] builds its sounds by calling the browser's Web
    Audio API on an [AudioContext]: it creates oscillators, gain nodes,
    filters and buffer sources, schedules automation events on their
    parameters, connects them to a master gain, starts and stops the
    sources and waits for their ['ended'] events.  The API is not code of
    the repository; this file models the part of it the module calls,
    from the Web Audio specification:

    - [Cmd]: the calls, one constructor per method or property the module
      uses, indexed by the type of its result;
    - [Prog]: programs over these calls, a finite free monad (a return or
      a call with its continuation) with stdpp's [MRet]/[MBind], so the
      generators are written in [x ← call c; ...] style;
    - [AudioBackend]: the interface an implementation provides, a
      function answering one call in a state, with an exception or a
      result; [run] interprets a program against any backend;
    - two backends: [web] is a real [AudioContext] (node graph, automation
      timelines, sources, buffers (their sizes; the samples written into
      them are not kept, no property reads them), listeners, with the
      specification's
      [TypeError], [RangeError], [InvalidStateError], [NotSupportedError]
      and [IndexSizeError] checks); [dummy] is the stand-in object of
      soundSynth.ts:31-42, which only has some of the methods and throws
      [TypeError] ("is not a function") for the others;
    - [render]: the audio clock, which ends the sources whose stop time
      has passed, in stop-time order, and runs their ['ended'] listeners.

    [Math.random], [Math.pow] and [Math.exp] are implementation-
    approximated in JavaScript; they are the section variables [random],
    [pow] and [exp] (the n-th random draw), so every theorem holds for
    any implementation of them.  Automation values are compared as
    doubles (the conversion to single precision is not modelled). *)

From S2P Require Import Prelude JsRuntime.
From Stdlib Require Import ZArith.
From Corelib Require PrimFloat SpecFloat FloatOps.
From Corelib Require Import PrimFloat.
From stdpp Require Import base list gmap strings sorting.
Import PrimFloat.PrimFloatNotations.

Module WebAudio.

Definition node := nat.
Definition buffer := nat.
Definition promise := nat.

Inductive NodeKind :=
  | AudioDestinationNode | OscillatorNode | GainNode | BiquadFilterNode | AudioBufferSourceNode.

Inductive ParamName := Pfrequency | Pgain | PQ.

#[global] Instance NodeKind_eq_dec : EqDecision NodeKind.
Proof. solve_decision. Defined.
#[global] Instance ParamName_eq_dec : EqDecision ParamName.
Proof. solve_decision. Defined.

(** The automation methods of an [AudioParam], and the [value] setter. *)
Inductive Automation :=
  | setValueAtTime (v t : float)
  | linearRampToValueAtTime (v t : float)
  | exponentialRampToValueAtTime (v t : float)
  | set_value (v : float).

(** An ['ended'] listener of the module:
    [() => { a.disconnect(); ...; resolve(); }]. *)
Record Handler := mkHandler { disconnects : list node; resolves : promise }.

Inductive Cmd : Type → Type :=
  | currentTime : Cmd float
  | sampleRate : Cmd float
  | masterGain : Cmd node                              (* getAudioContext().masterGain *)
  | create (k : NodeKind) : Cmd node                   (* createOscillator, createGain, ... *)
  | set_type (n : node) (ty : string) : Cmd unit       (* node.type = ty *)
  | automate (n : node) (p : ParamName) (a : Automation) : Cmd unit
  | connect (n m : node) : Cmd unit
  | createBuffer (channels length rate : float) : Cmd buffer
  | buffer_length (b : buffer) : Cmd float
  | getChannelData (b : buffer) (ch : float) : Cmd (buffer * nat)
  | write (data : buffer * nat) (i v : float) : Cmd unit   (* data[i] = v *)
  | set_buffer (n : node) (b : buffer) : Cmd unit
  | start (n : node) (t : float) : Cmd unit
  | stop (n : node) (t : float) : Cmd unit
  | new_promise : Cmd promise                          (* new Promise(resolve => ...) *)
  | on_ended (n : node) (h : Handler) : Cmd unit       (* addEventListener('ended', h) *)
  | math_random : Cmd float
  | math_pow (x y : float) : Cmd float
  | math_exp (x : float) : Cmd float
  | hang : Cmd Empty_set.                              (* a loop that did not finish *)

(** ** Programs *)

Inductive Prog (A : Type) : Type :=
  | Ret (a : A)
  | Next {B : Type} (c : Cmd B) (k : B → Prog A).
Arguments Ret {_} _.
Arguments Next {_ _} _ _.

#[global] Instance prog_ret : MRet Prog := @Ret.
#[global] Instance prog_bind : MBind Prog :=
  λ _ _, fix bind f p := match p with Ret x => f x | Next c k => Next c (λ x, bind f (k x)) end.

Definition call {B} (c : Cmd B) : Prog B := Next c Ret.

(** A call whose last argument is a time computed from [ctx.currentTime]. *)
Definition at_now (f : float → Cmd unit) : Prog unit := t ← call currentTime; call (f t).

(** [for (let i = i0; cond(i); i++) body(i)], with [fuel] iterations at
    most; running out of fuel is [hang]. *)
Fixpoint js_for (fuel : nat) (i : float) (cond : float → Prog bool) (body : float → Prog unit)
    : Prog unit :=
  match fuel with
  | O => call hang ≫= λ e : Empty_set, match e with end
  | S f => cond i ≫= λ c : bool, if c then body i ≫= λ _, js_for f (i + 1)%float cond body else mret tt
  end.

(** The loops of the module run at most [sampleRate * 1.0] times; this
    fuel covers every sample rate up to 131072 Hz, above the 44.1 and
    48 kHz of audio hardware. *)
Definition loop_fuel : nat := N.to_nat 131073.

(** ** Backends *)

Inductive Exn :=
  | TypeError (what : string) | RangeError (what : string)
  | InvalidStateError | NotSupportedError | IndexSizeError | Timeout.

Class AudioBackend (S : Type) := exec : ∀ {B}, Cmd B → S → (Exn + B) * S.

Fixpoint run {S} `{AudioBackend S} {A} (p : Prog A) (s : S) : (Exn + A) * S :=
  match p with
  | Ret a => (inr a, s)
  | Next c k => match exec c s with (inr b, s') => run (k b) s' | (inl e, s') => (inl e, s') end
  end.

(** ** Number conversions of the bindings *)

(** WebIDL [unsigned long] (no [EnforceRange]): NaN and infinities are 0,
    others are truncated and taken modulo 2^32. *)
Definition to_uint32 (x : float) : Z :=
  match FloatOps.Prim2SF x with
  | SpecFloat.S754_finite s m e =>
      let v := (if 0 <=? e then Z.shiftl (Z.pos m) e else Z.shiftr (Z.pos m) (- e))%Z in
      ((if s then - v else v) mod 2 ^ 32)%Z
  | _ => 0%Z
  end.

Definition finite (x : float) : bool := PrimFloat.is_finite x.

Section backends.
Variable random : N → float.
Variable pow : float → float → float.
Variable exp : float → float.

(** *** A real AudioContext *)

Record NodeState := mkNode {
  kind : NodeKind;
  ntype : string;
  outputs : list node;
  timeline : list (ParamName * Automation);
  started : option float;
  stopped : option float;
  has_buffer : bool;
  ended : bool }.

Record AState := mkAState {
  now : float;
  rate : float;
  nodes : gmap node NodeState;
  next_node : node;
  buffers : gmap buffer (Z * float);         (* channels, length *)
  next_buffer : buffer;
  listeners : list (node * Handler);
  resolved : list promise;
  next_promise : promise;
  draws : N }.

(** The parameters each kind of node has. *)
Definition has_param (k : NodeKind) (p : ParamName) : bool :=
  match k, p with
  | OscillatorNode, Pfrequency | GainNode, Pgain
  | BiquadFilterNode, Pfrequency | BiquadFilterNode, PQ => true
  | _, _ => false
  end.

Definition is_source (k : NodeKind) : bool :=
  match k with OscillatorNode | AudioBufferSourceNode => true | _ => false end.

(** The checks of AudioParam's methods: values are restricted [float]s
    and times restricted [double]s (a non-finite one is a [TypeError]),
    times are not negative, and an exponential ramp cannot target 0. *)
Definition check_automation (a : Automation) : option Exn :=
  let time t := if negb (finite t) then Some (TypeError "time is not finite")
                else if (t <? of_Z 0)%float then Some (RangeError "negative time") else None in
  let val v := if negb (finite v) then Some (TypeError "value is not finite") else None in
  match a with
  | setValueAtTime v t | linearRampToValueAtTime v t => from_option Some (time t) (val v)
  | exponentialRampToValueAtTime v t =>
      from_option Some (if (v =? of_Z 0)%float then Some (RangeError "exponential ramp to 0")
                        else time t) (val v)
  | set_value v => val v
  end.

Definition fresh_node (k : NodeKind) : NodeState := mkNode k "" [] [] None None false false.

Definition set_node (n : node) (ns : NodeState) (s : AState) : AState :=
  mkAState (now s) (rate s) (<[n := ns]> (nodes s)) (next_node s) (buffers s) (next_buffer s)
           (listeners s) (resolved s) (next_promise s) (draws s).

(** The context as getAudioContext creates it (soundSynth.ts:21-26): node
    0 is the destination, node 1 the master gain, at gain 1.0 and
    connected to the destination. *)
Definition fresh_context (sr t : float) : AState :=
  mkAState t sr
    (<[1 := mkNode GainNode "" [0] [(Pgain, set_value (of_Z 1))] None None false false]>
       {[0 := fresh_node AudioDestinationNode]})
    2 ∅ 0 [] [] 0 0%N.

Definition not_a_function {B} (s : AState) : (Exn + B) * AState :=
  (inl (TypeError "is not a function"), s).

Definition web_exec {B} (c : Cmd B) (s : AState) : (Exn + B) * AState :=
  match c in Cmd B return (Exn + B) * AState with
  | currentTime => (inr (now s), s)
  | sampleRate => (inr (rate s), s)
  | masterGain => (inr 1, s)
  | create k =>
      (inr (next_node s),
       mkAState (now s) (rate s) (<[next_node s := fresh_node k]> (nodes s)) (S (next_node s))
                (buffers s) (next_buffer s) (listeners s) (resolved s)
                (next_promise s) (draws s))
  | set_type n ty =>
      match nodes s !! n with
      | Some ns => (inr tt, set_node n (mkNode (kind ns) ty (outputs ns) (timeline ns) (started ns)
                                              (stopped ns) (has_buffer ns) (ended ns)) s)
      | None => not_a_function s
      end
  | automate n p a =>
      match nodes s !! n with
      | Some ns =>
          if has_param (kind ns) p then
            match check_automation a with
            | Some e => (inl e, s)
            | None => (inr tt, set_node n (mkNode (kind ns) (ntype ns) (outputs ns)
                                  (timeline ns ++ [(p, a)]) (started ns) (stopped ns)
                                  (has_buffer ns) (ended ns)) s)
            end
          else (inl (TypeError "no such AudioParam"), s)
      | None => not_a_function s
      end
  | connect n m =>
      match nodes s !! n, nodes s !! m with
      | Some ns, Some _ =>
          (inr tt, set_node n (mkNode (kind ns) (ntype ns) (outputs ns ++ [m]) (timeline ns)
                                      (started ns) (stopped ns) (has_buffer ns) (ended ns)) s)
      | _, _ => (inl (TypeError "not an AudioNode"), s)
      end
  | createBuffer ch len sr =>
      let ch := to_uint32 ch in let len := to_uint32 len in
      if (ch =? 0)%Z || (32 <? ch)%Z || (len =? 0)%Z || (sr <? of_Z 3000)%float
         || (of_Z 768000 <? sr)%float || negb (finite sr)
      then (inl NotSupportedError, s)
      else (inr (next_buffer s),
            mkAState (now s) (rate s) (nodes s) (next_node s) (<[next_buffer s := (ch, of_Z len)]> (buffers s))
                     (S (next_buffer s)) (listeners s) (resolved s)
                     (next_promise s) (draws s))
  | buffer_length b =>
      match buffers s !! b with Some (_, len) => (inr len, s) | None => not_a_function s end
  | getChannelData b ch =>
      match buffers s !! b with
      | Some (chs, _) =>
          let c := to_uint32 ch in
          if (c <? chs)%Z then (inr (b, Z.to_nat c), s) else (inl IndexSizeError, s)
      | None => not_a_function s
      end
  | write _ _ _ => (inr tt, s)
  | set_buffer n b =>
      match nodes s !! n with
      | Some ns =>
          if bool_decide (kind ns = AudioBufferSourceNode) then
            if has_buffer ns then (inl InvalidStateError, s)
            else (inr tt, set_node n (mkNode (kind ns) (ntype ns) (outputs ns) (timeline ns)
                                            (started ns) (stopped ns) true (ended ns)) s)
          else (inr tt, s)
      | None => not_a_function s
      end
  | start n t =>
      match nodes s !! n with
      | Some ns =>
          if negb (is_source (kind ns)) then not_a_function s
          else if negb (finite t) then (inl (TypeError "time is not finite"), s)
          else if (t <? of_Z 0)%float then (inl (RangeError "negative time"), s)
          else if bool_decide (is_Some (started ns)) then (inl InvalidStateError, s)
          else (inr tt, set_node n (mkNode (kind ns) (ntype ns) (outputs ns) (timeline ns)
                                          (Some t) (stopped ns) (has_buffer ns) (ended ns)) s)
      | None => not_a_function s
      end
  | stop n t =>
      match nodes s !! n with
      | Some ns =>
          if negb (is_source (kind ns)) then not_a_function s
          else if negb (finite t) then (inl (TypeError "time is not finite"), s)
          else if (t <? of_Z 0)%float then (inl (RangeError "negative time"), s)
          else if negb (bool_decide (is_Some (started ns))) then (inl InvalidStateError, s)
          else (inr tt, set_node n (mkNode (kind ns) (ntype ns) (outputs ns) (timeline ns)
                                          (started ns) (Some t) (has_buffer ns) (ended ns)) s)
      | None => not_a_function s
      end
  | new_promise =>
      (inr (next_promise s),
       mkAState (now s) (rate s) (nodes s) (next_node s) (buffers s) (next_buffer s) 
                (listeners s) (resolved s) (S (next_promise s)) (draws s))
  | on_ended n h =>
      match nodes s !! n with
      | Some _ =>
          (inr tt, mkAState (now s) (rate s) (nodes s) (next_node s) (buffers s) (next_buffer s)
                            (listeners s ++ [(n, h)]) (resolved s)
                            (next_promise s) (draws s))
      | None => not_a_function s
      end
  | math_random =>
      (inr (random (draws s)),
       mkAState (now s) (rate s) (nodes s) (next_node s) (buffers s) (next_buffer s) 
                (listeners s) (resolved s) (next_promise s) (N.succ (draws s)))
  | math_pow x y => (inr (pow x y), s)
  | math_exp x => (inr (exp x), s)
  | hang => (inl Timeout, s)
  end.

#[global] Instance web : AudioBackend AState := @web_exec.

(** *** The rendering clock *)

(** [node.disconnect()]: every outgoing connection is removed. *)
Definition disconnect (n : node) (s : AState) : AState :=
  match nodes s !! n with
  | Some ns => set_node n (mkNode (kind ns) (ntype ns) [] (timeline ns) (started ns) (stopped ns)
                                  (has_buffer ns) (ended ns)) s
  | None => s
  end.

Definition run_handler (s : AState) (h : Handler) : AState :=
  let s := foldl (λ s n, disconnect n s) s (disconnects h) in
  mkAState (now s) (rate s) (nodes s) (next_node s) (buffers s) (next_buffer s)
           (listeners s) (resolved s ++ [resolves h]) (next_promise s) (draws s).

(** A source ends: it is marked ended and its ['ended'] listeners run in
    the order they were added. *)
Definition end_source (s : AState) (n : node) : AState :=
  let s := match nodes s !! n with
           | Some ns => set_node n (mkNode (kind ns) (ntype ns) (outputs ns) (timeline ns)
                                           (started ns) (stopped ns) (has_buffer ns) true) s
           | None => s
           end in
  foldl run_handler s (snd <$> filter (λ l, l.1 = n) (listeners s)).

Definition stop_time (s : AState) (n : node) : float :=
  from_option (λ ns, from_option id PrimFloat.infinity (stopped ns)) PrimFloat.infinity (nodes s !! n).

Definition stop_le (s : AState) (a b : node) : Prop := (stop_time s a <=? stop_time s b)%float = true.

#[global] Instance stop_le_dec s : RelDecision (stop_le s).
Proof. intros a b. unfold stop_le. apply _. Defined.

(** The sources due to end by time [T]: started, stopped at or before
    [T] and not ended yet. *)
Definition due_sources (T : float) (s : AState) : list node :=
  filter (λ n, match nodes s !! n with
               | Some ns => bool_decide (is_Some (started ns)) && negb (ended ns)
                            && (stop_time s n <=? T)%float
               | None => false
               end = true) (seq 0 (next_node s)).

(** The clock runs up to time [T]: the due sources end in the order of
    their stop times (creation order among equal times). *)
Definition render (T : float) (s : AState) : AState :=
  let ns := merge_sort (stop_le s) (due_sources T s) in
  let s := foldl end_source s ns in
  mkAState T (rate s) (nodes s) (next_node s) (buffers s) (next_buffer s)
           (listeners s) (resolved s) (next_promise s) (draws s).

(** *** The stand-in context of soundSynth.ts:31-42 *)

(** Its objects: the oscillator (connect, start, stop,
    frequency.setValueAtTime/linearRampToValueAtTime, addEventListener,
    type), the gain node (connect, gain.setValueAtTime/
    exponentialRampToValueAtTime) and the master gain (gain.value,
    gain.setValueAtTime/linearRampToValueAtTime, connect).  The context
    itself has createOscillator, createGain, [currentTime = 0] and no
    [sampleRate] ([undefined], NaN in arithmetic). *)
Inductive DKind := DOsc | DGain | DMaster.

#[global] Instance DKind_eq_dec : EqDecision DKind.
Proof. solve_decision. Defined.

Record DState := mkDState { dkinds : gmap node DKind; dnext : node; dpromise : promise; ddraws : N }.

Definition dummy_context : DState := mkDState {[1 := DMaster]} 2 0 0%N.

Definition dummy_has (k : DKind) (p : ParamName) (a : Automation) : bool :=
  match k, p, a with
  | DOsc, Pfrequency, setValueAtTime _ _ | DOsc, Pfrequency, linearRampToValueAtTime _ _
  | DGain, Pgain, setValueAtTime _ _ | DGain, Pgain, exponentialRampToValueAtTime _ _
  | DGain, Pgain, set_value _
  | DMaster, Pgain, setValueAtTime _ _ | DMaster, Pgain, linearRampToValueAtTime _ _
  | DMaster, Pgain, set_value _ => true
  | _, _, _ => false
  end.

Definition nf {B} (s : DState) : (Exn + B) * DState := (inl (TypeError "is not a function"), s).

Definition dummy_exec {B} (c : Cmd B) (s : DState) : (Exn + B) * DState :=
  let kind_is k n := bool_decide (dkinds s !! n = Some k) in
  match c in Cmd B return (Exn + B) * DState with
  | currentTime => (inr (of_Z 0), s)
  | sampleRate => (inr js_NaN, s)
  | masterGain => (inr 1, s)
  | create OscillatorNode => (inr (dnext s), mkDState (<[dnext s := DOsc]> (dkinds s)) (S (dnext s)) (dpromise s) (ddraws s))
  | create GainNode => (inr (dnext s), mkDState (<[dnext s := DGain]> (dkinds s)) (S (dnext s)) (dpromise s) (ddraws s))
  | create _ => nf s
  | set_type _ _ | connect _ _ => (inr tt, s)
  | automate n p a =>
      match dkinds s !! n with Some k => if dummy_has k p a then (inr tt, s) else nf s | None => nf s end
  | start n _ | stop n _ => if kind_is DOsc n then (inr tt, s) else nf s
  | on_ended n _ => if kind_is DOsc n then (inr tt, s) else nf s
  | new_promise => (inr (dpromise s), mkDState (dkinds s) (dnext s) (S (dpromise s)) (ddraws s))
  | math_random => (inr (random (ddraws s)), mkDState (dkinds s) (dnext s) (dpromise s) (N.succ (ddraws s)))
  | math_pow x y => (inr (pow x y), s)
  | math_exp x => (inr (exp x), s)
  | hang => (inl Timeout, s)
  | _ => nf s
  end.

#[global] Instance dummy : AudioBackend DState := @dummy_exec.

End backends.

End WebAudio.
