(* ===== verification/Sound.v ===== *)
(** * Sound: the sound generators of soundSynth.ts and the useSound hook

    Each [generateXSound(ctx, volume)] of [utils/soundSynth.ts] is a
    program of [WebAudio.Prog]: the same calls in the same order, with
    [ctx.currentTime] read where the source reads it, the default
    parameters of the source as [let]s, and the noise-filling [for] loops
    as [js_for].  A generator returns the promises its caller waits for
    (its own [new Promise], or the three notes of [Promise.all] in
    [generateUnlockSound]).  [setMasterVolume] is the master-gain ramp.

    [hooks/useSound.ts] maps a sound type to a generator: a legacy path
    such as ['/sounds/click.mp3'] is reduced to its file name by the
    regular expression [/\/([^/]+)\.[^.]+$/], which is modelled by a
    backtracking matcher ([match_here], [search]) over the expression's
    syntax; the name is then looked up in the [soundGenerators] object. *)

From S2P Require Import Prelude JsRuntime WebAudio SettingsContext.
From Stdlib Require Import ZArith Ascii.
From stdpp Require Import base list gmap strings.
From Corelib Require Import PrimFloat.

Module Sound.
Import WebAudio.

Local Open Scope float_scope.
Local Set Warnings "-inexact-float".

Definition sounds := Prog (list promise).

(** [setMasterVolume(level, isMuted)] (soundSynth.ts:57-71). *)
Definition setMasterVolume (level : float) (isMuted : bool) : Prog unit :=
  masterGain ← call masterGain;
  if isMuted then at_now (λ t, automate masterGain Pgain (linearRampToValueAtTime 0 (t + 0.05)))
  else let gainValue := level / 100 in
       at_now (λ t, automate masterGain Pgain (linearRampToValueAtTime gainValue (t + 0.05))).

(** soundSynth.ts:77-111 *)
Definition generateClickSound (volume : float) : sounds :=
  let frequency := 1200 in let duration := 0.03 in
  masterGain ← call masterGain;
  osc ← call (create OscillatorNode);
  gainNode ← call (create GainNode);
  call (set_type osc "sine");;
  at_now (λ t, automate osc Pfrequency (setValueAtTime frequency t));;
  at_now (λ t, automate gainNode Pgain (setValueAtTime 0 t));;
  at_now (λ t, automate gainNode Pgain (linearRampToValueAtTime volume (t + 0.005)));;
  at_now (λ t, automate gainNode Pgain (exponentialRampToValueAtTime 0.001 (t + duration)));;
  call (connect osc gainNode);;
  call (connect gainNode masterGain);;
  p ← call new_promise;
  at_now (λ t, start osc t);;
  at_now (λ t, stop osc (t + duration));;
  call (on_ended osc (mkHandler [osc; gainNode] p));;
  mret [p].

(** soundSynth.ts:117-164 *)
Definition generateConfirmSound (volume : float) : sounds :=
  let freq1 := 523.25 in let freq2 := 659.25 in let duration := 0.15 in
  masterGain ← call masterGain;
  osc1 ← call (create OscillatorNode);
  osc2 ← call (create OscillatorNode);
  gainNode ← call (create GainNode);
  call (set_type osc1 "sine");;
  at_now (λ t, automate osc1 Pfrequency (setValueAtTime freq1 t));;
  call (set_type osc2 "triangle");;
  at_now (λ t, automate osc2 Pfrequency (setValueAtTime freq2 (t + 0.05)));;
  at_now (λ t, automate gainNode Pgain (setValueAtTime 0 t));;
  at_now (λ t, automate gainNode Pgain (linearRampToValueAtTime volume (t + 0.02)));;
  at_now (λ t, automate gainNode Pgain (setValueAtTime volume (t + duration * 0.7)));;
  at_now (λ t, automate gainNode Pgain (exponentialRampToValueAtTime 0.001 (t + duration)));;
  call (connect osc1 gainNode);;
  call (connect osc2 gainNode);;
  call (connect gainNode masterGain);;
  p ← call new_promise;
  at_now (λ t, start osc1 t);;
  at_now (λ t, start osc2 (t + 0.05));;
  at_now (λ t, stop osc1 (t + duration));;
  at_now (λ t, stop osc2 (t + duration));;
  call (on_ended osc1 (mkHandler [osc1; osc2; gainNode] p));;
  mret [p].

(** soundSynth.ts:170-226 *)
Definition generateErrorSound (volume : float) : sounds :=
  let frequency := 220 in let duration := 0.25 in
  masterGain ← call masterGain;
  osc1 ← call (create OscillatorNode);
  osc2 ← call (create OscillatorNode);
  gainNode ← call (create GainNode);
  call (set_type osc1 "sawtooth");;
  at_now (λ t, automate osc1 Pfrequency (setValueAtTime (frequency * 1.5) t));;
  at_now (λ t, automate osc1 Pfrequency (exponentialRampToValueAtTime (frequency * 0.8) (t + duration)));;
  call (set_type osc2 "square");;
  at_now (λ t, automate osc2 Pfrequency (setValueAtTime (frequency * 1.0) t));;
  at_now (λ t, automate osc2 Pfrequency (exponentialRampToValueAtTime (frequency * 0.5) (t + duration)));;
  at_now (λ t, automate gainNode Pgain (setValueAtTime 0 t));;
  at_now (λ t, automate gainNode Pgain (linearRampToValueAtTime volume (t + 0.01)));;
  at_now (λ t, automate gainNode Pgain (linearRampToValueAtTime (volume * 0.7) (t + duration * 0.4)));;
  at_now (λ t, automate gainNode Pgain (exponentialRampToValueAtTime 0.001 (t + duration)));;
  filter ← call (create BiquadFilterNode);
  call (set_type filter "bandpass");;
  at_now (λ t, automate filter Pfrequency (setValueAtTime (frequency * 3) t));;
  at_now (λ t, automate filter Pfrequency (exponentialRampToValueAtTime frequency (t + duration)));;
  call (automate filter PQ (set_value 2));;
  call (connect osc1 filter);;
  call (connect osc2 filter);;
  call (connect filter gainNode);;
  call (connect gainNode masterGain);;
  p ← call new_promise;
  at_now (λ t, start osc1 t);;
  at_now (λ t, start osc2 t);;
  at_now (λ t, stop osc1 (t + duration));;
  at_now (λ t, stop osc2 (t + duration));;
  call (on_ended osc1 (mkHandler [osc1; osc2; filter; gainNode] p));;
  mret [p].

(** soundSynth.ts:232-275: three notes of [playNote] (243-267), awaited
    together. *)
Definition playNote (masterGain : node) (duration freq time noteVolume : float) (noteType : string)
    : Prog promise :=
  osc ← call (create OscillatorNode);
  gainNode ← call (create GainNode);
  call (set_type osc noteType);;
  at_now (λ t, automate osc Pfrequency (setValueAtTime freq (t + time)));;
  at_now (λ t, automate gainNode Pgain (setValueAtTime 0 (t + time)));;
  at_now (λ t, automate gainNode Pgain (linearRampToValueAtTime noteVolume (t + time + 0.005)));;
  at_now (λ t, automate gainNode Pgain (exponentialRampToValueAtTime 0.001 (t + time + duration)));;
  call (connect osc gainNode);;
  call (connect gainNode masterGain);;
  at_now (λ t, start osc (t + time));;
  at_now (λ t, stop osc (t + time + duration));;
  p ← call new_promise;
  call (on_ended osc (mkHandler [osc; gainNode] p));;
  mret p.

Definition generateUnlockSound (volume : float) : sounds :=
  let freq1 := 523.25 in let freq2 := 659.25 in let freq3 := 783.99 in
  let duration := 0.07 in
  masterGain ← call masterGain;
  p1 ← playNote masterGain duration freq1 0 (volume * 0.7) "sine";
  p2 ← playNote masterGain duration freq2 (duration * 0.6) (volume * 0.8) "triangle";
  p3 ← playNote masterGain duration freq3 (duration * 1.2) volume "sine";
  mret [p1; p2; p3].

(** [for (let i = 0; i < bound; i++) body(i)]. *)
Definition for_below (bound : float) (body : float → Prog unit) : Prog unit :=
  js_for loop_fuel 0 (λ i, mret (i <? bound)) body.

(** soundSynth.ts:281-344 *)
Definition generatePlayerShootSound (volume : float) : sounds :=
  let freq := 580 in let duration := 0.04 in
  masterGain ← call masterGain;
  osc ← call (create OscillatorNode);
  noiseGain ← call (create GainNode);
  gainNode ← call (create GainNode);
  call (set_type osc "square");;
  at_now (λ t, automate osc Pfrequency (setValueAtTime freq t));;
  at_now (λ t, automate osc Pfrequency (exponentialRampToValueAtTime (freq * 0.7) (t + duration)));;
  sr ← call sampleRate;
  let bufferSize := sr * duration in
  sr' ← call sampleRate;
  buffer ← call (createBuffer 1 bufferSize sr');
  data ← call (getChannelData buffer 0);
  for_below bufferSize (λ i,
    let noiseFactor := 1 - (i / bufferSize) in
    r ← call math_random;
    call (write data i ((r * 2 - 1) * noiseFactor * 0.3)));;
  noise ← call (create AudioBufferSourceNode);
  call (set_buffer noise buffer);;
  at_now (λ t, automate gainNode Pgain (setValueAtTime 0 t));;
  at_now (λ t, automate gainNode Pgain (linearRampToValueAtTime volume (t + 0.005)));;
  at_now (λ t, automate gainNode Pgain (exponentialRampToValueAtTime 0.001 (t + duration)));;
  at_now (λ t, automate noiseGain Pgain (setValueAtTime (volume * 0.2) t));;
  at_now (λ t, automate noiseGain Pgain (exponentialRampToValueAtTime 0.001 (t + duration)));;
  call (connect osc gainNode);;
  call (connect noise noiseGain);;
  call (connect noiseGain masterGain);;
  call (connect gainNode masterGain);;
  p ← call new_promise;
  at_now (λ t, start osc t);;
  at_now (λ t, start noise t);;
  at_now (λ t, stop osc (t + duration));;
  at_now (λ t, stop noise (t + duration));;
  call (on_ended osc (mkHandler [osc; noise; gainNode; noiseGain] p));;
  mret [p].

(** soundSynth.ts:350-432 *)
Definition generateExplosionSound (volume : float) : sounds :=
  let duration := 0.6 in
  masterGain ← call masterGain;
  sr ← call sampleRate;
  let bufferSize := sr * duration in
  sr' ← call sampleRate;
  buffer ← call (createBuffer 1 bufferSize sr');
  data ← call (getChannelData buffer 0);
  for_below bufferSize (λ i,
    let progress := i / bufferSize in
    energyFactor ← call (math_pow (1 - progress) 1.5);
    r ← call math_random;
    call (write data i ((r * 2 - 1) * energyFactor)));;
  noise ← call (create AudioBufferSourceNode);
  call (set_buffer noise buffer);;
  thumpOsc ← call (create OscillatorNode);
  call (set_type thumpOsc "sine");;
  at_now (λ t, automate thumpOsc Pfrequency (setValueAtTime 100 t));;
  at_now (λ t, automate thumpOsc Pfrequency (exponentialRampToValueAtTime 30 (t + 0.1)));;
  thumpGain ← call (create GainNode);
  at_now (λ t, automate thumpGain Pgain (setValueAtTime (volume * 0.8) t));;
  at_now (λ t, automate thumpGain Pgain (exponentialRampToValueAtTime 0.001 (t + 0.15)));;
  lowpassFilter ← call (create BiquadFilterNode);
  call (set_type lowpassFilter "lowpass");;
  at_now (λ t, automate lowpassFilter Pfrequency (setValueAtTime 1000 t));;
  at_now (λ t, automate lowpassFilter Pfrequency (exponentialRampToValueAtTime 20 (t + duration)));;
  bandpassFilter ← call (create BiquadFilterNode);
  call (set_type bandpassFilter "bandpass");;
  at_now (λ t, automate bandpassFilter Pfrequency (setValueAtTime 250 t));;
  at_now (λ t, automate bandpassFilter Pfrequency (exponentialRampToValueAtTime 100 (t + duration * 0.5)));;
  call (automate bandpassFilter PQ (set_value 1.0));;
  noiseGain ← call (create GainNode);
  at_now (λ t, automate noiseGain Pgain (setValueAtTime (volume * 0.1) t));;
  at_now (λ t, automate noiseGain Pgain (linearRampToValueAtTime volume (t + 0.02)));;
  at_now (λ t, automate noiseGain Pgain (exponentialRampToValueAtTime 0.001 (t + duration)));;
  call (connect noise lowpassFilter);;
  call (connect noise bandpassFilter);;
  call (connect lowpassFilter noiseGain);;
  call (connect bandpassFilter noiseGain);;
  call (connect noiseGain masterGain);;
  call (connect thumpOsc thumpGain);;
  call (connect thumpGain masterGain);;
  p ← call new_promise;
  at_now (λ t, start noise t);;
  at_now (λ t, start thumpOsc t);;
  at_now (λ t, stop noise (t + duration));;
  at_now (λ t, stop thumpOsc (t + 0.15));;
  call (on_ended noise (mkHandler [noise; lowpassFilter; bandpassFilter; noiseGain; thumpOsc; thumpGain] p));;
  mret [p].

(** soundSynth.ts:438-491 *)
Definition generateHitSound (volume : float) : sounds :=
  let freq := 350 in let duration := 0.08 in
  masterGain ← call masterGain;
  osc ← call (create OscillatorNode);
  gainNode ← call (create GainNode);
  call (set_type osc "triangle");;
  at_now (λ t, automate osc Pfrequency (setValueAtTime (freq * 1.5) t));;
  at_now (λ t, automate osc Pfrequency (exponentialRampToValueAtTime (freq * 0.7) (t + duration)));;
  osc2 ← call (create OscillatorNode);
  call (set_type osc2 "square");;
  at_now (λ t, automate osc2 Pfrequency (setValueAtTime (freq * 0.8) t));;
  at_now (λ t, automate osc2 Pfrequency (exponentialRampToValueAtTime (freq * 0.4) (t + duration * 0.7)));;
  gain2 ← call (create GainNode);
  at_now (λ t, automate gain2 Pgain (setValueAtTime (volume * 0.2) t));;
  at_now (λ t, automate gain2 Pgain (exponentialRampToValueAtTime 0.001 (t + duration * 0.5)));;
  at_now (λ t, automate gainNode Pgain (setValueAtTime 0 t));;
  at_now (λ t, automate gainNode Pgain (linearRampToValueAtTime volume (t + 0.005)));;
  at_now (λ t, automate gainNode Pgain (exponentialRampToValueAtTime 0.001 (t + duration)));;
  call (connect osc gainNode);;
  call (connect osc2 gain2);;
  call (connect gainNode masterGain);;
  call (connect gain2 masterGain);;
  p ← call new_promise;
  at_now (λ t, start osc t);;
  at_now (λ t, start osc2 t);;
  at_now (λ t, stop osc (t + duration));;
  at_now (λ t, stop osc2 (t + duration));;
  call (on_ended osc (mkHandler [osc; osc2; gainNode; gain2] p));;
  mret [p].

(** soundSynth.ts:497-570 *)
Definition generatePowerupSound (volume : float) : sounds :=
  let freq1 := 523.25 in let freq2 := 783.99 in let duration := 0.2 in
  masterGain ← call masterGain;
  osc ← call (create OscillatorNode);
  gainNode ← call (create GainNode);
  call (set_type osc "sine");;
  at_now (λ t, automate osc Pfrequency (setValueAtTime freq1 t));;
  at_now (λ t, automate osc Pfrequency (linearRampToValueAtTime freq2 (t + duration * 0.9)));;
  osc2 ← call (create OscillatorNode);
  call (set_type osc2 "triangle");;
  at_now (λ t, automate osc2 Pfrequency (setValueAtTime (freq1 * 2) (t + 0.05)));;
  at_now (λ t, automate osc2 Pfrequency (linearRampToValueAtTime (freq2 * 2) (t + duration * 0.9)));;
  gain2 ← call (create GainNode);
  at_now (λ t, automate gain2 Pgain (setValueAtTime 0 (t + 0.05)));;
  at_now (λ t, automate gain2 Pgain (linearRampToValueAtTime (volume * 0.3) (t + 0.1)));;
  at_now (λ t, automate gain2 Pgain (exponentialRampToValueAtTime 0.001 (t + duration)));;
  at_now (λ t, automate gainNode Pgain (setValueAtTime 0 t));;
  at_now (λ t, automate gainNode Pgain (linearRampToValueAtTime (volume * 0.3) (t + 0.05)));;
  at_now (λ t, automate gainNode Pgain (linearRampToValueAtTime volume (t + duration * 0.6)));;
  at_now (λ t, automate gainNode Pgain (exponentialRampToValueAtTime 0.001 (t + duration * 1.2)));;
  shimmerOsc ← call (create OscillatorNode);
  call (set_type shimmerOsc "sine");;
  at_now (λ t, automate shimmerOsc Pfrequency (setValueAtTime (freq2 * 1.5) (t + duration * 0.6)));;
  shimmerGain ← call (create GainNode);
  at_now (λ t, automate shimmerGain Pgain (setValueAtTime 0 (t + duration * 0.6)));;
  at_now (λ t, automate shimmerGain Pgain (linearRampToValueAtTime (volume * 0.2) (t + duration * 0.7)));;
  at_now (λ t, automate shimmerGain Pgain (exponentialRampToValueAtTime 0.001 (t + duration * 1.1)));;
  call (connect osc gainNode);;
  call (connect osc2 gain2);;
  call (connect shimmerOsc shimmerGain);;
  call (connect gainNode masterGain);;
  call (connect gain2 masterGain);;
  call (connect shimmerGain masterGain);;
  p ← call new_promise;
  at_now (λ t, start osc t);;
  at_now (λ t, start osc2 (t + 0.05));;
  at_now (λ t, start shimmerOsc (t + duration * 0.6));;
  at_now (λ t, stop osc (t + duration * 1.2));;
  at_now (λ t, stop osc2 (t + duration * 1.2));;
  at_now (λ t, stop shimmerOsc (t + duration * 1.1));;
  call (on_ended osc (mkHandler [osc; osc2; shimmerOsc; gainNode; gain2; shimmerGain] p));;
  mret [p].

(** soundSynth.ts:576-667 *)
Definition generateShutterSound (volume : float) : sounds :=
  masterGain ← call masterGain;
  let clickDuration := 0.01 in let mechanismDuration := 0.12 in
  clickOsc ← call (create OscillatorNode);
  clickGain ← call (create GainNode);
  call (set_type clickOsc "square");;
  at_now (λ t, automate clickOsc Pfrequency (setValueAtTime 5000 t));;
  at_now (λ t, automate clickGain Pgain (setValueAtTime 0 t));;
  at_now (λ t, automate clickGain Pgain (linearRampToValueAtTime volume (t + 0.001)));;
  at_now (λ t, automate clickGain Pgain (exponentialRampToValueAtTime 0.001 (t + clickDuration)));;
  call (connect clickOsc clickGain);;
  call (connect clickGain masterGain);;
  click2Osc ← call (create OscillatorNode);
  click2Gain ← call (create GainNode);
  call (set_type click2Osc "triangle");;
  at_now (λ t, automate click2Osc Pfrequency (setValueAtTime 3000 (t + 0.01)));;
  at_now (λ t, automate click2Gain Pgain (setValueAtTime 0 (t + 0.01)));;
  at_now (λ t, automate click2Gain Pgain (linearRampToValueAtTime (volume * 0.7) (t + 0.015)));;
  at_now (λ t, automate click2Gain Pgain (exponentialRampToValueAtTime 0.001 (t + 0.01 + clickDuration)));;
  call (connect click2Osc click2Gain);;
  call (connect click2Gain masterGain);;
  sr ← call sampleRate;
  let bufferSize := sr * mechanismDuration in
  sr' ← call sampleRate;
  buffer ← call (createBuffer 1 bufferSize sr');
  data ← call (getChannelData buffer 0);
  for_below bufferSize (λ i,
    let progress := i / bufferSize in
    energyFactor ← call (math_pow (1 - progress) 1.2);
    r ← call math_random;
    call (write data i ((r * 2 - 1) * energyFactor * 0.5)));;
  noise ← call (create AudioBufferSourceNode);
  call (set_buffer noise buffer);;
  filter ← call (create BiquadFilterNode);
  call (set_type filter "bandpass");;
  at_now (λ t, automate filter Pfrequency (setValueAtTime 4000 (t + clickDuration * 2)));;
  at_now (λ t, automate filter Pfrequency
                 (exponentialRampToValueAtTime 300 (t + clickDuration * 2 + mechanismDuration)));;
  call (automate filter PQ (set_value 3));;
  noiseGain ← call (create GainNode);
  at_now (λ t, automate noiseGain Pgain (setValueAtTime 0 (t + clickDuration * 2)));;
  at_now (λ t, automate noiseGain Pgain (linearRampToValueAtTime (volume * 0.3) (t + clickDuration * 2 + 0.01)));;
  at_now (λ t, automate noiseGain Pgain
                 (exponentialRampToValueAtTime 0.001 (t + clickDuration * 2 + mechanismDuration)));;
  call (connect noise filter);;
  call (connect filter noiseGain);;
  call (connect noiseGain masterGain);;
  at_now (λ t, start clickOsc t);;
  at_now (λ t, stop clickOsc (t + clickDuration));;
  at_now (λ t, start click2Osc (t + 0.01));;
  at_now (λ t, stop click2Osc (t + 0.01 + clickDuration));;
  at_now (λ t, start noise (t + clickDuration * 2));;
  at_now (λ t, stop noise (t + clickDuration * 2 + mechanismDuration));;
  p ← call new_promise;
  call (on_ended noise (mkHandler [clickOsc; clickGain; click2Osc; click2Gain; noise; filter; noiseGain] p));;
  mret [p].

(** soundSynth.ts:673-778 *)
Definition generateGameOverSound (volume : float) : sounds :=
  masterGain ← call masterGain;
  let duration := 1.2 in
  osc1 ← call (create OscillatorNode);
  osc2 ← call (create OscillatorNode);
  gainNode ← call (create GainNode);
  call (set_type osc1 "sine");;
  at_now (λ t, automate osc1 Pfrequency (setValueAtTime 440 t));;
  at_now (λ t, automate osc1 Pfrequency (setValueAtTime 440 (t + 0.1)));;
  at_now (λ t, automate osc1 Pfrequency (linearRampToValueAtTime 349.23 (t + 0.3)));;
  at_now (λ t, automate osc1 Pfrequency (setValueAtTime 349.23 (t + 0.4)));;
  at_now (λ t, automate osc1 Pfrequency (linearRampToValueAtTime 293.66 (t + 0.6)));;
  at_now (λ t, automate osc1 Pfrequency (setValueAtTime 293.66 (t + 0.7)));;
  at_now (λ t, automate osc1 Pfrequency (linearRampToValueAtTime 261.63 (t + 0.9)));;
  call (set_type osc2 "triangle");;
  at_now (λ t, automate osc2 Pfrequency (setValueAtTime 220 t));;
  at_now (λ t, automate osc2 Pfrequency (setValueAtTime 220 (t + 0.15)));;
  at_now (λ t, automate osc2 Pfrequency (linearRampToValueAtTime 174.61 (t + 0.35)));;
  at_now (λ t, automate osc2 Pfrequency (setValueAtTime 174.61 (t + 0.45)));;
  at_now (λ t, automate osc2 Pfrequency (linearRampToValueAtTime 146.83 (t + 0.65)));;
  at_now (λ t, automate osc2 Pfrequency (setValueAtTime 146.83 (t + 0.75)));;
  at_now (λ t, automate osc2 Pfrequency (linearRampToValueAtTime 130.81 (t + 0.95)));;
  gain2 ← call (create GainNode);
  at_now (λ t, automate gain2 Pgain (setValueAtTime (volume * 0.3) t));;
  at_now (λ t, automate gain2 Pgain (exponentialRampToValueAtTime 0.001 (t + duration)));;
  at_now (λ t, automate gainNode Pgain (setValueAtTime (volume * 0.5) t));;
  at_now (λ t, automate gainNode Pgain (linearRampToValueAtTime volume (t + 0.05)));;
  at_now (λ t, automate gainNode Pgain (exponentialRampToValueAtTime (volume * 0.3) (t + 0.25)));;
  at_now (λ t, automate gainNode Pgain (linearRampToValueAtTime (volume * 0.8) (t + 0.35)));;
  at_now (λ t, automate gainNode Pgain (exponentialRampToValueAtTime (volume * 0.3) (t + 0.55)));;
  at_now (λ t, automate gainNode Pgain (linearRampToValueAtTime (volume * 0.7) (t + 0.65)));;
  at_now (λ t, automate gainNode Pgain (exponentialRampToValueAtTime (volume * 0.2) (t + 0.85)));;
  at_now (λ t, automate gainNode Pgain (linearRampToValueAtTime (volume * 0.6) (t + 0.95)));;
  at_now (λ t, automate gainNode Pgain (exponentialRampToValueAtTime 0.001 (t + duration)));;
  sr ← call sampleRate;
  sr' ← call sampleRate;
  reverbBuffer ← call (createBuffer 2 (sr * 1.0) sr');
  js_for loop_fuel 0 (λ channel, mret (channel <? 2)) (λ channel,
    data ← call (getChannelData reverbBuffer channel);
    js_for loop_fuel 0 (λ i, len ← call (buffer_length reverbBuffer); mret (i <? len)) (λ i,
      r ← call math_random;
      sr ← call sampleRate;
      e ← call (math_exp (- i / (sr * 0.5)));
      call (write data i ((r * 2 - 1) * e * 0.1))));;
  reverbSource ← call (create AudioBufferSourceNode);
  call (set_buffer reverbSource reverbBuffer);;
  reverbFilter ← call (create BiquadFilterNode);
  call (set_type reverbFilter "lowpass");;
  call (automate reverbFilter Pfrequency (set_value 1000));;
  reverbGain ← call (create GainNode);
  call (automate reverbGain Pgain (set_value (volume * 0.1)));;
  call (connect osc1 gainNode);;
  call (connect osc2 gain2);;
  call (connect reverbSource reverbFilter);;
  call (connect reverbFilter reverbGain);;
  call (connect gainNode masterGain);;
  call (connect gain2 masterGain);;
  call (connect reverbGain masterGain);;
  p ← call new_promise;
  at_now (λ t, start osc1 t);;
  at_now (λ t, start osc2 t);;
  at_now (λ t, start reverbSource (t + 0.1));;
  at_now (λ t, stop osc1 (t + duration));;
  at_now (λ t, stop osc2 (t + duration));;
  at_now (λ t, stop reverbSource (t + duration));;
  call (on_ended osc1 (mkHandler [osc1; osc2; reverbSource; gainNode; gain2; reverbFilter; reverbGain] p));;
  mret [p].

(** ** useSound (hooks/useSound.ts) *)

Local Close Scope float_scope.

(** The regular expression of useSound.ts:48, [/\/([^/]+)\.[^.]+$/]:
    its atoms, greedy [+], the capture group and the end anchor. *)
Inductive CharClass := Lit (a : ascii) | NotIn (a : ascii).
Inductive Re := RChar (c : CharClass) | RPlus (c : CharClass) | ROpen | RClose | REnd.

Definition soundPathRe : list Re :=
  [RChar (Lit "/"); ROpen; RPlus (NotIn "/"); RClose; RChar (Lit "."); RPlus (NotIn "."); REnd].

Definition class_matches (c : CharClass) (a : ascii) : bool :=
  match c with Lit b => bool_decide (a = b) | NotIn b => bool_decide (a ≠ b) end.

Fixpoint run_length (c : CharClass) (s : list ascii) : nat :=
  match s with a :: s' => if class_matches c a then S (run_length c s') else 0 | [] => 0 end.

(** The start and end of the capture group. *)
Definition Caps := (option nat * option nat)%type.

(** Backtracking matching at one position (ECMAScript's RegExp
    semantics): a greedy [+] tries its longest run first and gives back
    one character at a time. *)
Fixpoint match_here (re : list Re) (s : list ascii) (pos : nat) (cap : Caps) : option Caps :=
  match re with
  | [] => Some cap
  | RChar c :: re' =>
      match s with
      | a :: s' => if class_matches c a then match_here re' s' (S pos) cap else None
      | [] => None
      end
  | RPlus c :: re' =>
      first_some (λ k, match_here re' (drop k s) (pos + k) cap) (run_length c s)
  | ROpen :: re' => match_here re' s pos (Some pos, cap.2)
  | RClose :: re' => match_here re' s pos (cap.1, Some pos)
  | REnd :: re' => match s with [] => match_here re' s pos cap | _ => None end
  end.

(** [String.prototype.match] with a non-global expression: the first
    position where the expression matches. *)
Fixpoint search (re : list Re) (s : list ascii) (pos : nat) : option Caps :=
  match match_here re s pos (None, None) with
  | Some c => Some c
  | None => match s with [] => None | _ :: s' => search re s' (S pos) end
  end.

(** The sound name of useSound.ts:43-52. *)
Definition soundNameOf (soundType : string) : string :=
  let cs := String.list_ascii_of_string soundType in
  if bool_decide ("/"%char ∈ cs) then
    match search soundPathRe cs 0 with
    | Some (Some a, Some b) =>
        let m1 := String.string_of_list_ascii (take (b - a) (drop a cs)) in
        if bool_decide (m1 ≠ "") then m1 else soundType
    | _ => soundType
    end
  else soundType.

(** useSound.ts:21-32 *)
Definition soundGenerators : list (string * (float → sounds)) :=
  [("click", generateClickSound); ("confirm", generateConfirmSound);
   ("error", generateErrorSound); ("unlock", generateUnlockSound);
   ("shoot", generatePlayerShootSound); ("explosion", generateExplosionSound);
   ("hit", generateHitSound); ("powerup", generatePowerupSound);
   ("shutter", generateShutterSound); ("game_over", generateGameOverSound)].

(** The properties every object inherits from [Object.prototype]: looking
    one of them up in [soundGenerators] gives a function or object that
    is not a generator. *)
Definition object_prototype_keys : list string :=
  ["constructor"; "__proto__"; "toString"; "toLocaleString"; "valueOf"; "hasOwnProperty";
   "isPrototypeOf"; "propertyIsEnumerable"; "__defineGetter__"; "__defineSetter__";
   "__lookupGetter__"; "__lookupSetter__"].

Inductive Lookup := Generator (g : float → sounds) | Inherited | Missing.

Definition lookup_generator (name : string) : Lookup :=
  match list_find (λ kv, kv.1 = name) soundGenerators with
  | Some (_, (_, g)) => Generator g
  | None => if bool_decide (name ∈ object_prototype_keys) then Inherited else Missing
  end.

(** What one [playSound] call does: nothing when sound is off, a warning
    for a name without generator, or the generator's run; an exception
    of the generator is caught and logged. *)
Inductive Outcome :=
  | Disabled | UnknownSound (name : string) | Playing (ps : list promise) | Failed (e : Exn).

(** useSound.ts:37-71; [volume] is [None] when the caller omits it. *)
Definition playSound {S} `{AudioBackend S} (isSoundEnabled : bool) (soundType : string)
    (volume : option float) (s : S) : Outcome * S :=
  let volume := default 0.5%float volume in
  if negb isSoundEnabled then (Disabled, s)
  else
    let soundName := soundNameOf soundType in
    match lookup_generator soundName with
    | Generator g =>
        match run (g volume) s with
        | (inr ps, s') => (Playing ps, s')
        | (inl e, s') => (Failed e, s')
        end
    | Inherited => (Failed (TypeError "generator(...).catch is not a function"), s)
    | Missing => (UnknownSound soundName, s)
    end.

End Sound.
