(* ===== verification/SoundFacts.v ===== *)
(** * SoundFacts: what the sound generators and useSound guarantee

    - the sound name of a legacy path is its file name without the
      extension, for every path (a proof about the backtracking matcher);
    - with a real AudioContext, every generator of [soundGenerators], at
      every volume the code passes, runs without an exception, fills its
      noise buffers with exactly one sample per iteration of its loops,
      disconnects its nodes only after all its sources have stopped, and
      once the clock has passed its sources, has resolved its promises and
      disconnected every node it created;
    - with the stand-in context every generator throws a [TypeError];
    - the sound types 'alarm', 'slide' and 'notification' have no
      generator;
    - [setMasterVolume] ramps the master gain to the value the settings
      model keeps in [Settings.masterGain].

    The runs are checked by evaluation for the two sample rates of audio
    hardware (44.1 and 48 kHz), for the clock at 0 (the first sound of a
    session) and after a day (86400 s), and for any implementation of
    [Math.random], [Math.pow] and [Math.exp]. *)

From S2P Require Import Prelude JsRuntime WebAudio SettingsContext Sound.
From Stdlib Require Import ZArith Ascii String.
From stdpp Require Import base list gmap strings.
From Corelib Require Import PrimFloat.

Module SoundFacts.
Import WebAudio Sound.

(** ** The sound-name expression *)
Section regex.
Implicit Types (s u w r x d n e : list ascii) (pos : nat) (cap : Caps).

Definition tail_re : list Re := [RClose; RChar (Lit "."); RPlus (NotIn "."); REnd].
Definition name_re : list Re := ROpen :: RPlus (NotIn "/") :: tail_re.

Lemma soundPathRe_eq : soundPathRe = RChar (Lit "/") :: name_re.
Proof. reflexivity. Qed.

Lemma run_length_le c s : run_length c s ≤ length s.
Proof. induction s as [|a s IH]; simpl; [lia|]. case_match; simpl; lia. Qed.

Lemma run_length_app_notin c u s : c ∉ u → run_length (NotIn c) (u ++ s) = length u + run_length (NotIn c) s.
Proof.
  induction u as [|a u IH]; intros Hc; [done|]. apply not_elem_of_cons in Hc as [Ha Hc].
  simpl. rewrite bool_decide_true by done. by rewrite IH.
Qed.

Lemma run_length_notin c s : c ∉ s → run_length (NotIn c) s = length s.
Proof. intros Hc. rewrite <-(app_nil_r s) at 1. rewrite run_length_app_notin by done. simpl. lia. Qed.

Lemma run_length_stop c s : run_length (NotIn c) (c :: s) = 0.
Proof. simpl. case_bool_decide; [contradiction|done]. Qed.

Lemma run_length_lt c s : c ∈ s → run_length (NotIn c) s < length s.
Proof.
  induction s as [|a s IH]; intros Hc; [by apply not_elem_of_nil in Hc|]. simpl.
  destruct (decide (a = c)) as [->|Hne]; [rewrite bool_decide_false by naive_solver; lia|].
  rewrite bool_decide_true by done. apply elem_of_cons in Hc as [->|Hc]; [done|].
  specialize (IH Hc). lia.
Qed.

Lemma elem_of_drop_elem {A} (a : A) k l : a ∈ drop k l → a ∈ l.
Proof. intros Ha. rewrite <-(take_drop k l). apply elem_of_app. by right. Qed.

(** The extension: one or more characters other than ['.'] up to the end. *)
Lemma match_ext_ok w pos cap :
  w ≠ [] → "."%char ∉ w → match_here [RPlus (NotIn "."); REnd] w pos cap = Some cap.
Proof.
  intros Hw Hd. cbn [match_here]. rewrite run_length_notin by done.
  destruct w as [|a w]; [done|]. cbn [first_some length]. rewrite drop_ge; [done|simpl; lia].
Qed.

Lemma match_ext_fail w pos cap :
  "."%char ∈ w → match_here [RPlus (NotIn "."); REnd] w pos cap = None.
Proof.
  intros Hd. cbn [match_here]. apply first_some_None. intros j Hj.
  pose proof (run_length_lt _ _ Hd).
  destruct (drop j w) eqn:E; [|done]. apply (f_equal length) in E. rewrite length_drop in E. simpl in E. lia.
Qed.

Lemma match_tail_ok w pos cap :
  w ≠ [] → "."%char ∉ w → match_here tail_re ("."%char :: w) pos cap = Some (cap.1, Some pos).
Proof.
  intros. change (match_here tail_re _ pos cap)
    with (match_here [RPlus (NotIn "."); REnd] w (S pos) (cap.1, Some pos)).
  by apply match_ext_ok.
Qed.

Lemma match_tail_fail t pos cap :
  (∀ w, t = "."%char :: w → "."%char ∈ w) → match_here tail_re t pos cap = None.
Proof.
  intros Ht. destruct t as [|a w]; [done|].
  destruct (decide (a = "."%char)) as [->|Hne].
  - change (match_here tail_re _ pos cap)
      with (match_here [RPlus (NotIn "."); REnd] w (S pos) (cap.1, Some pos)).
    by apply match_ext_fail, Ht.
  - cbn [tail_re match_here class_matches]. by rewrite bool_decide_false by naive_solver.
Qed.

(** After the ['/']: the name is the longest run without ['/'] that is
    followed by the last ['.'], with a non-empty extension after it. *)
Lemma match_name_ok n e pos cap :
  n ≠ [] → "/"%char ∉ n → e ≠ [] → "."%char ∉ e →
  match_here name_re (n ++ "."%char :: e) pos cap = Some (Some pos, Some (pos + length n)).
Proof.
  intros Hn Hs He Hd. cbn [name_re match_here].
  apply first_some_at with (j := length n).
  - rewrite run_length_app_notin by done. destruct n; simpl; [done|lia].
  - rewrite drop_app_length. by apply match_tail_ok.
  - intros j [Hlt _]. apply match_tail_fail. intros w Hw.
    rewrite drop_app_ge in Hw by lia. destruct (j - length n) as [|k] eqn:Ek; [lia|].
    cbn [drop] in Hw. exfalso. apply Hd, (elem_of_drop_elem _ k). rewrite Hw. by left.
Qed.

Lemma match_name_fail u r pos cap :
  "/"%char ∉ u → "."%char ∈ r → match_here name_re (u ++ "/"%char :: r) pos cap = None.
Proof.
  intros Hu Hr. cbn [name_re match_here]. rewrite run_length_app_notin, run_length_stop by done.
  apply first_some_None. intros j Hj. apply match_tail_fail. intros w Hw.
  rewrite drop_app_le in Hw by lia. destruct (drop j u) as [|a u'] eqn:E; simplify_eq/=.
  apply elem_of_app. right. by right.
Qed.

(** The first ['/'] of a path that has a ['.'] after some ['/']. *)
Lemma split_first_slash d x :
  "."%char ∈ x → ∃ u r, d ++ ("/"%char :: x) = u ++ ("/"%char :: r) ∧ ("/"%char ∉ u) ∧ ("."%char ∈ r).
Proof.
  intros Hx. induction d as [|a d IH].
  - exists [], x. split_and!; [done|apply not_elem_of_nil|done].
  - destruct (decide (a = "/"%char)) as [->|Hne].
    + exists [], (d ++ "/"%char :: x). split_and!; [done|apply not_elem_of_nil|].
      apply elem_of_app. right. by right.
    + destruct IH as (u & r & Heq & Hu & Hr). exists (a :: u), r. simpl. rewrite Heq.
      split_and!; [done| |done]. apply not_elem_of_cons. by split.
Qed.

Lemma search_path d n e pos :
  n ≠ [] → "/"%char ∉ n → e ≠ [] → "."%char ∉ e →
  search soundPathRe (d ++ "/"%char :: n ++ "."%char :: e) pos =
  Some (Some (pos + S (length d)), Some (pos + S (length d) + length n)).
Proof.
  intros Hn Hs He Hd. revert pos. induction d as [|a d IH]; intros pos.
  - cbn [search app]. rewrite soundPathRe_eq. cbn [match_here class_matches].
    rewrite bool_decide_true by done. rewrite match_name_ok by done.
    do 3 f_equal; simpl; lia.
  - cbn [search app]. rewrite soundPathRe_eq. cbn [match_here class_matches].
    replace (match_here name_re _ _ _) with (@None Caps).
    + destruct (bool_decide (a = "/"%char)); rewrite IH; do 3 f_equal; simpl; lia.
    + destruct (split_first_slash d (n ++ "."%char :: e)) as (u & r & -> & Hu & Hr).
      { apply elem_of_app. right. by left. }
      by rewrite match_name_fail.
Qed.
End regex.

Lemma list_ascii_of_string_app (s1 s2 : string) :
  String.list_ascii_of_string (s1 ++ s2) = String.list_ascii_of_string s1 ++ String.list_ascii_of_string s2.
Proof. induction s1 as [|a s1 IH]; simpl; [done|]. by rewrite IH. Qed.

(** C16: For every path [d/n.ext] whose file name [n] is not empty and has
    no ['/'] and whose extension is not empty and has no ['.'], useSound
    plays the sound named [n]: the regular expression of useSound.ts:48
    extracts exactly the file name without its extension. *)
Theorem sound_name_of_path (d n ext : string) :
  n ≠ ""%string → "/"%char ∉ String.list_ascii_of_string n →
  ext ≠ ""%string → "."%char ∉ String.list_ascii_of_string ext →
  soundNameOf (d ++ "/" ++ n ++ "." ++ ext) = n.
Proof.
  intros Hn Hs He Hd. unfold soundNameOf.
  assert (Hn' : String.list_ascii_of_string n ≠ []) by (by destruct n).
  assert (He' : String.list_ascii_of_string ext ≠ []) by (by destruct ext).
  rewrite !list_ascii_of_string_app. cbn [String.list_ascii_of_string app].
  rewrite (bool_decide_true ("/"%char ∈ _)) by (apply elem_of_app; right; apply elem_of_cons; by left).
  rewrite search_path by done.
  replace (0 + S (length (String.list_ascii_of_string d)) + _ - _)
    with (length (String.list_ascii_of_string n)) by lia.
  rewrite drop_app_ge by (simpl; lia).
  replace (_ - _) with 1 by lia. cbn [drop]. rewrite drop_0, take_app_length, string_of_list_ascii_of_string.
  by rewrite bool_decide_true.
Qed.

(** ** Running the generators *)

Local Open Scope float_scope.
Local Set Warnings "-inexact-float".

(** The volumes the code passes to playSound (0.5 is also the default),
    the sample rates of audio hardware and two clock readings. *)
Definition caller_volumes : list float := [0.2; 0.3; 0.4; 0.5; 0.6; 0.7].
Definition sample_rates : list float := [44100; 48000].
Definition clock_times : list float := [0; 86400].

Section plays.
Context (random : N → float) (pow : float → float → float) (exp : float → float).

Definition play (g : float → sounds) (v sr t : float) : (Exn + list promise) * AState :=
  @run _ (web random pow exp) _ (g v) (fresh_context sr t).

(** A check of one run at clock [t], over all generators, volumes, rates
    and clock readings. *)
Definition for_all_plays (chk : float → (Exn + list promise) * AState → bool) : bool :=
  forallb (λ ng, forallb (λ v, forallb (λ sr, forallb (λ t, chk t (play ng.2 v sr t))
    clock_times) sample_rates) caller_volumes) soundGenerators.

Lemma for_all_plays_spec chk name g v sr t :
  for_all_plays chk = true → (name, g) ∈ soundGenerators → v ∈ caller_volumes →
  sr ∈ sample_rates → t ∈ clock_times → chk t (play g v sr t) = true.
Proof.
  unfold for_all_plays. rewrite !forallb_forall. intros H Hg Hv Hsr Ht.
  apply list_elem_of_In in Hg, Hv, Hsr, Ht.
  specialize (H _ Hg). rewrite forallb_forall in H. specialize (H _ Hv).
  rewrite forallb_forall in H. specialize (H _ Hsr). rewrite forallb_forall in H. by apply H.
Qed.

Definition is_source_node (s : AState) (m : node) : bool :=
  from_option (λ ns, is_source (kind ns)) false (nodes s !! m).

(** The samples of all buffers: channels times length. *)
Definition buffer_samples (s : AState) : Z :=
  foldr Z.add 0%Z ((λ kv, (kv.2.1 * to_uint32 kv.2.2)%Z) <$> map_to_list (buffers s)).

(** The four checks: no exception; after the clock passes [t + 2] every
    promise is resolved and every created node is disconnected; every
    listener sits on a source that stops last among the sources it
    disconnects; and one [Math.random] draw per buffer sample. *)
Definition sound_ok (t : float) (r : (Exn + list promise) * AState) : bool :=
  match r with
  | (inr ps, s) =>
      let s' := render (t + 2) s in
      forallb (λ p, bool_decide (p ∈ resolved s')) ps
      && forallb (λ kv, (kv.1 <? 2)%nat || bool_decide (outputs kv.2 = [])) (map_to_list (nodes s'))
      && forallb (λ l, forallb (λ m, negb (is_source_node s m) || (stop_time s m <=? stop_time s l.1))
                               (disconnects l.2)) (listeners s)
      && bool_decide (Z.of_N (draws s) = buffer_samples s)
  | (inl _, _) => false
  end.

Lemma all_sounds_ok : for_all_plays sound_ok = true.
Proof. vm_compute. reflexivity. Qed.

Lemma sound_ok_play name g v sr t :
  (name, g) ∈ soundGenerators → v ∈ caller_volumes → sr ∈ sample_rates → t ∈ clock_times →
  sound_ok t (play g v sr t) = true.
Proof. intros. by eapply for_all_plays_spec; [apply all_sounds_ok|..]. Qed.

End plays.

Lemma sound_ok_spec t r :
  sound_ok t r = true →
  ∃ ps s, r = (inr ps, s) ∧
    (∀ p, p ∈ ps → p ∈ resolved (render (t + 2) s)) ∧
    (∀ n ns, (2 ≤ n)%nat → nodes (render (t + 2) s) !! n = Some ns → outputs ns = []) ∧
    (∀ n h m, (n, h) ∈ listeners s → m ∈ disconnects h → is_source_node s m = true →
              (stop_time s m <=? stop_time s n) = true) ∧
    Z.of_N (draws s) = buffer_samples s.
Proof.
  destruct r as [[e|ps] s]; [done|]. cbn [sound_ok].
  rewrite !andb_true_iff, !forallb_forall. intros [[[Hp Hn] Hl] Hd].
  exists ps, s. split_and!; [done| | | |by apply bool_decide_eq_true in Hd].
  - intros p Hin%list_elem_of_In. specialize (Hp _ Hin). by apply bool_decide_eq_true in Hp.
  - intros n ns Hle Hns%elem_of_map_to_list%list_elem_of_In. apply Hn, orb_true_iff in Hns as [Hlt|Ho].
    + apply Nat.ltb_lt in Hlt. simpl in Hlt. lia.
    + by apply bool_decide_eq_true in Ho.
  - intros n h m Hnh%list_elem_of_In Hm%list_elem_of_In Hsrc.
    specialize (Hl _ Hnh). rewrite forallb_forall in Hl. apply Hl, orb_true_iff in Hm as [Hm|]; [|done].
    by rewrite Hsrc in Hm.
Qed.

(** C13: With a real AudioContext, every generator of [soundGenerators]
    runs to its end without an exception (no invalid automation value or
    time, no source started twice, no unsupported buffer) at every
    volume the code passes, at 44.1 and 48 kHz, at the first sound of a
    session and a day later, whatever [Math.random], [Math.pow] and
    [Math.exp] return. *)
Theorem generators_play random pow exp name g v sr t :
  (name, g) ∈ soundGenerators → v ∈ caller_volumes → sr ∈ sample_rates → t ∈ clock_times →
  ∃ ps s, play random pow exp g v sr t = (inr ps, s).
Proof.
  intros Hg Hv Hsr Ht.
  destruct (sound_ok_spec _ _ (sound_ok_play random pow exp name g v sr t Hg Hv Hsr Ht)) as (ps & s & -> & _).
  eauto.
Qed.

(** C14: Once the audio clock has passed the end of a sound (2 s after it
    was started), every promise the generator returned is resolved and
    every node it created is disconnected: the ['ended'] listener always
    fires and releases the whole graph. *)
Theorem generators_release random pow exp name g v sr t :
  (name, g) ∈ soundGenerators → v ∈ caller_volumes → sr ∈ sample_rates → t ∈ clock_times →
  ∃ ps s, play random pow exp g v sr t = (inr ps, s) ∧
    (∀ p, p ∈ ps → p ∈ resolved (render (t + 2) s)) ∧
    (∀ n ns, (2 ≤ n)%nat → nodes (render (t + 2) s) !! n = Some ns → outputs ns = []).
Proof.
  intros Hg Hv Hsr Ht.
  destruct (sound_ok_spec _ _ (sound_ok_play random pow exp name g v sr t Hg Hv Hsr Ht)) as (ps & s & -> & ? & ? & _).
  eauto.
Qed.

(** No node of a sound is disconnected while one of its sources still
    plays: the source whose ['ended'] listener disconnects the graph stops
    no earlier than every other source that listener disconnects. *)
Theorem listener_on_last_source random pow exp name g v sr t :
  (name, g) ∈ soundGenerators → v ∈ caller_volumes → sr ∈ sample_rates → t ∈ clock_times →
  ∃ ps s, play random pow exp g v sr t = (inr ps, s) ∧
    ∀ n h m, (n, h) ∈ listeners s → m ∈ disconnects h → is_source_node s m = true →
             (stop_time s m <=? stop_time s n) = true.
Proof.
  intros Hg Hv Hsr Ht.
  destruct (sound_ok_spec _ _ (sound_ok_play random pow exp name g v sr t Hg Hv Hsr Ht)) as (ps & s & -> & _ & _ & ? & _).
  eauto.
Qed.

(** The noise loops terminate and fill their buffers exactly: the
    number of iterations (one [Math.random] draw each) equals the number
    of samples of the buffers created, channels times length, so no loop
    stops short of or runs past its buffer ([sampleRate * duration] is an
    integer at 44.1 and 48 kHz). *)
Theorem noise_loops_fill_buffers random pow exp name g v sr t :
  (name, g) ∈ soundGenerators → v ∈ caller_volumes → sr ∈ sample_rates → t ∈ clock_times →
  ∃ ps s, play random pow exp g v sr t = (inr ps, s) ∧ Z.of_N (draws s) = buffer_samples s.
Proof.
  intros Hg Hv Hsr Ht.
  destruct (sound_ok_spec _ _ (sound_ok_play random pow exp name g v sr t Hg Hv Hsr Ht)) as (ps & s & -> & _ & _ & _ & ?).
  eauto.
Qed.

(** ** The stand-in context *)

Definition rejects {A} (r : (Exn + A) * DState) : bool :=
  match r.1 with inl (TypeError _) => true | _ => false end.

(** C15: When the browser has no Web Audio API, getAudioContext's stand-in
    object lacks methods every generator calls (linearRampToValueAtTime
    on a gain, exponentialRampToValueAtTime on a frequency,
    createBiquadFilter, createBuffer), so every generator throws a
    TypeError at every volume: the fallback never plays a sound. *)
Theorem fallback_context_rejects random pow exp name g v :
  (name, g) ∈ soundGenerators →
  ∃ msg s, @run _ (dummy random pow exp) _ (g v) dummy_context = (inl (TypeError msg), s).
Proof.
  intros Hg%list_elem_of_In.
  assert (H : forallb (λ ng, rejects (@run _ (dummy random pow exp) _ (ng.2 v) dummy_context))
                      soundGenerators = true) by (vm_compute; reflexivity).
  rewrite forallb_forall in H. specialize (H _ Hg). unfold rejects in H. cbn [snd] in H.
  destruct (run (g v) dummy_context) as [[[]|] s]; try done. eauto.
Qed.

(** ** The sound types of the callers *)

Definition is_generator (l : Lookup) : bool := match l with Generator _ => true | _ => false end.

(** The sound types 'alarm' (TimerTab), 'slide' (StatusBar) and
    'notification' (SoundSettingsPage) have no generator: playSound only
    warns and plays nothing, with any backend; every other sound type the
    code passes reaches a generator. *)
Example caller_sound_types :
  (∀ S (H : AudioBackend S) (vol : option float) (s : S),
     playSound true "/sounds/alarm.mp3" vol s = (UnknownSound "alarm", s) ∧
     playSound true "/sounds/slide.mp3" vol s = (UnknownSound "slide", s) ∧
     playSound true "notification" vol s = (UnknownSound "notification", s)) ∧
  Forall (λ st, is_generator (lookup_generator (soundNameOf st)) = true)
    ["/sounds/click.mp3"; "/sounds/confirm.mp3"; "/sounds/error.mp3"; "/sounds/unlock.mp3";
     "/sounds/powerup.mp3"; "/sounds/shutter.mp3"; "click"; "unlock"; "error"].
Proof. split; [intros; split_and!; vm_compute; reflexivity|compute_decide]. Qed.

(** ** The master volume *)

(** [setMasterVolume] refines the settings model's master gain: on a
    context whose master gain node exists, it appends one linear ramp of
    the gain, 50 ms ahead, to exactly the value [Settings.setMasterVolume]
    records (0 when muted, level/100 otherwise), or throws the
    AudioParam's error and changes nothing. *)
Theorem setMasterVolume_refines random pow exp level muted (sys : Settings.Sys) (s : AState) ns :
  nodes s !! (1%nat : node) = Some ns → kind ns = GainNode →
  let a := linearRampToValueAtTime (Settings.masterGain (Settings.setMasterVolume level muted sys))
                                   (now s + 0.05) in
  @run _ (web random pow exp) _ (setMasterVolume level muted) s =
  match check_automation a with
  | None => (inr tt, set_node (1%nat : node) (mkNode (kind ns) (ntype ns) (outputs ns) (timeline ns ++ [(Pgain, a)])
                                        (started ns) (stopped ns) (has_buffer ns) (ended ns)) s)
  | Some e => (inl e, s)
  end.
Proof.
  intros Hns Hk a. subst a. unfold setMasterVolume, at_now, call.
  destruct muted; cbn -[check_automation]; rewrite Hns, Hk; cbn -[check_automation].
  - change (of_Z 0) with 0%float. by destruct (check_automation _).
  - change hundred with 100%float. by destruct (check_automation _).
Qed.

End SoundFacts.

(** ** Witnesses *)
Module SoundFactsWitness.
Import WebAudio Sound SoundFacts.
Local Open Scope float_scope.
Local Set Warnings "-inexact-float".

Definition no_random (n : N) : float := 0.
Definition first_pow (x y : float) : float := x.
Definition same_exp (x : float) : float := x.

Lemma click_in : ("click", generateClickSound) ∈ soundGenerators.
Proof. by left. Defined.

Lemma generators_play_witness :
  ∃ ps s, play no_random first_pow same_exp generateClickSound 0.3 48000 0 = (inr ps, s).
Proof. apply (generators_play _ _ _ "click"); [exact click_in|compute_decide..]. Defined.
Lemma shoot_in : ("shoot", generatePlayerShootSound) ∈ soundGenerators.
Proof. do 4 right. by left. Defined.

Lemma generators_release_witness :
  ∃ ps s, play no_random first_pow same_exp generateClickSound 0.5 44100 86400 = (inr ps, s) ∧
    (∀ p, p ∈ ps → p ∈ resolved (render (86400 + 2) s)) ∧
    (∀ n ns, (2 ≤ n)%nat → nodes (render (86400 + 2) s) !! n = Some ns → outputs ns = []).
Proof. apply (generators_release _ _ _ "click"); [exact click_in|compute_decide..]. Defined.

Lemma listener_on_last_source_witness :
  ∃ ps s, play no_random first_pow same_exp generatePlayerShootSound 0.2 48000 0 = (inr ps, s) ∧
    ∀ n h m, (n, h) ∈ listeners s → m ∈ disconnects h → is_source_node s m = true →
             (stop_time s m <=? stop_time s n) = true.
Proof. apply (listener_on_last_source _ _ _ "shoot"); [exact shoot_in|compute_decide..]. Defined.

Lemma noise_loops_fill_buffers_witness :
  ∃ ps s, play no_random first_pow same_exp generatePlayerShootSound 0.7 44100 0 = (inr ps, s) ∧
    Z.of_N (draws s) = buffer_samples s.
Proof. apply (noise_loops_fill_buffers _ _ _ "shoot"); [exact shoot_in|compute_decide..]. Defined.

Lemma fallback_context_rejects_witness :
  ∃ msg s, @run _ (dummy no_random first_pow same_exp) _ (generatePlayerShootSound 0.4) dummy_context
           = (inl (TypeError msg), s).
Proof. apply (fallback_context_rejects _ _ _ "shoot"). exact shoot_in. Defined.

Lemma sound_name_of_path_witness :
  soundNameOf ("/sounds" ++ "/" ++ "click" ++ "." ++ "mp3") = "click".
Proof. apply sound_name_of_path; compute_decide. Defined.

Definition master_node : NodeState :=
  mkNode GainNode "" [0%nat] [(Pgain, set_value (of_Z 1))] None None false false.

Lemma setMasterVolume_refines_witness :
  nodes (fresh_context 48000 0) !! (1%nat : node) = Some master_node ∧ kind master_node = GainNode ∧
  @run _ (web no_random first_pow same_exp) _ (setMasterVolume 50 false) (fresh_context 48000 0) =
  match check_automation (linearRampToValueAtTime
          (Settings.masterGain (Settings.setMasterVolume 50 false (Settings.mount ∅ false [])))
          (now (fresh_context 48000 0) + 0.05)) with
  | None => (inr tt, set_node (1%nat : node) (mkNode GainNode "" [0%nat]
              ([(Pgain, set_value (of_Z 1))] ++ [(Pgain, linearRampToValueAtTime
                 (Settings.masterGain (Settings.setMasterVolume 50 false (Settings.mount ∅ false [])))
                 (now (fresh_context 48000 0) + 0.05))]) None None false false) (fresh_context 48000 0))
  | Some e => (inl e, fresh_context 48000 0)
  end.
Proof.
  split_and!; [reflexivity|reflexivity|].
  exact (setMasterVolume_refines no_random first_pow same_exp 50 false (Settings.mount ∅ false [])
           (fresh_context 48000 0) master_node eq_refl eq_refl).
Defined.
End SoundFactsWitness.
