(* ===== verification/Files.v ===== *)
(** * Files: the file explorer app

    [FileExplorerApp] (src/WebDroid-OS/src/apps/FileExplorerApp.tsx)
    browses the constant tree [mockFileSystem]: items with an id, a name,
    a type, an optional size and date, and the id of their parent folder.
    Its state is [currentPath] (a folder id), the items of that folder,
    the breadcrumb segments from the root down to it, the selected item
    and the list or grid view.  Two effects run after a render whose
    dependencies changed, in the order the source declares them: the
    device-type effect (the view mode) and the path effect, which lists
    the children of [currentPath] and climbs the [parentId] links in a
    [while] loop to build the breadcrumbs.  The loop is [breadcrumb_loop]
    with fuel: running out of fuel is a loop that never ends (a cycle of
    parents), so the path effect returns [None] there; the file system of
    the app has no cycle and the fuel [length fs] always suffices
    ([breadcrumbs_terminate]).  [playSound] calls are recorded with their
    volume in hundredths; sizes are integers of bytes, below 2^53. *)

From S2P Require Import Prelude.
From Stdlib Require Import ZArith String.
From stdpp Require Import base list strings pretty.

Module Files.

(** ** Data (FileExplorerApp.tsx:12-53) *)

Inductive FileType := file | folder | image | text | pdf.

#[global] Instance FileType_eq_dec : EqDecision FileType.
Proof. solve_decision. Defined.

Record FileSystemItem := mkItem {
  id : string; name : string; type : FileType;
  size : option Z; lastModified : option string; parentId : option string }.

#[global] Instance FileSystemItem_eq_dec : EqDecision FileSystemItem.
Proof. solve_decision. Defined.

Record BreadcrumbSegment := mkSeg { seg_id : string; seg_name : string }.

#[global] Instance BreadcrumbSegment_eq_dec : EqDecision BreadcrumbSegment.
Proof. solve_decision. Defined.

Definition mockFileSystem : list FileSystemItem :=
  [mkItem "root" "Root" folder None None None;
   mkItem "docs" "Documents" folder None None (Some "root");
   mkItem "pics" "Pictures" folder None None (Some "root");
   mkItem "music" "Music" folder None None (Some "root");
   mkItem "downloads" "Downloads" folder None None (Some "root");
   mkItem "doc1" "Resume.pdf" pdf (Some 2048%Z) (Some "2023-03-15") (Some "docs");
   mkItem "doc2" "Notes.txt" text (Some 1024%Z) (Some "2023-03-20") (Some "docs");
   mkItem "doc3" "Project.docx" text (Some 4096%Z) (Some "2023-03-25") (Some "docs");
   mkItem "pic1" "Vacation.jpg" image (Some 5120%Z) (Some "2023-02-10") (Some "pics");
   mkItem "pic2" "Family.png" image (Some 3072%Z) (Some "2023-02-15") (Some "pics");
   mkItem "pic3" "Screenshot.png" image (Some 1536%Z) (Some "2023-02-20") (Some "pics");
   mkItem "pic4" "Profile.jpg" image (Some 2048%Z) (Some "2023-02-25") (Some "pics");
   mkItem "music1" "Song1.mp3" file (Some 10240%Z) (Some "2023-01-05") (Some "music");
   mkItem "music2" "Song2.mp3" file (Some 8192%Z) (Some "2023-01-10") (Some "music");
   mkItem "dl1" "Install.exe" file (Some 15360%Z) (Some "2023-04-01") (Some "downloads");
   mkItem "dl2" "Manual.pdf" pdf (Some 3072%Z) (Some "2023-04-05") (Some "downloads")].

(** ** The path effect (FileExplorerApp.tsx:87-101) *)

(** [fs.find(item => item.id === key)]: a [null] key matches nothing. *)
Definition find_item (fs : list FileSystemItem) (key : option string) : option FileSystemItem :=
  List.find (λ it, bool_decide (Some (id it) = key)) fs.

Definition children (fs : list FileSystemItem) (p : string) : list FileSystemItem :=
  filter (λ it, parentId it = Some p) fs.

(** [while (currentItem) { segments.unshift(...); currentItem = find(parent) }]
    with at most [fuel] iterations; [None] when the fuel runs out. *)
Fixpoint breadcrumb_loop (fs : list FileSystemItem) (fuel : nat) (cur : option FileSystemItem)
    (segs : list BreadcrumbSegment) : option (list BreadcrumbSegment) :=
  match cur with
  | None => Some segs
  | Some it =>
      match fuel with
      | 0 => None
      | S f => breadcrumb_loop fs f (find_item fs (parentId it)) (mkSeg (id it) (name it) :: segs)
      end
  end.

Definition breadcrumbs (fs : list FileSystemItem) (p : string) : option (list BreadcrumbSegment) :=
  breadcrumb_loop fs (length fs) (find_item fs (Some p)) [].

(** ** State and handlers *)

Inductive ViewMode := list_view | grid_view.

#[global] Instance ViewMode_eq_dec : EqDecision ViewMode.
Proof. solve_decision. Defined.

Record State := mkState {
  currentPath : string;
  currentPathItems : list FileSystemItem;
  breadcrumbSegments : list BreadcrumbSegment;
  selectedItemId : option string;
  viewMode : ViewMode;
  deviceType : string;                     (* useSettings().deviceType *)
  played : list (string * Z);              (* playSound(path, volume / 100) *)
  closed : bool }.                         (* closeApp() was called *)

Definition set_currentPath x s := mkState x (currentPathItems s) (breadcrumbSegments s) (selectedItemId s) (viewMode s) (deviceType s) (played s) (closed s).
Definition set_selectedItemId x s := mkState (currentPath s) (currentPathItems s) (breadcrumbSegments s) x (viewMode s) (deviceType s) (played s) (closed s).
Definition set_viewMode x s := mkState (currentPath s) (currentPathItems s) (breadcrumbSegments s) (selectedItemId s) x (deviceType s) (played s) (closed s).
Definition set_deviceType x s := mkState (currentPath s) (currentPathItems s) (breadcrumbSegments s) (selectedItemId s) (viewMode s) x (played s) (closed s).
Definition playSound (path : string) (volume : Z) (s : State) : State :=
  mkState (currentPath s) (currentPathItems s) (breadcrumbSegments s) (selectedItemId s) (viewMode s) (deviceType s) (played s ++ [(path, volume)]) (closed s).

(** FileExplorerApp.tsx:57-61 *)
Definition initial (d : string) : State := mkState "root" [] [] None list_view d [] false.

(** FileExplorerApp.tsx:104-116 *)
Definition handleItemClick (item : FileSystemItem) (s : State) : State :=
  let s := set_selectedItemId (Some (id item)) s in
  if bool_decide (type item = folder) then set_currentPath (id item) (playSound "/sounds/click.mp3" 20 s)
  else playSound "/sounds/click.mp3" 30 s.

(** FileExplorerApp.tsx:119-122 *)
Definition navigateToPathFromBreadcrumb (i : string) (s : State) : State :=
  set_currentPath i (playSound "/sounds/click.mp3" 20 s).

(** FileExplorerApp.tsx:181-186 *)
Definition handleContextMenu (item : FileSystemItem) (s : State) : State :=
  set_selectedItemId (Some (id item)) s.

(** FileExplorerApp.tsx:189-192 *)
Definition toggleViewMode (s : State) : State :=
  let s := playSound "/sounds/click.mp3" 20 s in
  set_viewMode (match viewMode s with list_view => grid_view | grid_view => list_view end) s.

(** The back button of the app bar (FileExplorerApp.tsx:200-203). *)
Definition handleBack (s : State) : State :=
  let s := playSound "/sounds/click.mp3" 30 s in
  mkState (currentPath s) (currentPathItems s) (breadcrumbSegments s) (selectedItemId s) (viewMode s) (deviceType s) (played s) true.

(** ** Effects *)

(** FileExplorerApp.tsx:66-68 *)
Definition viewModeEffect (s : State) : State :=
  set_viewMode (if bool_decide (deviceType s = "tablet") then grid_view else list_view) s.

(** FileExplorerApp.tsx:87-101; [None] when the loop does not end. *)
Definition pathEffect (fs : list FileSystemItem) (s : State) : option State :=
  let items := children fs (currentPath s) in
  segs ← breadcrumbs fs (currentPath s);
  Some (mkState (currentPath s) items segs (selectedItemId s) (viewMode s) (deviceType s) (played s) (closed s)).

(** After a render: the effects whose dependencies changed since [old]
    ([None] on mount, when all run), in declaration order. *)
Definition commit (fs : list FileSystemItem) (old : option State) (s : State) : option State :=
  let changed {A} (f : State → A) `{EqDecision A} :=
    match old with None => true | Some o => bool_decide (f o ≠ f s) end in
  let s := if changed deviceType then viewModeEffect s else s in
  if changed currentPath then pathEffect fs s else Some s.

Definition mount (fs : list FileSystemItem) (d : string) : option State := commit fs None (initial d).

(** ** Events *)

Inductive Event :=
  | ItemClick (it : FileSystemItem)          (* a row of the list or a cell of the grid *)
  | ContextMenu (it : FileSystemItem)
  | BreadcrumbClick (i : string)
  | ToggleView
  | Back
  | DeviceTypeChange (d : string).           (* the settings' device type *)

Definition handle (e : Event) (s : State) : State :=
  match e with
  | ItemClick it => handleItemClick it s
  | ContextMenu it => handleContextMenu it s
  | BreadcrumbClick i => navigateToPathFromBreadcrumb i s
  | ToggleView => toggleViewMode s
  | Back => handleBack s
  | DeviceTypeChange d => set_deviceType d s
  end.

(** What the rendered app offers (FileExplorerApp.tsx:270-279, 305-314,
    342-353): the items of the folder and the breadcrumb buttons, while
    the app is open. *)
Definition enabled (e : Event) (s : State) : bool :=
  negb (closed s) &&
  match e with
  | ItemClick it | ContextMenu it => bool_decide (it ∈ currentPathItems s)
  | BreadcrumbClick i => bool_decide (i ∈ seg_id <$> breadcrumbSegments s)
  | _ => true
  end.

Definition step (fs : list FileSystemItem) (e : Event) (s : State) : option State :=
  commit fs (Some s) (handle e s).

Inductive reachable (fs : list FileSystemItem) : State → Prop :=
  | reach_mount d s : mount fs d = Some s → reachable fs s
  | reach_step e s s' : reachable fs s → enabled e s = true → step fs e s = Some s' → reachable fs s'.

(** ** What the app shows *)

(** [x.toFixed(1)] of the double [a / b] (exact: [b] is a power of two
    and [a] below 2^53): the integer [n] nearest to [10 a / b], the larger
    one on a tie, printed with one decimal. *)
Definition toFixed1 (a b : Z) : string :=
  let n := ((20 * a + b) / (2 * b))%Z in
  pretty (n / 10)%Z +:+ "." +:+ pretty (n mod 10)%Z.

(** FileExplorerApp.tsx:125-130 *)
Definition formatFileSize (sz : option Z) : string :=
  match sz with
  | None => ""
  | Some z =>
      if bool_decide (z < 1024)%Z then pretty z +:+ " B"
      else if bool_decide (z < 1024 * 1024)%Z then toFixed1 z 1024 +:+ " KB"
      else toFixed1 z (1024 * 1024) +:+ " MB"
  end.

(** The right-hand text of a list row (FileExplorerApp.tsx:293). *)
Definition entryDetail (it : FileSystemItem) : string :=
  if truthy (lastModified it) then default "" (lastModified it)
  else if bool_decide (type it = folder) then "Folder" else "File".

(** The empty-folder placeholder (250-264) and the footer (376). *)
Definition showsEmptyFolder (s : State) : bool := bool_decide (currentPathItems s = []).

Definition footer (s : State) : string :=
  let n := length (currentPathItems s) in
  pretty n +:+ " " +:+ (if bool_decide (n = 1) then "item" else "items").

(** The preview the recents view shows (FileExplorerApp.tsx:71-77). *)
Definition getPreviewState (s : State) : string * nat :=
  (String.concat "/" (seg_name <$> breadcrumbSegments s), length (currentPathItems s)).

(** ** Lemmas *)

Definition folder_ids : list string := id <$> filter (λ it, type it = folder) mockFileSystem.

(** The data is well formed: unique ids, one root, which is a folder,
    and every other item's parent is a folder of the tree. *)
Definition parent_ok (fs : list FileSystemItem) (it : FileSystemItem) : Prop :=
  match parentId it with
  | None => type it = folder
  | Some p => Exists (λ q, id q = p ∧ type q = folder) fs
  end.

#[global] Instance parent_ok_dec fs it : Decision (parent_ok fs it).
Proof. unfold parent_ok. case_match; apply _. Defined.

Definition wf_fs (fs : list FileSystemItem) : Prop :=
  NoDup (id <$> fs) ∧
  filter (λ it, parentId it = None) fs = filter (λ it, id it = "root") fs ∧
  Forall (parent_ok fs) fs.

#[global] Instance wf_fs_dec fs : Decision (wf_fs fs).
Proof. unfold wf_fs. apply _. Defined.

Lemma breadcrumb_loop_acc fs f c segs segs' :
  is_Some (breadcrumb_loop fs f c segs) → is_Some (breadcrumb_loop fs f c segs').
Proof.
  revert c segs segs'. induction f as [|f IH]; intros [it|] segs segs'; simpl; try done.
  apply IH.
Qed.

Lemma find_item_elem fs k it : find_item fs k = Some it → it ∈ fs.
Proof. intros H%List.find_some. by apply list_elem_of_In, H. Qed.

(** The loop ends from every item of the app's tree. *)
Lemma loop_ends_mock :
  Forall (λ it, is_Some (breadcrumb_loop mockFileSystem (length mockFileSystem) (Some it) []))
         mockFileSystem.
Proof. compute_decide. Qed.

Lemma breadcrumbs_Some p : is_Some (breadcrumbs mockFileSystem p).
Proof.
  unfold breadcrumbs. destruct (find_item mockFileSystem (Some p)) as [it|] eqn:E; [|done].
  apply find_item_elem in E. by apply (proj1 (Forall_forall _ _) loop_ends_mock).
Qed.

(** The breadcrumbs of every folder name folders, and the breadcrumbs of
    the i-th segment are the first i+1 segments. *)
Lemma breadcrumbs_of_folders :
  forallb (λ p, match breadcrumbs mockFileSystem p with
                | Some segs =>
                    forallb (λ i, match segs !! i with
                                  | Some sg => bool_decide (seg_id sg ∈ folder_ids) &&
                                               bool_decide (breadcrumbs mockFileSystem (seg_id sg) =
                                                            Some (take (S i) segs))
                                  | None => true
                                  end) (seq 0 (length segs))
                | None => false
                end) folder_ids = true.
Proof. vm_compute. reflexivity. Qed.

Lemma breadcrumb_segment p segs i sg :
  p ∈ folder_ids → breadcrumbs mockFileSystem p = Some segs → segs !! i = Some sg →
  seg_id sg ∈ folder_ids ∧ breadcrumbs mockFileSystem (seg_id sg) = Some (take (S i) segs).
Proof.
  intros Hp%list_elem_of_In Hb Hi. pose proof (proj1 (forallb_forall _ _) breadcrumbs_of_folders p Hp) as H.
  cbv beta in H. rewrite Hb, forallb_forall in H. specialize (H i). cbv beta in H.
  rewrite Hi, andb_true_iff, !bool_decide_eq_true in H.
  apply H, list_elem_of_In, elem_of_seq. apply lookup_lt_Some in Hi. lia.
Qed.

Lemma handle_listing e s :
  currentPathItems (handle e s) = currentPathItems s ∧ breadcrumbSegments (handle e s) = breadcrumbSegments s.
Proof. destruct e; simpl; unfold handleItemClick, toggleViewMode; try case_decide; done. Qed.

(** What a commit does to the listing: recomputed when the path changed,
    kept otherwise. *)
Lemma commit_listing fs old s s' :
  commit fs (Some old) s = Some s' →
  currentPath s' = currentPath s ∧
  (if bool_decide (currentPath old ≠ currentPath s)
   then currentPathItems s' = children fs (currentPath s) ∧
        breadcrumbs fs (currentPath s) = Some (breadcrumbSegments s')
   else currentPathItems s' = currentPathItems s ∧ breadcrumbSegments s' = breadcrumbSegments s).
Proof.
  unfold commit. cbn zeta beta iota. intros H.
  assert (Hv : ∀ s1, s1 = viewModeEffect s ∨ s1 = s →
            currentPath s1 = currentPath s ∧ currentPathItems s1 = currentPathItems s ∧
            breadcrumbSegments s1 = breadcrumbSegments s) by (intros ? [->| ->]; done).
  assert (Hx : (if bool_decide (deviceType old ≠ deviceType s) then viewModeEffect s else s) = viewModeEffect s ∨
               (if bool_decide (deviceType old ≠ deviceType s) then viewModeEffect s else s) = s)
    by (destruct (bool_decide (deviceType old ≠ deviceType s)); auto).
  destruct (Hv _ Hx) as (Hp1 & Hi1 & Hb1). clear Hx Hv.
  revert H Hp1 Hi1 Hb1. generalize (if bool_decide (deviceType old ≠ deviceType s) then viewModeEffect s else s).
  intros s1 H Hp1 Hi1 Hb1. destruct (bool_decide (currentPath old ≠ currentPath s)).
  - unfold pathEffect in H. rewrite Hp1 in H.
    destruct (breadcrumbs fs (currentPath s)) eqn:E; simplify_eq/=; auto.
  - simplify_eq. auto.
Qed.

Lemma children_mock p it : it ∈ children mockFileSystem p → it ∈ mockFileSystem.
Proof. unfold children. rewrite list_elem_of_filter. by intros [_ ?]. Qed.

Lemma folder_id it : it ∈ mockFileSystem → type it = folder → id it ∈ folder_ids.
Proof. intros. apply list_elem_of_fmap. exists it. split; [done|]. by apply list_elem_of_filter. Qed.

(** The invariant of the app's state. *)
Definition files_inv (s : State) : Prop :=
  currentPath s ∈ folder_ids ∧
  currentPathItems s = children mockFileSystem (currentPath s) ∧
  breadcrumbs mockFileSystem (currentPath s) = Some (breadcrumbSegments s).

Lemma files_inv_mount d s : mount mockFileSystem d = Some s → files_inv s.
Proof.
  unfold mount, commit, pathEffect. cbn zeta beta iota.
  change (currentPath (viewModeEffect (initial d))) with "root".
  change (breadcrumbs mockFileSystem "root") with (Some [mkSeg "root" "Root"]).
  intros [= <-]. split_and!; [compute_decide|reflexivity|reflexivity].
Qed.

Lemma handle_path_folder e s :
  files_inv s → enabled e s = true → currentPath (handle e s) ∈ folder_ids.
Proof.
  intros (Hp & Hi & Hb) He. destruct e as [it|it|i| | |d]; cbn [handle enabled] in *; try done.
  - unfold handleItemClick. case_bool_decide; [|done].
    apply andb_true_iff in He as [_ He%bool_decide_eq_true]. rewrite Hi in He.
    by apply folder_id; [eapply children_mock|].
  - apply andb_true_iff in He as [_ He%bool_decide_eq_true].
    apply list_elem_of_fmap in He as [sg [-> Hsg]]. apply list_elem_of_lookup in Hsg as [k Hk].
    exact (proj1 (breadcrumb_segment _ _ _ _ Hp Hb Hk)).
Qed.

Lemma files_inv_step e s s' :
  files_inv s → enabled e s = true → step mockFileSystem e s = Some s' → files_inv s'.
Proof.
  intros Hs He Hst. pose proof (handle_path_folder e s Hs He) as Hf.
  destruct (commit_listing _ _ _ _ Hst) as [Hp Hl]. destruct (handle_listing e s) as [Hi Hb].
  destruct Hs as (Hp0 & Hi0 & Hb0). red. rewrite Hp. split; [done|].
  case_bool_decide as Hc; [done|]. destruct Hl as [-> ->]. rewrite Hi, Hb.
  try apply dec_stable in Hc. by rewrite <-Hc.
Qed.

Lemma files_inv_reachable s : reachable mockFileSystem s → files_inv s.
Proof. induction 1; [by eapply files_inv_mount|by eapply files_inv_step]. Qed.

(** ** Properties *)

(** The data of the app is well formed: item ids are unique, the only
    item without a parent is the root, a folder, and every other item's
    parent is a folder of the tree. *)
Example mockFileSystem_wf : wf_fs mockFileSystem.
Proof. compute_decide. Qed.

(** C18: The breadcrumb [while] loop of the path effect terminates for
    every [currentPath], known or not: the parent links of the app's tree
    have no cycle, so the path effect always completes. *)
Theorem breadcrumbs_terminate p :
  ∃ segs, breadcrumbs mockFileSystem p = Some segs ∧
    pathEffect mockFileSystem (set_currentPath p (initial "phone")) ≠ None.
Proof.
  destruct (breadcrumbs_Some p) as [segs Hs]. exists segs. split; [done|].
  unfold pathEffect. cbn [currentPath set_currentPath]. by rewrite Hs.
Qed.

(** C17: In every reachable state the current path is a folder, the items
    shown are exactly its children, and the breadcrumbs are the chain of
    parents from the root down to it. *)
Theorem files_reachable_inv s :
  reachable mockFileSystem s →
  currentPath s ∈ folder_ids ∧
  currentPathItems s = children mockFileSystem (currentPath s) ∧
  breadcrumbs mockFileSystem (currentPath s) = Some (breadcrumbSegments s).
Proof. apply files_inv_reachable. Qed.

(** Clicking the i-th breadcrumb goes to that folder and leaves
    exactly the first i+1 breadcrumbs: breadcrumb navigation is the
    inverse of descending into folders. *)
Theorem breadcrumb_click_prefix s i sg s' :
  reachable mockFileSystem s → breadcrumbSegments s !! i = Some sg →
  step mockFileSystem (BreadcrumbClick (seg_id sg)) s = Some s' →
  currentPath s' = seg_id sg ∧ breadcrumbSegments s' = take (S i) (breadcrumbSegments s).
Proof.
  intros Hr Hi Hst. destruct (files_inv_reachable s Hr) as (Hp & _ & Hb).
  destruct (breadcrumb_segment _ _ _ _ Hp Hb Hi) as [_ Hsg].
  destruct (commit_listing _ _ _ _ Hst) as [Hp' Hl]. cbn [handle navigateToPathFromBreadcrumb currentPath set_currentPath] in Hp', Hl.
  split; [done|]. destruct (handle_listing (BreadcrumbClick (seg_id sg)) s) as [_ Hb'].
  cbn [handle navigateToPathFromBreadcrumb] in Hb'.
  case_bool_decide as Hc.
  - destruct Hl as [_ Hl]. rewrite Hsg in Hl. by injection Hl.
  - try apply dec_stable in Hc. destruct Hl as [_ ->]. rewrite Hb'. cbn [breadcrumbSegments set_currentPath playSound].
    rewrite <-Hc, Hb in Hsg. by injection Hsg.
Qed.

(** C19: Files from 1048525 to 1048575 bytes, just under 1 MB, are shown
    as "1024.0 KB": [toFixed(1)] rounds the KB figure up to 1024.0 before
    the MB unit is chosen. *)
Theorem formatFileSize_below_mb z :
  (1048525 ≤ z < 1048576)%Z → formatFileSize (Some z) = "1024.0 KB".
Proof.
  intros Hz. unfold formatFileSize, toFixed1.
  rewrite bool_decide_false, bool_decide_true by lia.
  rewrite <-(Z.div_unique_pos (20 * z + 1024) (2 * 1024) 10240 (20 * z + 1024 - 20971520)) by lia.
  reflexivity.
Qed.

End Files.

(** ** Witnesses *)
Module FilesWitness.
Import Files.

Definition docs_item : FileSystemItem := mkItem "docs" "Documents" folder None None (Some "root").

Definition mounted : State :=
  Eval vm_compute in from_option (λ x, x) (initial "phone") (mount mockFileSystem "phone").

Definition in_documents : State :=
  Eval vm_compute in from_option (λ x, x) mounted (step mockFileSystem (ItemClick docs_item) mounted).

Definition back_home : State :=
  Eval vm_compute in from_option (λ x, x) mounted (step mockFileSystem (BreadcrumbClick "root") in_documents).

Lemma in_documents_reachable : reachable mockFileSystem in_documents.
Proof.
  apply (reach_step _ (ItemClick docs_item) mounted); [|reflexivity|reflexivity].
  apply (reach_mount _ "phone"). reflexivity.
Defined.

Lemma files_reachable_inv_witness :
  reachable mockFileSystem in_documents ∧ currentPath in_documents ∈ folder_ids.
Proof.
  split; [exact in_documents_reachable|]. exact (proj1 (files_reachable_inv _ in_documents_reachable)).
Defined.

Lemma breadcrumb_click_prefix_witness :
  currentPath back_home = "root" ∧ breadcrumbSegments back_home = take 1 (breadcrumbSegments in_documents).
Proof.
  apply (breadcrumb_click_prefix in_documents 0 (mkSeg "root" "Root") back_home in_documents_reachable);
    reflexivity.
Defined.

Lemma formatFileSize_below_mb_witness :
  (1048525 ≤ 1048575 < 1048576)%Z ∧ formatFileSize (Some 1048575%Z) = "1024.0 KB".
Proof. split; [lia|]. apply formatFileSize_below_mb. lia. Defined.
End FilesWitness.
