(* ===== verification/PinSettings.v ===== *)
(** * The PIN settings page and its modal

    [PinModal] models ChangePinModal.tsx
    (src/WebDroid-OS/src/apps/SettingsApp/ChangePinModal.tsx): its four
    [useState] fields as the record [Form], the input filter of the three
    [onChange] handlers, the reset effect on [isOpen], and [handleSubmit]
    with its early returns, generic in the parent's state and callbacks.
    [LockSettings] models LockSettingsPage.tsx
    (src/src/apps/SettingsApp/LockSettingsPage.tsx): the context's
    [lockscreenPin], the page's [isChangePinModalOpen], the handlers that
    open, close and submit the modal, and the page and modal as one step
    function.  The theorems relate the modal's regular expression to the
    lock screen's keys, classify every submission, keep the inputs at four
    digits, and show that every PIN change the page makes is one that the
    system model's [SetPin] event allows. *)

From S2P Require Import Prelude Power System.
From stdpp Require Import base decidable strings list.
From Stdlib Require Import Ascii.

Module PinModal.

(** The four [useState('')] of ChangePinModal.tsx:18-21. *)
Record Form := mkForm {
  oldPinInput : string;
  newPinInput : string;
  confirmPinInput : string;
  errorMessage : string
}.

Definition emptyForm : Form := mkForm "" "" "" "".

Definition setOldPinInput (v : string) (f : Form) : Form :=
  mkForm v (newPinInput f) (confirmPinInput f) (errorMessage f).
Definition setNewPinInput (v : string) (f : Form) : Form :=
  mkForm (oldPinInput f) v (confirmPinInput f) (errorMessage f).
Definition setConfirmPinInput (v : string) (f : Form) : Form :=
  mkForm (oldPinInput f) (newPinInput f) v (errorMessage f).
Definition setErrorMessage (m : string) (f : Form) : Form :=
  mkForm (oldPinInput f) (newPinInput f) (confirmPinInput f) m.

(** [\d] of a JavaScript regular expression: the characters 0 to 9. *)
Definition is_digit (a : ascii) : bool :=
  bool_decide (48 ≤ nat_of_ascii a ≤ 57).

(** [e.target.value.replace(/\D/g, '').slice(0, 4)]
    (ChangePinModal.tsx:105, 128, 150). *)
Definition sanitize (v : string) : string :=
  String.substring 0 4
    (String.string_of_list_ascii (List.filter is_digit (String.list_ascii_of_string v))).

(** [/^\d{4}$/.test(p)] (ChangePinModal.tsx:56): exactly four characters,
    each a digit. *)
Definition pinRe_test (p : string) : bool :=
  bool_decide (String.length p = 4) && forallb is_digit (String.list_ascii_of_string p).

(** The reset effect of ChangePinModal.tsx:24-31: it runs when [isOpen]
    changed since the last commit and clears the form when the modal is
    now open. *)
Definition resetEffect (oldIsOpen isOpen : bool) (f : Form) : Form :=
  if bool_decide (oldIsOpen ≠ isOpen) then (if isOpen then emptyForm else f) else f.

Section submit.
(** The parent's state and the props [onSubmitPin] and [onClose]. *)
Context {P : Type} (onSubmitPin : string → P → P * bool) (onClose : P → P).

(** The checks on the new PIN and the submission
    (ChangePinModal.tsx:50-74). *)
Definition submitNew (f : Form) (p : P) : Form * P :=
  if bool_decide (newPinInput f = "") then
    (setErrorMessage "Please enter a new PIN" f, p)
  else if negb (pinRe_test (newPinInput f)) then
    (setErrorMessage "PIN must be exactly 4 digits" f, p)
  else if bool_decide (newPinInput f ≠ confirmPinInput f) then
    (setErrorMessage "PINs don't match" f, p)
  else
    let '(p', success) := onSubmitPin (newPinInput f) p in
    if success then (f, onClose p')
    else (setErrorMessage "Failed to update PIN" f, p').

(** [handleSubmit] (ChangePinModal.tsx:33-75); [currentPin] is [None]
    for [undefined]. *)
Definition handleSubmit (requiresOldPin : bool) (currentPin : option string)
    (f : Form) (p : P) : Form * P :=
  let f := setErrorMessage "" f in
  if requiresOldPin then
    if bool_decide (oldPinInput f = "") then
      (setErrorMessage "Please enter your current PIN" f, p)
    else if bool_decide (Some (oldPinInput f) ≠ currentPin) then
      (setErrorMessage "Current PIN is incorrect" f, p)
    else submitNew f p
  else submitNew f p.
End submit.

(** The heading (ChangePinModal.tsx:86) and the error line, shown when
    [errorMessage] is truthy (ChangePinModal.tsx:159-161). *)
Definition title (requiresOldPin : bool) : string :=
  if requiresOldPin then "Change PIN" else "Set New PIN".

Definition shownError (f : Form) : option string :=
  if bool_decide (errorMessage f = "") then None else Some (errorMessage f).

End PinModal.

Module LockSettings.
Import PinModal.

(** The page's state: the context's [lockscreenPin]
    (LockSettingsPage.tsx:11) and [isChangePinModalOpen] (line 12). *)
Record Page := mkPage {
  lockscreenPin : option string;
  isChangePinModalOpen : bool
}.

(** The page and the modal it renders (LockSettingsPage.tsx:94-100). *)
Record State := mkState {
  page : Page;
  form : Form
}.

Definition setLockscreenPin (p : option string) (pg : Page) : Page :=
  mkPage p (isChangePinModalOpen pg).
Definition setIsChangePinModalOpen (b : bool) (pg : Page) : Page :=
  mkPage (lockscreenPin pg) b.

(** The modal's props (LockSettingsPage.tsx:98-99):
    [lockscreenPin !== null] and [lockscreenPin || undefined]. *)
Definition requiresOldPin (pg : Page) : bool :=
  bool_decide (lockscreenPin pg ≠ None).
Definition currentPin (pg : Page) : option string :=
  if truthy (lockscreenPin pg) then lockscreenPin pg else None.

(** [handleTogglePin] (LockSettingsPage.tsx:15-27); [confirmDisable] is
    the answer of [window.confirm], asked only when a PIN is set. *)
Definition handleTogglePin (confirmDisable : bool) (pg : Page) : Page :=
  if truthy (lockscreenPin pg) then
    (if confirmDisable then setLockscreenPin None pg else pg)
  else setIsChangePinModalOpen true pg.

(** [handleChangePin] (LockSettingsPage.tsx:30-32). *)
Definition handleChangePin (pg : Page) : Page := setIsChangePinModalOpen true pg.

(** [handlePinSubmit] (LockSettingsPage.tsx:35-39). *)
Definition handlePinSubmit (newPin : string) (pg : Page) : Page * bool :=
  (setLockscreenPin (Some newPin) pg, true).

(** [onClose] (LockSettingsPage.tsx:96). *)
Definition onClose (pg : Page) : Page := setIsChangePinModalOpen false pg.

Inductive Field := OldPin | NewPin | ConfirmPin.

(** What the user can do on the page: the toggle, the Change PIN button,
    typing into a field of the modal, Confirm and Cancel. *)
Inductive Event :=
  | TogglePin (confirmDisable : bool)
  | ChangePin
  | Input (fld : Field) (value : string)
  | Submit
  | Cancel.

(** The controls rendered and reachable: while the modal is open its
    full-screen overlay (ChangePinModal.tsx:80) covers the page; the
    Change PIN button needs a truthy PIN (LockSettingsPage.tsx:75); the
    current-PIN field needs [requiresOldPin] (ChangePinModal.tsx:91). *)
Definition enabled (s : State) (e : Event) : bool :=
  let op := isChangePinModalOpen (page s) in
  match e with
  | TogglePin _ => negb op
  | ChangePin => negb op && truthy (lockscreenPin (page s))
  | Input OldPin _ => op && requiresOldPin (page s)
  | Input _ _ | Submit | Cancel => op
  end.

Definition onChange (fld : Field) (v : string) (f : Form) : Form :=
  match fld with
  | OldPin => setOldPinInput (sanitize v) f
  | NewPin => setNewPinInput (sanitize v) f
  | ConfirmPin => setConfirmPinInput (sanitize v) f
  end.

(** The handler of an event, before the effects. *)
Definition handle (s : State) (e : Event) : State :=
  match e with
  | TogglePin c => mkState (handleTogglePin c (page s)) (form s)
  | ChangePin => mkState (handleChangePin (page s)) (form s)
  | Input fld v => mkState (page s) (onChange fld v (form s))
  | Submit =>
      let '(f, pg) := handleSubmit handlePinSubmit onClose
                        (requiresOldPin (page s)) (currentPin (page s)) (form s) (page s) in
      mkState pg f
  | Cancel => mkState (onClose (page s)) (form s)
  end.

(** An event, then the modal's reset effect at the commit. *)
Definition step (s : State) (e : Event) : option State :=
  if enabled s e then
    let s' := handle s e in
    Some (mkState (page s')
            (resetEffect (isChangePinModalOpen (page s)) (isChangePinModalOpen (page s')) (form s')))
  else None.

(** The page mounts with the modal closed and an empty form; the PIN is
    the context's. *)
Definition initial (pin : option string) : State :=
  mkState (mkPage pin false) emptyForm.

Inductive reachable (pin : option string) : State → Prop :=
  | reach_init : reachable pin (initial pin)
  | reach_step s e s' : reachable pin s → step s e = Some s' → reachable pin s'.

End LockSettings.

Module LockSettingsFacts.
Import PinModal LockSettings.

(** ** The input filter and the PIN format *)

(** A string of at most four digits, what each input of the modal holds. *)
Definition digits4 (v : string) : Prop :=
  String.length v ≤ 4 ∧ Forall (λ a, is_digit a = true) (String.list_ascii_of_string v).

Definition form_ok (f : Form) : Prop :=
  digits4 (oldPinInput f) ∧ digits4 (newPinInput f) ∧ digits4 (confirmPinInput f).

Lemma length_list_ascii (v : string) :
  String.length v = length (String.list_ascii_of_string v).
Proof. induction v; simpl; auto. Qed.

Lemma substring_take n (v : string) :
  String.substring 0 n v = String.string_of_list_ascii (take n (String.list_ascii_of_string v)).
Proof. revert n; induction v; intros [|n]; simpl; f_equal; auto. Qed.

Lemma filter_digits (l : list ascii) : Forall (λ a, is_digit a = true) (List.filter is_digit l).
Proof. induction l as [|a l IH]; simpl; [done|]. destruct (is_digit a) eqn:Ha; auto. Qed.

Lemma sanitize_chars v :
  String.list_ascii_of_string (sanitize v) = take 4 (List.filter is_digit (String.list_ascii_of_string v)).
Proof. unfold sanitize. by rewrite substring_take, !String.list_ascii_of_string_of_list_ascii. Qed.

Lemma sanitize_digits4 v : digits4 (sanitize v).
Proof.
  split; rewrite ?length_list_ascii, sanitize_chars.
  - rewrite length_take. lia.
  - apply Forall_take, filter_digits.
Qed.

Lemma emptyForm_ok : form_ok emptyForm.
Proof. repeat split; simpl; auto with lia. Qed.

Lemma setErrorMessage_ok m f : form_ok f → form_ok (setErrorMessage m f).
Proof. done. Qed.

(** The lock screen's ten keys are exactly the characters [\d] matches. *)
Lemma is_digit_key a : bool_decide (String.String a "" ∈ LockScreen.numberKeys) = is_digit a.
Proof. destruct a as [[] [] [] [] [] [] [] []]; vm_compute; reflexivity. Qed.

Lemma pinRe_test_valid p : pinRe_test p = true → Settings.validNewPin p.
Proof.
  unfold pinRe_test, Settings.validNewPin.
  rewrite andb_true_iff, bool_decide_eq_true, forallb_forall, List.Forall_map, Forall_forall.
  intros [Hl H]. split; [done|]. intros a Ha.
  eapply bool_decide_eq_true_1. rewrite is_digit_key. by apply H, list_elem_of_In.
Qed.

(** ** Submitting the form *)

Lemma currentPin_truthy pg p : currentPin pg = Some p → p ≠ "".
Proof.
  unfold currentPin, truthy. destruct (lockscreenPin pg) as [q|]; [|done].
  case_bool_decide; congruence.
Qed.

(** What the checks of [handleSubmit] require of the form. *)
Definition submit_ok (s : State) : Prop :=
  (requiresOldPin (page s) = true → Some (oldPinInput (form s)) = currentPin (page s)) ∧
  pinRe_test (newPinInput (form s)) = true ∧ newPinInput (form s) = confirmPinInput (form s).

(** Confirm on the page either stores the new PIN and closes the modal,
    or leaves the page as it is with an error. *)
Lemma handle_submit s :
  (submit_ok s ∧ handle s Submit =
     mkState (mkPage (Some (newPinInput (form s))) false) (setErrorMessage "" (form s))) ∨
  (¬ submit_ok s ∧ page (handle s Submit) = page s ∧ errorMessage (form (handle s Submit)) ≠ "").
Proof.
  destruct s as [pg f]. unfold handle, handleSubmit, submitNew, submit_ok. cbn.
  assert (pinRe_test "" = false) as He by done.
  destruct (requiresOldPin pg) eqn:Hr; cbn;
    repeat case_bool_decide; destruct (pinRe_test (newPinInput f)) eqn:Hp; cbn;
    try (right; split; [|done]; intros (Ho & Hpr & Hc));
    try (by left); try congruence;
    try (by specialize (Ho eq_refl));
    (specialize (Ho eq_refl); match goal with H : oldPinInput _ = "" |- _ => rewrite H in Ho end;
     by apply eq_sym, currentPin_truthy in Ho).
Qed.

Lemma handle_submit_form s : ∃ m, form (handle s Submit) = setErrorMessage m (form s).
Proof.
  destruct s as [pg f]. unfold handle, handleSubmit, submitNew. cbn.
  destruct (requiresOldPin pg), (pinRe_test (newPinInput f)); repeat case_bool_decide; cbn;
    eexists; reflexivity.
Qed.

(** ** Steps of the page *)

Lemma onChange_ok fld v f : form_ok f → form_ok (onChange fld v f).
Proof. intros (?&?&?). destruct fld; (split; [|split]); cbn; auto using sanitize_digits4. Qed.

Lemma handle_form_ok s e : form_ok (form s) → form_ok (form (handle s e)).
Proof.
  intros Hf. destruct e; [done|done|by apply onChange_ok| |done].
  by destruct (handle_submit_form s) as [m ->].
Qed.

Lemma resetEffect_ok o n f : form_ok f → form_ok (resetEffect o n f).
Proof. unfold resetEffect. case_bool_decide; [destruct n|]; auto using emptyForm_ok. Qed.

Lemma step_inv s e s' :
  step s e = Some s' →
  enabled s e = true ∧ page s' = page (handle s e) ∧
  form s' = resetEffect (isChangePinModalOpen (page s))
              (isChangePinModalOpen (page (handle s e))) (form (handle s e)).
Proof. unfold step. destruct (enabled s e); [|done]. by intros [= <-]. Qed.

Lemma step_form_ok s e s' : form_ok (form s) → step s e = Some s' → form_ok (form s').
Proof.
  intros Hf (_ & _ & ->)%step_inv. by apply resetEffect_ok, handle_form_ok.
Qed.

(** The PIN changes only by a successful Confirm or by the toggle, which
    clears it. *)
Lemma handle_pin s e :
  lockscreenPin (page (handle s e)) = lockscreenPin (page s) ∨
  (e = Submit ∧ submit_ok s ∧ lockscreenPin (page (handle s e)) = Some (newPinInput (form s))) ∨
  (∃ c, e = TogglePin c ∧ lockscreenPin (page (handle s e)) = None).
Proof.
  destruct e as [c| | | |]; [cbn; auto..| |cbn; auto].
  - unfold handleTogglePin. destruct (truthy _), c; cbn; eauto 10.
  - destruct (handle_submit s) as [[Hok ->]|(_ & -> & _)]; cbn; eauto.
Qed.

Lemma currentPin_some pg p :
  lockscreenPin pg = Some p → currentPin pg = Some p ∨ currentPin pg = None.
Proof. unfold currentPin. intros ->. destruct (truthy _); auto. Qed.


End LockSettingsFacts.

Module PinSettingsClaims.
Import PinModal LockSettings LockSettingsFacts.

(** C23: The modal's format check [/^\d{4}$/] accepts exactly the PINs
    the system model accepts as new PINs: four characters, each one of
    the lock screen's number keys. *)
Theorem pinRe_matches_keys p : pinRe_test p = true ↔ Settings.validNewPin p.
Proof.
  split; [apply pinRe_test_valid|].
  intros [Hl Hk]. apply andb_true_iff. split; [by apply bool_decide_eq_true_2|].
  apply forallb_forall. intros a Ha%list_elem_of_In. rewrite <- is_digit_key.
  apply bool_decide_eq_true_2. apply List.Forall_map in Hk. rewrite Forall_forall in Hk.
  by apply Hk.
Qed.

(** C20: Refinement of the system model's [SetPin] event: every step of
    the settings page leaves the PIN as it was or replaces it by one that
    [System.valid_pin_update] admits (no PIN, or four digits). *)
Theorem setpin_refines s e s' :
  step s e = Some s' →
  lockscreenPin (page s') = lockscreenPin (page s) ∨
  System.valid_pin_update (lockscreenPin (page s')).
Proof.
  intros (_ & -> & _)%step_inv.
  destruct (handle_pin s e) as [?|[(_ & (_ & Hp & _) & ->)|(_ & _ & ->)]]; [by left|right..].
  - by apply pinRe_test_valid.
  - done.
Qed.

(** C22: Confirm in the open modal either passes every check of
    [handleSubmit] (current PIN, four digits, confirmation), stores the
    new PIN and closes the modal with no error shown, or fails one and
    leaves the page as it was with an error shown; "Failed to update PIN"
    is never reached since [handlePinSubmit] returns true. *)
Theorem submit_outcome s s' :
  step s Submit = Some s' →
  (submit_ok s ∧ page s' = mkPage (Some (newPinInput (form s))) false ∧
   shownError (form s') = None) ∨
  (¬ submit_ok s ∧ page s' = page s ∧ shownError (form s') = Some (errorMessage (form s')) ∧
   errorMessage (form s') ≠ "").
Proof.
  intros (Hen & Hp & Hf)%step_inv. cbn in Hen. rewrite Hp, Hf.
  destruct (handle_submit s) as [[Hok Hh]|(Hn & Hpg & He)]; rewrite ?Hh, ?Hpg; [left|right].
  - rewrite Hen. by cbn.
  - assert (∀ b f, resetEffect b b f = f) as Hr.
    { intros b f. unfold resetEffect. by case_bool_decide. }
    rewrite Hr. unfold shownError. split_and!; [done|done| |done]. by rewrite bool_decide_false.
Qed.

(** C21: Changing a set PIN to another one requires the current PIN: the
    only step that replaces [Some p] by a different [Some q] is Confirm
    with [p] typed into the current-PIN field. *)
Theorem pin_change_needs_current s e s' p q :
  step s e = Some s' → lockscreenPin (page s) = Some p →
  lockscreenPin (page s') = Some q → q ≠ p →
  e = Submit ∧ oldPinInput (form s) = p.
Proof.
  intros (_ & -> & _)%step_inv Hp Hq Hne.
  destruct (handle_pin s e) as [Hs|[(-> & (Hold & _) & _)|(_ & _ & Hs)]]; try congruence.
  split; [done|]. unfold requiresOldPin in Hold. rewrite Hp in Hold.
  specialize (Hold (bool_decide_eq_true_2 (Some p ≠ None) ltac:(done))).
  destruct (currentPin_some _ _ Hp) as [Hc|Hc]; rewrite Hc in Hold; congruence.
Qed.

(** C36: Every input of the modal holds at most four digits in every
    reachable state, whatever was typed or pasted. *)
Theorem inputs_four_digits pin s : reachable pin s → form_ok (form s).
Proof.
  induction 1; [apply emptyForm_ok|]. by eapply step_form_ok.
Qed.

(** C24: Turning the lock off needs only the browser's confirmation: from
    a set PIN the toggle with [window.confirm] answered yes clears it
    without asking for the PIN (LockSettingsPage.tsx:16-22). *)
Lemma disable_without_pin p :
  p ≠ "" → step (initial (Some p)) (TogglePin true) = Some (initial None).
Proof.
  intros Hp. unfold step, initial. cbn. unfold handleTogglePin, truthy. cbn.
  by rewrite bool_decide_true.
Qed.

End PinSettingsClaims.

(** Concrete runs of the page on which the claims' hypotheses hold. *)
Module PinSettingsWitness.
Import PinModal LockSettings LockSettingsFacts PinSettingsClaims.

(** The modal opened by Change PIN with the PIN 1234 set. *)
Definition opened : State :=
  Eval vm_compute in from_option (λ x, x) (initial (Some "1234")) (step (initial (Some "1234")) ChangePin).

Definition typed_old : State :=
  Eval vm_compute in from_option (λ x, x) opened (step opened (Input OldPin "1234")).

(** A pasted value with a dash and a fifth digit. *)
Definition typed_new : State :=
  Eval vm_compute in from_option (λ x, x) typed_old (step typed_old (Input NewPin "43-215")).

Definition filled : State :=
  Eval vm_compute in from_option (λ x, x) typed_new (step typed_new (Input ConfirmPin "4321")).

Definition confirmed : State :=
  Eval vm_compute in from_option (λ x, x) filled (step filled Submit).

Lemma filled_reachable : reachable (Some "1234") filled.
Proof.
  apply (reach_step _ typed_new (Input ConfirmPin "4321")); [|reflexivity].
  apply (reach_step _ typed_old (Input NewPin "43-215")); [|reflexivity].
  apply (reach_step _ opened (Input OldPin "1234")); [|reflexivity].
  apply (reach_step _ (initial (Some "1234")) ChangePin); [constructor|reflexivity].
Qed.

Lemma inputs_four_digits_witness :
  reachable (Some "1234") filled ∧ form_ok (form filled) ∧ newPinInput (form filled) = "4321".
Proof.
  split; [apply filled_reachable|].
  split; [apply (inputs_four_digits (Some "1234") filled), filled_reachable|reflexivity].
Defined.

Lemma setpin_refines_witness :
  step filled Submit = Some confirmed ∧ lockscreenPin (page confirmed) = Some "4321" ∧
  (lockscreenPin (page confirmed) = lockscreenPin (page filled) ∨
   System.valid_pin_update (lockscreenPin (page confirmed))).
Proof.
  split; [reflexivity|split; [reflexivity|]].
  apply (setpin_refines filled Submit confirmed). reflexivity.
Defined.

Lemma submit_outcome_witness :
  step filled Submit = Some confirmed ∧
  ((submit_ok filled ∧ page confirmed = mkPage (Some (newPinInput (form filled))) false ∧
    shownError (form confirmed) = None) ∨
   (¬ submit_ok filled ∧ page confirmed = page filled ∧
    shownError (form confirmed) = Some (errorMessage (form confirmed)) ∧
    errorMessage (form confirmed) ≠ "")).
Proof.
  split; [reflexivity|]. apply (submit_outcome filled confirmed). reflexivity.
Defined.

Lemma disable_without_pin_witness :
  step (initial (Some "1234")) (TogglePin true) = Some (initial None).
Proof. apply (disable_without_pin "1234"). done. Defined.

Lemma pin_change_needs_current_witness :
  step filled Submit = Some confirmed ∧ Submit = Submit ∧ oldPinInput (form filled) = "1234".
Proof.
  split; [reflexivity|].
  apply (pin_change_needs_current filled Submit confirmed "1234" "4321");
    [reflexivity|reflexivity|reflexivity|done].
Defined.

End PinSettingsWitness.
