(* ===== verification/Stopwatch.v ===== *)
(** * The clock app's stopwatch

    [Stopwatch] models StopwatchTab.tsx (src/src/apps/ClockApp/StopwatchTab.tsx):
    its four [useState] values and two refs as the record [State], the
    browser's queue of [requestAnimationFrame] callbacks as [pending], the
    closure [updateElapsedTime] with the render values it captured, the
    four button handlers, and the effect on [isRunning] with its cleanup,
    composed in [step].  Times are the integral milliseconds of
    [Date.now()] as [Z].  The theorems show that exactly one frame callback
    is pending while the stopwatch runs and none when it is stopped, that
    the shown time telescopes to the time of the last animation frame (the
    time between the last frame and Stop is dropped), and the width of
    the [MM:SS.cc] display. *)

From S2P Require Import Prelude.
From stdpp Require Import base decidable list strings pretty.
From Stdlib Require Import ZArith Ascii.

Module Stopwatch.
Local Open Scope Z_scope.

(** [number.toString().padStart(2, '0')]. *)
Definition padStart2 (v : string) : string :=
  if bool_decide (String.length v < 2)%nat
  then String.append (String.string_of_list_ascii (replicate (2 - String.length v) "0"%char)) v
  else v.

(** [formatTime] (StopwatchTab.tsx:14-21).  [Math.floor(a / b)] of the
    integral milliseconds is the floor quotient [Z.div] (the quotient is
    exact enough below 2^43 ms), JavaScript's [%] is [Z.rem]. *)
Definition formatTime (milliseconds : Z) : string :=
  let totalSeconds := milliseconds / 1000 in
  let minutes := totalSeconds / 60 in
  let seconds := Z.rem totalSeconds 60 in
  let ms := Z.rem milliseconds 1000 / 10 in
  padStart2 (pretty minutes) +:+ ":" +:+ padStart2 (pretty seconds) +:+ "." +:+ padStart2 (pretty ms).

(** The values of the render [updateElapsedTime] was created in. *)
Record Closure := mkClosure { c_isRunning : bool; c_startTime : option Z }.

(** The component's state (StopwatchTab.tsx:4-11) and the browser's
    animation-frame queue: callbacks with their request ids, and the next
    id (browsers start at 1). *)
Record State := mkState {
  isRunning : bool;
  startTime : option Z;
  elapsedTime : Z;
  laps : list Z;
  animationFrameRef : option nat;
  lastTimeRef : Z;
  pending : list (nat * Closure);
  next_id : nat
}.

Definition setIsRunning (b : bool) (s : State) : State :=
  mkState b (startTime s) (elapsedTime s) (laps s) (animationFrameRef s) (lastTimeRef s) (pending s) (next_id s).
Definition setStartTime (t : option Z) (s : State) : State :=
  mkState (isRunning s) t (elapsedTime s) (laps s) (animationFrameRef s) (lastTimeRef s) (pending s) (next_id s).
Definition setElapsedTime (e : Z) (s : State) : State :=
  mkState (isRunning s) (startTime s) e (laps s) (animationFrameRef s) (lastTimeRef s) (pending s) (next_id s).
Definition setLaps (l : list Z) (s : State) : State :=
  mkState (isRunning s) (startTime s) (elapsedTime s) l (animationFrameRef s) (lastTimeRef s) (pending s) (next_id s).
Definition setAnimationFrameRef (r : option nat) (s : State) : State :=
  mkState (isRunning s) (startTime s) (elapsedTime s) (laps s) r (lastTimeRef s) (pending s) (next_id s).
Definition setLastTimeRef (t : Z) (s : State) : State :=
  mkState (isRunning s) (startTime s) (elapsedTime s) (laps s) (animationFrameRef s) t (pending s) (next_id s).
Definition setPending (q : list (nat * Closure)) (s : State) : State :=
  mkState (isRunning s) (startTime s) (elapsedTime s) (laps s) (animationFrameRef s) (lastTimeRef s) q (next_id s).

(** Truthiness of [startTime] ([number | null]) and of the frame id. *)
Definition truthy_num (o : option Z) : bool :=
  match o with Some t => bool_decide (t ≠ 0) | None => false end.
Definition truthy_id (o : option nat) : bool :=
  match o with Some i => bool_decide (i ≠ 0%nat) | None => false end.

(** [requestAnimationFrame(cb)]: queue the callback, return its id. *)
Definition requestAnimationFrame (c : Closure) (s : State) : nat * State :=
  (next_id s, mkState (isRunning s) (startTime s) (elapsedTime s) (laps s) (animationFrameRef s)
                (lastTimeRef s) (pending s ++ [(next_id s, c)]) (S (next_id s))).

(** [cancelAnimationFrame(id)]. *)
Definition cancelAnimationFrame (i : nat) (s : State) : State :=
  setPending (filter (λ p, p.1 ≠ i) (pending s)) s.

(** [updateElapsedTime] (StopwatchTab.tsx:24-34) run by the browser at
    time [now]. *)
Definition updateElapsedTime (c : Closure) (now : Z) (s : State) : State :=
  if negb (c_isRunning c) || negb (truthy_num (c_startTime c)) then s
  else
    let delta := now - lastTimeRef s in
    let s := setLastTimeRef now s in
    let s := setElapsedTime (elapsedTime s + delta) s in
    let '(i, s) := requestAnimationFrame c s in
    setAnimationFrameRef (Some i) s.

(** [handleStart] (StopwatchTab.tsx:37-45), Start and Resume. *)
Definition handleStart (now : Z) (s : State) : State :=
  let s' := setLastTimeRef now (setIsRunning true s) in
  if bool_decide (elapsedTime s = 0) then setStartTime (Some now) s' else s'.

(** [handleStop] (StopwatchTab.tsx:48-50). *)
Definition handleStop (s : State) : State := setIsRunning false s.

(** [handleLap] (StopwatchTab.tsx:53-57): the newest lap first. *)
Definition handleLap (s : State) : State :=
  if isRunning s then setLaps (elapsedTime s :: laps s) s else s.

(** [handleReset] (StopwatchTab.tsx:60-65). *)
Definition handleReset (s : State) : State :=
  setLaps [] (setStartTime None (setElapsedTime 0 (setIsRunning false s))).

(** The cleanup of the effect (StopwatchTab.tsx:77-81): it cancels the
    frame but leaves the ref set. *)
Definition cleanup (s : State) : State :=
  match animationFrameRef s with
  | Some i => if truthy_id (Some i) then cancelAnimationFrame i s else s
  | None => s
  end.

(** The effect's body (StopwatchTab.tsx:68-75); the callback it queues
    closes over the committed render. *)
Definition runEffect (now : Z) (s : State) : State :=
  if isRunning s then
    let s := setLastTimeRef now s in
    let '(i, s) := requestAnimationFrame (mkClosure (isRunning s) (startTime s)) s in
    setAnimationFrameRef (Some i) s
  else
    match animationFrameRef s with
    | Some i => if truthy_id (Some i) then setAnimationFrameRef None (cancelAnimationFrame i s) else s
    | None => s
    end.

(** At a commit the effect on [[isRunning]] runs, after the previous
    one's cleanup, when [isRunning] changed. *)
Definition commit (oldIsRunning : bool) (now : Z) (s : State) : State :=
  if bool_decide (oldIsRunning ≠ isRunning s) then runEffect now (cleanup s) else s.

(** Clicks on the buttons (StopwatchTab.tsx:93-130) and animation frames;
    a click carries the time of its handler. *)
Inductive Event :=
  | Start (now : Z)
  | Stop (now : Z)
  | Lap
  | Reset
  | AnimationFrame (now : Z).

(** The buttons rendered: Start when stopped at zero, Lap and Stop while
    running, Reset and Resume (also [handleStart]) when stopped
    elsewhere; a frame fires when one is queued.  [Date.now()] is
    positive. *)
Definition enabled (s : State) (e : Event) : bool :=
  match e with
  | Start now => negb (isRunning s) && bool_decide (0 < now)
  | Stop now => isRunning s && bool_decide (0 < now)
  | Lap => isRunning s
  | Reset => negb (isRunning s) && bool_decide (elapsedTime s ≠ 0)
  | AnimationFrame now => bool_decide (pending s ≠ []) && bool_decide (0 < now)
  end.

Definition step (s : State) (e : Event) : option State :=
  if enabled s e then
    match e with
    | Start now => Some (commit (isRunning s) now (handleStart now s))
    | Stop now => Some (commit (isRunning s) now (handleStop s))
    | Lap => Some (handleLap s)
    | Reset => Some (handleReset s)
    | AnimationFrame now =>
        match pending s with
        | (_, c) :: rest => Some (updateElapsedTime c now (setPending rest s))
        | [] => None
        end
    end
  else None.

(** The mounted stopwatch; the mount effect finds no frame to cancel. *)
Definition initial : State := mkState false None 0 [] None 0 [] 1.

Inductive reachable : State → Prop :=
  | reach_init : reachable initial
  | reach_step s e s' : reachable s → step s e = Some s' → reachable s'.

Fixpoint run (s : State) (es : list Event) : option State :=
  match es with
  | [] => Some s
  | e :: es => s' ← step s e; run s' es
  end.

(** The lap list (StopwatchTab.tsx:138-143): "Lap n" with the oldest lap
    numbered 1, and its time. *)
Definition lapRows (s : State) : list (string * string) :=
  imap (λ i t, ("Lap " +:+ pretty (length (laps s) - i)%nat, formatTime t)) (laps s).

End Stopwatch.

Module StopwatchFacts.
Import Stopwatch.
Local Open Scope Z_scope.

(** ** The animation-frame chain *)

(** Exactly one frame callback is queued, with a nonzero id held by the
    ref and a closure that sees a running stopwatch with a truthy start
    time, while running; none and a cleared ref when stopped. *)
Definition sw_inv (s : State) : Prop :=
  (1 ≤ next_id s)%nat ∧
  (elapsedTime s ≠ 0 → truthy_num (startTime s) = true) ∧
  (if isRunning s then
     ∃ i, i ≠ 0%nat ∧ pending s = [(i, mkClosure true (startTime s))] ∧
          animationFrameRef s = Some i ∧ truthy_num (startTime s) = true
   else pending s = [] ∧ animationFrameRef s = None).

Lemma sw_inv_initial : sw_inv initial.
Proof. split; [done|split; [done|done]]. Qed.

Lemma commit_changed old now s :
  old ≠ isRunning s → commit old now s = runEffect now (cleanup s).
Proof. intros. unfold commit. by rewrite bool_decide_true. Qed.

Lemma step_start s now s' :
  sw_inv s → step s (Start now) = Some s' → sw_inv s'.
Proof.
  destruct s as [[] st el lp ar lt pd ni]; intros (Hn & Hst & Hr) Hs;
    unfold step, enabled in Hs; cbn in *; [done|]. destruct Hr as [-> ->].
  case_bool_decide as Hnow; [|done]. injection Hs as <-.
  rewrite commit_changed by (unfold handleStart; by case_bool_decide).
  unfold sw_inv, handleStart, cleanup, runEffect. cbn.
  destruct (bool_decide (el = 0)) eqn:He;
    [apply bool_decide_eq_true_1 in He|apply bool_decide_eq_false_1 in He]; cbn; (split; [lia|split]); cbn.
  - intros _. by apply bool_decide_eq_true_2; lia.
  - exists ni. split_and!; [lia|done|done|by apply bool_decide_eq_true_2; lia].
  - done.
  - exists ni. split_and!; [lia|done|done|by apply Hst].
Qed.

Lemma step_stop s now s' :
  sw_inv s → step s (Stop now) = Some s' → sw_inv s'.
Proof.
  destruct s as [[] st el lp ar lt pd ni]; intros (Hn & Hst & Hr) Hs;
    unfold step, enabled in Hs; cbn in *; [|done].
  destruct Hr as (i & Hi & -> & -> & Ht). case_bool_decide; [|done]. injection Hs as <-.
  rewrite commit_changed by done.
  unfold sw_inv, handleStop, cleanup, runEffect, cancelAnimationFrame. cbn.
  repeat (case_decide; [done|]). case_bool_decide; [|done]. cbn.
  repeat (case_decide; [done|]). by split_and!.
Qed.

Lemma step_frame s now s' :
  sw_inv s → step s (AnimationFrame now) = Some s' →
  sw_inv s' ∧ isRunning s' = true ∧ startTime s' = startTime s ∧ laps s' = laps s ∧
  lastTimeRef s' = now ∧ elapsedTime s' = elapsedTime s + (now - lastTimeRef s).
Proof.
  destruct s as [[] st el lp ar lt pd ni]; intros (Hn & Hst & Hr) Hs;
    unfold step, enabled in Hs; cbn in *.
  - destruct Hr as (i & Hi & -> & -> & Ht). rewrite bool_decide_true in Hs by done.
    case_bool_decide; [|done]. injection Hs as <-.
    unfold updateElapsedTime. cbn. rewrite Ht. cbn.
    unfold sw_inv. cbn. split_and!; try done; [lia|].
    exists ni. split_and!; [lia|done|done|done].
  - destruct Hr as [-> ->]. by rewrite bool_decide_false in Hs.
Qed.

Lemma sw_step_inv s e s' : sw_inv s → step s e = Some s' → sw_inv s'.
Proof.
  intros Hi Hs. destruct e as [now|now| | |now].
  - by eapply step_start.
  - by eapply step_stop.
  - unfold step, enabled in Hs. destruct (isRunning s) eqn:Hr; [|done].
    injection Hs as <-. unfold handleLap. rewrite Hr. apply Hi.
  - unfold step, enabled in Hs. destruct (negb _ && _) eqn:Hr; [|done].
    injection Hs as <-. apply andb_true_iff in Hr as [Hr _].
    destruct Hi as (Hn & _ & Hq). apply negb_true_iff in Hr. rewrite Hr in Hq.
    split; [done|split; [done|]]. exact Hq.
  - by eapply step_frame.
Qed.

(** The effect and its cleanup touch only the frame queue and refs. *)
Lemma cleanup_fields s :
  isRunning (cleanup s) = isRunning s ∧ elapsedTime (cleanup s) = elapsedTime s ∧
  laps (cleanup s) = laps s ∧ startTime (cleanup s) = startTime s.
Proof. unfold cleanup. destruct (animationFrameRef s); [destruct (truthy_id _)|]; done. Qed.

Lemma effect_fields now s :
  isRunning (runEffect now s) = isRunning s ∧ elapsedTime (runEffect now s) = elapsedTime s ∧
  laps (runEffect now s) = laps s ∧ startTime (runEffect now s) = startTime s.
Proof.
  unfold runEffect. destruct (isRunning s) eqn:Hr; [done|].
  destruct (animationFrameRef s); [destruct (truthy_id _)|]; done.
Qed.

(** ** The display *)

Lemma pad_pretty z : 0 ≤ z < 100 → String.length (padStart2 (pretty z)) = 2%nat.
Proof.
  intros Hz.
  assert (Hall : forallb (λ n, Nat.eqb (String.length (padStart2 (pretty (Z.of_nat n)))) 2)
                   (seq 0 100) = true) by (vm_compute; reflexivity).
  rewrite forallb_forall in Hall. specialize (Hall (Z.to_nat z)).
  rewrite Z2Nat.id in Hall by lia. apply Nat.eqb_eq, Hall, in_seq. lia.
Qed.

Lemma reachable_sw_inv s : reachable s → sw_inv s.
Proof. induction 1; [apply sw_inv_initial|]. by eapply sw_step_inv. Qed.

(** ** Runs of the stopwatch *)

Lemma sw_run_app s es1 es2 : run s (es1 ++ es2) = run s es1 ≫= λ s', run s' es2.
Proof.
  revert s. induction es1 as [|e es1 IH]; intros s; [done|]. cbn.
  destruct (step s e); [apply IH|done].
Qed.

Lemma last_cons (t : Z) ts d : List.last (t :: ts) d = List.last ts t.
Proof.
  revert t d. induction ts as [|t' ts IH]; intros t d; [done|].
  transitivity (List.last (t' :: ts) d); [reflexivity|]. by rewrite !IH.
Qed.

Lemma start_run s now :
  sw_inv s → isRunning s = false → 0 < now →
  ∃ s', step s (Start now) = Some s' ∧ sw_inv s' ∧ isRunning s' = true ∧
        lastTimeRef s' = now ∧ elapsedTime s' = elapsedTime s ∧ laps s' = laps s.
Proof.
  intros Hi Hr Hn. unfold step at 1, enabled. rewrite Hr, bool_decide_true by done.
  eexists. split; [reflexivity|]. split; [eapply step_start; [done|]|].
  { unfold step, enabled. rewrite Hr, bool_decide_true by done. reflexivity. }
  destruct s as [r st el lp ar lt pd ni]. cbn in Hr. subst r.
  destruct Hi as (_ & _ & _ & Har). cbn in Har. subst ar.
  rewrite commit_changed by (unfold handleStart; by case_bool_decide).
  unfold handleStart, cleanup, runEffect. cbn. by case_bool_decide.
Qed.

Lemma frame_run s now :
  sw_inv s → isRunning s = true → 0 < now → ∃ s', step s (AnimationFrame now) = Some s'.
Proof.
  intros (_ & _ & Hr) Hrun Hn. rewrite Hrun in Hr. destruct Hr as (i & _ & Hp & _).
  unfold step, enabled. rewrite Hp, !bool_decide_true by done. by eexists.
Qed.

Lemma frames_run s ts :
  sw_inv s → isRunning s = true → Forall (λ t, 0 < t) ts →
  ∃ s', run s (map AnimationFrame ts) = Some s' ∧ sw_inv s' ∧ isRunning s' = true ∧
        laps s' = laps s ∧ lastTimeRef s' = List.last ts (lastTimeRef s) ∧
        elapsedTime s' = elapsedTime s + (List.last ts (lastTimeRef s) - lastTimeRef s).
Proof.
  revert s. induction ts as [|t ts IH]; intros s Hi Hr Hts.
  - exists s. cbn. split_and!; auto; lia.
  - apply Forall_cons in Hts as [Ht Hts].
    destruct (frame_run s t Hi Hr Ht) as [s1 Hs1].
    destruct (step_frame s t s1 Hi Hs1) as (Hi1 & Hr1 & _ & Hl1 & Ht1 & He1).
    destruct (IH s1 Hi1 Hr1 Hts) as (s' & Hrun & Hi' & Hr' & Hl' & Ht' & He').
    exists s'. rewrite last_cons. rewrite Ht1 in Ht', He'. cbn [run map]. rewrite Hs1. cbn.
    split_and!; try done; [congruence|lia].
Qed.

Lemma stop_run s now :
  sw_inv s → isRunning s = true → 0 < now →
  ∃ s', step s (Stop now) = Some s' ∧ isRunning s' = false ∧
        elapsedTime s' = elapsedTime s ∧ laps s' = laps s.
Proof.
  intros _ Hrun Hn. unfold step, enabled. rewrite Hrun, bool_decide_true by done.
  eexists. split; [reflexivity|].
  rewrite commit_changed by done.
  destruct (effect_fields now (cleanup (handleStop s))) as (-> & -> & -> & _).
  by destruct (cleanup_fields (handleStop s)) as (-> & -> & -> & _).
Qed.

End StopwatchFacts.

Module StopwatchClaims.
Import Stopwatch StopwatchFacts.
Local Open Scope Z_scope.

(** C25: In every reachable state one animation-frame callback is queued
    while the stopwatch runs, closing over a running render and the
    current start time, and none is queued, with the ref cleared, while
    it is stopped: Stop cancels the chain and Start starts exactly one. *)
Theorem one_frame_pending s :
  reachable s →
  length (pending s) = (if isRunning s then 1 else 0)%nat ∧
  (isRunning s = true → ∃ i, pending s = [(i, mkClosure true (startTime s))]) ∧
  (isRunning s = false → animationFrameRef s = None).
Proof.
  intros (_ & _ & Hr)%reachable_sw_inv.
  destruct (isRunning s); [|destruct Hr as [-> ->]; naive_solver].
  destruct Hr as (i & _ & Hp & _). rewrite Hp. naive_solver.
Qed.

(** C26: A run Start at [t0], animation frames at [ts], Stop at [t] from
    any reachable stopped state is accepted, and it adds to the shown
    time exactly the span from [t0] to the last frame (the deltas
    telescope); the time between the last frame and Stop is not
    counted, whatever [t] is. *)
Theorem stop_drops_tail s t0 ts t :
  reachable s → isRunning s = false → 0 < t0 → Forall (λ x, 0 < x) ts → 0 < t →
  ∃ s', run s (Start t0 :: map AnimationFrame ts ++ [Stop t]) = Some s' ∧
        isRunning s' = false ∧ laps s' = laps s ∧
        elapsedTime s' = elapsedTime s + (List.last ts t0 - t0).
Proof.
  intros Hreach Hr H0 Hts Ht. apply reachable_sw_inv in Hreach.
  destruct (start_run s t0 Hreach Hr H0) as (s1 & Hs1 & Hi1 & Hr1 & Hl1 & He1 & Hp1).
  destruct (frames_run s1 ts Hi1 Hr1 Hts) as (s2 & Hs2 & Hi2 & Hr2 & Hp2 & Hl2 & He2).
  destruct (stop_run s2 t Hi2 Hr2 Ht) as (s3 & Hs3 & Hr3 & He3 & Hp3).
  exists s3. cbn [run]. rewrite Hs1. cbn [mbind option_bind].
  rewrite sw_run_app, Hs2. cbn. rewrite Hs3. cbn.
  rewrite Hl1 in He2. split_and!; [done|done|congruence|lia].
Qed.

(** C37: Below 100 minutes the display [MM:SS.cc] is eight characters
    wide, each field padded to two digits; at 100 minutes the minutes
    field grows to three digits. *)
Theorem formatTime_width ms :
  0 ≤ ms < 6000000 → String.length (formatTime ms) = 8%nat.
Proof.
  intros Hms. unfold formatTime. rewrite !string_length_append.
  assert (0 ≤ ms / 1000) by (apply Z.div_pos; lia).
  rewrite !pad_pretty; [done|..]; rewrite ?Z.rem_mod_nonneg by lia.
  - pose proof (Z.mod_pos_bound ms 1000).
    split; [apply Z.div_pos|apply Z.div_lt_upper_bound]; lia.
  - pose proof (Z.mod_pos_bound (ms / 1000) 60). lia.
  - rewrite Z.div_div by lia. split; [apply Z.div_pos|apply Z.div_lt_upper_bound]; lia.
Qed.

End StopwatchClaims.

(** Concrete runs on which the claims' hypotheses hold. *)
Module StopwatchWitness.
Import Stopwatch StopwatchFacts StopwatchClaims.
Local Open Scope Z_scope.

Definition started : State :=
  Eval vm_compute in from_option (λ x, x) initial (step initial (Start 1000)).

Definition ticked : State :=
  Eval vm_compute in from_option (λ x, x) started (step started (AnimationFrame 1016)).

Lemma ticked_reachable : reachable ticked.
Proof.
  apply (reach_step started (AnimationFrame 1016)); [|reflexivity].
  apply (reach_step initial (Start 1000)); [constructor|reflexivity].
Qed.

Lemma one_frame_pending_witness :
  reachable ticked ∧ isRunning ticked = true ∧ length (pending ticked) = 1%nat.
Proof.
  split; [apply ticked_reachable|split; [reflexivity|]].
  apply (one_frame_pending ticked ticked_reachable).
Defined.

(** Frames at 1016 and 1033 ms, Stop at 1040 ms: 33 ms are shown, the
    last 7 ms are lost. *)
Lemma stop_drops_tail_witness :
  ∃ s', run initial (Start 1000 :: map AnimationFrame [1016; 1033] ++ [Stop 1040]) = Some s' ∧
        isRunning s' = false ∧ laps s' = [] ∧ elapsedTime s' = 33.
Proof.
  apply (stop_drops_tail initial 1000 [1016; 1033] 1040);
    [constructor|reflexivity|lia|repeat constructor; lia|lia].
Defined.

Lemma formatTime_width_witness :
  String.length (formatTime 5999999) = 8%nat ∧ formatTime 5999999 = "99:59.99"%string ∧
  formatTime 6000000 = "100:00.00"%string.
Proof.
  split; [apply formatTime_width; lia|split; reflexivity].
Defined.

End StopwatchWitness.
