(* ===== verification/Timer.v ===== *)
(** * The clock app's timer

    [Timer] models TimerTab.tsx
    (src/WebDroid-OS/src/apps/ClockApp/TimerTab.tsx): its four [useState]
    values and [intervalRef] as the record [State], the browser's
    [setInterval] registrations with the [targetEndTime] their
    [updateTimer] closure captured, the five handlers, and the effect on
    [[timerState, targetEndTime]] with its cleanup.  An effect that sets
    state ([updateTimer] run at once) causes another render and commit;
    [settle] runs the two commits this needs.  [playSound] calls are
    recorded with their path and their volume in hundredths.  Times are
    the integral milliseconds of [Date.now()] as [Z]; one event reads
    [Date.now()] once. *)

From S2P Require Import Prelude Stopwatch.
From stdpp Require Import base decidable list strings pretty.
From Stdlib Require Import ZArith.

Module Timer.
Local Open Scope Z_scope.

(** [type TimerState] (TimerTab.tsx:5). *)
Inductive TimerState := stopped | running | paused.

#[export] Instance TimerState_eq_dec : EqDecision TimerState.
Proof. solve_decision. Defined.

(** [PRESET_DURATIONS] (TimerTab.tsx:8), in minutes. *)
Definition PRESET_DURATIONS : list Z := [1; 5; 10; 15; 30; 60].

(** The state (TimerTab.tsx:11-15), the interval callbacks the browser
    holds (id and the [targetEndTime] of their closure), the next id
    (browsers start at 1), whether the last effect run returned a
    cleanup, and the sounds requested. *)
Record State := mkState {
  durationMinutes : Z;
  remainingSeconds : option Z;
  timerState : TimerState;
  targetEndTime : option Z;
  intervalRef : option nat;
  intervals : list (nat * Z);
  next_id : nat;
  hasCleanup : bool;
  sounds : list (string * Z)
}.

Definition setDurationMinutes (m : Z) (s : State) : State :=
  mkState m (remainingSeconds s) (timerState s) (targetEndTime s) (intervalRef s) (intervals s) (next_id s) (hasCleanup s) (sounds s).
Definition setRemainingSeconds (r : option Z) (s : State) : State :=
  mkState (durationMinutes s) r (timerState s) (targetEndTime s) (intervalRef s) (intervals s) (next_id s) (hasCleanup s) (sounds s).
Definition setTimerState (t : TimerState) (s : State) : State :=
  mkState (durationMinutes s) (remainingSeconds s) t (targetEndTime s) (intervalRef s) (intervals s) (next_id s) (hasCleanup s) (sounds s).
Definition setTargetEndTime (t : option Z) (s : State) : State :=
  mkState (durationMinutes s) (remainingSeconds s) (timerState s) t (intervalRef s) (intervals s) (next_id s) (hasCleanup s) (sounds s).
Definition setIntervalRef (r : option nat) (s : State) : State :=
  mkState (durationMinutes s) (remainingSeconds s) (timerState s) (targetEndTime s) r (intervals s) (next_id s) (hasCleanup s) (sounds s).
Definition setHasCleanup (b : bool) (s : State) : State :=
  mkState (durationMinutes s) (remainingSeconds s) (timerState s) (targetEndTime s) (intervalRef s) (intervals s) (next_id s) b (sounds s).

(** [playSound(path, volume)] of [useSound]. *)
Definition playSound (path : string) (volume : Z) (s : State) : State :=
  mkState (durationMinutes s) (remainingSeconds s) (timerState s) (targetEndTime s) (intervalRef s)
    (intervals s) (next_id s) (hasCleanup s) (sounds s ++ [(path, volume)]).

(** [window.setInterval(updateTimer, 1000)] and [clearInterval(id)]. *)
Definition setInterval (target : Z) (s : State) : nat * State :=
  (next_id s, mkState (durationMinutes s) (remainingSeconds s) (timerState s) (targetEndTime s)
                (intervalRef s) (intervals s ++ [(next_id s, target)]) (S (next_id s)) (hasCleanup s) (sounds s)).
Definition clearInterval (i : nat) (s : State) : State :=
  mkState (durationMinutes s) (remainingSeconds s) (timerState s) (targetEndTime s) (intervalRef s)
    (filter (λ p, p.1 ≠ i) (intervals s)) (next_id s) (hasCleanup s) (sounds s).

(** Truthiness of [intervalRef.current], [targetEndTime] and
    [remainingSeconds] ([number | null]). *)
Definition truthy_id (o : option nat) : bool :=
  match o with Some i => bool_decide (i ≠ 0%nat) | None => false end.
Definition truthy_num (o : option Z) : bool :=
  match o with Some t => bool_decide (t ≠ 0) | None => false end.

(** [Math.round(ms / 1000)] of an integral [ms]: ties round up. *)
Definition roundSeconds (ms : Z) : Z := (ms + 500) / 1000.

(** [getEndTimeFromDuration] (TimerTab.tsx:19-21). *)
Definition getEndTimeFromDuration (now minutes : Z) : Z := now + minutes * 60 * 1000.

(** [formatTime] (TimerTab.tsx:24-28); [%] is [Z.rem]. *)
Definition formatTime (seconds : Z) : string :=
  Stopwatch.padStart2 (pretty (seconds / 60)) +:+ ":" +:+ Stopwatch.padStart2 (pretty (Z.rem seconds 60)).

(** [handleStart] (TimerTab.tsx:43-55). *)
Definition handleStart (now : Z) (s : State) : State :=
  let s := playSound "/sounds/click.mp3" 30 s in
  let endTime := getEndTimeFromDuration now (durationMinutes s) in
  let s := setTargetEndTime (Some endTime) s in
  let s := setRemainingSeconds (Some (roundSeconds (endTime - now))) s in
  setTimerState running s.

(** [handlePause] (TimerTab.tsx:58-61). *)
Definition handlePause (s : State) : State :=
  setTimerState paused (playSound "/sounds/click.mp3" 30 s).

(** [handleResume] (TimerTab.tsx:64-73). *)
Definition handleResume (now : Z) (s : State) : State :=
  let s := playSound "/sounds/click.mp3" 30 s in
  match remainingSeconds s with
  | Some r =>
      if truthy_num (Some r) && bool_decide (r > 0)
      then setTimerState running (setTargetEndTime (Some (now + r * 1000)) s)
      else s
  | None => s
  end.

(** [handleCancel] (TimerTab.tsx:76-81). *)
Definition handleCancel (s : State) : State :=
  let s := playSound "/sounds/click.mp3" 30 s in
  setTargetEndTime None (setRemainingSeconds None (setTimerState stopped s)).

(** [handleDurationSelect] (TimerTab.tsx:84-89). *)
Definition handleDurationSelect (minutes : Z) (s : State) : State :=
  if bool_decide (timerState s = stopped)
  then setDurationMinutes minutes (playSound "/sounds/click.mp3" 20 s)
  else s.

(** [updateTimer] (TimerTab.tsx:94-112), closing over [target]. *)
Definition updateTimer (target now : Z) (s : State) : State :=
  let remaining := roundSeconds (target - now) in
  if bool_decide (remaining ≤ 0) then
    let s := playSound "/sounds/alarm.mp3" 50 (setTimerState stopped (setRemainingSeconds (Some 0) s)) in
    match intervalRef s with
    | Some i => if truthy_id (Some i) then setIntervalRef None (clearInterval i s) else s
    | None => s
    end
  else setRemainingSeconds (Some remaining) s.

(** The cleanup the effect returns (TimerTab.tsx:120-125). *)
Definition cleanup (s : State) : State :=
  match intervalRef s with
  | Some i => if truthy_id (Some i) then setIntervalRef None (clearInterval i s) else s
  | None => s
  end.

(** The effect's body (TimerTab.tsx:92-126); it returns a cleanup only
    on the running branch. *)
Definition effectBody (now : Z) (s : State) : State :=
  match timerState s, targetEndTime s with
  | running, Some target =>
      if truthy_num (Some target) then
        let s := updateTimer target now s in
        let '(i, s) := setInterval target s in
        setHasCleanup true (setIntervalRef (Some i) s)
      else setHasCleanup false s
  | _, _ => setHasCleanup false s
  end.

Definition deps (s : State) : TimerState * option Z := (timerState s, targetEndTime s).

(** One commit: when a dependency changed, the previous cleanup (if
    any), then the body. *)
Definition commit (old : TimerState * option Z) (now : Z) (s : State) : State :=
  if bool_decide (old = deps s) then s
  else effectBody now (if hasCleanup s then cleanup s else s).

(** The commit after an event and the one after the re-render that the
    state set by [updateTimer] inside the effect causes. *)
Definition settle (old : TimerState * option Z) (now : Z) (s : State) : State :=
  let s1 := commit old now s in
  commit (deps s) now s1.

(** The buttons (TimerTab.tsx:140-203) and the interval firing. *)
Inductive Event :=
  | SelectDuration (minutes : Z)
  | Start (now : Z)
  | Pause
  | Resume (now : Z)
  | Cancel
  | Tick (id : nat) (now : Z).

(** The controls rendered: presets and Start when stopped, Pause and
    Cancel while running, Cancel and Resume when paused; an interval
    fires when it is registered.  [Date.now()] is positive. *)
Definition enabled (s : State) (e : Event) : bool :=
  match e with
  | SelectDuration m => bool_decide (timerState s = stopped) && bool_decide (m ∈ PRESET_DURATIONS)
  | Start now => bool_decide (timerState s = stopped) && bool_decide (0 < now)
  | Pause => bool_decide (timerState s = running)
  | Resume now => bool_decide (timerState s = paused) && bool_decide (0 < now)
  | Cancel => bool_decide (timerState s ≠ stopped)
  | Tick i now => bool_decide (i ∈ (intervals s).*1) && bool_decide (0 < now)
  end.

Definition step (s : State) (e : Event) : option State :=
  if enabled s e then
    match e with
    | SelectDuration m => Some (settle (deps s) 0 (handleDurationSelect m s))
    | Start now => Some (settle (deps s) now (handleStart now s))
    | Pause => Some (settle (deps s) 0 (handlePause s))
    | Resume now => Some (settle (deps s) now (handleResume now s))
    | Cancel => Some (settle (deps s) 0 (handleCancel s))
    | Tick i now =>
        match list_find (λ p, p.1 = i) (intervals s) with
        | Some (_, (_, target)) => Some (settle (deps s) now (updateTimer target now s))
        | None => None
        end
    end
  else None.

(** The mounted tab: 60 minutes, stopped; the mount effect takes the
    branch without a cleanup. *)
Definition initial : State := mkState 60 None stopped None None [] 1 false [].

Inductive reachable : State → Prop :=
  | reach_init : reachable initial
  | reach_step s e s' : reachable s → step s e = Some s' → reachable s'.

(** The big display (TimerTab.tsx:134). *)
Definition display (s : State) : string :=
  match remainingSeconds s with
  | Some r => formatTime r
  | None => formatTime (durationMinutes s * 60)
  end.

End Timer.

Module TimerFacts.
Import Timer.
Local Open Scope Z_scope.

(** One interval is registered, held by the ref and closing over the
    current target, exactly while the timer runs, with a positive
    remaining time; stopped or paused, none is registered and no cleanup
    is pending. *)
Definition tinv (s : State) : Prop :=
  (1 ≤ next_id s)%nat ∧ durationMinutes s ∈ PRESET_DURATIONS ∧
  match timerState s with
  | running =>
      (∃ i T, i ≠ 0%nat ∧ T ≠ 0 ∧ intervals s = [(i, T)] ∧ intervalRef s = Some i ∧
              targetEndTime s = Some T) ∧
      hasCleanup s = true ∧ (∃ r, remainingSeconds s = Some r ∧ 0 < r)
  | _ => intervals s = [] ∧ intervalRef s = None ∧ hasCleanup s = false
  end.

Lemma timer_commit_same old now s : old = deps s → commit old now s = s.
Proof. intros ->. unfold commit. by rewrite bool_decide_true. Qed.

Lemma timer_commit_changed old now s :
  old ≠ deps s → commit old now s = effectBody now (if hasCleanup s then cleanup s else s).
Proof. intros. unfold commit. by rewrite bool_decide_false. Qed.

Lemma roundSeconds_ms r : roundSeconds (r * 1000) = r.
Proof. unfold roundSeconds. rewrite Z.div_add_l by lia. change (500 / 1000) with 0. lia. Qed.

(** [Math.round] of the seconds left is 0 or less exactly below half a
    second. *)
Lemma roundSeconds_le0 x : roundSeconds x ≤ 0 ↔ x < 500.
Proof.
  unfold roundSeconds. split; intros H.
  - destruct (decide (x < 500)) as [|Hx]; [done|].
    assert (1 ≤ (x + 500) / 1000) by (apply Z.div_le_lower_bound; lia). lia.
  - assert ((x + 500) / 1000 < 1) by (apply Z.div_lt_upper_bound; lia). lia.
Qed.

(** [updateTimer] keeps counting while more than half a second is left. *)
Lemma updateTimer_continue T now s :
  0 < roundSeconds (T - now) →
  updateTimer T now s = setRemainingSeconds (Some (roundSeconds (T - now))) s.
Proof. intros. unfold updateTimer. by rewrite bool_decide_false by lia. Qed.

(** Otherwise it shows 0, stops, asks for the alarm and clears its interval. *)
Lemma updateTimer_finish T now s :
  roundSeconds (T - now) ≤ 0 →
  updateTimer T now s =
    (let s := playSound "/sounds/alarm.mp3" 50 (setTimerState stopped (setRemainingSeconds (Some 0) s)) in
     match intervalRef s with
     | Some i => if truthy_id (Some i) then setIntervalRef None (clearInterval i s) else s
     | None => s
     end).
Proof. intros. unfold updateTimer. by rewrite bool_decide_true by lia. Qed.

(** The effect on a newly running timer with a target more than half a
    second ahead registers one interval. *)
Lemma effect_start now T s :
  timerState s = running → targetEndTime s = Some T → T ≠ 0 → 0 < roundSeconds (T - now) →
  effectBody now s =
    setHasCleanup true (setIntervalRef (Some (next_id s))
      (snd (setInterval T (setRemainingSeconds (Some (roundSeconds (T - now))) s)))).
Proof.
  intros Hr Ht HT Hp. unfold effectBody. rewrite Hr, Ht. unfold truthy_num.
  rewrite bool_decide_true by done. by rewrite updateTimer_continue.
Qed.

Lemma effect_idle now s : timerState s ≠ running → effectBody now s = setHasCleanup false s.
Proof. intros Hr. unfold effectBody. by destruct (timerState s), (targetEndTime s). Qed.

Lemma settle_same old now s : old = deps s → settle old now s = s.
Proof. intros ->. unfold settle. rewrite (timer_commit_same (deps s) now s) by done. by rewrite timer_commit_same. Qed.

Lemma settle_changed old now s :
  deps (commit old now s) = deps s → settle old now s = commit old now s.
Proof. intros Hd. unfold settle. rewrite timer_commit_same; [done|by rewrite Hd]. Qed.

Lemma preset_pos m : m ∈ PRESET_DURATIONS → 0 < m.
Proof. intros Hm. repeat (apply elem_of_cons in Hm as [->|Hm]; [lia|]). by apply elem_of_nil in Hm. Qed.

(** Clearing the only registered interval. *)
Lemma cleanup_running s i T :
  intervals s = [(i, T)] → intervalRef s = Some i → i ≠ 0%nat →
  cleanup s = mkState (durationMinutes s) (remainingSeconds s) (timerState s) (targetEndTime s)
                None [] (next_id s) (hasCleanup s) (sounds s).
Proof.
  intros Hi Hr Hn. unfold cleanup, truthy_id, clearInterval. rewrite Hr, bool_decide_true by done.
  cbn. rewrite Hi. cbn. by rewrite decide_False by naive_solver.
Qed.

(** The three ways a commit after a change of [timerState] or
    [targetEndTime] ends. *)
Lemma settle_start old now s T :
  old ≠ deps s → hasCleanup s = false → timerState s = running → targetEndTime s = Some T →
  T ≠ 0 → 0 < roundSeconds (T - now) →
  settle old now s = setHasCleanup true (setIntervalRef (Some (next_id s))
    (snd (setInterval T (setRemainingSeconds (Some (roundSeconds (T - now))) s)))).
Proof.
  intros Ho Hc Hr Ht HT Hp.
  assert (commit old now s = setHasCleanup true (setIntervalRef (Some (next_id s))
    (snd (setInterval T (setRemainingSeconds (Some (roundSeconds (T - now))) s))))) as Hcm.
  { rewrite timer_commit_changed, Hc by done. by apply effect_start. }
  rewrite settle_changed, Hcm; [done|]. by rewrite Hcm.
Qed.

Lemma settle_stop old now s i T :
  old ≠ deps s → hasCleanup s = true → timerState s ≠ running →
  intervals s = [(i, T)] → intervalRef s = Some i → i ≠ 0%nat →
  settle old now s = mkState (durationMinutes s) (remainingSeconds s) (timerState s) (targetEndTime s)
                       None [] (next_id s) false (sounds s).
Proof.
  intros Ho Hc Hr Hi Href Hn.
  assert (commit old now s = mkState (durationMinutes s) (remainingSeconds s) (timerState s)
            (targetEndTime s) None [] (next_id s) false (sounds s)) as Hcm.
  { rewrite timer_commit_changed, Hc by done. rewrite (cleanup_running s i T) by done.
    by rewrite effect_idle. }
  rewrite settle_changed, Hcm; [done|]. by rewrite Hcm.
Qed.

Lemma settle_idle old now s :
  old ≠ deps s → hasCleanup s = false → timerState s ≠ running →
  settle old now s = setHasCleanup false s.
Proof.
  intros Ho Hc Hr.
  assert (commit old now s = setHasCleanup false s) as Hcm.
  { rewrite timer_commit_changed, Hc by done. by rewrite effect_idle. }
  rewrite settle_changed, Hcm; [done|]. by rewrite Hcm.
Qed.

(** A commit after the interval was already cleared by [updateTimer]. *)
Lemma settle_idle' old now s :
  old ≠ deps s → hasCleanup s = true → intervalRef s = None → timerState s ≠ running →
  settle old now s = setHasCleanup false s.
Proof.
  intros Ho Hc Href Hr.
  assert (commit old now s = setHasCleanup false s) as Hcm.
  { rewrite timer_commit_changed, Hc by done. unfold cleanup. rewrite Href. by rewrite effect_idle. }
  rewrite settle_changed, Hcm; [done|]. by rewrite Hcm.
Qed.

Ltac tinv_intro := let Hn := fresh "Hn" in let Hm := fresh "Hm" in let Hr := fresh "Hr" in
  intros (Hn & Hm & Hr).

Lemma step_select s m s' : tinv s → step s (SelectDuration m) = Some s' → tinv s'.
Proof.
  tinv_intro. unfold step, enabled. destruct (bool_decide _) eqn:Hs; [|done].
  destruct (bool_decide (m ∈ _)) eqn:Hp; [|done]. cbn. intros [= <-].
  apply bool_decide_eq_true in Hs, Hp. unfold handleDurationSelect. rewrite bool_decide_true by done.
  rewrite settle_same by done. unfold tinv. cbn. by rewrite Hs in Hr |- *.
Qed.

Lemma timer_step_start s now s' : tinv s → step s (Start now) = Some s' → tinv s'.
Proof.
  tinv_intro. unfold step, enabled. destruct (bool_decide (timerState s = stopped)) eqn:Hs; [|done].
  destruct (bool_decide (0 < now)) eqn:Hp; [|done]. cbn. intros [= <-].
  apply bool_decide_eq_true in Hs, Hp. rewrite Hs in Hr. destruct Hr as (Hi & Href & Hc).
  pose proof (preset_pos _ Hm) as Hm0.
  assert (roundSeconds (getEndTimeFromDuration now (durationMinutes s) - now) = durationMinutes s * 60) as HT.
  { unfold getEndTimeFromDuration. rewrite <- roundSeconds_ms. f_equal. lia. }
  rewrite (settle_start _ _ _ (getEndTimeFromDuration now (durationMinutes s))); try done.
  - unfold tinv. cbn. rewrite Hi, HT. split_and!; [lia|done| |done|eauto with lia].
    exists (next_id s), (getEndTimeFromDuration now (durationMinutes s)).
    unfold getEndTimeFromDuration. split_and!; [lia|lia|done|done|done].
  - unfold deps. cbn. rewrite Hs. congruence.
  - unfold getEndTimeFromDuration. cbn. lia.
  - cbn. rewrite HT. lia.
Qed.

Lemma step_pause s s' : tinv s → step s Pause = Some s' → tinv s'.
Proof.
  tinv_intro. unfold step, enabled. destruct (bool_decide _) eqn:Hs; [|done]. intros [= <-].
  apply bool_decide_eq_true in Hs. rewrite Hs in Hr. destruct Hr as ((i & T & Hi0 & HT & Hi & Href & Ht) & Hc & _).
  rewrite (settle_stop _ _ _ i T); try done.
  - unfold deps. cbn. rewrite Hs. congruence.
Qed.

Lemma step_resume s now s' : tinv s → step s (Resume now) = Some s' → tinv s'.
Proof.
  tinv_intro. unfold step, enabled. destruct (bool_decide (timerState s = paused)) eqn:Hs; [|done].
  destruct (bool_decide (0 < now)) eqn:Hp; [|done]. cbn. intros [= <-].
  apply bool_decide_eq_true in Hs, Hp. rewrite Hs in Hr. destruct Hr as (Hi & Href & Hc).
  unfold handleResume. cbn. destruct (remainingSeconds s) as [r|] eqn:Hrem;
    [destruct (bool_decide _ && bool_decide _) eqn:Hr|];
    try (rewrite settle_same by (unfold deps; done); unfold tinv; cbn; rewrite Hs; done).
  apply andb_true_iff in Hr as [_ Hr]. apply bool_decide_eq_true in Hr.
  rewrite (settle_start _ _ _ (now + r * 1000)); try done.
  - unfold tinv. cbn. rewrite Hi. replace (now + r * 1000 - now) with (r * 1000) by lia.
    rewrite roundSeconds_ms. split_and!; [lia|done| |done|eauto with lia].
    exists (next_id s), (now + r * 1000). split_and!; [lia|lia|done|done|done].
  - unfold deps. cbn. rewrite Hs. congruence.
  - lia.
  - replace (now + r * 1000 - now) with (r * 1000) by lia. rewrite roundSeconds_ms. lia.
Qed.

Lemma step_cancel s s' : tinv s → step s Cancel = Some s' → tinv s'.
Proof.
  tinv_intro. unfold step, enabled. destruct (bool_decide _) eqn:Hs; [|done]. intros [= <-].
  apply bool_decide_eq_true in Hs. unfold handleCancel.
  destruct (timerState s) eqn:Ht; [done| |].
  - destruct Hr as ((i & T & Hi0 & HT & Hi & Href & Htg) & Hc & _).
    rewrite (settle_stop _ _ _ i T); try done.
    unfold deps. cbn. rewrite Ht. congruence.
  - destruct Hr as (Hi & Href & Hc). rewrite settle_idle; try done.
    unfold deps. cbn. rewrite Ht. congruence.
Qed.

(** The state after the last tick: 0 shown, stopped, the alarm asked
    for, the interval cleared. *)
Definition finished (s : State) : State :=
  mkState (durationMinutes s) (Some 0) stopped (targetEndTime s) None [] (next_id s) false
    (sounds s ++ [("/sounds/alarm.mp3", 50)]).

Lemma step_tick s i now s' :
  tinv s → step s (Tick i now) = Some s' →
  timerState s = running ∧ 0 < now ∧ ∃ T, intervals s = [(i, T)] ∧ targetEndTime s = Some T ∧
  s' = if bool_decide (roundSeconds (T - now) ≤ 0) then finished s
       else setRemainingSeconds (Some (roundSeconds (T - now))) s.
Proof.
  tinv_intro. unfold step, enabled. destruct (bool_decide (i ∈ _)) eqn:Hi; [|done].
  destruct (bool_decide (0 < now)) eqn:Hp; [|done]. cbn.
  apply bool_decide_eq_true in Hi, Hp.
  destruct (timerState s) eqn:Hs;
    [destruct Hr as (Hl & _); rewrite Hl in Hi; by apply elem_of_nil in Hi| |
     destruct Hr as (Hl & _); rewrite Hl in Hi; by apply elem_of_nil in Hi].
  destruct Hr as ((j & T & Hj0 & HT & Hl & Href & Ht) & Hc & _).
  rewrite Hl in Hi |- *. cbn in Hi. apply list_elem_of_singleton in Hi as ->.
  cbn. rewrite decide_True by done. intros [= <-].
  split_and!; [done|done|]. exists T. split_and!; [done|done|].
  destruct (decide (roundSeconds (T - now) ≤ 0)) as [Hle|Hgt].
  - rewrite bool_decide_true by done. rewrite updateTimer_finish by done.
    unfold truthy_id. cbn. rewrite Href, bool_decide_true by done.
    rewrite settle_idle'; [|unfold deps; cbn; rewrite Hs; congruence|done|cbn; done|done].
    unfold finished, clearInterval. cbn. rewrite Hl. cbn. by rewrite decide_False by naive_solver.
  - rewrite bool_decide_false by done. rewrite updateTimer_continue by lia.
    apply settle_same. unfold deps. done.
Qed.

Lemma timer_step_inv s e s' : tinv s → step s e = Some s' → tinv s'.
Proof.
  intros Hi Hs. destruct e as [m|now| |now| |i now].
  - by eapply step_select.
  - by eapply timer_step_start.
  - by eapply step_pause.
  - by eapply step_resume.
  - by eapply step_cancel.
  - destruct (step_tick s i now s' Hi Hs) as (Hr & _ & T & Hl & Ht & ->).
    destruct Hi as (Hn & Hm & Hinv). rewrite Hr in Hinv.
    case_bool_decide as Hle; [done|]. unfold tinv. cbn. rewrite Hr.
    destruct Hinv as (? & ? & _). split_and!; eauto with lia.
Qed.

Lemma reachable_tinv s : reachable s → tinv s.
Proof.
  induction 1; [|by eapply timer_step_inv].
  split_and!; [done|by right; right; right; right; right; left|done..].
Qed.

(** Pause, as [settle_stop] computes it. *)
Lemma step_pause_eq s :
  tinv s → timerState s = running →
  step s Pause = Some (mkState (durationMinutes s) (remainingSeconds s) paused (targetEndTime s)
                         None [] (next_id s) false (sounds s ++ [("/sounds/click.mp3", 30)])).
Proof.
  intros (_ & _ & Hr) Hs. rewrite Hs in Hr. destruct Hr as ((i & T & Hi0 & _ & Hl & Href & _) & Hc & _).
  unfold step, enabled. rewrite Hs, bool_decide_true by done. f_equal.
  rewrite (settle_stop _ _ _ i T); try done. unfold deps. cbn. rewrite Hs. congruence.
Qed.

End TimerFacts.

Module TimerClaims.
Import Timer TimerFacts.
Local Open Scope Z_scope.

(** C27: In every reachable state exactly one interval is registered
    while the timer runs, held by [intervalRef] and counting down to the
    current [targetEndTime], and none is registered, with the ref
    cleared, while it is stopped or paused. *)
Theorem one_interval s :
  reachable s →
  (timerState s = running →
     ∃ i T, intervals s = [(i, T)] ∧ intervalRef s = Some i ∧ targetEndTime s = Some T) ∧
  (timerState s ≠ running → intervals s = [] ∧ intervalRef s = None).
Proof.
  intros (_ & _ & Hr)%reachable_tinv.
  destruct (timerState s); [naive_solver| |naive_solver].
  destruct Hr as ((i & T & _ & _ & ? & ? & ?) & _). split; [eauto 10|done].
Qed.

(** C28: A tick of the running timer stops it, shows 0 and asks for the
    alarm exactly when less than half a second is left ([Math.round]
    rounds 0.5 s up to 1 s and anything less down to 0): the alarm comes
    up to 500 ms before the target time; otherwise the display shows the
    rounded seconds left. *)
Theorem tick_alarm s i T now :
  reachable s → timerState s = running → targetEndTime s = Some T → 0 < now →
  intervalRef s = Some i →
  ∃ s', step s (Tick i now) = Some s' ∧
    (T - now < 500 →
       timerState s' = stopped ∧ remainingSeconds s' = Some 0 ∧ intervals s' = [] ∧
       last (sounds s') = Some ("/sounds/alarm.mp3"%string, 50)) ∧
    (500 ≤ T - now →
       timerState s' = running ∧ remainingSeconds s' = Some ((T - now + 500) / 1000) ∧
       0 < (T - now + 500) / 1000).
Proof.
  intros Hreach Hs Ht Hn Href. pose proof (reachable_tinv s Hreach) as Hi.
  destruct (Hi) as (_ & _ & Hr). rewrite Hs in Hr.
  destruct Hr as ((j & T' & _ & _ & Hl & Href' & Ht') & _).
  rewrite Href in Href'. injection Href' as <-. rewrite Ht in Ht'. injection Ht' as <-.
  destruct (step s (Tick i now)) as [s'|] eqn:Hstep.
  - exists s'. split; [done|].
    destruct (step_tick s i now s' Hi Hstep) as (_ & _ & T' & Hl' & Ht' & ->).
    rewrite Ht in Ht'. injection Ht' as <-.
    destruct (decide (T - now < 500)) as [Hd|Hd].
    + rewrite bool_decide_true by (by apply roundSeconds_le0).
      split; intros; [|lia]. split_and!; [done|done|done|]. unfold finished. cbn. by rewrite last_snoc.
    + rewrite bool_decide_false by (rewrite roundSeconds_le0; lia).
      split; intros; [lia|]. cbn. split_and!; [done|done|].
      assert (1 ≤ (T - now + 500) / 1000) by (apply Z.div_le_lower_bound; lia). lia.
  - unfold step, enabled in Hstep. rewrite Hl in Hstep. cbn in Hstep.
    rewrite bool_decide_true, bool_decide_true in Hstep
      by first [by apply list_elem_of_singleton | lia].
    cbn in Hstep. by rewrite decide_True in Hstep.
Qed.

(** C29: Pause then Resume at [now] restarts the countdown from the
    seconds shown at the last tick: the new target is [now] plus that
    many seconds, so the time between the last tick and Pause (up to a
    second) is given back. *)
Theorem pause_resume s r now :
  reachable s → timerState s = running → remainingSeconds s = Some r → 0 < now →
  ∃ s1 s2, step s Pause = Some s1 ∧ step s1 (Resume now) = Some s2 ∧
    timerState s2 = running ∧ targetEndTime s2 = Some (now + r * 1000) ∧ remainingSeconds s2 = Some r.
Proof.
  intros Hreach Hs Hrem Hn. pose proof (reachable_tinv s Hreach) as Hi.
  destruct (Hi) as (_ & _ & Hr). rewrite Hs in Hr. destruct Hr as (_ & _ & r' & Hr' & Hpos).
  rewrite Hrem in Hr'. injection Hr' as <-.
  eexists _, _. split; [by apply step_pause_eq|].
  unfold step at 1, enabled. cbn. rewrite !bool_decide_true by done. split; [reflexivity|].
  unfold handleResume. cbn. rewrite Hrem. unfold truthy_num. rewrite !bool_decide_true by lia. cbn.
  rewrite (settle_start _ _ _ (now + r * 1000)); cbn; try done; try lia.
  - replace (now + r * 1000 - now) with (r * 1000) by lia. by rewrite roundSeconds_ms.
  - replace (now + r * 1000 - now) with (r * 1000) by lia. rewrite roundSeconds_ms. lia.
Qed.

End TimerClaims.

(** Concrete runs on which the claims' hypotheses hold. *)
Module TimerWitness.
Import Timer TimerFacts TimerClaims.
Local Open Scope Z_scope.

(** The default hour started at 1 s. *)
Definition started : State :=
  Eval vm_compute in from_option (λ x, x) initial (step initial (Start 1000)).

Lemma started_reachable : reachable started.
Proof. apply (reach_step initial (Start 1000)); [constructor|reflexivity]. Qed.

Lemma one_interval_witness :
  reachable started ∧ timerState started = running ∧ intervals started = [(1%nat, 3601000)].
Proof.
  split; [apply started_reachable|split; [reflexivity|]].
  destruct (proj1 (one_interval started started_reachable) eq_refl) as (i & T & Hl & _).
  rewrite Hl. vm_compute in Hl. by injection Hl as <- <-.
Defined.

(** 400 ms before the end the alarm is already asked for. *)
Lemma tick_alarm_witness :
  ∃ s', step started (Tick 1 3600600) = Some s' ∧
    (3601000 - 3600600 < 500 →
       timerState s' = stopped ∧ remainingSeconds s' = Some 0 ∧ intervals s' = [] ∧
       last (sounds s') = Some ("/sounds/alarm.mp3"%string, 50)) ∧
    (500 ≤ 3601000 - 3600600 →
       timerState s' = running ∧ remainingSeconds s' = Some ((3601000 - 3600600 + 500) / 1000) ∧
       0 < (3601000 - 3600600 + 500) / 1000).
Proof.
  apply (tick_alarm started 1 3601000 3600600 started_reachable); [reflexivity|reflexivity|lia|reflexivity].
Defined.

Lemma pause_resume_witness :
  ∃ s1 s2, step started Pause = Some s1 ∧ step s1 (Resume 5000) = Some s2 ∧
    timerState s2 = running ∧ targetEndTime s2 = Some (5000 + 3600 * 1000) ∧
    remainingSeconds s2 = Some 3600.
Proof.
  apply (pause_resume started 3600 5000 started_reachable); [reflexivity|reflexivity|lia].
Defined.

End TimerWitness.
