(* ===== verification/Alarm.v ===== *)
(** * The clock app's alarms

    [AlarmTab] and its [AddAlarmModal]
    (src/src/apps/ClockApp/AlarmTab.tsx).  [AlarmModal] is the modal: its
    three [useState] fields, the reset effect on [isOpen], and
    [handleSubmit] with the regular expression
    [/^(0?[1-9]|1[0-2]):([0-5][0-9])\s?(AM|PM)$/i] (a test of membership
    in its language, every alternative tried), [split(/\s+/)],
    [split(':').map(Number)] and the date arithmetic of the two-hour
    check.  [handleSubmit] can throw: when the time has no space before
    AM/PM, [split] yields one part and [ampm.toUpperCase()] is a
    [TypeError].  [AlarmPage] is the tab: the alarm list with its
    [localStorage] entry ['webdroid-alarms'] (the stored value is the list
    itself: [JSON.stringify] and [JSON.parse] are inverse on alarms), the
    three handlers and the modal, composed in [step].

    The local clock is [tod], the milliseconds since local midnight
    ([new Date()]); [setHours] and [setDate(+1)] are taken in a day of
    24 hours (no daylight-saving change).  Strings are 8-bit; [\s] is the
    ASCII white space and the no-break space 0xA0.  [playSound] calls are
    recorded with their path and their volume in hundredths. *)

From S2P Require Import Prelude.
From stdpp Require Import base decidable list strings pretty.
From Stdlib Require Import ZArith Ascii.

Module AlarmModal.
Local Open Scope Z_scope.

(** [\s] on the characters of the model. *)
Definition is_space (a : ascii) : bool :=
  bool_decide (nat_of_ascii a ∈ [32; 9; 10; 11; 12; 13; 160]%nat).

Definition digit_in (lo hi : nat) (a : ascii) : bool :=
  bool_decide (48 + lo ≤ nat_of_ascii a ≤ 48 + hi)%nat.

(** A letter matched case-insensitively (the [i] flag). *)
Definition letter_ci (up : ascii) (a : ascii) : bool :=
  bool_decide (a = up ∨ nat_of_ascii a = (nat_of_ascii up + 32)%nat).

(** The inputs left after [(0?[1-9]|1[0-2])], one per way it can match. *)
Definition hour_rests (cs : list ascii) : list (list ascii) :=
  (match cs with a :: r => if digit_in 1 9 a then [r] else [] | [] => [] end) ++
  (match cs with a :: b :: r => if bool_decide (a = "0"%char) && digit_in 1 9 b then [r] else [] | _ => [] end) ++
  (match cs with a :: b :: r => if bool_decide (a = "1"%char) && digit_in 0 2 b then [r] else [] | _ => [] end).

(** [(AM|PM)$], case-insensitively. *)
Definition ampm_end (cs : list ascii) : bool :=
  match cs with
  | [a; m] => (letter_ci "A" a || letter_ci "P" a) && letter_ci "M" m
  | _ => false
  end.

(** [:([0-5][0-9])\s?(AM|PM)$] *)
Definition minutes_rest (cs : list ascii) : bool :=
  match cs with
  | c :: d1 :: d2 :: r =>
      bool_decide (c = ":"%char) && digit_in 0 5 d1 && digit_in 0 9 d2 &&
      (ampm_end r || match r with w :: r' => is_space w && ampm_end r' | [] => false end)
  | _ => false
  end.

(** [timeRegex.test(time)] (AlarmTab.tsx:45-46). *)
Definition timeRe_test (t : string) : bool :=
  existsb minutes_rest (hour_rests (String.list_ascii_of_string t)).

(** [s.split(/\s+/)]: the pieces between runs of white space. *)
Fixpoint split_ws_go (cs : list ascii) (cur : list ascii) (in_ws : bool) : list (list ascii) :=
  match cs with
  | [] => [cur]
  | a :: r =>
      if is_space a then
        if in_ws then split_ws_go r cur true else cur :: split_ws_go r [] true
      else split_ws_go r (cur ++ [a]) false
  end.

Definition split_ws (t : string) : list string :=
  String.string_of_list_ascii <$> split_ws_go (String.list_ascii_of_string t) [] false.

(** [s.split(':')] *)
Fixpoint split_colon_go (cs : list ascii) (cur : list ascii) : list (list ascii) :=
  match cs with
  | [] => [cur]
  | a :: r => if bool_decide (a = ":"%char) then cur :: split_colon_go r [] else split_colon_go r (cur ++ [a])
  end.

Definition split_colon (t : string) : list string :=
  String.string_of_list_ascii <$> split_colon_go (String.list_ascii_of_string t) [].

(** [Number(s)] of a string of decimal digits; [None] is [NaN] (the
    parts reaching it passed the regular expression). *)
Definition Number (s : string) : option Z :=
  let cs := String.list_ascii_of_string s in
  if bool_decide (cs ≠ []) && forallb (digit_in 0 9) cs
  then Some (foldl (λ acc a, acc * 10 + (Z.of_nat (nat_of_ascii a) - 48)) 0 cs)
  else None.

(** [s.toUpperCase()] on ASCII letters. *)
Definition toUpperCase (s : string) : string :=
  String.string_of_list_ascii
    ((λ a, if bool_decide (97 ≤ nat_of_ascii a ≤ 122)%nat then ascii_of_nat (nat_of_ascii a - 32) else a)
       <$> String.list_ascii_of_string s).

(** The modal's [useState] values (AlarmTab.tsx:20-22). *)
Record Form := mkForm { time : string; label : string; error : string }.

Definition emptyForm : Form := mkForm "" "" "".

Definition setError (e : string) (f : Form) : Form := mkForm (time f) (label f) e.

(** The reset effect (AlarmTab.tsx:26-32). *)
Definition resetEffect (oldIsOpen isOpen : bool) (f : Form) : Form :=
  if bool_decide (oldIsOpen ≠ isOpen) then (if isOpen then emptyForm else f) else f.

(** What [handleSubmit] ends with: an error shown (and the sounds it
    played), the [onSave(time, label)] and [onClose()] calls, or an
    exception thrown out of the handler. *)
Inductive Submit :=
  | Rejected (msg : string) (sounds : list (string * Z))
  | Saved (time label : string)
  | Thrown (msg : string).

Definition ms_per_hour : Z := 60 * 60 * 1000.
Definition ms_per_day : Z := 24 * ms_per_hour.

(** [handleSubmit] (AlarmTab.tsx:35-84) after its click sound, at the
    local time [tod]. *)
Definition handleSubmit (tod : Z) (f : Form) : Submit :=
  if bool_decide (time f = "") then Rejected "Please enter a valid time" []
  else if negb (timeRe_test (time f)) then Rejected "Please enter time in format: HH:MM AM/PM" []
  else
    match split_ws (time f) with
    | timePart :: rest =>
        match head rest with
        | None => Thrown "TypeError: Cannot read properties of undefined (reading 'toUpperCase')"
        | Some ampm =>
            match Number <$> split_colon timePart with
            | Some hours :: Some minutes :: _ =>
                let alarmHours :=
                  if bool_decide (toUpperCase ampm = "PM") && bool_decide (hours < 12) then hours + 12
                  else if bool_decide (toUpperCase ampm = "AM") && bool_decide (hours = 12) then 0
                  else hours in
                let alarmTime := alarmHours * ms_per_hour + minutes * 60000 in
                let alarmTime := if bool_decide (alarmTime < tod) then alarmTime + ms_per_day else alarmTime in
                if bool_decide (alarmTime < tod + 2 * ms_per_hour)
                then Rejected "Alarm must be set at least 2 hours in the future" [("/sounds/error.mp3", 30)]
                else Saved (time f) (if bool_decide (label f = "") then "Alarm" else label f)
            | _ => Thrown "NaN time"   (* not reached: the expression admits two numbers *)
            end
        end
    | [] => Thrown "split returned no part"   (* not reached: split returns a part *)
    end.

End AlarmModal.

Module AlarmPage.
Import AlarmModal.
Local Open Scope Z_scope.

(** [interface Alarm] (AlarmTab.tsx:5-10). *)
Record Alarm := mkAlarm { id : string; alarm_time : string; alarm_label : string; enabled : bool }.

#[export] Instance Alarm_eq_dec : EqDecision Alarm.
Proof. solve_decision. Defined.

(** The storage entry ['webdroid-alarms']: absent, the list last
    written, or a value [JSON.parse] rejects. *)
Inductive Stored := NoEntry | StoredList (l : list Alarm) | Corrupt.

(** The tab's state (AlarmTab.tsx:147-158), its modal, the storage entry,
    the sounds requested and the exceptions thrown out of handlers.
    [alarmsGen] counts the arrays [setAlarms] installed: every call
    makes a new array, which the effect on [[alarms]] sees as a change. *)
Record State := mkState {
  alarms : list Alarm;
  alarmsGen : nat;
  showAddAlarmModal : bool;
  form : Form;
  stored : Stored;
  sounds : list (string * Z);
  thrown : list string
}.

Definition setAlarms (l : list Alarm) (s : State) : State :=
  mkState l (S (alarmsGen s)) (showAddAlarmModal s) (form s) (stored s) (sounds s) (thrown s).
Definition setShowAddAlarmModal (b : bool) (s : State) : State :=
  mkState (alarms s) (alarmsGen s) b (form s) (stored s) (sounds s) (thrown s).
Definition setForm (f : Form) (s : State) : State :=
  mkState (alarms s) (alarmsGen s) (showAddAlarmModal s) f (stored s) (sounds s) (thrown s).
Definition playSound (path : string) (volume : Z) (s : State) : State :=
  mkState (alarms s) (alarmsGen s) (showAddAlarmModal s) (form s) (stored s) (sounds s ++ [(path, volume)]) (thrown s).
Definition throw (msg : string) (s : State) : State :=
  mkState (alarms s) (alarmsGen s) (showAddAlarmModal s) (form s) (stored s) (sounds s) (thrown s ++ [msg]).

(** The initializer of [alarms] (AlarmTab.tsx:147-156). *)
Definition loadAlarms (st : Stored) : list Alarm :=
  match st with StoredList l => l | NoEntry | Corrupt => [] end.

(** The persistence effect (AlarmTab.tsx:162-168). *)
Definition saveEffect (s : State) : State :=
  mkState (alarms s) (alarmsGen s) (showAddAlarmModal s) (form s) (StoredList (alarms s)) (sounds s) (thrown s).

(** [handleToggleAlarm] (AlarmTab.tsx:171-178). *)
Definition handleToggleAlarm (i : string) (s : State) : State :=
  let s := playSound "/sounds/click.mp3" 30 s in
  setAlarms ((λ a, if bool_decide (id a = i)
                   then mkAlarm (id a) (alarm_time a) (alarm_label a) (negb (enabled a)) else a) <$> alarms s) s.

(** [alarm-${Date.now()}] *)
Definition new_alarm_id (now : Z) : string := "alarm-" +:+ pretty now.

(** [handleAddAlarm] (AlarmTab.tsx:181-191). *)
Definition handleAddAlarm (now : Z) (t l : string) (s : State) : State :=
  let s := playSound "/sounds/confirm.mp3" 40 s in
  setAlarms (alarms s ++ [mkAlarm (new_alarm_id now) t l true]) s.

(** [handleDeleteAlarm] (AlarmTab.tsx:194-201); [confirm] is the answer
    of [window.confirm]. *)
Definition handleDeleteAlarm (i : string) (confirm : bool) (s : State) : State :=
  let s := playSound "/sounds/click.mp3" 30 s in
  if confirm then playSound "/sounds/error.mp3" 30 (setAlarms (filter (λ a, id a ≠ i) (alarms s)) s)
  else s.

(** The modal's Save (AlarmTab.tsx:35-84 with [onSave] = [handleAddAlarm]
    and [onClose] (line 277)). *)
Definition save (now tod : Z) (s : State) : State :=
  let s := playSound "/sounds/click.mp3" 30 s in
  let f := form s in
  match handleSubmit tod f with
  | Rejected msg snd => foldl (λ s p, playSound p.1 p.2 s) (setForm (setError msg f) s) snd
  | Saved t l => setShowAddAlarmModal false (handleAddAlarm now t l s)
  | Thrown msg => throw msg s
  end.

Inductive Field := TimeField | LabelField.

(** The controls: the page's while the modal is closed (its overlay
    covers the page), the modal's while it is open. *)
Inductive Event :=
  | AddClick
  | Toggle (i : string)
  | Delete (i : string) (confirm : bool)
  | Input (fld : Field) (value : string)
  | Save (now tod : Z)
  | CloseModal.

Definition enabled_ev (s : State) (e : Event) : bool :=
  match e with
  | AddClick => negb (showAddAlarmModal s)
  | Toggle i | Delete i _ => negb (showAddAlarmModal s) && bool_decide (i ∈ id <$> alarms s)
  | Input _ _ | Save _ _ | CloseModal => showAddAlarmModal s
  end.

Definition handle (s : State) (e : Event) : State :=
  match e with
  | AddClick => setShowAddAlarmModal true s
  | Toggle i => handleToggleAlarm i s
  | Delete i c => handleDeleteAlarm i c s
  | Input TimeField v => setForm (mkForm v (label (form s)) (error (form s))) s
  | Input LabelField v => setForm (mkForm (time (form s)) v (error (form s))) s
  | Save now tod => save now tod s
  | CloseModal => setShowAddAlarmModal false s
  end.

(** After the handler, the commit: the persistence effect when [alarms]
    is a new array and the modal's reset effect when [isOpen] changed. *)
Definition step (s : State) (e : Event) : option State :=
  if enabled_ev s e then
    let s' := handle s e in
    let s' := if bool_decide (alarmsGen s' = alarmsGen s) then s' else saveEffect s' in
    Some (setForm (resetEffect (showAddAlarmModal s) (showAddAlarmModal s') (form s')) s')
  else None.

(** The mount: the initializer reads the storage and the persistence
    effect writes the list back. *)
Definition mount (st : Stored) : State :=
  saveEffect (mkState (loadAlarms st) 0 false emptyForm st [] []).

Inductive reachable (st : Stored) : State → Prop :=
  | reach_mount : reachable st (mount st)
  | reach_step s e s' : reachable st s → step s e = Some s' → reachable st s'.

End AlarmPage.

Module AlarmFacts.
Import AlarmModal AlarmPage.
Local Open Scope Z_scope.

(** ** Parsing the time *)

Lemma split_ws_go_nospace cs cur b :
  Forall (λ a, is_space a = false) cs → split_ws_go cs cur b = [cur ++ cs].
Proof.
  revert cur b. induction cs as [|a cs IH]; intros cur b Hs; cbn; [by rewrite app_nil_r|].
  apply Forall_cons in Hs as [-> Hs]. rewrite IH by done. by rewrite <- app_assoc.
Qed.

Lemma split_ws_nospace t :
  Forall (λ a, is_space a = false) (String.list_ascii_of_string t) → split_ws t = [t].
Proof.
  intros Hs. unfold split_ws. rewrite split_ws_go_nospace by done. cbn.
  by rewrite String.string_of_list_ascii_of_string.
Qed.

Lemma timeRe_nonempty t : timeRe_test t = true → t ≠ "".
Proof. by intros H ->. Qed.

(** A time the regular expression accepts but with no space before
    AM/PM splits into one part: [ampm] is [undefined]. *)
Lemma handleSubmit_nospace tod t l e :
  timeRe_test t = true → Forall (λ a, is_space a = false) (String.list_ascii_of_string t) →
  handleSubmit tod (mkForm t l e) =
    Thrown "TypeError: Cannot read properties of undefined (reading 'toUpperCase')".
Proof.
  intros Hre Hs. unfold handleSubmit. cbn [time label].
  rewrite bool_decide_false by (by apply timeRe_nonempty). rewrite Hre. cbn [negb].
  by rewrite split_ws_nospace.
Qed.

(** With the two parts and the two numbers, [handleSubmit] is the date
    arithmetic. *)
Lemma handleSubmit_parts tod t l e tp ap hours minutes :
  timeRe_test t = true → split_ws t = [tp; ap] →
  Number <$> split_colon tp = [Some hours; Some minutes] →
  handleSubmit tod (mkForm t l e) =
    (let alarmHours :=
       if bool_decide (toUpperCase ap = "PM") && bool_decide (hours < 12) then hours + 12
       else if bool_decide (toUpperCase ap = "AM") && bool_decide (hours = 12) then 0
       else hours in
     let alarmTime := alarmHours * ms_per_hour + minutes * 60000 in
     let alarmTime := if bool_decide (alarmTime < tod) then alarmTime + ms_per_day else alarmTime in
     if bool_decide (alarmTime < tod + 2 * ms_per_hour)
     then Rejected "Alarm must be set at least 2 hours in the future" [("/sounds/error.mp3", 30)]
     else Saved t (if bool_decide (l = "") then "Alarm" else l)).
Proof.
  intros Hre Hsp Hn. unfold handleSubmit. cbn [time label].
  rewrite bool_decide_false by (by apply timeRe_nonempty). rewrite Hre, Hsp. cbn [negb head].
  by rewrite Hn.
Qed.

(** ** The well-formed times *)

(** ["H:MM AM"] and ["H:MM PM"], the times the placeholder suggests. *)
Definition two_digits (m : Z) : string := if bool_decide (m < 10) then "0" +:+ pretty m else pretty m.
Definition clock_part (h m : Z) : string := pretty h +:+ ":" +:+ two_digits m.
Definition ampm_of (pm : bool) : string := if pm then "PM" else "AM".
Definition fmt (h m : Z) (pm : bool) : string := clock_part h m +:+ " " +:+ ampm_of pm.

(** The 24-hour clock and the next occurrence of [H:M] after [tod]. *)
Definition hour24 (h : Z) (pm : bool) : Z := Z.rem h 12 + (if pm then 12 else 0).
Definition next_occurrence (tod H m : Z) : Z :=
  let a := H * ms_per_hour + m * 60000 in if bool_decide (a < tod) then a + ms_per_day else a.

Definition zseq (lo n : nat) : list Z := (λ k, Z.of_nat k) <$> seq lo n.

Lemma elem_of_zseq lo n z : (Z.of_nat lo ≤ z < Z.of_nat lo + Z.of_nat n) → z ∈ zseq lo n.
Proof.
  intros Hz. apply list_elem_of_fmap. exists (Z.to_nat z). split; [lia|].
  apply elem_of_seq. lia.
Qed.

Definition canonical_ok (h m : Z) (pm : bool) : bool :=
  timeRe_test (fmt h m pm) &&
  bool_decide (split_ws (fmt h m pm) = [clock_part h m; ampm_of pm]) &&
  bool_decide (Number <$> split_colon (clock_part h m) = [Some h; Some m]).

(** Every ["H:MM AM/PM"] passes the regular expression and parses to its
    hour and minutes (checked on all 1440 of them). *)
Lemma canonical_all :
  forallb (λ h, forallb (λ m, canonical_ok h m true && canonical_ok h m false) (zseq 0 60)) (zseq 1 12) = true.
Proof. vm_compute. reflexivity. Qed.

Lemma canonical h m pm : 1 ≤ h ≤ 12 → 0 ≤ m < 60 →
  timeRe_test (fmt h m pm) = true ∧ split_ws (fmt h m pm) = [clock_part h m; ampm_of pm] ∧
  Number <$> split_colon (clock_part h m) = [Some h; Some m].
Proof.
  intros Hh Hm. pose proof canonical_all as Hall.
  rewrite forallb_forall in Hall. specialize (Hall h (proj1 (list_elem_of_In _ _) (elem_of_zseq 1 12 h ltac:(lia)))).
  rewrite forallb_forall in Hall. specialize (Hall m (proj1 (list_elem_of_In _ _) (elem_of_zseq 0 60 m ltac:(lia)))).
  apply andb_true_iff in Hall as [Ht Hf].
  assert (canonical_ok h m pm = true) as Hc by (destruct pm; done).
  unfold canonical_ok in Hc. apply andb_true_iff in Hc as [Hc H3]. apply andb_true_iff in Hc as [H1 H2].
  apply bool_decide_eq_true in H2, H3. done.
Qed.

(** C30: Save with a well-formed time ["H:MM AM"] or ["H:MM PM"] adds the
    alarm, with its label or "Alarm", exactly when the next occurrence
    of that time of day is at least two hours after now, and otherwise
    shows the two-hour error with the error sound. *)
Theorem save_accepts h m pm tod l e :
  1 ≤ h ≤ 12 → 0 ≤ m < 60 →
  handleSubmit tod (mkForm (fmt h m pm) l e) =
    if bool_decide (next_occurrence tod (hour24 h pm) m < tod + 2 * ms_per_hour)
    then Rejected "Alarm must be set at least 2 hours in the future" [("/sounds/error.mp3", 30)]
    else Saved (fmt h m pm) (if bool_decide (l = "") then "Alarm" else l).
Proof.
  intros Hh Hm. destruct (canonical h m pm Hh Hm) as (Hre & Hsp & Hn).
  rewrite (handleSubmit_parts _ _ _ _ _ _ _ _ Hre Hsp Hn). cbn zeta.
  assert ((if bool_decide (toUpperCase (ampm_of pm) = "PM") && bool_decide (h < 12) then h + 12
           else if bool_decide (toUpperCase (ampm_of pm) = "AM") && bool_decide (h = 12) then 0
           else h) = hour24 h pm) as ->.
  { assert (toUpperCase (ampm_of pm) = ampm_of pm) as -> by (destruct pm; reflexivity).
    unfold hour24. destruct pm; cbn [ampm_of].
    - rewrite (bool_decide_true ("PM" = "PM")) by done.
      destruct (decide (h = 12)) as [->|Hne]; [by rewrite bool_decide_false by lia|].
      rewrite bool_decide_true, Z.rem_small by lia. cbn. lia.
    - rewrite (bool_decide_false ("AM" = "PM")), (bool_decide_true ("AM" = "AM")) by done. cbn.
      destruct (decide (h = 12)) as [->|Hne]; [by rewrite bool_decide_true|].
      rewrite bool_decide_false, Z.rem_small by lia. lia. }
  done.
Qed.

(** ** The tab *)

(** The sounds the tab's code asks for. *)
Definition page_sounds : list string := ["/sounds/click.mp3"; "/sounds/confirm.mp3"; "/sounds/error.mp3"].
Definition sound_ok (p : string * Z) : Prop := p.1 ∈ page_sounds.

Lemma handleSubmit_sounds tod f msg snd :
  handleSubmit tod f = Rejected msg snd → Forall sound_ok snd.
Proof.
  unfold handleSubmit. intros Hr.
  repeat (case_bool_decide || case_match); simplify_eq; repeat constructor.
Qed.

Lemma foldl_play s0 l :
  foldl (λ s p, playSound p.1 p.2 s) s0 l =
  mkState (alarms s0) (alarmsGen s0) (showAddAlarmModal s0) (form s0) (stored s0) (sounds s0 ++ l) (thrown s0).
Proof.
  revert s0. induction l as [|p l IH]; intros s0; cbn; [destruct s0; cbn; by rewrite app_nil_r|].
  rewrite IH. destruct p. cbn. by rewrite <- app_assoc.
Qed.

(** A handler leaves the storage to the effect, changes [alarms] only
    through [setAlarms], and asks only for the tab's sounds. *)
Lemma handle_fields s e :
  stored (handle s e) = stored s ∧
  (alarmsGen (handle s e) = alarmsGen s → alarms (handle s e) = alarms s) ∧
  ∃ l, sounds (handle s e) = sounds s ++ l ∧ Forall sound_ok l.
Proof.
  destruct e as [| i | i [] | [] v | now tod |]; cbn;
    try (split_and!; [done|done|exists []; by rewrite app_nil_r]).
  - split_and!; [done|lia|]. eexists; split; [done|repeat constructor].
  - split_and!; [done|lia|]. eexists; split; [by rewrite <- app_assoc|repeat constructor].
  - split_and!; [done|done|]. eexists; split; [done|repeat constructor].
  - unfold save. destruct (handleSubmit tod (form (playSound "/sounds/click.mp3" 30 s))) eqn:Hs.
    + rewrite foldl_play. cbn. split_and!; [done|done|].
      eexists; split; [by rewrite <- app_assoc|]. constructor; [repeat constructor|].
      by eapply handleSubmit_sounds.
    + cbn. split_and!; [done|lia|]. eexists; split; [by rewrite <- app_assoc|repeat constructor].
    + cbn. split_and!; [done|done|]. eexists; split; [done|repeat constructor].
Qed.

(** The storage holds the list, and only the tab's sounds were asked for. *)
Definition alarm_inv (s : State) : Prop :=
  stored s = StoredList (alarms s) ∧ Forall sound_ok (sounds s).

Lemma alarm_step_inv s e s' : alarm_inv s → step s e = Some s' → alarm_inv s'.
Proof.
  intros [Hst Hsnd] Hs. unfold step in Hs. destruct (enabled_ev s e); [|done].
  injection Hs as <-. destruct (handle_fields s e) as (Hst' & Hal & l & Hl & Hok).
  case_bool_decide as Hg; unfold setForm, saveEffect; cbn [stored alarms sounds]; split.
  - rewrite Hst', Hal by done. done.
  - rewrite Hl. by apply Forall_app.
  - done.
  - rewrite Hl. by apply Forall_app.
Qed.

Lemma reachable_alarm_inv st s : reachable st s → alarm_inv s.
Proof. induction 1; [done|by eapply alarm_step_inv]. Qed.

End AlarmFacts.

Module AlarmClaims.
Import AlarmModal AlarmPage AlarmFacts.
Local Open Scope Z_scope.

(** C31: Save with a time the regular expression accepts but with no
    space before AM/PM ("7:30PM") throws a [TypeError] out of the
    handler: no alarm is added, no error is shown and the modal stays
    open. *)
Theorem save_without_space_throws s now tod :
  showAddAlarmModal s = true → timeRe_test (time (form s)) = true →
  Forall (λ a, is_space a = false) (String.list_ascii_of_string (time (form s))) →
  ∃ s', step s (Save now tod) = Some s' ∧ alarms s' = alarms s ∧ showAddAlarmModal s' = true ∧
        error (form s') = error (form s) ∧
        thrown s' = thrown s ++ ["TypeError: Cannot read properties of undefined (reading 'toUpperCase')"].
Proof.
  intros Ho Hre Hs. destruct s as [al g sh [t l e] st snd th]; cbn in *. subst sh.
  unfold step, enabled_ev. cbn. eexists. split; [reflexivity|].
  unfold save. cbn. rewrite handleSubmit_nospace by done. cbn.
  rewrite bool_decide_true by done. cbn. unfold resetEffect.
  case_bool_decide; [congruence|]. done.
Qed.

(** C32: In every reachable state of the alarm tab the storage entry
    holds the alarm list, so a reload restores it, and the only sounds
    ever asked for are the click, confirm and error sounds: nothing in
    the app rings an alarm when its time comes. *)
Theorem alarm_tab_inv st s :
  reachable st s →
  stored s = StoredList (alarms s) ∧ loadAlarms (stored s) = alarms s ∧
  Forall (λ p, p.1 ∈ page_sounds) (sounds s).
Proof.
  intros [Hst Hsnd]%reachable_alarm_inv. rewrite Hst. by split_and!.
Qed.

End AlarmClaims.

(** Concrete runs on which the claims' hypotheses hold. *)
Module AlarmWitness.
Import AlarmModal AlarmPage AlarmFacts AlarmClaims.
Local Open Scope Z_scope.

(** The modal opened on an empty tab, "7:30PM" typed. *)
Definition typed : State :=
  Eval vm_compute in
    from_option (λ x, x) (mount NoEntry)
      (step (mount NoEntry) AddClick ≫= λ s, step s (Input TimeField "7:30PM")).

Lemma save_without_space_throws_witness :
  ∃ s', step typed (Save 1700000000000 (8 * ms_per_hour)) = Some s' ∧ alarms s' = alarms typed ∧
        showAddAlarmModal s' = true ∧ error (form s') = error (form typed) ∧
        thrown s' = thrown typed ++ ["TypeError: Cannot read properties of undefined (reading 'toUpperCase')"].
Proof.
  apply save_without_space_throws; [reflexivity|reflexivity|].
  vm_compute. repeat constructor.
Defined.

(** At 8:00, 7:30 PM is eleven and a half hours away and 9:30 AM only
    one and a half. *)
Lemma save_accepts_witness :
  handleSubmit (8 * ms_per_hour) (mkForm (fmt 7 30 true) "" "") = Saved "7:30 PM" "Alarm" ∧
  handleSubmit (8 * ms_per_hour) (mkForm (fmt 9 30 false) "" "") =
    Rejected "Alarm must be set at least 2 hours in the future" [("/sounds/error.mp3", 30)].
Proof.
  split.
  - rewrite (save_accepts 7 30 true) by lia. reflexivity.
  - rewrite (save_accepts 9 30 false) by lia. reflexivity.
Defined.

Lemma typed_reachable : reachable NoEntry typed.
Proof.
  apply (reach_step _ (setForm (resetEffect false true (form (mount NoEntry)))
                         (setShowAddAlarmModal true (mount NoEntry))) (Input TimeField "7:30PM")).
  - apply (reach_step _ (mount NoEntry) AddClick); [constructor|reflexivity].
  - reflexivity.
Qed.

Lemma alarm_tab_inv_witness :
  reachable NoEntry typed ∧ stored typed = StoredList [] ∧
  (stored typed = StoredList (alarms typed) ∧ loadAlarms (stored typed) = alarms typed ∧
   Forall (λ p, p.1 ∈ page_sounds) (sounds typed)).
Proof.
  split; [apply typed_reachable|split; [reflexivity|]].
  apply (alarm_tab_inv NoEntry typed typed_reachable).
Defined.

End AlarmWitness.
